(** * Chatbot analyzer: transcript parsing and rule-based metrics

    A shallow embedding of the transcript parsers ([src/utils/helpers.js]),
    the session normalizer ([src/services/parser/transcriptParser.js]) and
    the rule-based metrics engine ([src/services/analyzer/analysisEngine.js]),
    followed by the properties of the specification stated over them.

    Part I holds the definitions, one module per source file, preceded by the
    pieces of the JavaScript runtime the code relies on (strings, regular
    expressions, [JSON.parse], ordinary objects used as tables, [Date]).
    Part II holds the lemmas and theorems of the specification, Part III
    further properties of the code. *)

From Stdlib Require Import String Ascii.
From Stdlib Require Import List NArith ZArith Bool Arith Lia Sorted Permutation.
Import ListNotations.

Set Implicit Arguments.
Set Warnings "-register-all".

(* ################################################################# *)
(** * Part I: definitions *)

(* ================================================================= *)
(** ** JavaScript strings *)

(** A JavaScript string is a sequence of 16-bit code units.  Literals of the
    source are written [js "..."].  Case mapping follows the Unicode tables
    for the Basic Latin and Latin-1 blocks and leaves other code units
    unchanged: on the strings of these two blocks ([latin1]) it is the case
    mapping of the language, and the properties of code that lower-cases
    text of the input are stated for such strings. *)
Module JsString.
Local Open Scope N_scope.

Definition jschar := N.
Definition jsstring := list jschar.

Definition ch (a : ascii) : jschar := N_of_ascii a.
Definition js (s : string) : jsstring := map ch (list_ascii_of_string s).

Fixpoint eqb (a b : jsstring) : bool :=
  match a, b with
  | [], [] => true
  | x :: a', y :: b' => N.eqb x y && eqb a' b'
  | _, _ => false
  end.

Definition inRange (lo hi c : jschar) : bool := N.leb lo c && N.leb c hi.

(** WhiteSpace and LineTerminator code points: what [trim] strips and what
    [\s] matches. *)
Definition isWhiteSpace (c : jschar) : bool :=
  inRange 9 13 c || N.eqb c 32 || N.eqb c 160 || N.eqb c 5760
  || inRange 8192 8202 c || N.eqb c 8232 || N.eqb c 8233 || N.eqb c 8239
  || N.eqb c 8287 || N.eqb c 12288 || N.eqb c 65279.

(** Line terminators: what [.] refuses. *)
Definition isLineTerminator (c : jschar) : bool :=
  N.eqb c 10 || N.eqb c 13 || N.eqb c 8232 || N.eqb c 8233.

Definition isDigit (c : jschar) : bool := inRange 48 57 c.
Definition isUpper (c : jschar) : bool := inRange 65 90 c.
Definition isLower (c : jschar) : bool := inRange 97 122 c.
Definition isWordChar (c : jschar) : bool :=
  isUpper c || isLower c || isDigit c || N.eqb c 95.

Fixpoint dropWhile (p : jschar -> bool) (s : jsstring) : jsstring :=
  match s with
  | [] => []
  | c :: tl => if p c then dropWhile p tl else s
  end.

Definition trimStart (s : jsstring) : jsstring := dropWhile isWhiteSpace s.
Definition trimEnd (s : jsstring) : jsstring := rev (dropWhile isWhiteSpace (rev s)).
Definition trim (s : jsstring) : jsstring := trimEnd (trimStart s).

Definition lowerChar (c : jschar) : jschar :=
  if isUpper c then (c + 32)%N
  else if inRange 192 222 c && negb (N.eqb c 215) then (c + 32)%N
  else c.

Definition toLowerCase (s : jsstring) : jsstring := map lowerChar s.

Definition upperChar (c : jschar) : jsstring :=
  if isLower c then [(c - 32)%N]
  else if N.eqb c 223 then [83; 83]
  else if N.eqb c 255 then [376]
  else if N.eqb c 181 then [924]
  else if inRange 224 254 c && negb (N.eqb c 247) then [(c - 32)%N]
  else [c].

Definition toUpperCase (s : jsstring) : jsstring := flat_map upperChar s.

(** [s.split(sep)] for a one-character separator. *)
Fixpoint split (sep : jschar) (s : jsstring) : list jsstring :=
  match s with
  | [] => [[]]
  | c :: tl =>
      if N.eqb c sep then [] :: split sep tl
      else match split sep tl with
           | w :: ws => (c :: w) :: ws
           | [] => [[c]]
           end
  end.

(** [s.split(/\s+/)]: the pieces between maximal runs of white space, the
    empty pieces at both ends included. *)
Fixpoint splitSpacesFrom (inGap : bool) (s : jsstring) : list jsstring :=
  match s with
  | [] => [[]]
  | c :: tl =>
      if isWhiteSpace c then
        if inGap then splitSpacesFrom true tl else [] :: splitSpacesFrom true tl
      else match splitSpacesFrom false tl with
           | w :: ws => (c :: w) :: ws
           | [] => [[c]]
           end
  end.

Definition splitSpaces (s : jsstring) : list jsstring := splitSpacesFrom false s.

Fixpoint join (sep : jsstring) (l : list jsstring) : jsstring :=
  match l with
  | [] => []
  | [x] => x
  | x :: tl => x ++ sep ++ join sep tl
  end.

Fixpoint startsWith (p s : jsstring) : bool :=
  match p, s with
  | [], _ => true
  | x :: p', y :: s' => N.eqb x y && startsWith p' s'
  | _ :: _, [] => false
  end.

Fixpoint includes (s sub : jsstring) : bool :=
  startsWith sub s ||
  match s with
  | [] => false
  | _ :: tl => includes tl sub
  end.

(** [s.endsWith(suffix)]. *)
Definition endsWith (s suffix : jsstring) : bool := startsWith (rev suffix) (rev s).

Definition slice0 (n : nat) (s : jsstring) : jsstring := firstn n s.

(** The strings of the Basic Latin and Latin-1 blocks: every code unit is
    below 256. *)
Definition latin1 (s : jsstring) : bool := forallb (fun c => N.ltb c 256) s.

(** A string is truthy when it is not empty. *)
Definition truthy (s : jsstring) : bool :=
  match s with [] => false | _ => true end.

(** Decimal rendering of a natural number (template literals). *)
Fixpoint digitsOf (fuel : nat) (n : N) (acc : jsstring) : jsstring :=
  match fuel with
  | O => acc
  | S f =>
      let acc' := (48 + N.modulo n 10)%N :: acc in
      if N.ltb n 10 then acc' else digitsOf f (N.div n 10) acc'
  end.

Definition ofNat (n : nat) : jsstring := digitsOf (S n) (N.of_nat n) [].

End JsString.
Import JsString.

(* ================================================================= *)
(** ** Ordinary objects used as tables *)

(** An object literal [{}] filled by [o[k] = v]: the own properties in
    creation order.  Enumeration ([Object.keys], [Object.values],
    [Object.entries], [for ... in]) lists the array-index keys first, in
    ascending numeric order, then the other keys in creation order.

    Lookups are of own properties.  Every object also inherits the two
    lower-case names [constructor] and [__proto__]; [plainKey] excludes them
    where a table is keyed by text of the input. *)
Module JsObject.
Local Open Scope N_scope.

Definition obj (V : Type) := list (jsstring * V).

Fixpoint get {V} (o : obj V) (k : jsstring) : option V :=
  match o with
  | [] => None
  | (k', v) :: tl => if JsString.eqb k' k then Some v else get tl k
  end.

Fixpoint set {V} (o : obj V) (k : jsstring) (v : V) : obj V :=
  match o with
  | [] => [(k, v)]
  | (k', v') :: tl =>
      if JsString.eqb k' k then (k', v) :: tl else (k', v') :: set tl k v
  end.

Fixpoint decimalValue (s : jsstring) (acc : N) : option N :=
  match s with
  | [] => Some acc
  | c :: tl => if isDigit c then decimalValue tl (acc * 10 + (c - 48))%N else None
  end.

(** The canonical numeric strings of the integers 0 .. 2^32 - 2. *)
Definition arrayIndex (k : jsstring) : option N :=
  match k with
  | [] => None
  | [c] => if isDigit c then Some (c - 48)%N else None
  | c :: _ =>
      if inRange 49 57 c then
        match decimalValue k 0 with
        | Some n => if N.leb n 4294967294 then Some n else None
        | None => None
        end
      else None
  end.

Fixpoint insertIndexed {V} (n : N) (kv : jsstring * V)
    (l : list (N * (jsstring * V))) : list (N * (jsstring * V)) :=
  match l with
  | [] => [(n, kv)]
  | (n', kv') :: tl =>
      if N.leb n' n then (n', kv') :: insertIndexed n kv tl
      else (n, kv) :: l
  end.

Fixpoint indexed {V} (o : obj V) : list (N * (jsstring * V)) :=
  match o with
  | [] => []
  | (k, v) :: tl =>
      match arrayIndex k with
      | Some n => insertIndexed n (k, v) (indexed tl)
      | None => indexed tl
      end
  end.

Definition named {V} (o : obj V) : obj V :=
  filter (fun kv => match arrayIndex (fst kv) with Some _ => false | None => true end) o.

Definition entries {V} (o : obj V) : list (jsstring * V) :=
  map snd (indexed o) ++ named o.

Definition keys {V} (o : obj V) : list jsstring := map fst (entries o).
Definition values {V} (o : obj V) : list V := map snd (entries o).

Definition plainKey (k : jsstring) : bool :=
  negb (JsString.eqb k (js "constructor")) && negb (JsString.eqb k (js "__proto__")).

End JsObject.

(* ================================================================= *)
(** ** Regular expressions *)

(** The backtracking matcher of the language definition, in continuation
    style: a pattern is matched from a position and hands the position it
    reaches to the rest of the pattern; a failure of the rest makes it try its
    next choice.  Alternatives are tried left to right and quantifiers are
    greedy.  No capture group of the source stands under a quantifier. *)
Module Regex.

(** Members of a character class. *)
Inductive atom : Type :=
| Lit (c : jschar)              (* the character itself *)
| Range (lo hi : jschar)        (* lo-hi *)
| Digit                         (* \d *)
| Word                          (* \w *)
| Space                         (* \s *)
| NotSpace.                     (* \S *)

Inductive regex : Type :=
| Eps
| Class (negated : bool) (items : list atom)   (* [...] and [^...] *)
| Dot                                          (* . *)
| Cat (r1 r2 : regex)
| Alt (r1 r2 : regex)
| Rep (min : nat) (max : option nat) (r : regex)   (* r{min,max}, greedy *)
| Cap (i : nat) (r : regex)                    (* i-th capture group *)
| Bol                                          (* ^ *)
| Eol                                          (* $ *)
| WordB.                                       (* \b *)

(** Abbreviations for writing the patterns of the source. *)
Definition lit (c : ascii) : regex := Class false [Lit (ch c)].
Definition star (r : regex) : regex := Rep 0 None r.
Definition plus (r : regex) : regex := Rep 1 None r.
Definition opt (r : regex) : regex := Rep 0 (Some 1) r.
Definition times (n : nat) (r : regex) : regex := Rep n (Some n) r.
Definition atLeast (n : nat) (r : regex) : regex := Rep n None r.
Definition cls (items : list atom) : regex := Class false items.
Definition ncls (items : list atom) : regex := Class true items.
Definition d : regex := cls [Digit].
Definition w : regex := cls [Word].
Definition s : regex := cls [Space].

Fixpoint seq (l : list regex) : regex :=
  match l with
  | [] => Eps
  | [r] => r
  | r :: tl => Cat r (seq tl)
  end.

Fixpoint alts (l : list regex) : regex :=
  match l with
  | [] => Class false []
  | [r] => r
  | r :: tl => Alt r (alts tl)
  end.

Definition str (t : string) : regex := seq (map lit (list_ascii_of_string t)).

(** A position in the subject, the character before it, and the captures
    made so far. *)
Record mstate : Type := MState {
  prev : option jschar;
  rest : jsstring;
  caps : list (nat * jsstring)
}.

Definition atomTest (a : atom) (c : jschar) : bool :=
  match a with
  | Lit x => N.eqb x c
  | Range lo hi => inRange lo hi c
  | Digit => isDigit c
  | Word => isWordChar c
  | Space => isWhiteSpace c
  | NotSpace => negb (isWhiteSpace c)
  end.

(** The other case of an ASCII letter.  Under the [i] flag a character
    matches a class member when the two have the same canonical (upper case)
    form; a character outside ASCII never canonicalizes into ASCII. *)
Definition flipCase (c : jschar) : jschar :=
  if isUpper c then (c + 32)%N else if isLower c then (c - 32)%N else c.

Definition atomMatch (ignoreCase : bool) (a : atom) (c : jschar) : bool :=
  atomTest a c || (ignoreCase && atomTest a (flipCase c)).

Definition classMatch (ignoreCase negated : bool) (items : list atom) (c : jschar) : bool :=
  xorb negated (existsb (fun a => atomMatch ignoreCase a c) items).

Definition isWordAt (o : option jschar) : bool :=
  match o with Some c => isWordChar c | None => false end.

Definition consumed (before after : mstate) : jsstring :=
  firstn (length (rest before) - length (rest after)) (rest before).

Definition advance (st : mstate) (c : jschar) (tl : jsstring) : mstate :=
  {| prev := Some c; rest := tl; caps := caps st |}.

(** A quantifier: one more round of the body while allowed, else the rest
    of the pattern; a round past [min] that consumes nothing is refused.
    Each round lowers [min] or shortens the subject, which bounds their
    number by [fuel]. *)
Section Repeat.
Variable body : mstate -> (mstate -> option mstate) -> option mstate.
Variable k : mstate -> option mstate.

Fixpoint repeatLoop (fuel min : nat) (max : option nat) (st : mstate)
    {struct fuel} : option mstate :=
  match fuel with
  | O => None
  | S fuel' =>
      match max with
      | Some O => k st
      | _ =>
          let again := fun st' =>
            if Nat.eqb min 0 && Nat.eqb (length (rest st')) (length (rest st))
            then None
            else repeatLoop fuel' (pred min) (option_map pred max) st' in
          if Nat.eqb min 0 then
            match body st again with
            | Some z => Some z
            | None => k st
            end
          else body st again
      end
  end.
End Repeat.

Fixpoint run (ic : bool) (r : regex) (st : mstate)
    (k : mstate -> option mstate) {struct r} : option mstate :=
  match r with
  | Eps => k st
  | Class negated items =>
      match rest st with
      | c :: tl => if classMatch ic negated items c then k (advance st c tl) else None
      | [] => None
      end
  | Dot =>
      match rest st with
      | c :: tl => if isLineTerminator c then None else k (advance st c tl)
      | [] => None
      end
  | Cat r1 r2 => run ic r1 st (fun st1 => run ic r2 st1 k)
  | Alt r1 r2 =>
      match run ic r1 st k with
      | Some z => Some z
      | None => run ic r2 st k
      end
  | Cap i r0 =>
      run ic r0 st (fun st' =>
        k {| prev := prev st'; rest := rest st';
             caps := (i, consumed st st') :: caps st' |})
  | Bol => match prev st with None => k st | Some _ => None end
  | Eol => match rest st with [] => k st | _ :: _ => None end
  | WordB =>
      if xorb (isWordAt (prev st)) (isWordAt (hd_error (rest st))) then k st else None
  | Rep min max r0 =>
      repeatLoop (run ic r0) k (min + length (rest st) + 1) min max st
  end.

Definition group (i : nat) (st : mstate) : option jsstring :=
  option_map snd (find (fun p => Nat.eqb (fst p) i) (caps st)).

(** A match attempt at one position. *)
Definition matchAt (ic : bool) (r : regex) (p : option jschar) (t : jsstring)
  : option mstate :=
  run ic r {| prev := p; rest := t; caps := [] |} (fun st => Some st).

(** [RegExp.prototype.exec] without the [g] flag: the first position of the
    subject, from the left, at which the pattern matches. *)
Fixpoint searchFrom (ic : bool) (r : regex) (p : option jschar) (t : jsstring)
  : option mstate :=
  match matchAt ic r p t with
  | Some st => Some st
  | None =>
      match t with
      | [] => None
      | c :: tl => searchFrom ic r (Some c) tl
      end
  end.

Definition exec (ic : bool) (r : regex) (t : jsstring) : option mstate :=
  searchFrom ic r None t.

Definition test (ic : bool) (r : regex) (t : jsstring) : bool :=
  match exec ic r t with Some _ => true | None => false end.

(** A matcher is local when it looks at its continuation only on positions
    that are not before its own. *)
Definition localMatcher
    (body : mstate -> (mstate -> option mstate) -> option mstate) : Prop :=
  forall st k1 k2,
    (forall st', length (rest st') <= length (rest st) -> k1 st' = k2 st') ->
    body st k1 = body st k2.

End Regex.

(** The positions that a pattern allows.  [reach ic r st st']: some way of
    matching [r] leads from [st] to [st']; for a quantifier, any number of
    rounds. *)
Inductive reach (ic : bool) : Regex.regex -> Regex.mstate -> Regex.mstate -> Prop :=
| reach_eps st : reach ic Regex.Eps st st
| reach_class negated items st c tl :
    Regex.rest st = c :: tl ->
    Regex.classMatch ic negated items c = true ->
    reach ic (Regex.Class negated items) st (Regex.advance st c tl)
| reach_dot st c tl :
    Regex.rest st = c :: tl ->
    isLineTerminator c = false ->
    reach ic Regex.Dot st (Regex.advance st c tl)
| reach_cat r1 r2 st st1 st2 :
    reach ic r1 st st1 -> reach ic r2 st1 st2 -> reach ic (Regex.Cat r1 r2) st st2
| reach_alt_l r1 r2 st st' :
    reach ic r1 st st' -> reach ic (Regex.Alt r1 r2) st st'
| reach_alt_r r1 r2 st st' :
    reach ic r2 st st' -> reach ic (Regex.Alt r1 r2) st st'
| reach_cap i r st st' :
    reach ic r st st' ->
    reach ic (Regex.Cap i r) st
      {| Regex.prev := Regex.prev st'; Regex.rest := Regex.rest st';
         Regex.caps := (i, Regex.consumed st st') :: Regex.caps st' |}
| reach_bol st : Regex.prev st = None -> reach ic Regex.Bol st st
| reach_eol st : Regex.rest st = [] -> reach ic Regex.Eol st st
| reach_wordb st : reach ic Regex.WordB st st
| reach_rep_stop min max r st : reach ic (Regex.Rep min max r) st st
| reach_rep_round min max min' max' r st st1 st2 :
    reach ic r st st1 ->
    reach ic (Regex.Rep min' max' r) st1 st2 ->
    reach ic (Regex.Rep min max r) st st2.

(* ================================================================= *)
(** ** JSON values and [JSON.parse] *)

(** [JSON.parse] as a scanner over the code units followed by a pushdown
    automaton over the tokens; both consume their input one item at a time.
    [None] stands for the [SyntaxError] the source catches.  A number keeps
    the text of its literal: the code under study never computes with one. *)
Module Json.
Local Open Scope N_scope.

Inductive json : Type :=
| JNull
| JBool (b : bool)
| JNum (literal : jsstring)
| JStr (s : jsstring)
| JArr (items : list json)
| JObj (members : JsObject.obj json).

Inductive token : Type :=
| TLBracket | TRBracket | TLBrace | TRBrace | TComma | TColon
| TString (s : jsstring)
| TNumber (literal : jsstring)
| TTrue | TFalse | TNull.

Inductive lexmode : Type :=
| LTop
| LStr (buf : jsstring)                  (* inside a string; [buf] reversed *)
| LEsc (buf : jsstring)                  (* after a backslash *)
| LHex (buf : jsstring) (ds : list N)    (* after \u; hex digits read, reversed *)
| LNum (buf : jsstring)                  (* inside a number *)
| LName (buf : jsstring).                (* inside true, false or null *)

Definition isJsonSpace (c : jschar) : bool :=
  N.eqb c 32 || N.eqb c 9 || N.eqb c 10 || N.eqb c 13.

Definition isNumberChar (c : jschar) : bool :=
  isDigit c || N.eqb c 43 || N.eqb c 45 || N.eqb c 46 || N.eqb c 69 || N.eqb c 101.

Definition hexValue (c : jschar) : option N :=
  if isDigit c then Some (c - 48)
  else if inRange 65 70 c then Some (c - 55)
  else if inRange 97 102 c then Some (c - 87)
  else None.

(** A number: an optional minus sign; 0, or a digit 1-9 and more digits;
    optionally a point and one digit or more; optionally e or E, a sign and
    one digit or more. *)
Definition digitsThen (t : jsstring) : option jsstring :=
  match t with
  | c :: _ => if isDigit c then Some (dropWhile isDigit t) else None
  | [] => None
  end.

Definition afterExponent (t : jsstring) : bool :=
  match t with
  | [] => true
  | c :: tl =>
      if N.eqb c 69 || N.eqb c 101 then
        let tl' := match tl with
                   | x :: tl2 => if N.eqb x 43 || N.eqb x 45 then tl2 else tl
                   | [] => tl
                   end in
        match digitsThen tl' with
        | Some [] => true
        | _ => false
        end
      else false
  end.

Definition afterFraction (t : jsstring) : bool :=
  match t with
  | c :: tl =>
      if N.eqb c 46 then
        match digitsThen tl with
        | Some t' => afterExponent t'
        | None => false
        end
      else afterExponent t
  | [] => true
  end.

Definition isNumber (t : jsstring) : bool :=
  let t1 := match t with
            | c :: tl => if N.eqb c 45 then tl else t
            | [] => t
            end in
  match t1 with
  | c :: tl =>
      if N.eqb c 48 then afterFraction tl
      else if inRange 49 57 c then afterFraction (dropWhile isDigit tl)
      else false
  | [] => false
  end.

Definition nameToken (t : jsstring) : option token :=
  if JsString.eqb t (js "true") then Some TTrue
  else if JsString.eqb t (js "false") then Some TFalse
  else if JsString.eqb t (js "null") then Some TNull
  else None.

(** What a code unit starts or is when no token is open. *)
Definition lexTop (c : jschar) : option (lexmode * list token) :=
  if isJsonSpace c then Some (LTop, [])
  else if N.eqb c 91 then Some (LTop, [TLBracket])
  else if N.eqb c 93 then Some (LTop, [TRBracket])
  else if N.eqb c 123 then Some (LTop, [TLBrace])
  else if N.eqb c 125 then Some (LTop, [TRBrace])
  else if N.eqb c 44 then Some (LTop, [TComma])
  else if N.eqb c 58 then Some (LTop, [TColon])
  else if N.eqb c 34 then Some (LStr [], [])
  else if N.eqb c 45 || isDigit c then Some (LNum [c], [])
  else if isLower c then Some (LName [c], [])
  else None.

Definition closeNumber (buf : jsstring) : option token :=
  let t := rev buf in if isNumber t then Some (TNumber t) else None.

Definition closeName (buf : jsstring) : option token := nameToken (rev buf).

Definition escapeChar (c : jschar) : option jschar :=
  if N.eqb c 34 then Some 34          (* a quote *)
  else if N.eqb c 92 then Some 92     (* \\ *)
  else if N.eqb c 47 then Some 47     (* \/ *)
  else if N.eqb c 98 then Some 8      (* \b *)
  else if N.eqb c 102 then Some 12    (* \f *)
  else if N.eqb c 110 then Some 10    (* \n *)
  else if N.eqb c 114 then Some 13    (* \r *)
  else if N.eqb c 116 then Some 9     (* \t *)
  else None.

Definition lexStep (m : lexmode) (c : jschar) : option (lexmode * list token) :=
  match m with
  | LTop => lexTop c
  | LStr buf =>
      if N.eqb c 34 then Some (LTop, [TString (rev buf)])
      else if N.eqb c 92 then Some (LEsc buf, [])
      else if N.ltb c 32 then None
      else Some (LStr (c :: buf), [])
  | LEsc buf =>
      if N.eqb c 117 then Some (LHex buf [], [])
      else match escapeChar c with
           | Some x => Some (LStr (x :: buf), [])
           | None => None
           end
  | LHex buf ds =>
      match hexValue c with
      | Some v =>
          match ds with
          | [d2; d1; d0] => Some (LStr ((((d0 * 16 + d1) * 16 + d2) * 16 + v) :: buf), [])
          | _ => Some (LHex buf (v :: ds), [])
          end
      | None => None
      end
  | LNum buf =>
      if isNumberChar c then Some (LNum (c :: buf), [])
      else match closeNumber buf, lexTop c with
           | Some t, Some (m', ts) => Some (m', t :: ts)
           | _, _ => None
           end
  | LName buf =>
      if isLower c then Some (LName (c :: buf), [])
      else match closeName buf, lexTop c with
           | Some t, Some (m', ts) => Some (m', t :: ts)
           | _, _ => None
           end
  end.

Fixpoint lex (m : lexmode) (t : jsstring) : option (list token) :=
  match t with
  | [] =>
      match m with
      | LTop => Some []
      | LNum buf => option_map (fun x => [x]) (closeNumber buf)
      | LName buf => option_map (fun x => [x]) (closeName buf)
      | _ => None
      end
  | c :: tl =>
      match lexStep m c with
      | Some (m', ts) => option_map (app ts) (lex m' tl)
      | None => None
      end
  end.

(** The open containers, innermost first. *)
Inductive frame : Type :=
| FArr (items : list json)                              (* reversed *)
| FObj (members : JsObject.obj json)                    (* a key comes next *)
| FKey (members : JsObject.obj json) (key : jsstring).  (* a value comes next *)

Inductive pstate : Type :=
| PValue        (* a value is expected *)
| PFirstElem    (* after [: a value or ] *)
| PFirstKey     (* after {: a key or } *)
| PKey          (* after , in an object: a key *)
| PColon        (* after a key *)
| PAfter        (* after a value in a container: , or the closing bracket *)
| PDone (v : json).

Definition deliver (v : json) (stack : list frame) : option (pstate * list frame) :=
  match stack with
  | [] => Some (PDone v, [])
  | FArr items :: st => Some (PAfter, FArr (v :: items) :: st)
  | FKey members k :: st => Some (PAfter, FObj (JsObject.set members k v) :: st)
  | FObj _ :: _ => None
  end.

Definition startValue (t : token) (stack : list frame) : option (pstate * list frame) :=
  match t with
  | TLBracket => Some (PFirstElem, FArr [] :: stack)
  | TLBrace => Some (PFirstKey, FObj [] :: stack)
  | TString x => deliver (JStr x) stack
  | TNumber x => deliver (JNum x) stack
  | TTrue => deliver (JBool true) stack
  | TFalse => deliver (JBool false) stack
  | TNull => deliver JNull stack
  | _ => None
  end.

Definition parseStep (p : pstate) (stack : list frame) (t : token)
  : option (pstate * list frame) :=
  match p, t, stack with
  | PValue, _, _ => startValue t stack
  | PFirstElem, TRBracket, FArr [] :: st => deliver (JArr []) st
  | PFirstElem, _, _ => startValue t stack
  | PFirstKey, TRBrace, FObj members :: st => deliver (JObj members) st
  | PFirstKey, TString k, FObj members :: st => Some (PColon, FKey members k :: st)
  | PKey, TString k, FObj members :: st => Some (PColon, FKey members k :: st)
  | PColon, TColon, _ => Some (PValue, stack)
  | PAfter, TComma, FArr _ :: _ => Some (PValue, stack)
  | PAfter, TRBracket, FArr items :: st => deliver (JArr (rev items)) st
  | PAfter, TComma, FObj _ :: _ => Some (PKey, stack)
  | PAfter, TRBrace, FObj members :: st => deliver (JObj members) st
  | _, _, _ => None
  end.

Fixpoint parseTokens (p : pstate) (stack : list frame) (ts : list token) : option json :=
  match ts with
  | [] => match p with PDone v => Some v | _ => None end
  | t :: tl =>
      match parseStep p stack t with
      | Some (p', stack') => parseTokens p' stack' tl
      | None => None
      end
  end.

Definition parse (text : jsstring) : option json :=
  match lex LTop text with
  | Some ts => parseTokens PValue [] ts
  | None => None
  end.

End Json.

Import Json.

(** Induction on JSON values with the elements of an array at hand. *)
Section JsonInduction.
Variable P : json -> Prop.
Hypothesis Hnull : P JNull.
Hypothesis Hbool : forall b, P (JBool b).
Hypothesis Hnum : forall t, P (JNum t).
Hypothesis Hstr : forall t, P (JStr t).
Hypothesis Harr : forall items, Forall P items -> P (JArr items).
Hypothesis Hobj : forall members, P (JObj members).

Fixpoint json_nested_ind (v : json) : P v :=
  match v with
  | JNull => Hnull
  | JBool b => Hbool b
  | JNum t => Hnum t
  | JStr t => Hstr t
  | JArr items =>
      Harr ((fix all (l : list json) : Forall P l :=
               match l with
               | [] => Forall_nil P
               | x :: tl => Forall_cons x (json_nested_ind x) (all tl)
               end) items)
  | JObj members => Hobj members
  end.
End JsonInduction.

(* ================================================================= *)
(** ** The host: dates and fresh identifiers *)

(** What the code asks of [Date], of the locale and of the clock.  A time
    value is a number of milliseconds; [dateParse] is [None] where
    [new Date(text)] is an invalid date.  [generateId n] is the identifier
    that the [n]-th call of [generateId()] returns. *)
Class Host : Type := {
  dateParse : jsstring -> option Z;
  toISOString : Z -> jsstring;
  toLocaleDateString : Z -> jsstring;
  getHours : Z -> N;
  getDay : Z -> N;
  generateId : nat -> jsstring
}.

(** How a call completes: with a value or with a thrown exception. *)
Inductive exn : Type := RangeError | TypeError.

Inductive completion (A : Type) : Type :=
| Returns (a : A)
| Throws (e : exn).
Arguments Returns {A} a.
Arguments Throws {A} e.

(* ================================================================= *)
(** ** The session model *)

(** Objects of the source are records whose fields are optional: [None] is a
    property that is absent, [undefined] or [null], which the code tells
    apart from a value only by truthiness. *)

(** The payload of a RESULTS line. *)
Module Results.
Record t : Type := mk {
  styles : option (list jsstring);
  products : option json;
  productsRaw : option jsstring
}.
Definition empty : t := mk None None None.
End Results.

(** A message, as a parser builds it or as a JSON document supplies it
    ([sender], [text] and [message] are the alternative spellings that the
    normalizer accepts). *)
Module Message.
Record t : Type := mk {
  id : option jsstring;
  role : option jsstring;
  sender : option jsstring;
  content : option jsstring;
  text : option jsstring;
  message : option jsstring;
  timestamp : option jsstring;
  results : option Results.t
}.

Definition withContent (m : t) (c : jsstring) : t :=
  mk (id m) (role m) (sender m) (Some c) (text m) (message m) (timestamp m) (results m).

Definition withResults (m : t) (r : Results.t) : t :=
  mk (id m) (role m) (sender m) (content m) (text m) (message m) (timestamp m) (Some r).

(** [{ role, content }] and [{ role, content, timestamp }]. *)
Definition plain (r c : jsstring) (ts : option jsstring) : t :=
  mk None (Some r) None (Some c) None None ts None.

(** [m.content += t]. *)
Definition appendContent (m : t) (t' : jsstring) : t :=
  withContent m (match content m with
                 | Some c => c ++ t'
                 | None => js "undefined" ++ t'
                 end).

(** [m.role === r]. *)
Definition roleIs (m : t) (r : jsstring) : bool :=
  match role m with Some x => JsString.eqb x r | None => false end.
End Message.

Module Metadata.
Record t : Type := mk {
  timestamp : option jsstring;
  language : option jsstring;
  escalated : option bool;
  hasOrder : option bool;
  dateRange : option (option jsstring * option jsstring);   (* start, end *)
  sourceFile : option jsstring;
  format : option jsstring;
  messageCount : option nat;
  hasEscalation : option bool;
  userTurns : option nat;
  botTurns : option nat
}.
Definition empty : t := mk None None None None None None None None None None None.
End Metadata.

Module Transcript.
Record t : Type := mk {
  id : option jsstring;
  sourceFile : option jsstring;
  messages : option (list Message.t);
  metadata : Metadata.t
}.
End Transcript.

(** Truthiness of an optional string property. *)
Definition truthyStr (o : option jsstring) : bool :=
  match o with Some x => truthy x | None => false end.

(** [a || b] on optional strings. *)
Definition orElse (a b : option jsstring) : option jsstring :=
  if truthyStr a then a else b.

Definition bind {A B} (c : completion A) (f : A -> completion B) : completion B :=
  match c with
  | Returns a => f a
  | Throws e => Throws e
  end.

Notation "x <- c ;; k" := (bind c (fun x => k))
  (at level 61, c at next level, right associativity).

(* ================================================================= *)
(** ** [src/utils/helpers.js]: the transcript parsers *)

Module Helpers.
Import Regex.

Definition L (a : ascii) : atom := Lit (ch a).
Definition newline : jschar := 10%N.

(** The roles of a timestamped line: USER, AI, RESULTS, CONVERSATION STARTED. *)
Definition roleNames : regex :=
  alts [str "USER"; str "AI"; str "RESULTS"; str "CONVERSATION STARTED"].

(** The date and time digits of a timestamp: four digits, two digits, two
    digits, the letter T, then digits, colons and points. *)
Definition dateTime : regex :=
  seq [times 4 d; lit "-"; times 2 d; lit "-"; times 2 d; lit "T";
       plus (cls [Digit; L ":"; L "."])].

(** [timestampPattern] of [parseTextTranscript], flag [i]: a bracketed
    timestamp with a time zone offset, white space and a role. *)
Definition timestampPattern : regex :=
  seq [lit "["; Cap 1 (seq [dateTime; lit "+"; plus (cls [Digit; L ":"])]); lit "]";
       star s; Cap 2 roleNames; opt (seq [star s; lit ":"; star s])].

(** [linePattern] of [parseTimestampedTranscript], flag [i]: the whole line
    is a bracketed timestamp (the offset optional), white space, a role, an
    optional colon, and the text up to the end. *)
Definition linePattern : regex :=
  seq [Bol; lit "[";
       Cap 1 (seq [dateTime; opt (seq [lit "+"; plus (cls [Digit; L ":"])])]);
       lit "]"; star s; Cap 2 roleNames; opt (seq [star s; lit ":"; star s]);
       Cap 3 (star Dot); Eol].

(** [separatorPattern]: ten equals signs or more, alone. *)
Definition separatorPattern : regex := seq [Bol; atLeast 10 (lit "="); Eol].

(** The session id inside a file name, flag [i]. *)
Definition sessionIdPattern : regex :=
  seq [str "session_";
       Cap 1 (plus (cls [Range (ch "a") (ch "f"); Range (ch "0") (ch "9"); L "-"]));
       str "_transcript"].

(** The STYLES list of a RESULTS line, flag [i]. *)
Definition stylesPattern : regex :=
  seq [str "STYLES:"; star s; lit "["; Cap 1 (plus (ncls [L "]"])); lit "]"].

(** The PRODUCTS bracket expression of a RESULTS line, flag [i]: from the
    first opening bracket after the keyword to the last closing bracket. *)
Definition productsPattern : regex :=
  seq [str "PRODUCTS"; star s;
       Cap 1 (seq [lit "["; star (cls [Space; NotSpace]); lit "]"])].

(** The text of a capture group that took part in the match. *)
Definition groupText (i : nat) (m : mstate) : jsstring :=
  match group i m with Some x => x | None => [] end.

(** [t.replace(/['"]/g, '')] and [t.replace(/'/g, '"')], where the second
    turns single quotes into double quotes. *)
Definition removeQuotes (t : jsstring) : jsstring :=
  filter (fun c => negb (N.eqb c (ch "'") || N.eqb c 34%N)) t.

Definition doubleQuotes (t : jsstring) : jsstring :=
  map (fun c => if N.eqb c (ch "'") then 34%N else c) t.

Definition parseResultsContent (content : jsstring) : Results.t :=
  let styles :=
    match exec true stylesPattern content with
    | Some stylesMatch =>
        Some (map (fun x => removeQuotes (trim x)) (split (ch ",") (groupText 1 stylesMatch)))
    | None => None
    end in
  match exec true productsPattern content with
  | Some productsMatch =>
      let raw := groupText 1 productsMatch in
      match Json.parse (doubleQuotes raw) with
      | Some v => Results.mk styles (Some v) None
      | None => Results.mk styles None (Some raw)
      end
  | None => Results.mk styles None None
  end.

Section Timestamped.
Context {host : Host}.

(** The variables of the loop of [parseTimestampedTranscript].  A [Date] is
    its time value, [None] for an invalid date; the two trackers start as
    [null]. *)
Record loop : Type := Loop {
  messages : list Message.t;
  currentMessage : option Message.t;
  earliestTimestamp : option (option Z);
  latestTimestamp : option (option Z)
}.

Definition start : loop := Loop [] None None None.

(** [a < b] on dates: false as soon as one is invalid. *)
Definition dateLt (a b : option Z) : bool :=
  match a, b with
  | Some x, Some y => Z.ltb x y
  | _, _ => false
  end.

(** [if (!earliest || parsed < earliest) earliest = parsed] and its twin
    for the latest date. *)
Definition earlier (tracked : option (option Z)) (parsed : option Z) : option (option Z) :=
  match tracked with
  | None => Some parsed
  | Some e => if dateLt parsed e then Some parsed else Some e
  end.

Definition later (tracked : option (option Z)) (parsed : option Z) : option (option Z) :=
  match tracked with
  | None => Some parsed
  | Some e => if dateLt e parsed then Some parsed else Some e
  end.

(** [if (currentMessage) messages.push(currentMessage)]. *)
Definition pushCurrent (st : loop) : list Message.t :=
  match currentMessage st with
  | Some c => messages st ++ [c]
  | None => messages st
  end.

(** The RESULTS branch: the payload goes to the last message of the list
    when that message is a bot message. *)
Definition attachResults (msgs : list Message.t) (content : jsstring) : list Message.t :=
  match rev msgs with
  | lastMessage :: before =>
      if Message.roleIs lastMessage (js "bot")
      then rev before ++ [Message.withResults lastMessage (parseResultsContent content)]
      else msgs
  | [] => msgs
  end.

(** One round of the loop over the lines. *)
Definition step (st : loop) (line : jsstring) : loop :=
  let trimmedLine := trim line in
  if test false separatorPattern trimmedLine || negb (truthy trimmedLine) then st
  else
    match exec true linePattern trimmedLine with
    | Some m =>
        let msgs := pushCurrent st in
        let timestamp := groupText 1 m in
        let role := groupText 2 m in
        let content := groupText 3 m in
        let parsedTimestamp := dateParse timestamp in
        let earliest := earlier (earliestTimestamp st) parsedTimestamp in
        let latest := later (latestTimestamp st) parsedTimestamp in
        let normalizedRole := toUpperCase role in
        if JsString.eqb normalizedRole (js "CONVERSATION STARTED") then
          Loop msgs None earliest latest
        else if JsString.eqb normalizedRole (js "RESULTS") then
          Loop (attachResults msgs content) None earliest latest
        else
          Loop msgs
               (Some (Message.plain
                        (if JsString.eqb normalizedRole (js "USER") then js "user" else js "bot")
                        (trim content) (Some timestamp)))
               earliest latest
    | None =>
        match currentMessage st with
        | Some c =>
            Loop (messages st) (Some (Message.appendContent c (js " " ++ trimmedLine)))
                 (earliestTimestamp st) (latestTimestamp st)
        | None => st
        end
    end.

(** [date?.toISOString() || null]: an invalid date throws. *)
Definition isoOrNull (date : option (option Z)) : completion (option jsstring) :=
  match date with
  | None => Returns None
  | Some None => Throws RangeError
  | Some (Some t) => Returns (orElse (Some (toISOString t)) None)
  end.

Definition parseTimestampedTranscript (content filename : jsstring)
  : completion (list Transcript.t) :=
  let lines := split newline content in
  let sessionId :=
    match exec true sessionIdPattern filename with
    | Some sessionIdMatch => groupText 1 sessionIdMatch
    | None => filename
    end in
  let st := fold_left step lines start in
  let msgs := pushCurrent st in
  timestamp <- isoOrNull (earliestTimestamp st) ;;
  rangeStart <- isoOrNull (earliestTimestamp st) ;;
  rangeEnd <- isoOrNull (latestTimestamp st) ;;
  Returns
    [Transcript.mk (Some sessionId) None (Some msgs)
       (Metadata.mk timestamp None None None (Some (rangeStart, rangeEnd))
          (Some filename) (Some (js "timestamped")) None None None None)].

End Timestamped.

(** The three line shapes of the simple format, flag [i]: a role word (or
    session word), white space, a colon or dash, white space, and text. *)
Definition prefixed (words : list string) : regex :=
  seq [Bol; Cap 1 (alts (map str words)); star s; cls [L ":"; L "-"]; star s;
       Cap 2 (plus Dot)].

Definition userPattern : regex := prefixed ["user"; "customer"; "human"; "visitor"]%string.
Definition botPattern : regex := prefixed ["bot"; "assistant"; "agent"; "chatbot"; "ai"]%string.
Definition sessionPattern : regex := prefixed ["session"; "conversation"]%string.

(** [currentConversation] of [parseSimpleTextTranscript]: its id and its
    messages. *)
Definition conversation : Type := (jsstring * list Message.t)%type.

Definition closeConversation (c : conversation) : Transcript.t :=
  Transcript.mk (Some (fst c)) None (Some (snd c)) Metadata.empty.

(** [conversations.push(currentConversation)] when it has messages. *)
Definition pushConversation (done : list Transcript.t) (c : conversation) : list Transcript.t :=
  match snd c with
  | [] => done
  | _ :: _ => done ++ [closeConversation c]
  end.

(** [lastMsg.content += ' ' + line.trim()] on the last message. *)
Definition appendToLast (msgs : list Message.t) (line : jsstring) : list Message.t :=
  match rev msgs with
  | lastMsg :: before =>
      rev before ++ [Message.appendContent lastMsg (js " " ++ trim line)]
  | [] => msgs
  end.

Definition simpleStep (st : list Transcript.t * conversation) (line : jsstring)
  : list Transcript.t * conversation :=
  let (done, current) := st in
  match exec true sessionPattern line with
  | Some sessionMatch =>
      (pushConversation done current, (trim (groupText 2 sessionMatch), []))
  | None =>
      match exec true userPattern line with
      | Some userMatch =>
          (done, (fst current,
                  snd current ++ [Message.plain (js "user") (trim (groupText 2 userMatch)) None]))
      | None =>
          match exec true botPattern line with
          | Some botMatch =>
              (done, (fst current,
                      snd current ++ [Message.plain (js "bot") (trim (groupText 2 botMatch)) None]))
          | None =>
              if truthy (trim line) && negb (Nat.eqb (length (snd current)) 0)
              then (done, (fst current, appendToLast (snd current) line))
              else st
          end
      end
  end.

Definition parseSimpleTextTranscript (content filename : jsstring) : list Transcript.t :=
  let lines := filter (fun line => truthy (trim line)) (split newline content) in
  let (done, current) := fold_left simpleStep lines ([], (filename, [])) in
  match pushConversation done current with
  | [] =>
      [Transcript.mk (Some filename) None
         (Some [Message.plain (js "unknown") content None]) Metadata.empty]
  | conversations => conversations
  end.

Section Content.
Context {host : Host}.

Definition parseTextTranscript (content filename : jsstring)
  : completion (list Transcript.t) :=
  if test true timestampPattern content
  then parseTimestampedTranscript content filename
  else Returns (parseSimpleTextTranscript content filename).

(** [parseTranscriptContent] tries [JSON.parse] first.  The branch that
    turns a JSON document into sessions builds them out of whatever the
    document holds, outside the typed session model; it is left out, and the
    result is [None] for a content that is a JSON document. *)
Definition parseTranscriptContent (content filename : jsstring)
  : option (completion (list Transcript.t)) :=
  match Json.parse content with
  | Some _ => None
  | None => Some (parseTextTranscript content filename)
  end.

End Content.
End Helpers.

(* ================================================================= *)
(** ** [src/services/parser/transcriptParser.js]: files and the normalizer *)

Module TranscriptParser.

(** [{ filename, transcripts, error }]: what parsing one file gives. *)
Module ParseResult.
Record t : Type := mk {
  filename : jsstring;
  transcripts : list Transcript.t;
  error : option exn
}.
End ParseResult.

Fixpoint mapi {A B} (f : nat -> A -> B) (i : nat) (l : list A) : list B :=
  match l with
  | [] => []
  | x :: tl => f i x :: mapi f (S i) tl
  end.

(** [a || d] where [d] is a string literal. *)
Definition orDefault (a : option jsstring) (d : jsstring) : jsstring :=
  match a with
  | Some x => if truthy x then x else d
  | None => d
  end.

Definition userRoles : list jsstring :=
  map js ["user"; "customer"; "human"; "visitor"; "client"]%string.
Definition botRoles : list jsstring :=
  map js ["bot"; "assistant"; "agent"; "chatbot"; "ai"; "system"]%string.

Definition normalizeRole (role : jsstring) : jsstring :=
  let normalized := toLowerCase role in
  if existsb (JsString.eqb normalized) userRoles then js "user"
  else if existsb (JsString.eqb normalized) botRoles then js "bot"
  else js "unknown".

Definition normalizeMessage (index : nat) (msg : Message.t) : Message.t :=
  Message.mk
    (Some (orDefault (Message.id msg) (js "msg-" ++ ofNat index)))
    (Some (normalizeRole
             (orDefault (orElse (Message.role msg) (Message.sender msg)) (js "unknown"))))
    None
    (Some (orDefault
             (orElse (orElse (Message.content msg) (Message.text msg)) (Message.message msg))
             []))
    None
    None
    (orElse (Message.timestamp msg) None)
    (Message.results msg).

Definition normalizeMessages (messages : list Message.t) : list Message.t :=
  mapi normalizeMessage 0 messages.

Definition escalationPhrases : list jsstring :=
  map js ["speak to a human"; "speak to someone"; "transfer me"; "real person";
          "human agent"; "customer service"; "supervisor"; "manager"; "escalate";
          "can't help"; "don't understand"]%string.

Definition orderPhrases : list jsstring :=
  map js ["order number"; "order status"; "tracking"; "shipment"; "delivery";
          "purchase"; "bought"; "ordered"; "payment"; "receipt"]%string.

(** [messages.map(m => (m.content || '').toLowerCase()).join(' ')]. *)
Definition loweredContent (messages : list Message.t) : jsstring :=
  join (js " ") (map (fun m => toLowerCase (orDefault (Message.content m) [])) messages).

Definition detectEscalation (messages : list Message.t) : bool :=
  let content := loweredContent messages in
  existsb (fun phrase => includes content phrase) escalationPhrases.

Definition detectOrder (messages : list Message.t) : bool :=
  let content := loweredContent messages in
  existsb (fun phrase => includes content phrase) orderPhrases.

Definition countUserTurns (messages : list Message.t) : nat :=
  length (filter (fun m => JsString.eqb (normalizeRole (orDefault (Message.role m) []))
                                        (js "user")) messages).

Definition countBotTurns (messages : list Message.t) : nat :=
  length (filter (fun m => JsString.eqb (normalizeRole (orDefault (Message.role m) []))
                                        (js "bot")) messages).

Section WithHost.
Context {host : Host}.

(** A file: its name and its content read as text. *)
Definition file : Type := (jsstring * jsstring)%type.

(** One round of the loop of [parseUploadedFiles]: the result that it
    pushes.  A file whose name ends with [.zip] is unpacked by [parseZipFile]
    and may push any number of results; archives are not part of the model,
    and the result is [None] for such a name, as it is for a JSON document
    (see [Helpers.parseTranscriptContent]). *)
Definition parseFile (f : file) : option ParseResult.t :=
  let (name, content) := f in
  if endsWith name (js ".zip") then None
  else
    match Helpers.parseTranscriptContent content name with
    | Some (Returns parsed) => Some (ParseResult.mk name parsed None)
    | Some (Throws e) => Some (ParseResult.mk name [] (Some e))
    | None => None
    end.

(** [parseUploadedFiles] on files that are read as text; [None] when one
    of them is an archive or a JSON document. *)
Fixpoint parseUploadedFiles (files : list file) : option (list ParseResult.t) :=
  match files with
  | [] => Some []
  | f :: tl =>
      match parseFile f, parseUploadedFiles tl with
      | Some r, Some rs => Some (r :: rs)
      | _, _ => None
      end
  end.

(** The body of the inner loop of [normalizeTranscripts]; [n] counts the
    calls of [generateId] made so far. *)
Definition normalizeTranscript (filename : jsstring) (n : nat) (transcript : Transcript.t)
  : Transcript.t * nat :=
  let raw := match Transcript.messages transcript with Some l => l | None => [] end in
  let md := Transcript.metadata transcript in
  let (id, n') :=
    if truthyStr (Transcript.id transcript) then (Transcript.id transcript, n)
    else (Some (generateId n), S n) in
  (Transcript.mk id (Some filename) (Some (normalizeMessages raw))
     (Metadata.mk (Metadata.timestamp md) (Metadata.language md) (Metadata.escalated md)
        (Some (detectOrder raw))
        (Metadata.dateRange md) (Metadata.sourceFile md) (Metadata.format md)
        (Some (length raw))
        (Some (detectEscalation raw))
        (Some (countUserTurns raw))
        (Some (countBotTurns raw))),
   n').

Fixpoint normalizeEach (filename : jsstring) (n : nat) (ts : list Transcript.t)
  : list Transcript.t * nat :=
  match ts with
  | [] => ([], n)
  | t :: tl =>
      let (t', n1) := normalizeTranscript filename n t in
      let (tl', n2) := normalizeEach filename n1 tl in
      (t' :: tl', n2)
  end.

Fixpoint normalizeFrom (n : nat) (parsedResults : list ParseResult.t) : list Transcript.t :=
  match parsedResults with
  | [] => []
  | result :: tl =>
      match ParseResult.error result with
      | Some _ => normalizeFrom n tl
      | None =>
          let (ts, n') := normalizeEach (ParseResult.filename result) n
                                        (ParseResult.transcripts result) in
          ts ++ normalizeFrom n' tl
      end
  end.

Definition normalizeTranscripts (parsedResults : list ParseResult.t) : list Transcript.t :=
  normalizeFrom 0 parsedResults.

End WithHost.
End TranscriptParser.

(* ================================================================= *)
(** ** The metrics snapshot *)

(** The object that [extractRuleBasedMetrics] returns.  A property that one
    of the two constructions of the snapshot leaves out has type [optional];
    a property that may hold [null] has type [option]. *)
Module Metrics.

Inductive optional (A : Type) : Type :=
| Missing
| Present (a : A).
Arguments Missing {A}.
Arguments Present {A} a.

(** Numbers.  The engine rounds its averages and percentages to decimals
    with [toFixed]; such a number is kept as the expression it rounds. *)
Inductive num : Type :=
| Int (n : Z)
| Quotient (decimals : nat) (a b : nat)   (* parseFloat((a / b).toFixed(decimals)) *)
| Percentage (a b : nat).                 (* parseFloat(((a / b) * 100).toFixed(1)) *)

Module DateRange.
Record t : Type := mk {
  start : option jsstring;
  end_ : option jsstring;
  startRaw : optional jsstring;
  endRaw : optional jsstring;
  totalDays : Z
}.
End DateRange.

Module SessionOverview.
Record t : Type := mk {
  totalSessions : nat;
  dateRange : DateRange.t
}.
End SessionOverview.

Module TurnAnalysis.
Record t : Type := mk {
  singleTurnSessions : nat;
  multiTurnSessions : nat;
  avgTurnsPerSession : num;
  maxTurnsInSession : nat;
  totalUserMessages : optional nat;
  totalBotMessages : optional nat
}.
End TurnAnalysis.

Module QueryEntry.
Record t : Type := mk { query : jsstring; frequency : nat }.
End QueryEntry.

Module Term.
Record t : Type := mk { term : jsstring; count : nat }.
End Term.

Module QueryLength.
Record t : Type := mk {
  singleWordQueries : nat;
  multiWordQueries : nat;
  avgWordsPerQuery : num
}.
End QueryLength.

Module QueryAnalysis.
Record t : Type := mk {
  totalQueries : nat;
  uniqueQueryCount : optional nat;
  uniqueQueries : list QueryEntry.t;
  allUniqueQueries : optional (list QueryEntry.t);
  queryLengthAnalysis : QueryLength.t;
  topSearchTerms : list Term.t
}.
End QueryAnalysis.

Module ProductEntry.
Record t : Type := mk {
  productId : jsstring;
  frequency : nat;
  associatedQueries : list jsstring
}.
End ProductEntry.

Module StyleEntry.
Record t : Type := mk {
  style : jsstring;
  frequency : nat;
  exampleQueries : list jsstring
}.
End StyleEntry.

Module StyleAnalysis.
Record t : Type := mk {
  totalStyles : nat;
  totalStyleMentions : optional nat;
  topStyles : list StyleEntry.t;
  allStyles : optional (list jsstring)
}.
End StyleAnalysis.

Module ProductInsights.
Record t : Type := mk {
  totalProductsRecommended : nat;
  uniqueProductsRecommended : nat;
  topRecommendedProducts : list ProductEntry.t;
  allProductIds : optional (list jsstring);
  styleAnalysis : StyleAnalysis.t
}.
End ProductInsights.

Module Share.
Record t : Type := mk { count : nat; percentage : num }.
End Share.

Module Clarifying.
Record t : Type := mk { content : jsstring; sessionId : option jsstring }.
End Clarifying.

Module ClarifyingQuestions.
Record t : Type := mk { count : nat; examples : list Clarifying.t }.
End ClarifyingQuestions.

Module BotResponseAnalysis.
Record t : Type := mk {
  sessionsWithResults : Share.t;
  sessionsWithoutResults : Share.t;
  avgProductsReturned : num;
  clarifyingQuestions : ClarifyingQuestions.t
}.
End BotResponseAnalysis.

Module TimePatterns.
Record t : Type := mk {
  busiestHour : option jsstring;
  busiestDay : option jsstring;
  hourlyDistribution : JsObject.obj nat;
  dailyDistribution : optional (JsObject.obj nat)
}.
End TimePatterns.

Module DataQualityNotes.
Record t : Type := mk {
  totalTranscriptsAnalyzed : nat;
  extractionMethod : jsstring;
  dataLimitations : optional (list jsstring)
}.
End DataQualityNotes.

Record t : Type := mk {
  sessionOverview : SessionOverview.t;
  turnAnalysis : TurnAnalysis.t;
  queryAnalysis : QueryAnalysis.t;
  productInsights : ProductInsights.t;
  botResponseAnalysis : BotResponseAnalysis.t;
  timePatterns : TimePatterns.t;
  dataQualityNotes : DataQualityNotes.t
}.

End Metrics.

(* ================================================================= *)
(** ** [src/services/analyzer/analysisEngine.js]: the rule-based metrics *)

Module Analyzer.
Import Metrics.

(** [Array.prototype.sort] is stable.  [before a b] says that the
    comparator does not put [b] ahead of [a]: [compare(a, b) <= 0]. *)
Section Sort.
Variable A : Type.
Variable before : A -> A -> bool.

Fixpoint insert (x : A) (l : list A) : list A :=
  match l with
  | [] => [x]
  | y :: tl => if before x y then x :: l else y :: insert x tl
  end.

Fixpoint sort (l : list A) : list A :=
  match l with
  | [] => []
  | x :: tl => insert x (sort tl)
  end.
End Sort.

(** A [Set] of strings: its elements in the order they were first added. *)
Definition setAdd (x : jsstring) (l : list jsstring) : list jsstring :=
  if existsb (JsString.eqb x) l then l else l ++ [x].

Definition setOf (l : list jsstring) : list jsstring :=
  fold_left (fun acc x => setAdd x acc) l [].

(** [table[k] = (table[k] || 0) + 1]. *)
Definition bump (table : JsObject.obj nat) (k : jsstring) : JsObject.obj nat :=
  JsObject.set table k (S (match JsObject.get table k with Some n => n | None => 0 end)).

Definition messagesOf (transcript : Transcript.t) : list Message.t :=
  match Transcript.messages transcript with Some l => l | None => [] end.

Definition isUser (m : Message.t) : bool := Message.roleIs m (js "user").
Definition isBot (m : Message.t) : bool := Message.roleIs m (js "bot").

(** *** Flattening of nested product arrays *)

(** [if (x && typeof x === 'string') flat.push(x)]. *)
Definition pushString (x : json) : list jsstring :=
  match x with
  | JStr t => if truthy t then [t] else []
  | _ => []
  end.

(** The inner [flatten]; what it pushes, in the order it pushes. *)
Fixpoint flatten (arr : json) : list jsstring :=
  match arr with
  | JArr items =>
      (fix each (l : list json) : list jsstring :=
         match l with
         | [] => []
         | item :: tl =>
             match item with
             | JArr _ => flatten item
             | _ => pushString item
             end ++ each tl
         end) items
  | _ => pushString arr
  end.

Definition flattenProducts (products : json) : list jsstring := flatten products.

(** [if (v)] on a JSON value.  A number is falsy when it is zero: when its
    literal has no digit other than 0 before the exponent, or is too small
    to be told from zero in double precision. *)
Fixpoint beforeExponent (l : jsstring) : jsstring :=
  match l with
  | [] => []
  | c :: tl => if N.eqb c 69 || N.eqb c 101 then [] else c :: beforeExponent tl
  end.

Definition mantissa (literal : jsstring) : jsstring :=
  filter isDigit (beforeExponent literal).

Definition fractionDigits (literal : jsstring) : nat :=
  length (filter isDigit
            (beforeExponent (dropWhile (fun c => negb (N.eqb c 46)) literal))).

Definition exponent (literal : jsstring) : Z :=
  match dropWhile (fun c => negb (N.eqb c 69 || N.eqb c 101)) literal with
  | _ :: 45%N :: ds =>
      match JsObject.decimalValue ds 0 with Some n => (- Z.of_N n)%Z | None => 0%Z end
  | _ :: 43%N :: ds =>
      match JsObject.decimalValue ds 0 with Some n => Z.of_N n | None => 0%Z end
  | _ :: ds =>
      match JsObject.decimalValue ds 0 with Some n => Z.of_N n | None => 0%Z end
  | [] => 0%Z
  end.

Definition numberIsZero (literal : jsstring) : bool :=
  match JsObject.decimalValue (mantissa literal) 0 with
  | Some m =>
      let e := (exponent literal - Z.of_nat (fractionDigits literal))%Z in
      N.eqb m 0 ||
      (Z.ltb e 0 && Z.leb (Z.of_N m * 2 ^ 1075) (10 ^ (- e)))%Z
  | None => true
  end.

Definition truthyJson (v : json) : bool :=
  match v with
  | JNull => false
  | JBool b => b
  | JNum literal => negb (numberIsZero literal)
  | JStr t => truthy t
  | JArr _ => true
  | JObj _ => true
  end.

(** The products of a message that the engine looks at: those of a bot
    message with results and a truthy [products]. *)
Definition productsOf (msg : Message.t) : option json :=
  if isBot msg then
    match Message.results msg with
    | Some r =>
        match Results.products r with
        | Some v => if truthyJson v then Some v else None
        | None => None
        end
    | None => None
    end
  else None.

Section WithHost.
Context {host : Host}.

(** *** Session overview *)

(** [new Date(text)] pushed onto [timestamps] when the text is truthy and
    the date valid. *)
Definition validDate (text : option jsstring) : list Z :=
  match text with
  | Some t =>
      if truthy t then
        match dateParse t with Some v => [v] | None => []
        end
      else []
  | None => []
  end.

Definition timestampsOf (transcript : Transcript.t) : list Z :=
  flat_map (fun msg => validDate (Message.timestamp msg)) (messagesOf transcript)
  ++ match Metadata.dateRange (Transcript.metadata transcript) with
     | Some (rangeStart, rangeEnd) => validDate rangeStart ++ validDate rangeEnd
     | None => []
     end.

(** [formatTimestamp] on a valid [Date]. *)
Definition formatTimestamp (date : Z) : option jsstring := Some (toLocaleDateString date).

(** [Math.ceil(x / y)] for a positive [y]. *)
Definition ceilDiv (x y : Z) : Z := (- ((- x) / y))%Z.

Definition extractSessionOverview (transcripts : list Transcript.t) : SessionOverview.t :=
  let timestamps := flat_map timestampsOf transcripts in
  let dateRange :=
    match sort Z.leb timestamps with
    | [] => DateRange.mk None None Missing Missing 0
    | first :: others =>
        let last := List.last others first in
        let totalDays := (ceilDiv (last - first) (1000 * 60 * 60 * 24) + 1)%Z in
        DateRange.mk (formatTimestamp first) (formatTimestamp last)
                     (Present (toISOString first)) (Present (toISOString last))
                     (Z.max 1 totalDays)
    end in
  SessionOverview.mk (length transcripts) dateRange.

End WithHost.

(** *** Turn analysis *)

Definition userTurnCount (transcript : Transcript.t) : nat :=
  length (filter isUser (messagesOf transcript)).

Definition botTurnCount (transcript : Transcript.t) : nat :=
  length (filter isBot (messagesOf transcript)).

Definition sum (l : list nat) : nat := fold_left Nat.add l 0.

Definition extractTurnAnalysis (transcripts : list Transcript.t) : TurnAnalysis.t :=
  let counts := map userTurnCount transcripts in
  let singleTurnSessions := length (filter (fun c => Nat.eqb c 1) counts) in
  let multiTurnSessions := length (filter (fun c => Nat.ltb 1 c) counts) in
  let totalUserTurns := sum counts in
  let maxTurns := fold_left Nat.max counts 0 in
  TurnAnalysis.mk singleTurnSessions multiTurnSessions
    (match transcripts with
     | [] => Int 0
     | _ :: _ => Quotient 2 totalUserTurns (length transcripts)
     end)
    maxTurns
    (Present totalUserTurns)
    (Present (sum (map botTurnCount transcripts))).

(** *** Query analysis *)

(** The queries: the trimmed content of every user message with a truthy
    content, session after session. *)
Definition queryOf (msg : Message.t) : list jsstring :=
  if isUser msg then
    match Message.content msg with
    | Some c => if truthy c then [trim c] else []
    | None => []
    end
  else [].

Definition allQueriesOf (transcripts : list Transcript.t) : list jsstring :=
  flat_map (fun t => flat_map queryOf (messagesOf t)) transcripts.

(** One round of the loop that fills [queryFrequency]:
    [queryFrequency[k] = queryFrequency[k] || { query, frequency: 0 }]
    then [queryFrequency[k].frequency++]. *)
Definition countQuery (queryFrequency : JsObject.obj QueryEntry.t) (query : jsstring)
  : JsObject.obj QueryEntry.t :=
  let normalizedQuery := toLowerCase query in
  let entry :=
    match JsObject.get queryFrequency normalizedQuery with
    | Some e => e
    | None => QueryEntry.mk query 0
    end in
  JsObject.set queryFrequency normalizedQuery
    (QueryEntry.mk (QueryEntry.query entry) (S (QueryEntry.frequency entry))).

Definition wordCount (query : jsstring) : nat :=
  length (filter truthy (splitSpaces query)).

Definition stopWords : list jsstring :=
  map js ["a"; "an"; "the"; "is"; "are"; "was"; "were"; "for"; "of"; "to"; "in";
          "on"; "with"; "i"; "me"; "my"; "you"; "your"; "it"; "and"; "or"; "but";
          "do"; "does"; "can"; "will"; "what"; "how"; "where"; "when"; "any";
          "have"; "has"]%string.

Definition searchWords (query : jsstring) : list jsstring :=
  filter (fun w => Nat.ltb 2 (length w) && negb (existsb (JsString.eqb w) stopWords))
         (splitSpaces (toLowerCase query)).

(** [(a, b) => b.frequency - a.frequency] and [(a, b) => b[1] - a[1]]: the
    larger count first. *)
Definition byFrequency (a b : QueryEntry.t) : bool :=
  Nat.leb (QueryEntry.frequency b) (QueryEntry.frequency a).

Definition byCount (a b : jsstring * nat) : bool := Nat.leb (snd b) (snd a).

Definition extractQueryAnalysis (transcripts : list Transcript.t) : QueryAnalysis.t :=
  let allQueries := allQueriesOf transcripts in
  let queryFrequency := fold_left countQuery allQueries [] in
  let uniqueQueries := sort byFrequency (JsObject.values queryFrequency) in
  let counts := map wordCount allQueries in
  let singleWordQueries := length (filter (fun c => Nat.eqb c 1) counts) in
  let multiWordQueries := length (filter (fun c => negb (Nat.eqb c 1)) counts) in
  let totalWords := sum counts in
  let wordFrequency := fold_left bump (flat_map searchWords allQueries) [] in
  let topSearchTerms :=
    map (fun e => Term.mk (fst e) (snd e))
        (firstn 20 (sort byCount (JsObject.entries wordFrequency))) in
  QueryAnalysis.mk (length allQueries)
    (Present (length uniqueQueries))
    (firstn 50 uniqueQueries)
    (Present uniqueQueries)
    (QueryLength.mk singleWordQueries multiWordQueries
       (match allQueries with
        | [] => Int 0
        | _ :: _ => Quotient 2 totalWords (length allQueries)
        end))
    topSearchTerms.

(** *** Product insights *)

(** [(transcript.messages || []).find(m => m.role === 'user')?.content || 'unknown']. *)
Definition userQueryOf (transcript : Transcript.t) : jsstring :=
  match find isUser (messagesOf transcript) with
  | Some m => TranscriptParser.orDefault (Message.content m) (js "unknown")
  | None => js "unknown"
  end.

(** The product ids that the inner loops visit, each with the user query of
    its session, in the order of the visits. *)
Definition productVisits (transcript : Transcript.t) : list (jsstring * jsstring) :=
  let userQuery := userQueryOf transcript in
  flat_map (fun msg =>
              match productsOf msg with
              | Some products => map (fun productId => (productId, userQuery))
                                     (flattenProducts products)
              | None => []
              end)
           (messagesOf transcript).

(** The style names visited, trimmed, each with the user query. *)
Definition stylesOf (msg : Message.t) : list jsstring :=
  if isBot msg then
    match Message.results msg with
    | Some r =>
        match Results.styles r with
        | Some styles => map trim (filter (fun style => truthy style && truthy (trim style)) styles)
        | None => []
        end
    | None => []
    end
  else [].

Definition styleVisits (transcript : Transcript.t) : list (jsstring * jsstring) :=
  let userQuery := userQueryOf transcript in
  flat_map (fun msg => map (fun style => (style, userQuery)) (stylesOf msg))
           (messagesOf transcript).

(** [if (!table[k]) table[k] = new Set(); table[k].add(q)]. *)
Definition addQuery (table : JsObject.obj (list jsstring)) (visit : jsstring * jsstring)
  : JsObject.obj (list jsstring) :=
  let (k, q) := visit in
  JsObject.set table k
    (setAdd q (match JsObject.get table k with Some l => l | None => [] end)).

Definition queriesFor (table : JsObject.obj (list jsstring)) (k : jsstring) : list jsstring :=
  match JsObject.get table k with Some l => l | None => [] end.

(** What [extractProductInsights] returns.  The four tables are ordinary
    objects keyed by product ids and style names: for a name that every
    object inherits (such as [toString]) the lookup [productToQueries[id]]
    finds the inherited value and the call of [add] on it throws a
    TypeError.  The function returns on the other inputs, those whose
    product ids and style names are all ordinary keys, and its properties
    are stated for them. *)
Definition extractProductInsights (transcripts : list Transcript.t) : ProductInsights.t :=
  let productEvents := flat_map productVisits transcripts in
  let styleEvents := flat_map styleVisits transcripts in
  let allProductIds := map fst productEvents in
  let productFrequency := fold_left bump allProductIds [] in
  let productToQueries := fold_left addQuery productEvents [] in
  let allStyles := map fst styleEvents in
  let styleFrequency := fold_left bump allStyles [] in
  let styleToQueries := fold_left addQuery styleEvents [] in
  let topRecommendedProducts :=
    map (fun e => ProductEntry.mk (fst e) (snd e) (queriesFor productToQueries (fst e)))
        (firstn 20 (sort byCount (JsObject.entries productFrequency))) in
  let topStyles :=
    map (fun e => StyleEntry.mk (fst e) (snd e)
                    (firstn 5 (queriesFor styleToQueries (fst e))))
        (sort byCount (JsObject.entries styleFrequency)) in
  let uniqueProductIds := setOf allProductIds in
  ProductInsights.mk (length allProductIds) (length uniqueProductIds)
    topRecommendedProducts
    (Present uniqueProductIds)
    (StyleAnalysis.mk (length (JsObject.keys styleFrequency))
       (Present (length allStyles))
       topStyles
       (Present (JsObject.keys styleFrequency))).

(** *** Bot response analysis *)

Import Regex.

(** The patterns of clarifying questions, flag [i]. *)
Definition clarifyingPatterns : list regex :=
  [ seq [str "which"; plus s;
         Cap 1 (alts [str "location"; str "state"; str "city"; str "area"; str "option"])];
    str "would you like me to";
    seq [str "can you "; Cap 1 (alts [str "tell"; str "clarify"; str "specify"])];
    seq [str "what "; Cap 1 (alts [str "type"; str "kind"; str "model"; str "year"])];
    str "are you looking for";
    seq [str "do you "; Cap 1 (alts [str "want"; str "need"; str "prefer"])];
    seq [str "could you "; Cap 1 (alts [str "be more specific"; str "clarify"])] ].

Definition hasResults (transcript : Transcript.t) : bool :=
  existsb (fun msg => isBot msg && match Message.results msg with Some _ => true | None => false end)
          (messagesOf transcript).

(** The sizes of the flattened product lists, one per bot message that
    carries products. *)
Definition productCounts (transcript : Transcript.t) : list nat :=
  flat_map (fun msg =>
              match productsOf msg with
              | Some products => [length (flattenProducts products)]
              | None => []
              end)
           (messagesOf transcript).

Definition clarifyingOf (transcript : Transcript.t) : list Clarifying.t :=
  flat_map (fun msg =>
              if isBot msg then
                match Message.content msg with
                | Some c =>
                    if truthy c && existsb (fun pattern => test true pattern c) clarifyingPatterns
                    then [Clarifying.mk (slice0 200 c) (Transcript.id transcript)]
                    else []
                | None => []
                end
              else [])
           (messagesOf transcript).

Definition extractBotResponseAnalysis (transcripts : list Transcript.t)
  : BotResponseAnalysis.t :=
  let sessionsWithResults := length (filter hasResults transcripts) in
  let sessionsWithoutResults := length (filter (fun t => negb (hasResults t)) transcripts) in
  let counts := flat_map productCounts transcripts in
  let totalProductsInResults := sum counts in
  let resultsCount := length counts in
  let clarifyingQuestions := flat_map clarifyingOf transcripts in
  let totalSessions := length transcripts in
  let share := fun n =>
    Share.mk n (match totalSessions with
                | O => Int 0
                | S _ => Percentage n totalSessions
                end) in
  BotResponseAnalysis.mk (share sessionsWithResults) (share sessionsWithoutResults)
    (match resultsCount with
     | O => Int 0
     | S _ => Quotient 1 totalProductsInResults resultsCount
     end)
    (ClarifyingQuestions.mk (length clarifyingQuestions) (firstn 10 clarifyingQuestions)).

(** *** Time patterns *)

Section WithHostTime.
Context {host : Host}.

Definition dayNames : list jsstring :=
  map js ["Sunday"; "Monday"; "Tuesday"; "Wednesday"; "Thursday"; "Friday";
          "Saturday"]%string.

(** The hour and the day of the first message of a session, when it has a
    truthy timestamp that is a valid date. *)
Definition firstTime (transcript : Transcript.t) : list Z :=
  match messagesOf transcript with
  | firstMessage :: _ => validDate (Message.timestamp firstMessage)
  | [] => []
  end.

(** The first entry with the largest count, if a count is positive. *)
Definition busiest (table : JsObject.obj nat) : option jsstring :=
  fst (fold_left (fun (acc : option jsstring * nat) e =>
                    if Nat.ltb (snd acc) (snd e) then (Some (fst e), snd e) else acc)
                 (JsObject.entries table) (None, 0)).

Definition formatHour (hour : nat) : jsstring :=
  let period := if Nat.leb 12 hour then js "PM" else js "AM" in
  let displayHour := if Nat.eqb (hour mod 12) 0 then 12 else hour mod 12 in
  let nextHour := (hour + 1) mod 24 in
  let nextPeriod := if Nat.leb 12 nextHour then js "PM" else js "AM" in
  let nextDisplayHour := if Nat.eqb (nextHour mod 12) 0 then 12 else nextHour mod 12 in
  ofNat displayHour ++ js ":00 " ++ period ++ js " - "
  ++ ofNat nextDisplayHour ++ js ":00 " ++ nextPeriod.

Definition extractTimePatterns (transcripts : list Transcript.t) : TimePatterns.t :=
  let times := flat_map firstTime transcripts in
  let hourCounts :=
    fold_left bump (map (fun t => ofNat (N.to_nat (getHours t))) times) [] in
  let dayCounts :=
    fold_left bump (map (fun t => nth (N.to_nat (getDay t)) dayNames (js "undefined")) times) [] in
  let busiestHour :=
    match busiest hourCounts with
    | Some hour =>
        match JsObject.decimalValue hour 0 with
        | Some n => Some (formatHour (N.to_nat n))
        | None => None
        end
    | None => None
    end in
  TimePatterns.mk busiestHour (busiest dayCounts) hourCounts (Present dayCounts).

(** *** The snapshot *)

Definition getEmptyMetrics : Metrics.t :=
  Metrics.mk
    (SessionOverview.mk 0 (DateRange.mk None None Missing Missing 0))
    (TurnAnalysis.mk 0 0 (Int 0) 0 Missing Missing)
    (QueryAnalysis.mk 0 Missing [] Missing (QueryLength.mk 0 0 (Int 0)) [])
    (ProductInsights.mk 0 0 [] Missing (StyleAnalysis.mk 0 Missing [] Missing))
    (BotResponseAnalysis.mk (Share.mk 0 (Int 0)) (Share.mk 0 (Int 100)) (Int 0)
       (ClarifyingQuestions.mk 0 []))
    (TimePatterns.mk None None [] Missing)
    (DataQualityNotes.mk 0 (js "rule-based") Missing).

Definition dataLimitations : list jsstring :=
  map js ["No user engagement/click data available";
          "No conversion or purchase data";
          "Cannot determine user satisfaction"]%string.

Definition extractRuleBasedMetrics (transcripts : list Transcript.t) : Metrics.t :=
  match transcripts with
  | [] => getEmptyMetrics
  | _ :: _ =>
      Metrics.mk
        (extractSessionOverview transcripts)
        (extractTurnAnalysis transcripts)
        (extractQueryAnalysis transcripts)
        (extractProductInsights transcripts)
        (extractBotResponseAnalysis transcripts)
        (extractTimePatterns transcripts)
        (DataQualityNotes.mk (length transcripts) (js "rule-based") (Present dataLimitations))
  end.

End WithHostTime.

(** *** User behavior *)

(** The counters of [extractUserBehavior].  The rounded percentages and the
    advisory texts that the function derives from these counters at its end
    are not part of this development. *)
Module QueryComplexity.
Record t : Type := mk {
  singleWord : nat;
  simplePhrase : nat;
  advancedSearch : nat;
  naturalLanguage : nat;
  singleWordExamples : list jsstring;
  simplePhraseExamples : list jsstring;
  advancedSearchExamples : list jsstring;
  naturalLanguageExamples : list jsstring
}.
Definition zero : t := mk 0 0 0 0 [] [] [] [].
Definition total (c : t) : nat :=
  singleWord c + simplePhrase c + advancedSearch c + naturalLanguage c.
End QueryComplexity.

Module RepeatExample.
Record t : Type := mk { query : jsstring; count : nat; sessionId : option jsstring }.
End RepeatExample.

Module RepeatedQueries.
Record t : Type := mk {
  sessionsWithRepeats : nat;
  totalRepeats : nat;
  examples : list RepeatExample.t
}.
Definition zero : t := mk 0 0 [].
End RepeatedQueries.

Module IntentCategories.
Record t : Type := mk {
  productSearch : nat;
  locationQuery : nat;
  priceInquiry : nat;
  supportRequest : nat;
  categoryBrowse : nat;
  specificItem : nat
}.
Definition zero : t := mk 0 0 0 0 0 0.
End IntentCategories.

Module Behavior.
Record t : Type := mk {
  queryComplexity : QueryComplexity.t;
  repeatedQueries : RepeatedQueries.t;
  intentCategories : IntentCategories.t
}.
End Behavior.

(** The pattern matchers, flag [i]. *)
Module Patterns.
Definition L := Helpers.L.

Definition location : regex :=
  seq [WordB;
       Cap 1 (alts [str "near"; str "in"; str "at"; str "around"; str "close to";
                    str "nearby"]);
       plus s;
       Cap 2 (alts [str "me"; str "my"; str "location";
                    seq [plus w; opt (lit ","); star s; star w]])].

Definition price : regex :=
  seq [WordB;
       Cap 1 (alts [str "price"; str "cost"; str "under"; str "below"; str "above";
                    str "budget"; seq [lit "$"; plus d]; str "cheap"; str "expensive";
                    str "affordable"])].

Definition support : regex :=
  seq [WordB;
       Cap 1 (alts [str "help"; str "issue"; str "problem"; str "error";
                    seq [str "can"; opt (lit "'"); str "t"]; str "unable"; str "locked";
                    str "not working"; str "broken"])].

Definition naturalLanguage : regex :=
  seq [WordB;
       Cap 1 (alts [seq [str "i"; opt (lit "'"); str "m"]; str "i am"; str "i want";
                    str "i need"; str "looking for"; str "searching for";
                    str "trying to find"; str "do you have"])].

Definition specificItem : regex :=
  seq [WordB;
       Cap 1 (alts [seq [atLeast 2 (cls [Range (ch "A") (ch "Z")]); star s;
                         opt (cls [L "-"]); star s; plus d];
                    atLeast 4 d; str "model"; str "sku";
                    seq [str "item"; star s; lit "#"]])].
End Patterns.

Definition matches (pattern : regex) (query : jsstring) : bool := test true pattern query.

(** [if (examples.length < 5) examples.push(query)]. *)
Definition keepExample (examples : list jsstring) (query : jsstring) : list jsstring :=
  if Nat.ltb (length examples) 5 then examples ++ [query] else examples.

(** The complexity tier of one query. *)
Definition classifyComplexity (c : QueryComplexity.t) (query : jsstring) : QueryComplexity.t :=
  let wc := wordCount query in
  let '(QueryComplexity.mk sw sp adv nl swE spE advE nlE) := c in
  if Nat.eqb wc 1 then
    QueryComplexity.mk (S sw) sp adv nl (keepExample swE query) spE advE nlE
  else if matches Patterns.naturalLanguage query then
    QueryComplexity.mk sw sp adv (S nl) swE spE advE (keepExample nlE query)
  else if Nat.leb 5 wc || (matches Patterns.location query && matches Patterns.price query) then
    QueryComplexity.mk sw sp (S adv) nl swE spE (keepExample advE query) nlE
  else
    QueryComplexity.mk sw (S sp) adv nl swE (keepExample spE query) advE nlE.

(** The intent counters of one query: three statements in a row. *)
Definition classifyIntent (i : IntentCategories.t) (query : jsstring) : IntentCategories.t :=
  let wc := wordCount query in
  let '(IntentCategories.mk ps lq pi sr cb si) := i in
  (* if (support) supportRequest++ else if (location) locationQuery++ *)
  let '(sr1, lq1) :=
    if matches Patterns.support query then (S sr, lq)
    else if matches Patterns.location query then (sr, S lq)
    else (sr, lq) in
  (* if (price) priceInquiry++ *)
  let pi1 := if matches Patterns.price query then S pi else pi in
  (* if (specificItem) specificItem++
     else if (wordCount <= 2 && !location && !support) categoryBrowse++
     else productSearch++ *)
  if matches Patterns.specificItem query then
    IntentCategories.mk ps lq1 pi1 sr1 cb (S si)
  else if Nat.leb wc 2 && negb (matches Patterns.location query)
          && negb (matches Patterns.support query) then
    IntentCategories.mk ps lq1 pi1 sr1 (S cb) si
  else
    IntentCategories.mk (S ps) lq1 pi1 sr1 cb si.

(** The queries that the loop classifies: the trimmed, non-empty contents of
    the user messages of a session. *)
Definition behaviorQueries (transcript : Transcript.t) : list jsstring :=
  flat_map (fun msg =>
              let query := match Message.content msg with
                           | Some c => trim c
                           | None => []
                           end in
              if truthy query then [query] else [])
           (filter isUser (messagesOf transcript)).

(** The repeated queries of one session. *)
Definition countRepeats (r : RepeatedQueries.t) (transcript : Transcript.t)
  : RepeatedQueries.t :=
  let sessionQueries := map toLowerCase (behaviorQueries transcript) in
  let uniqueInSession := setOf sessionQueries in
  if Nat.ltb (length uniqueInSession) (length sessionQueries) then
    let repeatCount := length sessionQueries - length uniqueInSession in
    let seen := fold_left bump sessionQueries [] in
    let examples :=
      fold_left (fun (ex : list RepeatExample.t) (e : jsstring * nat) =>
                   if Nat.ltb 1 (snd e) && Nat.ltb (length ex) 5
                   then ex ++ [RepeatExample.mk (fst e) (snd e) (Transcript.id transcript)]
                   else ex)
                (JsObject.entries seen) (RepeatedQueries.examples r) in
    RepeatedQueries.mk (S (RepeatedQueries.sessionsWithRepeats r))
                       (RepeatedQueries.totalRepeats r + repeatCount)
                       examples
  else r.

Definition getEmptyUserBehavior : Behavior.t :=
  Behavior.mk QueryComplexity.zero RepeatedQueries.zero IntentCategories.zero.

Definition extractUserBehavior (transcripts : list Transcript.t) : Behavior.t :=
  match transcripts with
  | [] => getEmptyUserBehavior
  | _ :: _ =>
      let queries := flat_map behaviorQueries transcripts in
      Behavior.mk (fold_left classifyComplexity queries QueryComplexity.zero)
                  (fold_left countRepeats transcripts RepeatedQueries.zero)
                  (fold_left classifyIntent queries IntentCategories.zero)
  end.

End Analyzer.

(* ================================================================= *)
(** ** A host for the examples *)

(** ISO 8601 timestamps read and printed in UTC:
    [YYYY-MM-DDTHH:mm], optional seconds and fraction, optional [Z] or
    signed [HH:mm] offset.  Any other text is an invalid date. *)
Module IsoHost.
Local Open Scope Z_scope.

Definition digit (c : jschar) : option Z :=
  if isDigit c then Some (Z.of_N c - 48) else None.

Definition two (a b : jschar) : option Z :=
  match digit a, digit b with
  | Some x, Some y => Some (x * 10 + y)
  | _, _ => None
  end.

Definition isLeap (y : Z) : bool :=
  (Z.eqb (y mod 4) 0 && negb (Z.eqb (y mod 100) 0)) || Z.eqb (y mod 400) 0.

Definition daysInMonth (y m : Z) : Z :=
  if Z.eqb m 2 then (if isLeap y then 29 else 28)
  else if Z.eqb m 4 || Z.eqb m 6 || Z.eqb m 9 || Z.eqb m 11 then 30
  else 31.

(** Days from 1970-01-01 to the given civil date. *)
Definition daysFromCivil (y m d : Z) : Z :=
  let y' := if Z.leb m 2 then y - 1 else y in
  let era := y' / 400 in
  let yoe := y' - era * 400 in
  let mp := (m + 9) mod 12 in
  let doy := (153 * mp + 2) / 5 + d - 1 in
  let doe := yoe * 365 + yoe / 4 - yoe / 100 + doy in
  era * 146097 + doe - 719468.

(** The civil date of a day number. *)
Definition civilFromDays (z : Z) : Z * Z * Z :=
  let z' := z + 719468 in
  let era := z' / 146097 in
  let doe := z' - era * 146097 in
  let yoe := (doe - doe / 1460 + doe / 36524 - doe / 146096) / 365 in
  let doy := doe - (365 * yoe + yoe / 4 - yoe / 100) in
  let mp := (5 * doy + 2) / 153 in
  let d := doy - (153 * mp + 2) / 5 + 1 in
  let m := if Z.ltb mp 10 then mp + 3 else mp - 9 in
  let y := yoe + era * 400 in
  ((if Z.leb m 2 then y + 1 else y), m, d).

(** Milliseconds of a fraction: its first three digits. *)
Definition millis (ds : jsstring) : Z :=
  match map digit (firstn 3 ds) with
  | [Some a] => a * 100
  | [Some a; Some b] => a * 100 + b * 10
  | [Some a; Some b; Some c] => a * 100 + b * 10 + c
  | _ => 0
  end.

(** The offset in minutes east of UTC; nothing left is UTC. *)
Definition zone (t : jsstring) : option Z :=
  match t with
  | [] => Some 0
  | [90%N] => Some 0
  | [sg; h1; h2; 58%N; m1; m2] =>
      match two h1 h2, two m1 m2 with
      | Some h, Some m =>
          if Z.leb h 23 && Z.leb m 59 then
            if N.eqb sg 43 then Some (h * 60 + m)
            else if N.eqb sg 45 then Some (- (h * 60 + m))
            else None
          else None
      | _, _ => None
      end
  | _ => None
  end.

(** Seconds, fraction and offset after [HH:mm]. *)
Definition secondsAndZone (t : jsstring) : option (Z * Z * Z) :=
  match t with
  | 58%N :: s1 :: s2 :: tl =>
      match two s1 s2 with
      | Some sec =>
          if Z.leb sec 59 then
            match tl with
            | 46%N :: c :: tl' =>
                if isDigit c then
                  option_map (fun z => (sec, millis (c :: tl'), z))
                             (zone (dropWhile isDigit tl'))
                else None
            | _ => option_map (fun z => (sec, 0, z)) (zone tl)
            end
          else None
      | None => None
      end
  | _ => option_map (fun z => (0, 0, z)) (zone t)
  end.

Definition parse (t : jsstring) : option Z :=
  match t with
  | y1 :: y2 :: y3 :: y4 :: 45%N :: m1 :: m2 :: 45%N :: d1 :: d2 :: 84%N
      :: h1 :: h2 :: 58%N :: n1 :: n2 :: tl =>
      match two y1 y2, two y3 y4, two m1 m2, two d1 d2, two h1 h2, two n1 n2 with
      | Some yh, Some yl, Some mo, Some dd, Some hh, Some mi =>
          let y := yh * 100 + yl in
          if Z.leb 1 mo && Z.leb mo 12 && Z.leb 1 dd && Z.leb dd (daysInMonth y mo)
             && Z.leb hh 23 && Z.leb mi 59 then
            match secondsAndZone tl with
            | Some (sec, ms, off) =>
                Some ((((daysFromCivil y mo dd * 24 + hh) * 60 + mi - off) * 60 + sec) * 1000 + ms)
            | None => None
            end
          else None
      | _, _, _, _, _, _ => None
      end
  | _ => None
  end.

Definition pad (width : nat) (n : Z) : jsstring :=
  let ds := ofNat (Z.to_nat n) in
  repeat 48%N (width - length ds) ++ ds.

Definition iso (t : Z) : jsstring :=
  let day := t / 86400000 in
  let ms := t mod 86400000 in
  let '(y, m, dd) := civilFromDays day in
  pad 4 y ++ js "-" ++ pad 2 m ++ js "-" ++ pad 2 dd ++ js "T"
  ++ pad 2 (ms / 3600000) ++ js ":" ++ pad 2 (ms / 60000 mod 60) ++ js ":"
  ++ pad 2 (ms / 1000 mod 60) ++ js "." ++ pad 3 (ms mod 1000) ++ js "Z".

Definition monthName (m : Z) : jsstring :=
  nth (Z.to_nat (m - 1))
      (map js ["Jan"; "Feb"; "Mar"; "Apr"; "May"; "Jun";
               "Jul"; "Aug"; "Sep"; "Oct"; "Nov"; "Dec"]%string) [].

(** The en-US rendering with a short month, numeric day and year, and
    two-digit hour and minute. *)
Definition locale (t : Z) : jsstring :=
  let day := t / 86400000 in
  let ms := t mod 86400000 in
  let '(y, m, dd) := civilFromDays day in
  let h := ms / 3600000 in
  let h12 := if Z.eqb (h mod 12) 0 then 12 else h mod 12 in
  monthName m ++ js " " ++ pad 1 dd ++ js ", " ++ pad 1 y ++ js ", "
  ++ pad 2 h12 ++ js ":" ++ pad 2 (ms / 60000 mod 60)
  ++ (if Z.ltb h 12 then js " AM" else js " PM").

Definition host : Host := {|
  dateParse := parse;
  toISOString := iso;
  toLocaleDateString := locale;
  getHours := fun t => Z.to_N (t mod 86400000 / 3600000);
  getDay := fun t => Z.to_N ((t / 86400000 + 4) mod 7);
  generateId := fun n => js "1767935350591-" ++ ofNat n
|}.

End IsoHost.

(* ================================================================= *)
(** ** Sample inputs *)

Module Example.

Definition stamp : jsstring := js "2026-01-09T05:09:15.201538+00:00".

Definition userLine : jsstring := js "[2026-01-09T05:09:11.000000+00:00] USER: find shoes".
Definition botLine : jsstring := js "[2026-01-09T05:09:15.201538+00:00] AI: Here are some shoes".
Definition resultsLine : jsstring :=
  js "[2026-01-09T05:09:15.201538+00:00] RESULTS: STYLES: ['Bold']; PRODUCTS [['p1','p2']]".

(** A USER line followed by a separator line and a line of text. *)
Definition separated : jsstring :=
  js "[2026-01-09T05:09:11.000000+00:00] USER: hello" ++ Helpers.newline
  :: js "==========" ++ Helpers.newline :: js "world".

(** File A of the end-to-end scenario: a timestamped log with two
    conversations, three user turns and one RESULTS line. *)
Definition fileA : jsstring :=
  join [Helpers.newline]
    (map js ["[2026-01-09T05:09:10.591551+00:00] CONVERSATION STARTED";
             "[2026-01-09T05:09:11.000000+00:00] USER: find shoes";
             "[2026-01-09T05:09:15.201538+00:00] AI: Here are some shoes";
             "[2026-01-09T05:09:15.201538+00:00] RESULTS: STYLES: ['Bold']; PRODUCTS [['p1','p2']]";
             "[2026-01-09T05:10:00.000000+00:00] USER: red ones";
             "============================================================";
             "[2026-01-09T06:00:00.000000+00:00] CONVERSATION STARTED";
             "[2026-01-09T06:00:05.000000+00:00] USER: track my order";
             "[2026-01-09T06:00:09.000000+00:00] AI: Sure"]%string).

(** File B: loose text with one pair. *)
Definition fileB : jsstring := join [Helpers.newline] (map js ["User: hello"; "Bot: hi"]%string).

Definition files : list TranscriptParser.file :=
  [(js "session_0a1b-2c3d_transcript.txt", fileA); (js "notes.txt", fileB)].

(** What [parseTranscriptContent] returns for the JSON document
    [[{"id":"s1","messages":[{"sender":"user","text":"please escalate"}]}]],
    as the result of parsing the file [chat.json]. *)
Definition senderText : TranscriptParser.ParseResult.t :=
  TranscriptParser.ParseResult.mk (js "chat.json")
    [Transcript.mk (Some (js "s1")) None
       (Some [Message.mk None None (Some (js "user")) None (Some (js "please escalate"))
                         None None None])
       Metadata.empty]
    None.

(** A session whose bot message carries the products
    [[["a", 1, null, "a"], "b", {"sku": "c"}, [[true, ""]]]]. *)
Definition mixedProducts : json :=
  JArr [JArr [JStr (js "a"); JNum (js "1"); JNull; JStr (js "a")];
        JStr (js "b");
        JObj [(js "sku", JStr (js "c"))];
        JArr [JArr [JBool true; JStr []]]].

Definition recommending : Transcript.t :=
  Transcript.mk (Some (js "s1")) (Some (js "log.txt"))
    (Some [Message.plain (js "user") (js "find shoes") None;
           Message.withResults (Message.plain (js "bot") (js "Here are some shoes") None)
             (Results.mk None (Some mixedProducts) None)])
    Metadata.empty.

(** A session of user messages with the given contents. *)
Definition asked (queries : list string) : Transcript.t :=
  Transcript.mk (Some (js "s1")) (Some (js "log.txt"))
    (Some (map (fun q => Message.plain (js "user") (js q) None) queries))
    Metadata.empty.

End Example.

(* ================================================================= *)
(** ** Notions of the specification *)

(** Definitions that follow the words of the specification, to be compared
    with the code. *)
Module Spec.

(** The leaves of a products value, depth first: a value that is not an
    array is a leaf, an array contributes the leaves of its elements. *)
Fixpoint leaves (v : json) : list json :=
  match v with
  | JArr items => flat_map leaves items
  | _ => [v]
  end.

(** The leaves that are non-empty strings. *)
Definition nonEmptyString (v : json) : list jsstring :=
  match v with
  | JStr t => match t with [] => [] | _ :: _ => [t] end
  | _ => []
  end.

Definition stringLeaves (v : json) : list jsstring := flat_map nonEmptyString (leaves v).

(** A flat list of product identifiers as a JSON array. *)
Definition flatArray (ids : list jsstring) : json := JArr (map JStr ids).

(** The product identifiers recommended over a list of sessions: the string
    leaves of the products of every bot message that carries some. *)
Definition recommendedBy (msg : Message.t) : list jsstring :=
  match Analyzer.productsOf msg with
  | Some v => stringLeaves v
  | None => []
  end.

Definition recommended (transcripts : list Transcript.t) : list jsstring :=
  flat_map (fun t => flat_map recommendedBy (Analyzer.messagesOf t)) transcripts.

(** The number of bot messages that carry products. *)
Definition resultEvents (transcripts : list Transcript.t) : nat :=
  length (flat_map (fun t => filter (fun msg => match Analyzer.productsOf msg with
                                                | Some _ => true
                                                | None => false
                                                end)
                                    (Analyzer.messagesOf t))
                   transcripts).

(** The end-to-end run: the files are parsed, the sessions normalized and
    the metrics extracted. *)
Definition analyze {host : Host} (files : list TranscriptParser.file) : option Metrics.t :=
  option_map (fun parsed => Analyzer.extractRuleBasedMetrics
                              (TranscriptParser.normalizeTranscripts parsed))
             (TranscriptParser.parseUploadedFiles files).

(** Normalizing again the sessions that normalizing gave, as the sessions
    of the same file. *)
Definition renormalize {host : Host} (r : TranscriptParser.ParseResult.t)
  : list Transcript.t :=
  TranscriptParser.normalizeTranscripts
    [TranscriptParser.ParseResult.mk (TranscriptParser.ParseResult.filename r)
       (TranscriptParser.normalizeTranscripts [r]) None].

(** A message spelled with [role] and [content] only. *)
Definition plainSpelling (msg : Message.t) : Prop :=
  Message.sender msg = None /\ Message.text msg = None /\ Message.message msg = None.

(** A session with an id whose messages are so spelled. *)
Definition plainSession (t : Transcript.t) : Prop :=
  truthyStr (Transcript.id t) = true /\ Forall plainSpelling (Analyzer.messagesOf t).

(** The four figures of the end-to-end scenario. *)
Definition figures (m : Metrics.t) : nat * nat * nat * nat :=
  (Metrics.SessionOverview.totalSessions (Metrics.sessionOverview m),
   Metrics.QueryAnalysis.totalQueries (Metrics.queryAnalysis m),
   Metrics.ProductInsights.uniqueProductsRecommended (Metrics.productInsights m),
   Metrics.StyleAnalysis.totalStyles
     (Metrics.ProductInsights.styleAnalysis (Metrics.productInsights m))).

(** The properties that only the snapshot of a non-empty session list has. *)
Definition presentOnlyWhenNonEmpty (m : Metrics.t) : list bool :=
  let present {A} (o : Metrics.optional A) : bool :=
    match o with Metrics.Present _ => true | Metrics.Missing => false end in
  [ present (Metrics.TurnAnalysis.totalUserMessages (Metrics.turnAnalysis m));
    present (Metrics.TurnAnalysis.totalBotMessages (Metrics.turnAnalysis m));
    present (Metrics.QueryAnalysis.uniqueQueryCount (Metrics.queryAnalysis m));
    present (Metrics.QueryAnalysis.allUniqueQueries (Metrics.queryAnalysis m));
    present (Metrics.ProductInsights.allProductIds (Metrics.productInsights m));
    present (Metrics.StyleAnalysis.totalStyleMentions
               (Metrics.ProductInsights.styleAnalysis (Metrics.productInsights m)));
    present (Metrics.StyleAnalysis.allStyles
               (Metrics.ProductInsights.styleAnalysis (Metrics.productInsights m)));
    present (Metrics.TimePatterns.dailyDistribution (Metrics.timePatterns m));
    present (Metrics.DataQualityNotes.dataLimitations (Metrics.dataQualityNotes m)) ].

(** A message carries results only if it is a bot message. *)
Definition resultsOnBot (msg : Message.t) : Prop :=
  Message.results msg <> None -> Message.roleIs msg (js "bot") = true.

(** The invariant of the parsing loop: every message pushed so far carries
    results only if it is a bot message, and the open message carries none. *)
Definition loopInvariant (st : Helpers.loop) : Prop :=
  Forall resultsOnBot (Helpers.messages st)
  /\ forall c, Helpers.currentMessage st = Some c -> Message.results c = None.

(** The intent signals of a query. *)
Definition isSupport (q : jsstring) : bool := Analyzer.matches Analyzer.Patterns.support q.
Definition isLocation (q : jsstring) : bool := Analyzer.matches Analyzer.Patterns.location q.
Definition isPrice (q : jsstring) : bool := Analyzer.matches Analyzer.Patterns.price q.
Definition isSpecific (q : jsstring) : bool :=
  Analyzer.matches Analyzer.Patterns.specificItem q.

(** The bucket among specificItem, categoryBrowse and productSearch. *)
Definition isBrowse (q : jsstring) : bool :=
  negb (isSpecific q) && Nat.leb (Analyzer.wordCount q) 2
  && negb (isLocation q) && negb (isSupport q).

Definition isSearch (q : jsstring) : bool := negb (isSpecific q) && negb (isBrowse q).

Definition count (p : jsstring -> bool) (qs : list jsstring) : nat := length (filter p qs).

(** The sum of the five counters that the specification calls exclusive. *)
Definition fiveBuckets (i : Analyzer.IntentCategories.t) : nat :=
  Analyzer.IntentCategories.supportRequest i + Analyzer.IntentCategories.locationQuery i
  + Analyzer.IntentCategories.specificItem i + Analyzer.IntentCategories.categoryBrowse i
  + Analyzer.IntentCategories.productSearch i.

(** Query deduplication in the words of the specification: one entry per
    distinct lower-cased form, in first-seen order; its display string is
    the first query with that form and its frequency the number of queries
    with that form. *)
Definition occurrences (k : jsstring) (qs : list jsstring) : list jsstring :=
  filter (fun q => JsString.eqb (toLowerCase q) k) qs.

Definition distinctForms (qs : list jsstring) : list jsstring :=
  Analyzer.setOf (map toLowerCase qs).

Definition entryFor (qs : list jsstring) (k : jsstring) : jsstring * Metrics.QueryEntry.t :=
  (k, Metrics.QueryEntry.mk (hd [] (occurrences k qs)) (length (occurrences k qs))).

Definition tally (qs : list jsstring) : JsObject.obj Metrics.QueryEntry.t :=
  map (entryFor qs) (distinctForms qs).


(** Lines of a timestamped log.  A line is skipped when, once trimmed, it
    is blank or a separator; it is a continuation line when it is not
    skipped and does not match the timestamp-prefixed grammar. *)
Definition skipped (line : jsstring) : bool :=
  Regex.test false Helpers.separatorPattern (trim line) || negb (truthy (trim line)).

Definition continuation (line : jsstring) : Prop :=
  skipped line = false /\ Regex.exec true Helpers.linePattern (trim line) = None.

End Spec.

(* ================================================================= *)
(** ** Tables and sorted lists *)

Module Tables.

(** The number of occurrences of a key in a list of keys. *)
Definition tallied (l : list jsstring) (k : jsstring) : nat :=
  length (filter (JsString.eqb k) l).

(** The property names that every object inherits.  A table that is keyed
    by text of the input behaves as a table on the other keys. *)
Definition inheritedNames : list jsstring :=
  map js ["constructor"; "__proto__"; "hasOwnProperty"; "isPrototypeOf";
          "propertyIsEnumerable"; "toLocaleString"; "toString"; "valueOf";
          "__defineGetter__"; "__defineSetter__"; "__lookupGetter__";
          "__lookupSetter__"]%string.

Definition ordinaryKey (k : jsstring) : bool :=
  negb (existsb (JsString.eqb k) inheritedNames).

(** The enumeration of a table whose keys were created in a given order:
    the keys that are array indices come first, in ascending numeric order,
    and the other keys follow in the order of their creation. *)
Definition isIndex (k : jsstring) : bool :=
  match JsObject.arrayIndex k with Some _ => true | None => false end.

Definition enumerates (created enumerated : list jsstring) : Prop :=
  exists indices : list jsstring,
    enumerated = indices ++ filter (fun k => negb (isIndex k)) created
    /\ Permutation indices (filter isIndex created)
    /\ StronglySorted (fun a b => forall x y, JsObject.arrayIndex a = Some x ->
                                             JsObject.arrayIndex b = Some y -> (x <= y)%N)
                      indices.

(** The place of a name in a list of names, counting from 0; a name that
    is not in the list, or a missing name, has the place after the last. *)
Fixpoint positionIn (names : list jsstring) (x : jsstring) : nat :=
  match names with
  | [] => 0
  | name :: tl => if JsString.eqb name x then 0 else S (positionIn tl x)
  end.

Definition position (names : list jsstring) (name : option jsstring) : Z :=
  match name with
  | Some x => Z.of_nat (positionIn names x)
  | None => Z.of_nat (length names)
  end.

(** The items of an array with a given key, in the order of the array. *)
Definition groupOf {A} (keyOf : A -> jsstring) (array : list A) (k : jsstring) : list A :=
  filter (fun item => JsString.eqb (keyOf item) k) array.

(** A list sorted by a key with a stable sort: the same elements, in
    ascending order of the key, those of equal key in their former order. *)
Definition stablySorted {A} (key : A -> Z) (input output : list A) : Prop :=
  Permutation output input
  /\ StronglySorted (fun a b => (key a <= key b)%Z) output
  /\ forall v, filter (fun a => Z.eqb (key a) v) output
               = filter (fun a => Z.eqb (key a) v) input.

End Tables.
Import Tables.

(* ================================================================= *)
(** ** [src/utils/helpers.js]: the small utilities *)

Module Utilities.

(** [truncateText(text, maxLength)] on a string. *)
Definition truncateText (text : jsstring) (maxLength : nat) : jsstring :=
  if negb (truthy text) || Nat.leb (length text) maxLength then text
  else slice0 maxLength text ++ js "...".

(** [Math.ceil(a / b)] on natural numbers, for a positive [b]. *)
Definition ceilQuotient (a b : nat) : nat :=
  if Nat.eqb (a mod b) 0 then a / b else S (a / b).

Definition estimateTokens (text : jsstring) : nat :=
  if negb (truthy text) then 0 else ceilQuotient (length text) 4.

(** [countOccurrences(arr)] on an array of strings:
    [acc[val] = (acc[val] || 0) + 1]. *)
Definition countOccurrences (arr : list jsstring) : JsObject.obj nat :=
  fold_left Analyzer.bump arr [].

Section GroupBy.
Variable A : Type.
(** The property name that [item[key]] gives. *)
Variable keyOf : A -> jsstring.

(** [if (!result[group]) result[group] = []; result[group].push(item)]. *)
Definition addToGroup (result : JsObject.obj (list A)) (item : A) : JsObject.obj (list A) :=
  let group := keyOf item in
  JsObject.set result group
    (match JsObject.get result group with Some l => l | None => [] end ++ [item]).

Definition groupBy (array : list A) : JsObject.obj (list A) :=
  fold_left addToGroup array [].
End GroupBy.

(** [retry(fn, maxRetries, baseDelay)].  [fn i] is how the call number [i]
    of [fn] ends, counting from 0: with a value or with a thrown error.  A
    run is how [retry] ends, the number of calls of [fn] it made and the
    delays it slept, in order. *)
Section Retry.
Variables A E : Type.
Variable fn : nat -> A + E.
Variable maxRetries : nat.
Variable baseDelay : N.

(** [Returned None] is the [undefined] that the function returns when the
    loop ends. *)
Inductive ending : Type :=
| Returned (a : option A)
| Thrown (e : E).

Record run : Type := Run { outcome : ending; calls : nat; sleeps : list N }.

(** The loop from the round [i], with [remaining] rounds to go. *)
Fixpoint retryFrom (remaining i : nat) : run :=
  match remaining with
  | O => Run (Returned None) 0 []
  | S r =>
      match fn i with
      | inl a => Run (Returned (Some a)) 1 []
      | inr error =>
          if Nat.eqb i (maxRetries - 1) then Run (Thrown error) 1 []
          else
            let delay := (baseDelay * 2 ^ N.of_nat i)%N in
            let rest := retryFrom r (S i) in
            Run (outcome rest) (S (calls rest)) (delay :: sleeps rest)
      end
  end.

Definition retry : run := retryFrom maxRetries 0.
End Retry.

(** The delays of [k] failed rounds in a row, from the round [i] on. *)
Definition backoff (baseDelay : N) (i k : nat) : list N :=
  map (fun j => (baseDelay * 2 ^ N.of_nat j)%N) (seq i k).

End Utilities.

(* ================================================================= *)
(** ** [src/services/parser/transcriptParser.js]: the statistics *)

Module Stats.

(** The rounded figures are kept as the expressions that [toFixed(1)]
    rounds.  A sum is [None] when it is [NaN], which is what adding an
    absent turn count gives. *)
Inductive figure : Type :=
| Zero
| Fixed (a : option nat) (b : nat)      (* (a / b).toFixed(1) *)
| FixedPercent (a b : nat).             (* ((a / b) * 100).toFixed(1) *)

Record t : Type := mk {
  totalConversations : nat;
  totalMessages : nat;
  avgMessagesPerConversation : figure;
  escalationRate : figure;
  avgUserTurns : figure;
  avgBotTurns : figure
}.

(** [sum + x] where [x] may be absent. *)
Definition plus (sum : option nat) (x : option nat) : option nat :=
  match sum, x with
  | Some s, Some n => Some (s + n)
  | _, _ => None
  end.

(** [sum + t.messages.length]: reading the length of absent messages throws. *)
Definition plusMessages (sum : completion nat) (t : Transcript.t) : completion nat :=
  s <- sum ;;
  match Transcript.messages t with
  | Some l => Returns (s + length l)
  | None => Throws TypeError
  end.

Definition escalated (t : Transcript.t) : bool :=
  match Metadata.hasEscalation (Transcript.metadata t) with
  | Some b => b
  | None => false
  end.

Definition getTranscriptStats (transcripts : list Transcript.t) : completion t :=
  match transcripts with
  | [] => Returns (mk 0 0 Zero Zero Zero Zero)
  | _ :: _ =>
      totalMessages <- fold_left plusMessages transcripts (Returns 0) ;;
      let escalations := length (filter escalated transcripts) in
      let userTurns :=
        fold_left (fun sum t => plus sum (Metadata.userTurns (Transcript.metadata t)))
                  transcripts (Some 0) in
      let botTurns :=
        fold_left (fun sum t => plus sum (Metadata.botTurns (Transcript.metadata t)))
                  transcripts (Some 0) in
      Returns (mk (length transcripts) totalMessages
                  (Fixed (Some totalMessages) (length transcripts))
                  (FixedPercent escalations (length transcripts))
                  (Fixed userTurns (length transcripts))
                  (Fixed botTurns (length transcripts)))
  end.

End Stats.

(* ================================================================= *)
(** ** [src/services/analyzer/analysisEngine.js]: the recommendation lists *)

Module Recommendations.

(** A recommendation: the four properties that the two functions read.  A
    priority is a whole number. *)
Record t : Type := mk {
  category : option jsstring;
  priority : option Z;
  impact : option jsstring;
  effort : option jsstring
}.

Definition categories : JsObject.obj (list t) :=
  [(js "prompt", []); (js "training", []); (js "knowledge", []); (js "flow", [])].

(** [rec.category?.toLowerCase() || 'other']. *)
Definition categoryOf (rec : t) : jsstring :=
  TranscriptParser.orDefault (option_map toLowerCase (category rec)) (js "other").

(** One round of the loop.  A name that the table only inherits is truthy
    and has no [push]: the call throws. *)
Definition place (table : completion (JsObject.obj (list t))) (rec : t)
  : completion (JsObject.obj (list t)) :=
  categories <- table ;;
  let category := categoryOf rec in
  match JsObject.get categories category with
  | Some bucket => Returns (JsObject.set categories category (bucket ++ [rec]))
  | None => if JsObject.plainKey category then Returns categories else Throws TypeError
  end.

Definition getRecommendationsByCategory (recommendations : list t)
  : completion (JsObject.obj (list t)) :=
  fold_left place recommendations (Returns categories).

(** [rec.priority || 999]. *)
Definition priorityOf (rec : t) : Z :=
  match priority rec with
  | Some p => if Z.eqb p 0 then 999%Z else p
  | None => 999%Z
  end.

Definition impactOrder : JsObject.obj Z :=
  [(js "high", 0%Z); (js "medium", 1%Z); (js "low", 2%Z)].
Definition effortOrder : JsObject.obj Z :=
  [(js "low", 0%Z); (js "medium", 1%Z); (js "high", 2%Z)].

(** [order[name] ?? 3], for a name that is not an inherited one; an absent
    name reads the key [undefined]. *)
Definition rank (order : JsObject.obj Z) (name : option jsstring) : Z :=
  match JsObject.get order (match name with Some x => x | None => js "undefined" end) with
  | Some n => n
  | None => 3%Z
  end.

(** [(a, b) => key(a) - key(b)]. *)
Definition ascending (key : t -> Z) (a b : t) : bool := Z.leb (key a) (key b).

(** The four lists that hold the recommendations of a list, by category. *)
Definition bucketsOf (recs : list t) : JsObject.obj (list t) :=
  map (fun name => (name, groupOf categoryOf recs name)) (map fst categories).

Definition sortRecommendations (recommendations : list t) (sortBy : jsstring) : list t :=
  if JsString.eqb sortBy (js "priority") then
    Analyzer.sort (ascending priorityOf) recommendations
  else if JsString.eqb sortBy (js "impact") then
    Analyzer.sort (ascending (fun rec => rank impactOrder (impact rec))) recommendations
  else if JsString.eqb sortBy (js "effort") then
    Analyzer.sort (ascending (fun rec => rank effortOrder (effort rec))) recommendations
  else recommendations.

End Recommendations.

(* ================================================================= *)
(** ** Notions used to state the further properties *)

Module Lines.

(** *** Lines of a timestamped log *)

(** The capture groups of a line of the timestamp-prefixed grammar. *)
Definition grammar (line : jsstring) : option Regex.mstate :=
  Regex.exec true Helpers.linePattern (trim line).

(** The timestamps of the lines of the grammar, in order. *)
Definition stampOf (line : jsstring) : list jsstring :=
  match grammar line with
  | Some m => [Helpers.groupText 1 m]
  | None => []
  end.

Definition stamps (lines : list jsstring) : list jsstring := flat_map stampOf lines.

(** A line of the grammar with the role USER or AI. *)
Definition opensMessage (line : jsstring) : bool :=
  match grammar line with
  | Some m =>
      let role := toUpperCase (Helpers.groupText 2 m) in
      negb (JsString.eqb role (js "CONVERSATION STARTED"))
      && negb (JsString.eqb role (js "RESULTS"))
  | None => false
  end.

(** A line of the grammar with the role RESULTS. *)
Definition carriesResults (line : jsstring) : bool :=
  match grammar line with
  | Some m => JsString.eqb (toUpperCase (Helpers.groupText 2 m)) (js "RESULTS")
  | None => false
  end.

(** A message with its results replaced. *)
Definition carrying (x : Message.t) (r : option Results.t) : Message.t :=
  Message.mk (Message.id x) (Message.role x) (Message.sender x) (Message.content x)
             (Message.text x) (Message.message x) (Message.timestamp x) r.

(** The message that a USER or AI line opens: a user message for the role
    USER and a bot message otherwise, with the timestamp of the line, a
    content that begins with the trimmed text of the line, and no id. *)
Definition opened (line : jsstring) (msg : Message.t) : Prop :=
  exists m,
    grammar line = Some m
    /\ Message.role msg
       = Some (if JsString.eqb (toUpperCase (Helpers.groupText 2 m)) (js "USER")
               then js "user" else js "bot")
    /\ Message.timestamp msg = Some (Helpers.groupText 1 m)
    /\ (exists rest, Message.content msg = Some (trim (Helpers.groupText 3 m) ++ rest))
    /\ Message.id msg = None
    /\ Spec.plainSpelling msg.

(** *** Lines of loose text *)

Definition found (pattern : Regex.regex) (line : jsstring) : bool :=
  match Regex.exec true pattern line with Some _ => true | None => false end.

(** A line that starts a turn: a user or bot prefix, and no session prefix. *)
Definition startsTurn (line : jsstring) : bool :=
  negb (found Helpers.sessionPattern line)
  && (found Helpers.userPattern line || found Helpers.botPattern line).

(** The lines that the loop of the simple parser visits. *)
Definition visible (content : jsstring) : list jsstring :=
  filter (fun line => truthy (trim line)) (split Helpers.newline content).

End Lines.

Module Tiers.

(** The complexity tier of a query, as four exclusive tests. *)
Definition isSingleWord (q : jsstring) : bool := Nat.eqb (Analyzer.wordCount q) 1.

Definition isNatural (q : jsstring) : bool :=
  negb (isSingleWord q) && Analyzer.matches Analyzer.Patterns.naturalLanguage q.

Definition isAdvanced (q : jsstring) : bool :=
  negb (isSingleWord q) && negb (isNatural q)
  && (Nat.leb 5 (Analyzer.wordCount q)
      || (Analyzer.matches Analyzer.Patterns.location q
          && Analyzer.matches Analyzer.Patterns.price q)).

Definition isSimple (q : jsstring) : bool :=
  negb (isSingleWord q) && negb (isNatural q) && negb (isAdvanced q).

End Tiers.

Module Repeats.

(** The lower-cased queries of a session and the number of them that repeat
    an earlier one. *)
Definition queries (t : Transcript.t) : list jsstring :=
  map toLowerCase (Analyzer.behaviorQueries t).

Definition repeats (t : Transcript.t) : nat :=
  length (queries t) - length (Analyzer.setOf (queries t)).

(** What the loop keeps true of the list of examples. *)
Definition fewExamples (ex : list Analyzer.RepeatExample.t) : Prop :=
  length ex <= 5 /\ Forall (fun e => 2 <= Analyzer.RepeatExample.count e) ex.

End Repeats.

Module Decoding.

(** The stack of the JSON automaton holds an array at its bottom: the
    document began with an opening bracket. *)
Definition arrayAtBottom (stack : list frame) : Prop :=
  exists upper items, stack = upper ++ [FArr items].

(** The states the automaton goes through on such a document. *)
Definition readingArray (p : pstate) (stack : list frame) : Prop :=
  (arrayAtBottom stack /\ forall v, p <> PDone v)
  \/ (stack = [] /\ exists items, p = PDone (JArr items)).

End Decoding.

Module Dates.

(** The valid dates among a list of timestamps. *)
Definition valid {host : Host} (stamps : list jsstring) : list Z :=
  flat_map (fun s => match dateParse s with Some v => [v] | None => [] end) stamps.

(** The dates that are valid among a list of dates. *)
Definition present (ds : list (option Z)) : list Z :=
  flat_map (fun d => match d with Some v => [v] | None => [] end) ds.

(** A message as the timestamped parser builds it: a user or bot message
    with a content and a timestamp, spelled with [role] and [content], and
    without an id. *)
Definition timestampedMessage (msg : Message.t) : Prop :=
  (Message.role msg = Some (js "user") \/ Message.role msg = Some (js "bot"))
  /\ Message.content msg <> None
  /\ Message.timestamp msg <> None
  /\ Message.id msg = None
  /\ Spec.plainSpelling msg.

End Dates.

Module Loose.

(** A message of a turn: a user or a bot message. *)
Definition turnMessage (msg : Message.t) : Prop :=
  Message.role msg = Some (js "user") \/ Message.role msg = Some (js "bot").

(** What the loop of the simple parser keeps true after [n] lines that
    start a turn: the closed conversations and the open one hold [n]
    messages of turns between them, and no closed conversation is empty. *)
Definition invariant (n : nat) (st : list Transcript.t * Helpers.conversation) : Prop :=
  list_sum (map (fun t => length (Analyzer.messagesOf t)) (fst st)) + length (snd (snd st)) = n
  /\ Forall (fun t => exists m ms, Transcript.messages t = Some (m :: ms)) (fst st)
  /\ Forall (fun t => Forall turnMessage (Analyzer.messagesOf t)) (fst st)
  /\ Forall turnMessage (snd (snd st)).

(** The session that holds a whole file as one message. *)
Definition wholeFile (content filename : jsstring) : Transcript.t :=
  Transcript.mk (Some filename) None
    (Some [Message.plain (js "unknown") content None]) Metadata.empty.

End Loose.

Module Normal.

(** A message in normal form: an id, one of the three roles, a content,
    and none of the alternative spellings. *)
Definition normalMessage (msg : Message.t) : Prop :=
  truthyStr (Message.id msg) = true
  /\ (Message.role msg = Some (js "user") \/ Message.role msg = Some (js "bot")
      \/ Message.role msg = Some (js "unknown"))
  /\ Message.content msg <> None
  /\ Spec.plainSpelling msg.

(** A session in normal form: its messages are, it names its source file,
    and its metadata counts are those of its messages. *)
Definition normalSession (t : Transcript.t) : Prop :=
  exists (msgs : list Message.t) (userTurns botTurns : nat),
    Transcript.messages t = Some msgs
    /\ Forall normalMessage msgs
    /\ Transcript.sourceFile t <> None
    /\ Metadata.messageCount (Transcript.metadata t) = Some (length msgs)
    /\ Metadata.userTurns (Transcript.metadata t) = Some userTurns
    /\ Metadata.botTurns (Transcript.metadata t) = Some botTurns
    /\ userTurns + botTurns <= length msgs
    /\ Metadata.hasEscalation (Transcript.metadata t) <> None
    /\ Metadata.hasOrder (Transcript.metadata t) <> None.

(** The turn counts of the metadata are those of the messages. *)
Definition turnsAgree (t : Transcript.t) : Prop :=
  Metadata.userTurns (Transcript.metadata t) = Some (Analyzer.userTurnCount t)
  /\ Metadata.botTurns (Transcript.metadata t) = Some (Analyzer.botTurnCount t).

(** The results of the files that were parsed without an error. *)
Definition parsedFine (results : list TranscriptParser.ParseResult.t)
  : list TranscriptParser.ParseResult.t :=
  filter (fun r => match TranscriptParser.ParseResult.error r with
                   | Some _ => false
                   | None => true
                   end) results.

(** The sessions of these results, each with the name of its file, in the
    order of the files and, within a file, of its sessions. *)
Definition parsedSessions (results : list TranscriptParser.ParseResult.t)
  : list (jsstring * Transcript.t) :=
  flat_map (fun r => map (fun t => (TranscriptParser.ParseResult.filename r, t))
                         (TranscriptParser.ParseResult.transcripts r))
           (parsedFine results).

(** The normal form of a session of a file: the file is its source file,
    its id is the id of the session when that has one, its messages are
    the normalized messages of the session, its message count is their
    number, and the date, the language, the date range and the format of
    the session are kept. *)
Definition normalOf (origin : jsstring * Transcript.t) (t' : Transcript.t) : Prop :=
  let (filename, t) := origin in
  let md := Transcript.metadata t in
  let md' := Transcript.metadata t' in
  Transcript.sourceFile t' = Some filename
  /\ (truthyStr (Transcript.id t) = true -> Transcript.id t' = Transcript.id t)
  /\ Transcript.messages t'
     = Some (TranscriptParser.normalizeMessages (Analyzer.messagesOf t))
  /\ Metadata.messageCount md' = Some (length (Analyzer.messagesOf t))
  /\ Metadata.timestamp md' = Metadata.timestamp md
  /\ Metadata.language md' = Metadata.language md
  /\ Metadata.dateRange md' = Metadata.dateRange md
  /\ Metadata.format md' = Metadata.format md.

End Normal.

(* ################################################################# *)
(** * Part II: lemmas and theorems *)

(* ================================================================= *)
(** ** Strings and lists *)

Lemma eqb_eq (a b : jsstring) : JsString.eqb a b = true <-> a = b.
Proof.
  revert b; induction a as [|x a IH]; destruct b as [|y b]; simpl;
    try (split; [discriminate | discriminate || reflexivity]); try tauto.
  rewrite andb_true_iff, N.eqb_eq, IH. split.
  - intros [-> ->]; reflexivity.
  - intros H; injection H; auto.
Qed.

Lemma eqb_refl (a : jsstring) : JsString.eqb a a = true.
Proof. apply eqb_eq; reflexivity. Qed.

Lemma eqb_neq (a b : jsstring) : JsString.eqb a b = false <-> a <> b.
Proof.
  split.
  - intros H E. apply eqb_eq in E. congruence.
  - intros H. destruct (JsString.eqb a b) eqn:E; [apply eqb_eq in E; contradiction | reflexivity].
Qed.

Lemma flat_map_length_sum {A B} (f : A -> list B) (l : list A) :
  length (flat_map f l) = fold_right Nat.add 0 (map (fun x => length (f x)) l).
Proof.
  induction l as [|x l IH]; simpl; [reflexivity|].
  rewrite length_app, IH; reflexivity.
Qed.

Lemma fold_left_add_from (l : list nat) (n : nat) :
  fold_left Nat.add l n = n + fold_right Nat.add 0 l.
Proof.
  revert n; induction l as [|x l IH]; intros n; simpl; [lia|].
  rewrite IH; lia.
Qed.

Lemma sum_fold_right (l : list nat) : Analyzer.sum l = fold_right Nat.add 0 l.
Proof. unfold Analyzer.sum. rewrite fold_left_add_from. reflexivity. Qed.

(* ================================================================= *)
(** ** Flattening of products *)

Lemma pushString_nonEmptyString (v : json) :
  Analyzer.pushString v = Spec.nonEmptyString v.
Proof. destruct v as [| | |t| |]; try reflexivity. destruct t; reflexivity. Qed.

Lemma flatten_not_array (v : json) :
  (forall items, v <> JArr items) -> Analyzer.flatten v = Analyzer.pushString v.
Proof. destruct v; intros H; try reflexivity. exfalso; eapply H; reflexivity. Qed.

Lemma flatten_array (items : list json) :
  Analyzer.flatten (JArr items) = flat_map Analyzer.flatten items.
Proof.
  simpl. induction items as [|item tl IH]; [reflexivity|].
  simpl flat_map. rewrite <- IH.
  destruct item; reflexivity.
Qed.

Lemma stringLeaves_array (items : list json) :
  Spec.stringLeaves (JArr items) = flat_map Spec.stringLeaves items.
Proof.
  unfold Spec.stringLeaves. simpl.
  induction items as [|item tl IH]; [reflexivity|].
  simpl. rewrite flat_map_app, IH. reflexivity.
Qed.

Lemma flatten_stringLeaves (v : json) :
  Analyzer.flattenProducts v = Spec.stringLeaves v.
Proof.
  unfold Analyzer.flattenProducts.
  induction v as [| b | t | t | items IH | members] using json_nested_ind;
    try (unfold Spec.stringLeaves; simpl; rewrite ?app_nil_r; reflexivity).
  - unfold Spec.stringLeaves. simpl. rewrite app_nil_r. destruct t; reflexivity.
  - rewrite flatten_array, stringLeaves_array.
    induction IH as [|x l Hx Hl IHl]; [reflexivity|].
    simpl. rewrite Hx, IHl. reflexivity.
Qed.

Lemma map_fst_flat_map {A B C} (f : A -> list (B * C)) (l : list A) :
  map fst (flat_map f l) = flat_map (fun x => map fst (f x)) l.
Proof.
  induction l as [|x l IH]; simpl; [reflexivity|].
  rewrite map_app, IH; reflexivity.
Qed.

Lemma flat_map_ext_all {A B} (f g : A -> list B) (l : list A) :
  (forall x, f x = g x) -> flat_map f l = flat_map g l.
Proof. intros H. induction l as [|x l IH]; simpl; [reflexivity|]. rewrite H, IH; reflexivity. Qed.

Lemma productVisits_ids (t : Transcript.t) :
  map fst (Analyzer.productVisits t) = flat_map Spec.recommendedBy (Analyzer.messagesOf t).
Proof.
  unfold Analyzer.productVisits. rewrite map_fst_flat_map.
  apply flat_map_ext_all. intros msg. unfold Spec.recommendedBy.
  destruct (Analyzer.productsOf msg) as [v|]; [|reflexivity].
  rewrite map_map. simpl. rewrite map_id. apply flatten_stringLeaves.
Qed.

Lemma allProductIds_recommended (ts : list Transcript.t) :
  map fst (flat_map Analyzer.productVisits ts) = Spec.recommended ts.
Proof.
  rewrite map_fst_flat_map. unfold Spec.recommended.
  apply flat_map_ext_all. intros t. apply productVisits_ids.
Qed.

Lemma productCounts_sum (t : Transcript.t) :
  fold_right Nat.add 0 (Analyzer.productCounts t)
  = length (flat_map Spec.recommendedBy (Analyzer.messagesOf t)).
Proof.
  unfold Analyzer.productCounts.
  induction (Analyzer.messagesOf t) as [|msg l IH]; [reflexivity|].
  simpl. rewrite fold_right_app, length_app, <- IH.
  unfold Spec.recommendedBy.
  destruct (Analyzer.productsOf msg) as [v|]; simpl; [|reflexivity].
  rewrite flatten_stringLeaves.
  generalize (fold_right Nat.add 0
    (flat_map (fun msg0 => match Analyzer.productsOf msg0 with
                           | Some products => [length (Analyzer.flattenProducts products)]
                           | None => []
                           end) l)).
  intros n. reflexivity.
Qed.

Lemma productCounts_total (ts : list Transcript.t) :
  Analyzer.sum (flat_map Analyzer.productCounts ts) = length (Spec.recommended ts).
Proof.
  rewrite sum_fold_right. unfold Spec.recommended.
  induction ts as [|t l IH]; [reflexivity|].
  simpl. rewrite fold_right_app, length_app, <- IH, <- productCounts_sum.
  generalize (fold_right Nat.add 0 (flat_map Analyzer.productCounts l)).
  induction (Analyzer.productCounts t) as [|c cs IHc]; intros n; simpl; [reflexivity|].
  rewrite IHc. lia.
Qed.

Lemma productCounts_events (ts : list Transcript.t) :
  length (flat_map Analyzer.productCounts ts) = Spec.resultEvents ts.
Proof.
  unfold Spec.resultEvents.
  induction ts as [|t l IH]; [reflexivity|].
  simpl. rewrite !length_app, IH. f_equal.
  unfold Analyzer.productCounts.
  induction (Analyzer.messagesOf t) as [|msg ms IHm]; [reflexivity|].
  simpl. rewrite length_app, IHm.
  destruct (Analyzer.productsOf msg); reflexivity.
Qed.

(* ================================================================= *)
(** ** The matcher reaches only positions that the pattern allows *)

Lemma repeatLoop_reach (ic : bool) (r0 : Regex.regex) (k : Regex.mstate -> option Regex.mstate) :
  (forall st k' z, Regex.run ic r0 st k' = Some z ->
                   exists st', reach ic r0 st st' /\ k' st' = Some z) ->
  forall fuel min max st z,
    Regex.repeatLoop (Regex.run ic r0) k fuel min max st = Some z ->
    exists st', reach ic (Regex.Rep min max r0) st st' /\ k st' = Some z.
Proof.
  intros IH. induction fuel as [|fuel IHf]; intros min max st z H; [discriminate|].
  assert (Hround :
            Regex.run ic r0 st
              (fun st' =>
                 if Nat.eqb min 0 && Nat.eqb (length (Regex.rest st')) (length (Regex.rest st))
                 then None
                 else Regex.repeatLoop (Regex.run ic r0) k fuel (pred min)
                        (option_map pred max) st') = Some z ->
            exists st', reach ic (Regex.Rep min max r0) st st' /\ k st' = Some z).
  { intros Hrun. apply IH in Hrun. destruct Hrun as (st1 & R1 & Hk).
    destruct (Nat.eqb min 0 && Nat.eqb (length (Regex.rest st1)) (length (Regex.rest st)));
      [discriminate|].
    apply IHf in Hk. destruct Hk as (st2 & R2 & Hk).
    exists st2; split; [eapply reach_rep_round; eassumption | exact Hk]. }
  simpl in H.
  destruct max as [[|max']|].
  - exists st; split; [apply reach_rep_stop | exact H].
  - destruct (Nat.eqb min 0).
    + match type of H with
      | match ?run with _ => _ end = _ => destruct run as [z1|] eqn:E
      end.
      * injection H as <-. apply Hround. reflexivity.
      * exists st; split; [apply reach_rep_stop | exact H].
    + apply Hround. exact H.
  - destruct (Nat.eqb min 0).
    + match type of H with
      | match ?run with _ => _ end = _ => destruct run as [z1|] eqn:E
      end.
      * injection H as <-. apply Hround. reflexivity.
      * exists st; split; [apply reach_rep_stop | exact H].
    + apply Hround. exact H.
Qed.

Lemma run_reach (ic : bool) (r : Regex.regex) :
  forall st k z,
    Regex.run ic r st k = Some z ->
    exists st', reach ic r st st' /\ k st' = Some z.
Proof.
  induction r as [| negated items | | r1 IH1 r2 IH2 | r1 IH1 r2 IH2
                 | min max r0 IH | i r0 IH | | |]; intros st k z H; simpl in H.
  - exists st; split; [constructor | exact H].
  - destruct (Regex.rest st) as [|c tl] eqn:E; [discriminate|].
    destruct (Regex.classMatch ic negated items c) eqn:M; [|discriminate].
    eexists; split; [eapply reach_class; eassumption | exact H].
  - destruct (Regex.rest st) as [|c tl] eqn:E; [discriminate|].
    destruct (isLineTerminator c) eqn:M; [discriminate|].
    eexists; split; [eapply reach_dot; eassumption | exact H].
  - apply IH1 in H. destruct H as (st1 & R1 & H). apply IH2 in H.
    destruct H as (st2 & R2 & H). exists st2; split; [econstructor; eassumption | exact H].
  - destruct (Regex.run ic r1 st k) as [z1|] eqn:E.
    + injection H as <-. apply IH1 in E. destruct E as (st' & R & E).
      exists st'; split; [apply reach_alt_l; exact R | exact E].
    + apply IH2 in H. destruct H as (st' & R & H).
      exists st'; split; [apply reach_alt_r; exact R | exact H].
  - eapply repeatLoop_reach; eassumption.
  - apply IH in H. destruct H as (st' & R & H).
    eexists; split; [apply reach_cap; exact R | exact H].
  - destruct (Regex.prev st) eqn:E; [discriminate|].
    exists st; split; [apply reach_bol; exact E | exact H].
  - destruct (Regex.rest st) eqn:E; [|discriminate].
    exists st; split; [apply reach_eol; exact E | exact H].
  - destruct (xorb _ _); [|discriminate].
    exists st; split; [apply reach_wordb | exact H].
Qed.

(** *** The bound on the rounds of a quantifier is never reached *)

Lemma repeatLoop_local body :
  Regex.localMatcher body ->
  forall fuel min max st k1 k2,
    (forall st', length (Regex.rest st') <= length (Regex.rest st) -> k1 st' = k2 st') ->
    Regex.repeatLoop body k1 fuel min max st = Regex.repeatLoop body k2 fuel min max st.
Proof.
  intros Hbody. induction fuel as [|fuel IH]; intros min max st k1 k2 Hk; [reflexivity|].
  simpl.
  assert (Hagain :
            body st (fun st' =>
                       if Nat.eqb min 0
                          && Nat.eqb (length (Regex.rest st')) (length (Regex.rest st))
                       then None
                       else Regex.repeatLoop body k1 fuel (pred min) (option_map pred max) st')
            = body st (fun st' =>
                         if Nat.eqb min 0
                            && Nat.eqb (length (Regex.rest st')) (length (Regex.rest st))
                         then None
                         else Regex.repeatLoop body k2 fuel (pred min) (option_map pred max) st')).
  { apply Hbody. intros st' Hle.
    destruct (Nat.eqb min 0 && Nat.eqb (length (Regex.rest st')) (length (Regex.rest st)));
      [reflexivity|].
    apply IH. intros st'' Hle'. apply Hk. lia. }
  rewrite Hagain, (Hk st (le_n _)). reflexivity.
Qed.

Lemma run_local (ic : bool) (r : Regex.regex) : Regex.localMatcher (Regex.run ic r).
Proof.
  induction r as [| negated items | | r1 IH1 r2 IH2 | r1 IH1 r2 IH2
                 | min max r0 IH | i r0 IH | | |]; intros st k1 k2 Hk;
    pose proof (Hk st (le_n _)) as Hst; simpl.
  - exact Hst.
  - destruct (Regex.rest st) as [|c tl] eqn:E; [reflexivity|].
    destruct (Regex.classMatch ic negated items c); [|reflexivity].
    apply Hk. simpl. lia.
  - destruct (Regex.rest st) as [|c tl] eqn:E; [reflexivity|].
    destruct (isLineTerminator c); [reflexivity|].
    apply Hk. simpl. lia.
  - apply IH1. intros st1 H1. apply IH2. intros st2 H2. apply Hk. lia.
  - rewrite (IH1 st k1 k2 Hk), (IH2 st k1 k2 Hk). reflexivity.
  - apply repeatLoop_local; assumption.
  - apply IH. intros st' H. apply Hk. simpl. exact H.
  - rewrite Hst. reflexivity.
  - rewrite Hst. reflexivity.
  - rewrite Hst. reflexivity.
Qed.

(** More fuel than [min + length + 1] changes nothing. *)
Lemma repeatLoop_enough body k :
  Regex.localMatcher body ->
  forall fuel min max st,
    min + length (Regex.rest st) + 1 <= fuel ->
    Regex.repeatLoop body k fuel min max st = Regex.repeatLoop body k (S fuel) min max st.
Proof.
  intros Hbody. induction fuel as [|fuel IH]; intros min max st Hfuel; [lia|].
  cbn [Regex.repeatLoop].
  assert (Hagain :
            body st (fun st' =>
                       if Nat.eqb min 0
                          && Nat.eqb (length (Regex.rest st')) (length (Regex.rest st))
                       then None
                       else Regex.repeatLoop body k fuel (pred min) (option_map pred max) st')
            = body st (fun st' =>
                         if Nat.eqb min 0
                            && Nat.eqb (length (Regex.rest st')) (length (Regex.rest st))
                         then None
                         else Regex.repeatLoop body k (S fuel) (pred min)
                                (option_map pred max) st')).
  { apply Hbody. intros st' Hle.
    destruct (Nat.eqb min 0) eqn:Emin; cbn [andb].
    - destruct (Nat.eqb (length (Regex.rest st')) (length (Regex.rest st))) eqn:Elen;
        [reflexivity|].
      apply Nat.eqb_neq in Elen. apply Nat.eqb_eq in Emin. apply IH. lia.
    - apply Nat.eqb_neq in Emin. apply IH. lia. }
  cbv zeta. rewrite Hagain. reflexivity.
Qed.

Lemma rep_fuel_enough (ic : bool) (min : nat) (max : option nat) (r0 : Regex.regex)
    (st : Regex.mstate) (k : Regex.mstate -> option Regex.mstate) (extra : nat) :
  Regex.repeatLoop (Regex.run ic r0) k (min + length (Regex.rest st) + 1 + extra) min max st
  = Regex.run ic (Regex.Rep min max r0) st k.
Proof.
  simpl. induction extra as [|extra IH]; [rewrite Nat.add_0_r; reflexivity|].
  rewrite Nat.add_succ_r, <- IH. symmetry.
  apply repeatLoop_enough; [apply run_local | lia].
Qed.

Lemma reach_shrinks (ic : bool) (r : Regex.regex) (st st' : Regex.mstate) :
  reach ic r st st' -> length (Regex.rest st') <= length (Regex.rest st).
Proof.
  induction 1; simpl; try lia;
    match goal with
    | E : Regex.rest _ = _ :: _ |- _ => rewrite E; simpl; lia
    end.
Qed.

(** A successful search is a match at some position of the subject. *)
Lemma searchFrom_reach (ic : bool) (r : Regex.regex) :
  forall t p m,
    Regex.searchFrom ic r p t = Some m ->
    exists p' t', reach ic r (Regex.MState p' t' []) m
                  /\ (p' = p /\ t' = t \/ p' <> None).
Proof.
  induction t as [|c tl IH]; intros p m H; simpl in H.
  - destruct (Regex.matchAt ic r p []) as [z|] eqn:E; [|discriminate].
    injection H as <-. unfold Regex.matchAt in E. apply run_reach in E.
    destruct E as (st' & R & E). injection E as <-.
    exists p, []. split; [exact R | left; split; reflexivity].
  - destruct (Regex.matchAt ic r p (c :: tl)) as [z|] eqn:E.
    + injection H as <-. unfold Regex.matchAt in E. apply run_reach in E.
      destruct E as (st' & R & E). injection E as <-.
      exists p, (c :: tl). split; [exact R | left; split; reflexivity].
    + apply IH in H. destruct H as (p' & t' & R & [[-> ->]|Hp]).
      * exists (Some c), tl. split; [exact R | right; discriminate].
      * exists p', t'. split; [exact R | right; exact Hp].
Qed.

Lemma exec_reach (ic : bool) (r : Regex.regex) (t : jsstring) (m : Regex.mstate) :
  Regex.exec ic r t = Some m ->
  exists p' t', reach ic r (Regex.MState p' t' []) m
                /\ (p' = None /\ t' = t \/ p' <> None).
Proof. apply searchFrom_reach. Qed.

Lemma productsPattern_shape :
  Helpers.productsPattern
  = Regex.Cat (Regex.str "PRODUCTS")
      (Regex.Cat (Regex.star Regex.s)
         (Regex.Cap 1
            (Regex.Cat (Regex.lit "[")
               (Regex.Cat (Regex.star (Regex.cls [Regex.Space; Regex.NotSpace]))
                          (Regex.lit "]"))))).
Proof. reflexivity. Qed.

(** The bracket text that [productsPattern] captures is never empty: it
    starts with the opening bracket. *)
Lemma products_capture_nonempty (content : jsstring) (m : Regex.mstate) :
  Regex.exec true Helpers.productsPattern content = Some m ->
  Helpers.groupText 1 m <> [].
Proof.
  intros H. apply exec_reach in H. destruct H as (p & t & R & _).
  rewrite productsPattern_shape in R.
  inversion R as [| | |r1 r2 s0 s1 s2 Ra Rb| | | | | | | |]; subst; clear R.
  inversion Rb as [| | |r1 r2 s0 s2' s3 Rc Rd| | | | | | | |]; subst; clear Rb.
  inversion Rd as [| | | | | |i r s0 s4 Re| | | | |]; subst; clear Rd.
  unfold Helpers.groupText, Regex.group. simpl.
  inversion Re as [| | |r1 r2 s0 s5 s6 Rf Rg| | | | | | | |]; subst; clear Re.
  inversion Rf as [|neg items s0 c tl Erest Hc| | | | | | | | | |]; subst; clear Rf.
  apply reach_shrinks in Rg. simpl in Rg.
  unfold Regex.consumed. rewrite Erest. simpl length.
  destruct (S (length tl) - length (Regex.rest s4)) eqn:E; [lia|].
  simpl. discriminate.
Qed.

(* ================================================================= *)
(** ** The results decoder *)

Lemma parseResultsContent_products (content : jsstring) (m : Regex.mstate) :
  Regex.exec true Helpers.productsPattern content = Some m ->
  let r := Helpers.parseResultsContent content in
  match Json.parse (Helpers.doubleQuotes (Helpers.groupText 1 m)) with
  | Some v => Results.products r = Some v /\ Results.productsRaw r = None
  | None => Results.products r = None
            /\ Results.productsRaw r = Some (Helpers.groupText 1 m)
  end.
Proof.
  intros H. unfold Helpers.parseResultsContent. rewrite H.
  destruct (Json.parse _); simpl; auto.
Qed.

(** C3 (as amended).  When the PRODUCTS bracket expression parses as JSON
    after the single quotes are turned into double quotes, the decoder
    stores the parsed value as it is, nested arrays included, and sets no
    [productsRaw].  The flattening into an ordered list of string
    identifiers is what the metrics engine's [flattenProducts] computes from
    the stored value: the string leaves in order, duplicates kept.  The two
    fragments of the specification decode to the nested arrays
    [[a,b],[c]] and [[a,a],[b]], which flatten to [a,b,c] and [a,a,b]. *)
Theorem C3_decoder_stores_nested_products :
  (forall (content : jsstring) (m : Regex.mstate) (v : json),
      Regex.exec true Helpers.productsPattern content = Some m ->
      Json.parse (Helpers.doubleQuotes (Helpers.groupText 1 m)) = Some v ->
      Results.products (Helpers.parseResultsContent content) = Some v
      /\ Results.productsRaw (Helpers.parseResultsContent content) = None
      /\ Analyzer.flattenProducts v = Spec.stringLeaves v)
  /\ (Results.products (Helpers.parseResultsContent (js "PRODUCTS [['a','b'],['c']]"))
      = Some (JArr [JArr [JStr (js "a"); JStr (js "b")]; JArr [JStr (js "c")]])
      /\ Analyzer.flattenProducts
           (JArr [JArr [JStr (js "a"); JStr (js "b")]; JArr [JStr (js "c")]])
         = [js "a"; js "b"; js "c"])
  /\ (Results.products (Helpers.parseResultsContent (js "PRODUCTS [['a','a'],['b']]"))
      = Some (JArr [JArr [JStr (js "a"); JStr (js "a")]; JArr [JStr (js "b")]])
      /\ Analyzer.flattenProducts
           (JArr [JArr [JStr (js "a"); JStr (js "a")]; JArr [JStr (js "b")]])
         = [js "a"; js "a"; js "b"]).
Proof.
  split.
  - intros content m v Hm Hv.
    pose proof (parseResultsContent_products content Hm) as H.
    cbv zeta in H. rewrite Hv in H. destruct H as [H1 H2].
    repeat split; [exact H1 | exact H2 | apply flatten_stringLeaves].
  - split; split; vm_compute; reflexivity.
Qed.

(** The decoder at the first fragment of the specification. *)
Lemma C3_witness :
  exists (m : Regex.mstate) (v : json),
    Regex.exec true Helpers.productsPattern (js "PRODUCTS [['a','b'],['c']]") = Some m
    /\ Json.parse (Helpers.doubleQuotes (Helpers.groupText 1 m)) = Some v
    /\ Results.products (Helpers.parseResultsContent (js "PRODUCTS [['a','b'],['c']]")) = Some v
    /\ Results.productsRaw (Helpers.parseResultsContent (js "PRODUCTS [['a','b'],['c']]")) = None
    /\ Analyzer.flattenProducts v = Spec.stringLeaves v.
Proof.
  eexists. eexists.
  assert (Hm : Regex.exec true Helpers.productsPattern (js "PRODUCTS [['a','b'],['c']]")
               = Some (Regex.MState (Some (ch "]")) []
                         [(1%nat, js "[['a','b'],['c']]")])) by (vm_compute; reflexivity).
  assert (Hv : Json.parse (Helpers.doubleQuotes (js "[['a','b'],['c']]"))
               = Some (JArr [JArr [JStr (js "a"); JStr (js "b")]; JArr [JStr (js "c")]]))
    by (vm_compute; reflexivity).
  split; [exact Hm|]. split; [exact Hv|].
  exact (proj1 C3_decoder_stores_nested_products _ _ _ Hm Hv).
Defined.

(** The claim as stated fails: the decoder's products for
    [PRODUCTS [['a','b'],['c']]] is not the flat list [a, b, c]. *)
Lemma C3_counterexample :
  Results.products (Helpers.parseResultsContent (js "PRODUCTS [['a','b'],['c']]"))
  <> Some (Spec.flatArray [js "a"; js "b"; js "c"]).
Proof. vm_compute. discriminate. Qed.

(** C4 (as amended).  The decoder is a total function: it returns a value
    for every input string.  When the PRODUCTS bracket expression fails to
    parse as JSON, the returned value has no [products] property (it is left
    undefined, not set to an empty list) and its [productsRaw] holds the raw
    bracket text, which is never empty. *)
Theorem C4_malformed_products_left_unset :
  (forall content : jsstring,
      exists r : Results.t,
        Helpers.parseResultsContent content = r
        /\ (Results.products r = None \/ Results.productsRaw r = None))
  /\ (forall (content : jsstring) (m : Regex.mstate),
         Regex.exec true Helpers.productsPattern content = Some m ->
         Json.parse (Helpers.doubleQuotes (Helpers.groupText 1 m)) = None ->
         Results.products (Helpers.parseResultsContent content) = None
         /\ Results.productsRaw (Helpers.parseResultsContent content)
            = Some (Helpers.groupText 1 m)
         /\ Helpers.groupText 1 m <> []).
Proof.
  split.
  - intros content. eexists. split; [reflexivity|].
    unfold Helpers.parseResultsContent.
    destruct (Regex.exec true Helpers.productsPattern content) as [m|]; [|left; reflexivity].
    destruct (Json.parse _); [right | left]; reflexivity.
  - intros content m Hm Hv.
    pose proof (parseResultsContent_products content Hm) as H.
    cbv zeta in H. rewrite Hv in H. destruct H as [H1 H2].
    repeat split; [exact H1 | exact H2 | eapply products_capture_nonempty; exact Hm].
Qed.

(** The decoder at the unbalanced fragment of the specification. *)
Lemma C4_witness :
  exists m : Regex.mstate,
    Regex.exec true Helpers.productsPattern (js "PRODUCTS [['p1','p2']") = Some m
    /\ Json.parse (Helpers.doubleQuotes (Helpers.groupText 1 m)) = None
    /\ Results.products (Helpers.parseResultsContent (js "PRODUCTS [['p1','p2']")) = None
    /\ Results.productsRaw (Helpers.parseResultsContent (js "PRODUCTS [['p1','p2']"))
       = Some (Helpers.groupText 1 m)
    /\ Helpers.groupText 1 m <> [].
Proof.
  eexists.
  assert (Hm : Regex.exec true Helpers.productsPattern (js "PRODUCTS [['p1','p2']")
               = Some (Regex.MState (Some (ch "]")) [] [(1%nat, js "[['p1','p2']")]))
    by (vm_compute; reflexivity).
  assert (Hv : Json.parse (Helpers.doubleQuotes (js "[['p1','p2']")) = None)
    by (vm_compute; reflexivity).
  split; [exact Hm|]. split; [exact Hv|].
  exact (proj2 C4_malformed_products_left_unset _ _ Hm Hv).
Defined.

(** The claim as stated fails: for the unbalanced fragment the decoder's
    [products] is not the empty list, it is absent. *)
Lemma C4_counterexample :
  Results.products (Helpers.parseResultsContent (js "PRODUCTS [['p1','p2']"))
  <> Some (JArr []).
Proof. vm_compute. discriminate. Qed.

(* ================================================================= *)
(** ** The timestamped-log parser *)

Ltac bools :=
  repeat match goal with
         | H : (_ && _) = true |- _ => apply andb_true_iff in H; destruct H
         | H : (_ || _) = true |- _ => apply orb_true_iff in H; destruct H
         | H : (_ && _) = false |- _ => apply andb_false_iff in H; destruct H
         | H : (_ || _) = false |- _ => apply orb_false_iff in H; destruct H
         | H : N.leb _ _ = true |- _ => apply N.leb_le in H
         | H : N.leb _ _ = false |- _ => apply N.leb_gt in H
         | H : N.eqb _ _ = true |- _ => apply N.eqb_eq in H
         | H : N.eqb _ _ = false |- _ => apply N.eqb_neq in H
         end.

(** A pattern character that is not a letter matches itself only, with or
    without the [i] flag. *)
Lemma lit_match_nonletter (ic : bool) (x c : jschar) :
  isUpper x = false -> isLower x = false ->
  Regex.classMatch ic false [Regex.Lit x] c = true -> c = x.
Proof.
  unfold Regex.classMatch. cbn [existsb]. rewrite xorb_false_l, orb_false_r.
  unfold Regex.atomMatch, Regex.atomTest, Regex.flipCase, isUpper, isLower, inRange.
  intros Hu Hl H.
  destruct (N.leb 65 c && N.leb c 90) eqn:U;
    [|destruct (N.leb 97 c && N.leb c 122) eqn:Lw]; bools; subst; try lia; try reflexivity.
Qed.

Lemma linePattern_shape :
  exists r, Helpers.linePattern = Regex.Cat Regex.Bol (Regex.Cat (Regex.lit "[") r).
Proof. eexists; reflexivity. Qed.

Lemma separatorPattern_shape :
  Helpers.separatorPattern
  = Regex.Cat Regex.Bol (Regex.Cat (Regex.atLeast 10 (Regex.lit "=")) Regex.Eol).
Proof. reflexivity. Qed.

(** A line of the grammar starts with an opening bracket. *)
Lemma linePattern_starts (t : jsstring) (m : Regex.mstate) :
  Regex.exec true Helpers.linePattern t = Some m -> exists tl, t = 91%N :: tl.
Proof.
  intros H. apply exec_reach in H. destruct H as (p & t' & R & Hpos).
  destruct linePattern_shape as (r & E). rewrite E in R. clear E.
  inversion R as [| | |r1 r2 s0 s1 s2 Ra Rb| | | | | | | |]; subst; clear R.
  inversion Ra as [| | | | | | |s0 Hprev| | | |]; subst; clear Ra. simpl in Hprev.
  destruct Hpos as [[_ ->]|Hp]; [|congruence].
  inversion Rb as [| | |r1 r2 s0 s1' s2' Rc Rd| | | | | | | |]; subst; clear Rb.
  inversion Rc as [|neg items s0 c tl Erest Hc| | | | | | | | | |]; subst; clear Rc.
  simpl in Erest. apply lit_match_nonletter in Hc; [|reflexivity|reflexivity].
  subst. eauto.
Qed.

(** A separator line is empty or starts with an equals sign. *)
Lemma separatorPattern_starts (t : jsstring) :
  Regex.test false Helpers.separatorPattern t = true ->
  t = [] \/ exists tl, t = 61%N :: tl.
Proof.
  unfold Regex.test. destruct (Regex.exec false Helpers.separatorPattern t) as [m|] eqn:H;
    [intros _|discriminate].
  apply exec_reach in H. destruct H as (p & t' & R & Hpos).
  rewrite separatorPattern_shape in R.
  inversion R as [| | |r1 r2 s0 s1 s2 Ra Rb| | | | | | | |]; subst; clear R.
  inversion Ra as [| | | | | | |s0 Hprev| | | |]; subst; clear Ra. simpl in Hprev.
  destruct Hpos as [[_ ->]|Hp]; [|congruence].
  inversion Rb as [| | |r1 r2 s0 s1' s2' Rc Rd| | | | | | | |]; subst; clear Rb.
  inversion Rc as [| | | | | | | | | |mn mx r s0|mn mx mn' mx' r s0 sa sb Re Rf];
    subst; clear Rc.
  - inversion Rd as [| | | | | | | |s0 Hrest| | |]; subst. simpl in Hrest. left; exact Hrest.
  - inversion Re as [|neg items s0 c tl Erest Hc| | | | | | | | | |]; subst; clear Re.
    simpl in Erest. apply lit_match_nonletter in Hc; [|reflexivity|reflexivity].
    right. exists tl. subst. reflexivity.
Qed.

Lemma linePattern_not_skipped (line : jsstring) (m : Regex.mstate) :
  Regex.exec true Helpers.linePattern (trim line) = Some m -> Spec.skipped line = false.
Proof.
  intros H. unfold Spec.skipped.
  destruct (linePattern_starts _ H) as (tl & E).
  rewrite E. simpl truthy. simpl negb. rewrite orb_false_r.
  destruct (Regex.test false Helpers.separatorPattern (91%N :: tl)) eqn:T; [|reflexivity].
  apply separatorPattern_starts in T. destruct T as [T|(tl' & T)]; discriminate.
Qed.

Lemma split_no_sep (sep : jschar) (l : jsstring) :
  ~ In sep l -> split sep l = [l].
Proof.
  induction l as [|c l IH]; intros H; simpl; [reflexivity|].
  destruct (N.eqb c sep) eqn:E.
  - apply N.eqb_eq in E. exfalso. apply H. left. exact E.
  - rewrite IH; [reflexivity|]. intros Hin. apply H. right. exact Hin.
Qed.

Lemma split_app_sep (sep : jschar) (l r : jsstring) :
  ~ In sep l -> split sep (l ++ sep :: r) = l :: split sep r.
Proof.
  induction l as [|c l IH]; intros H; simpl.
  - rewrite N.eqb_refl. reflexivity.
  - destruct (N.eqb c sep) eqn:E.
    + apply N.eqb_eq in E. exfalso. apply H. left. exact E.
    + rewrite IH; [reflexivity|]. intros Hin. apply H. right. exact Hin.
Qed.

Lemma split_join (sep : jschar) (ls : list jsstring) :
  Forall (fun l => ~ In sep l) ls -> ls <> [] -> split sep (join [sep] ls) = ls.
Proof.
  induction ls as [|x ls IH]; intros H Hne; [congruence|].
  inversion H as [|x' l' Hx Hl]; subst.
  destruct ls as [|y ls].
  - simpl. apply split_no_sep. exact Hx.
  - change (join [sep] (x :: y :: ls)) with (x ++ sep :: join [sep] (y :: ls)).
    rewrite (@split_app_sep _ _ _ Hx).
    rewrite IH; [reflexivity | exact Hl | discriminate].
Qed.

Section TimestampedParser.
Context {host : Host}.

Lemma step_skipped (st : Helpers.loop) (line : jsstring) :
  Spec.skipped line = true -> Helpers.step st line = st.
Proof.
  intros H. unfold Helpers.step. cbv zeta.
  change (Regex.test false Helpers.separatorPattern (trim line) || negb (truthy (trim line)))
    with (Spec.skipped line).
  rewrite H. reflexivity.
Qed.

(** What a line of the grammar does, role by role. *)
Lemma step_matched (st : Helpers.loop) (line : jsstring) (m : Regex.mstate) :
  Regex.exec true Helpers.linePattern (trim line) = Some m ->
  Helpers.step st line
  = let earliest := Helpers.earlier (Helpers.earliestTimestamp st)
                                    (dateParse (Helpers.groupText 1 m)) in
    let latest := Helpers.later (Helpers.latestTimestamp st)
                                (dateParse (Helpers.groupText 1 m)) in
    let normalizedRole := toUpperCase (Helpers.groupText 2 m) in
    if JsString.eqb normalizedRole (js "CONVERSATION STARTED") then
      Helpers.Loop (Helpers.pushCurrent st) None earliest latest
    else if JsString.eqb normalizedRole (js "RESULTS") then
      Helpers.Loop (Helpers.attachResults (Helpers.pushCurrent st) (Helpers.groupText 3 m))
                   None earliest latest
    else
      Helpers.Loop (Helpers.pushCurrent st)
        (Some (Message.plain
                 (if JsString.eqb normalizedRole (js "USER") then js "user" else js "bot")
                 (trim (Helpers.groupText 3 m)) (Some (Helpers.groupText 1 m))))
        earliest latest.
Proof.
  intros H. pose proof (linePattern_not_skipped line H) as Hs.
  unfold Helpers.step. cbv zeta.
  change (Regex.test false Helpers.separatorPattern (trim line) || negb (truthy (trim line)))
    with (Spec.skipped line).
  rewrite Hs, H. reflexivity.
Qed.

Lemma step_continuation (st : Helpers.loop) (line : jsstring) :
  Spec.continuation line ->
  Helpers.step st line
  = match Helpers.currentMessage st with
    | Some c =>
        Helpers.Loop (Helpers.messages st)
          (Some (Message.appendContent c (js " " ++ trim line)))
          (Helpers.earliestTimestamp st) (Helpers.latestTimestamp st)
    | None => st
    end.
Proof.
  intros [Hs Hm]. unfold Helpers.step. cbv zeta.
  change (Regex.test false Helpers.separatorPattern (trim line) || negb (truthy (trim line)))
    with (Spec.skipped line).
  rewrite Hs, Hm. reflexivity.
Qed.

Lemma attachResults_last (before : list Message.t) (last : Message.t) (content : jsstring) :
  Helpers.attachResults (before ++ [last]) content
  = before ++ [if Message.roleIs last (js "bot")
               then Message.withResults last (Helpers.parseResultsContent content)
               else last].
Proof.
  unfold Helpers.attachResults. rewrite rev_app_distr. simpl.
  destruct (Message.roleIs last (js "bot")); [rewrite rev_involutive|]; reflexivity.
Qed.

Lemma attachResults_resultsOnBot (msgs : list Message.t) (content : jsstring) :
  Forall Spec.resultsOnBot msgs ->
  Forall Spec.resultsOnBot (Helpers.attachResults msgs content).
Proof.
  intros H. destruct (rev msgs) as [|last before] eqn:E.
  - unfold Helpers.attachResults. rewrite E. exact H.
  - assert (Hm : msgs = rev before ++ [last]).
    { rewrite <- (rev_involutive msgs), E. reflexivity. }
    rewrite Hm, attachResults_last. rewrite Hm in H.
    apply Forall_app in H. destruct H as [Hb Hl].
    apply Forall_app. split; [exact Hb|].
    constructor; [|constructor].
    destruct (Message.roleIs last (js "bot")) eqn:R.
    + intros _. unfold Message.roleIs, Message.withResults. simpl. exact R.
    + inversion Hl; assumption.
Qed.

Lemma pushCurrent_resultsOnBot (st : Helpers.loop) :
  Spec.loopInvariant st -> Forall Spec.resultsOnBot (Helpers.pushCurrent st).
Proof.
  intros [Hm Hc]. unfold Helpers.pushCurrent.
  destruct (Helpers.currentMessage st) as [c|]; [|exact Hm].
  apply Forall_app. split; [exact Hm|]. constructor; [|constructor].
  intros Hr. exfalso. apply Hr. apply Hc. reflexivity.
Qed.

Lemma step_invariant (st : Helpers.loop) (line : jsstring) :
  Spec.loopInvariant st -> Spec.loopInvariant (Helpers.step st line).
Proof.
  intros Hinv.
  destruct (Spec.skipped line) eqn:Hs; [rewrite step_skipped; assumption|].
  destruct (Regex.exec true Helpers.linePattern (trim line)) as [m|] eqn:Hm.
  - rewrite (step_matched st line Hm). cbv zeta.
    pose proof (pushCurrent_resultsOnBot Hinv) as Hp.
    destruct (JsString.eqb _ (js "CONVERSATION STARTED")).
    + split; [exact Hp | discriminate].
    + destruct (JsString.eqb _ (js "RESULTS")).
      * split; [apply attachResults_resultsOnBot; exact Hp | discriminate].
      * split; [exact Hp|]. simpl. intros c Hc. injection Hc as <-. reflexivity.
  - rewrite step_continuation; [|split; assumption].
    destruct Hinv as [Hmsgs Hc].
    destruct (Helpers.currentMessage st) as [c|] eqn:Ec; [|split; [exact Hmsgs | rewrite Ec; exact Hc]].
    split; [exact Hmsgs|]. simpl. intros c' Hc'. injection Hc' as <-.
    unfold Message.appendContent, Message.withContent. simpl. apply Hc. reflexivity.
Qed.

Lemma fold_step_invariant (lines : list jsstring) (st : Helpers.loop) :
  Spec.loopInvariant st -> Spec.loopInvariant (fold_left Helpers.step lines st).
Proof.
  revert st. induction lines as [|l ls IH]; intros st H; simpl; [exact H|].
  apply IH. apply step_invariant. exact H.
Qed.

Lemma parse_returns (content filename : jsstring) (sessions : list Transcript.t) :
  Helpers.parseTimestampedTranscript content filename = Returns sessions ->
  exists t, sessions = [t]
            /\ Transcript.messages t
               = Some (Helpers.pushCurrent
                         (fold_left Helpers.step (split Helpers.newline content) Helpers.start)).
Proof.
  unfold Helpers.parseTimestampedTranscript. cbv zeta.
  destruct (Helpers.isoOrNull (Helpers.earliestTimestamp _)) as [a|e]; [|discriminate].
  destruct (Helpers.isoOrNull (Helpers.latestTimestamp _)) as [b|e]; [|discriminate].
  simpl. intros H. injection H as <-. eexists; split; reflexivity.
Qed.

Lemma pushCurrent_emitted (st : Helpers.loop) :
  Helpers.pushCurrent st
  = Helpers.messages st
    ++ match Helpers.currentMessage st with Some c => [c] | None => [] end.
Proof.
  unfold Helpers.pushCurrent.
  destruct (Helpers.currentMessage st); [reflexivity | rewrite app_nil_r; reflexivity].
Qed.

(** What a RESULTS line does. *)
Lemma results_line (st : Helpers.loop) (line : jsstring) (m : Regex.mstate) :
  Regex.exec true Helpers.linePattern (trim line) = Some m ->
  toUpperCase (Helpers.groupText 2 m) = js "RESULTS" ->
  Helpers.currentMessage (Helpers.step st line) = None
  /\ Helpers.messages (Helpers.step st line)
     = Helpers.attachResults (Helpers.pushCurrent st) (Helpers.groupText 3 m).
Proof.
  intros Hm Hrole. rewrite (step_matched st line Hm). cbv zeta. rewrite Hrole.
  change (JsString.eqb (js "RESULTS") (js "CONVERSATION STARTED")) with false.
  change (JsString.eqb (js "RESULTS") (js "RESULTS")) with true.
  cbv iota. split; reflexivity.
Qed.

Lemma attachResults_cases (emitted : list Message.t) (content : jsstring) :
  (emitted = [] -> Helpers.attachResults emitted content = [])
  /\ (forall before last,
         emitted = before ++ [last] ->
         Message.roleIs last (js "bot") = true ->
         Helpers.attachResults emitted content
         = before ++ [Message.mk (Message.id last) (Message.role last) (Message.sender last)
                        (Message.content last) (Message.text last) (Message.message last)
                        (Message.timestamp last)
                        (Some (Helpers.parseResultsContent content))])
  /\ (forall before last,
         emitted = before ++ [last] ->
         Message.roleIs last (js "bot") = false ->
         Helpers.attachResults emitted content = emitted).
Proof.
  split; [intros ->; reflexivity|].
  split; intros before last -> R; rewrite attachResults_last, R; reflexivity.
Qed.

(** What a USER line and an AI line do to the emitted messages. *)
Lemma user_line (st : Helpers.loop) (line : jsstring) (m : Regex.mstate) :
  Regex.exec true Helpers.linePattern (trim line) = Some m ->
  toUpperCase (Helpers.groupText 2 m) = js "USER" ->
  Helpers.pushCurrent (Helpers.step st line)
  = Helpers.pushCurrent st
    ++ [Message.plain (js "user") (trim (Helpers.groupText 3 m))
          (Some (Helpers.groupText 1 m))].
Proof.
  intros Hm Hrole. rewrite (step_matched st line Hm). cbv zeta. rewrite Hrole.
  change (JsString.eqb (js "USER") (js "CONVERSATION STARTED")) with false.
  change (JsString.eqb (js "USER") (js "RESULTS")) with false.
  change (JsString.eqb (js "USER") (js "USER")) with true.
  cbv iota. reflexivity.
Qed.

Lemma ai_line (st : Helpers.loop) (line : jsstring) (m : Regex.mstate) :
  Regex.exec true Helpers.linePattern (trim line) = Some m ->
  toUpperCase (Helpers.groupText 2 m) = js "AI" ->
  Helpers.pushCurrent (Helpers.step st line)
  = Helpers.pushCurrent st
    ++ [Message.plain (js "bot") (trim (Helpers.groupText 3 m))
          (Some (Helpers.groupText 1 m))].
Proof.
  intros Hm Hrole. rewrite (step_matched st line Hm). cbv zeta. rewrite Hrole.
  change (JsString.eqb (js "AI") (js "CONVERSATION STARTED")) with false.
  change (JsString.eqb (js "AI") (js "RESULTS")) with false.
  change (JsString.eqb (js "AI") (js "USER")) with false.
  cbv iota. reflexivity.
Qed.

(** The messages of a parsed log whose last line is a RESULTS line. *)
Lemma parse_ending_with_results (lines : list jsstring) (line filename : jsstring)
    (m : Regex.mstate) (sessions : list Transcript.t) :
  Forall (fun l => ~ In Helpers.newline l) (lines ++ [line]) ->
  Regex.exec true Helpers.linePattern (trim line) = Some m ->
  toUpperCase (Helpers.groupText 2 m) = js "RESULTS" ->
  Helpers.parseTimestampedTranscript (join [Helpers.newline] (lines ++ [line])) filename
  = Returns sessions ->
  exists t,
    sessions = [t]
    /\ Transcript.messages t
       = Some (Helpers.attachResults
                 (Helpers.pushCurrent (fold_left Helpers.step lines Helpers.start))
                 (Helpers.groupText 3 m)).
Proof.
  intros Hnl Hm Hrole Hparse.
  destruct (parse_returns _ _ Hparse) as (t & -> & Em).
  exists t. split; [reflexivity|].
  rewrite split_join in Em; [|exact Hnl | destruct lines; discriminate].
  rewrite fold_left_app in Em. cbn [fold_left] in Em.
  destruct (results_line (fold_left Helpers.step lines Helpers.start) line Hm Hrole)
    as [Hc Hmsgs].
  rewrite pushCurrent_emitted, Hc, Hmsgs, app_nil_r in Em. exact Em.
Qed.

Lemma carrying_own (x : Message.t) : Lines.carrying x (Message.results x) = x.
Proof. destruct x; reflexivity. Qed.

Lemma last_case {A} (l : list A) : l = [] \/ exists l' y, l = l' ++ [y].
Proof.
  induction l as [|x l IH] using rev_ind; [left; reflexivity|].
  right. exists l, x. reflexivity.
Qed.

(** A later line keeps a message that was pushed in its place; it changes
    at most its results, and only when the line is a RESULTS line and the
    message a bot message. *)
Lemma step_keeps (st : Helpers.loop) (line : jsstring)
    (before tail : list Message.t) (x : Message.t) :
  Helpers.messages st = before ++ x :: tail ->
  exists r' tail',
    Helpers.messages (Helpers.step st line) = before ++ Lines.carrying x r' :: tail'
    /\ (r' = Message.results x \/ exists p, r' = Some p)
    /\ (Message.roleIs x (js "bot") = false \/ Lines.carriesResults line = false ->
        r' = Message.results x).
Proof.
  intros E.
  assert (Hsame : exists r' tail',
             Helpers.messages st = before ++ Lines.carrying x r' :: tail'
             /\ (r' = Message.results x \/ exists p, r' = Some p)
             /\ (Message.roleIs x (js "bot") = false \/ Lines.carriesResults line = false ->
                 r' = Message.results x)).
  { exists (Message.results x), tail. rewrite carrying_own.
    split; [exact E|]. split; [left; reflexivity | intros _; reflexivity]. }
  assert (Hpush : exists r' tail',
             Helpers.pushCurrent st = before ++ Lines.carrying x r' :: tail'
             /\ (r' = Message.results x \/ exists p, r' = Some p)
             /\ (Message.roleIs x (js "bot") = false \/ Lines.carriesResults line = false ->
                 r' = Message.results x)).
  { rewrite pushCurrent_emitted, E, <- app_assoc. cbn [app].
    eexists (Message.results x), _. rewrite carrying_own.
    split; [reflexivity|]. split; [left; reflexivity | intros _; reflexivity]. }
  destruct (Spec.skipped line) eqn:Hs; [rewrite step_skipped by exact Hs; exact Hsame|].
  destruct (Regex.exec true Helpers.linePattern (trim line)) as [m|] eqn:Hm.
  - rewrite (step_matched st line Hm). cbv zeta.
    destruct (JsString.eqb _ (js "CONVERSATION STARTED")); [exact Hpush|].
    destruct (JsString.eqb (toUpperCase (Helpers.groupText 2 m)) (js "RESULTS")) eqn:Er;
      [|exact Hpush].
    cbn [Helpers.messages].
    assert (Hr : Lines.carriesResults line = true).
    { unfold Lines.carriesResults, Lines.grammar. rewrite Hm. exact Er. }
    rewrite pushCurrent_emitted, E, <- app_assoc. cbn [app].
    set (rest := tail ++ match Helpers.currentMessage st with Some c => [c] | None => [] end).
    destruct (last_case rest) as [->|(rest' & y & ->)].
    + rewrite attachResults_last.
      destruct (Message.roleIs x (js "bot")) eqn:Rx.
      * eexists (Some _), []. split; [reflexivity|].
        split; [right; eexists; reflexivity|].
        intros [C|C]; congruence.
      * exists (Message.results x), []. rewrite carrying_own.
        split; [reflexivity|]. split; [left; reflexivity | intros _; reflexivity].
    + change (before ++ x :: rest' ++ [y]) with (before ++ (x :: rest') ++ [y]).
      rewrite app_assoc, attachResults_last, <- app_assoc. cbn [app].
      eexists (Message.results x), _. rewrite carrying_own.
      split; [reflexivity|]. split; [left; reflexivity | intros _; reflexivity].
  - rewrite step_continuation by (split; assumption).
    destruct (Helpers.currentMessage st); exact Hsame.
Qed.

Lemma fold_keeps (after : list jsstring) (st : Helpers.loop)
    (before tail : list Message.t) (x : Message.t) :
  Helpers.messages st = before ++ x :: tail ->
  exists r' tail',
    Helpers.messages (fold_left Helpers.step after st) = before ++ Lines.carrying x r' :: tail'
    /\ (r' = Message.results x \/ exists p, r' = Some p)
    /\ (Message.roleIs x (js "bot") = false
        \/ Forall (fun l => Lines.carriesResults l = false) after ->
        r' = Message.results x).
Proof.
  revert st tail x. induction after as [|l ls IH]; intros st tail x E.
  - exists (Message.results x), tail. rewrite carrying_own.
    split; [exact E|]. split; [left; reflexivity | intros _; reflexivity].
  - cbn [fold_left].
    destruct (step_keeps st l before tail x E) as (r1 & t1 & E1 & K1 & C1).
    destruct (IH _ _ _ E1) as (r2 & t2 & E2 & K2 & C2).
    exists r2, t2. split; [exact E2|]. cbn [Lines.carrying Message.results] in K2, C2.
    split.
    + destruct K2 as [->|K2]; [exact K1 | right; exact K2].
    + intros H.
      assert (H1 : r1 = Message.results x).
      { apply C1. destruct H as [H|H]; [left; exact H | right].
        inversion H; assumption. }
      rewrite <- H1. apply C2.
      destruct H as [H|H]; [left; exact H | right; inversion H; assumption].
Qed.

(** C2.  A RESULTS line of a timestamped log leaves no message open.  The
    messages emitted before it are those pushed so far, followed by the
    open one.  When the last of them is a bot message, the line sets the
    results of that message to the decoded payload and changes nothing
    else; when the last is not a bot message, or when there is none, the
    list stays as it is and the payload is dropped.  So it is for the
    session of a parsed log that ends with a RESULTS line.  For a RESULTS
    line anywhere in a parsed log: after a bot message, the session holds
    that message in its place with results, which are the payload of the
    line unless a later RESULTS line replaced them; after a message that is
    not a bot message, the session holds the messages emitted before the
    line unchanged.  In particular, in a log that ends with an AI line and
    a RESULTS line the last message of the session is the bot message of
    the AI line with the payload as its results, and in a log that ends
    with a USER line and a RESULTS line the last message is the user
    message of that line, without results, after the messages of the
    earlier lines.  In every parsed session, a message that carries results
    is a bot message. *)
Theorem C2_results_attach_to_preceding_bot_only :
  (forall (st : Helpers.loop) (line : jsstring) (m : Regex.mstate),
      Regex.exec true Helpers.linePattern (trim line) = Some m ->
      toUpperCase (Helpers.groupText 2 m) = js "RESULTS" ->
      let emitted := Helpers.messages st
                     ++ match Helpers.currentMessage st with Some c => [c] | None => [] end in
      let payload := Helpers.parseResultsContent (Helpers.groupText 3 m) in
      Helpers.currentMessage (Helpers.step st line) = None
      /\ (emitted = [] -> Helpers.messages (Helpers.step st line) = [])
      /\ (forall before last,
             emitted = before ++ [last] ->
             Message.roleIs last (js "bot") = true ->
             Helpers.messages (Helpers.step st line)
             = before ++ [Message.mk (Message.id last) (Message.role last)
                            (Message.sender last) (Message.content last)
                            (Message.text last) (Message.message last)
                            (Message.timestamp last) (Some payload)])
      /\ (forall before last,
             emitted = before ++ [last] ->
             Message.roleIs last (js "bot") = false ->
             Helpers.messages (Helpers.step st line) = emitted))
  /\ (forall (lines : list jsstring) (line filename : jsstring) (m : Regex.mstate)
             (sessions : list Transcript.t),
         Forall (fun l => ~ In Helpers.newline l) (lines ++ [line]) ->
         Regex.exec true Helpers.linePattern (trim line) = Some m ->
         toUpperCase (Helpers.groupText 2 m) = js "RESULTS" ->
         Helpers.parseTimestampedTranscript (join [Helpers.newline] (lines ++ [line])) filename
         = Returns sessions ->
         let st := fold_left Helpers.step lines Helpers.start in
         let emitted := Helpers.messages st
                        ++ match Helpers.currentMessage st with Some c => [c] | None => [] end in
         let payload := Helpers.parseResultsContent (Helpers.groupText 3 m) in
         exists t,
           sessions = [t]
           /\ (emitted = [] -> Transcript.messages t = Some [])
           /\ (forall before last,
                  emitted = before ++ [last] ->
                  Message.roleIs last (js "bot") = true ->
                  Transcript.messages t
                  = Some (before ++ [Message.mk (Message.id last) (Message.role last)
                                       (Message.sender last) (Message.content last)
                                       (Message.text last) (Message.message last)
                                       (Message.timestamp last) (Some payload)]))
           /\ (forall before last,
                  emitted = before ++ [last] ->
                  Message.roleIs last (js "bot") = false ->
                  Transcript.messages t = Some emitted))
  /\ (forall (lines after : list jsstring) (line filename : jsstring) (m : Regex.mstate)
             (sessions : list Transcript.t),
         Forall (fun l => ~ In Helpers.newline l) (lines ++ line :: after) ->
         Regex.exec true Helpers.linePattern (trim line) = Some m ->
         toUpperCase (Helpers.groupText 2 m) = js "RESULTS" ->
         Helpers.parseTimestampedTranscript
           (join [Helpers.newline] (lines ++ line :: after)) filename
         = Returns sessions ->
         let st := fold_left Helpers.step lines Helpers.start in
         let emitted := Helpers.messages st
                        ++ match Helpers.currentMessage st with Some c => [c] | None => [] end in
         let payload := Helpers.parseResultsContent (Helpers.groupText 3 m) in
         exists t,
           sessions = [t]
           /\ (forall before last,
                  emitted = before ++ [last] ->
                  Message.roleIs last (js "bot") = true ->
                  exists p rest,
                    Transcript.messages t
                    = Some (before
                            ++ Message.mk (Message.id last) (Message.role last)
                                 (Message.sender last) (Message.content last)
                                 (Message.text last) (Message.message last)
                                 (Message.timestamp last) (Some p) :: rest)
                    /\ (Forall (fun l => Lines.carriesResults l = false) after ->
                        p = payload))
           /\ (forall before last,
                  emitted = before ++ [last] ->
                  Message.roleIs last (js "bot") = false ->
                  exists rest, Transcript.messages t = Some (emitted ++ rest)))
  /\ (forall (lines : list jsstring) (previous line filename : jsstring)
             (mp m : Regex.mstate) (sessions : list Transcript.t),
         Forall (fun l => ~ In Helpers.newline l) (lines ++ [previous; line]) ->
         Regex.exec true Helpers.linePattern (trim previous) = Some mp ->
         Regex.exec true Helpers.linePattern (trim line) = Some m ->
         toUpperCase (Helpers.groupText 2 m) = js "RESULTS" ->
         Helpers.parseTimestampedTranscript
           (join [Helpers.newline] (lines ++ [previous; line])) filename
         = Returns sessions ->
         let st := fold_left Helpers.step lines Helpers.start in
         let earlier := Helpers.messages st
                        ++ match Helpers.currentMessage st with Some c => [c] | None => [] end in
         let payload := Helpers.parseResultsContent (Helpers.groupText 3 m) in
         exists t,
           sessions = [t]
           /\ (toUpperCase (Helpers.groupText 2 mp) = js "AI" ->
               Transcript.messages t
               = Some (earlier
                       ++ [Message.mk None (Some (js "bot")) None
                             (Some (trim (Helpers.groupText 3 mp))) None None
                             (Some (Helpers.groupText 1 mp)) (Some payload)]))
           /\ (toUpperCase (Helpers.groupText 2 mp) = js "USER" ->
               Transcript.messages t
               = Some (earlier
                       ++ [Message.mk None (Some (js "user")) None
                             (Some (trim (Helpers.groupText 3 mp))) None None
                             (Some (Helpers.groupText 1 mp)) None])))
  /\ (forall (content filename : jsstring) (sessions : list Transcript.t),
         Helpers.parseTimestampedTranscript content filename = Returns sessions ->
         forall t msg,
           In t sessions -> In msg (Analyzer.messagesOf t) ->
           Message.results msg <> None -> Message.roleIs msg (js "bot") = true).
Proof.
  split; [|split; [|split; [|split]]].
  - intros st line m Hm Hrole emitted payload.
    destruct (results_line st line Hm Hrole) as [Hc Hmsgs].
    rewrite Hmsgs, pushCurrent_emitted. fold emitted.
    split; [exact Hc|]. apply attachResults_cases.
  - intros lines line filename m sessions Hnl Hm Hrole Hparse st emitted payload.
    destruct (@parse_ending_with_results _ _ _ _ _ Hnl Hm Hrole Hparse) as (t & -> & Em).
    exists t. split; [reflexivity|].
    rewrite Em, pushCurrent_emitted. fold st. fold emitted.
    destruct (attachResults_cases emitted (Helpers.groupText 3 m)) as (H0 & H1 & H2).
    split; [intros E; rewrite (H0 E); reflexivity|].
    split; intros before last E R; [rewrite (H1 _ _ E R) | rewrite (H2 _ _ E R)]; reflexivity.
  - intros lines after line filename m sessions Hnl Hm Hrole Hparse st emitted payload.
    destruct (parse_returns _ _ Hparse) as (t & -> & Em).
    exists t. split; [reflexivity|].
    rewrite split_join in Em; [|exact Hnl | destruct lines; discriminate].
    change (lines ++ line :: after) with (lines ++ [line] ++ after) in Em.
    rewrite !fold_left_app in Em. cbn [fold_left] in Em. fold st in Em.
    destruct (results_line st line Hm Hrole) as [Hc Hmsgs].
    rewrite pushCurrent_emitted in Hmsgs. fold emitted in Hmsgs.
    destruct (attachResults_cases emitted (Helpers.groupText 3 m)) as (_ & H1 & H2).
    split; intros before last E R.
    + rewrite (H1 _ _ E R) in Hmsgs.
      destruct (fold_keeps after _ _ [] _ Hmsgs) as (r' & tail' & Ef & K & C).
      cbn [Message.results Message.id Message.role Message.sender Message.content
           Message.text Message.message Message.timestamp Lines.carrying] in Ef, K, C.
      assert (Hp : exists p, r' = Some p).
      { destruct K as [->|K]; [eexists; reflexivity | exact K]. }
      destruct Hp as (p & ->).
      eexists p, _. split.
      * rewrite Em, pushCurrent_emitted, Ef, <- app_assoc. reflexivity.
      * intros Hno. assert (Hr : Some p = Some payload) by (apply C; right; exact Hno).
        injection Hr as ->. reflexivity.
    + rewrite (H2 _ _ E R), E in Hmsgs.
      destruct (fold_keeps after _ _ [] _ Hmsgs) as (r' & tail' & Ef & _ & C).
      rewrite (C (or_introl R)), carrying_own in Ef.
      eexists. rewrite Em, pushCurrent_emitted, Ef, E, <- !app_assoc. reflexivity.
  - intros lines previous line filename mp m sessions Hnl Hp Hm Hrole Hparse st earlier payload.
    change (lines ++ [previous; line]) with (lines ++ [previous] ++ [line]) in Hnl, Hparse.
    rewrite app_assoc in Hnl, Hparse.
    destruct (@parse_ending_with_results _ _ _ _ _ Hnl Hm Hrole Hparse)
      as (t & -> & Em).
    exists t. split; [reflexivity|].
    rewrite fold_left_app in Em. cbn [fold_left] in Em. fold st in Em.
    split; intros Hr.
    + rewrite (ai_line st previous Hp Hr), attachResults_last in Em.
      rewrite Em, pushCurrent_emitted. reflexivity.
    + rewrite (user_line st previous Hp Hr), attachResults_last in Em.
      rewrite Em, pushCurrent_emitted. reflexivity.
  - intros content filename sessions H t msg Ht Hmsg.
    destruct (parse_returns _ _ H) as (t0 & -> & Em).
    destruct Ht as [<-|[]].
    unfold Analyzer.messagesOf in Hmsg. rewrite Em in Hmsg.
    assert (Hinv : Spec.loopInvariant Helpers.start) by (split; [constructor | discriminate]).
    apply (fold_step_invariant (split Helpers.newline content)) in Hinv.
    apply pushCurrent_resultsOnBot in Hinv.
    rewrite Forall_forall in Hinv. exact (Hinv msg Hmsg).
Qed.

(** C8.  A log made of one USER line followed by two continuation lines
    (lines that, once trimmed, are not blank, are not separators and do not
    match the timestamp-prefixed grammar).  When the timestamp of the USER
    line is a valid date, the log parses to one session with exactly one
    message: a user message whose content is the trimmed text of the USER
    line and the two trimmed lines, joined in order by single spaces.  When
    the timestamp matches the grammar and is not a valid date, the parser
    throws a RangeError and returns no session.  A continuation line never
    creates a message: it leaves the emitted list and the number of
    messages unchanged, and with no open message it changes nothing at all.
    A blank line and a separator line change nothing either. *)
Theorem C8_continuation_merge_or_range_error :
  (forall (l1 l2 l3 filename : jsstring) (m : Regex.mstate),
      ~ In Helpers.newline l1 -> ~ In Helpers.newline l2 -> ~ In Helpers.newline l3 ->
      Regex.exec true Helpers.linePattern (trim l1) = Some m ->
      toUpperCase (Helpers.groupText 2 m) = js "USER" ->
      Spec.continuation l2 -> Spec.continuation l3 ->
      (dateParse (Helpers.groupText 1 m) <> None ->
       exists t,
         Helpers.parseTimestampedTranscript
           (l1 ++ Helpers.newline :: l2 ++ Helpers.newline :: l3) filename = Returns [t]
         /\ Transcript.messages t
            = Some [Message.plain (js "user")
                      (trim (Helpers.groupText 3 m) ++ js " " ++ trim l2 ++ js " " ++ trim l3)
                      (Some (Helpers.groupText 1 m))])
      /\ (dateParse (Helpers.groupText 1 m) = None ->
          Helpers.parseTimestampedTranscript
            (l1 ++ Helpers.newline :: l2 ++ Helpers.newline :: l3) filename
          = Throws RangeError))
  /\ (forall (st : Helpers.loop) (line : jsstring),
         Spec.continuation line ->
         Helpers.messages (Helpers.step st line) = Helpers.messages st
         /\ length (Helpers.pushCurrent (Helpers.step st line))
            = length (Helpers.pushCurrent st)
         /\ (Helpers.currentMessage st = None -> Helpers.step st line = st))
  /\ (forall (st : Helpers.loop) (line : jsstring),
         Spec.skipped line = true -> Helpers.step st line = st).
Proof.
  split; [|split].
  - intros l1 l2 l3 filename m N1 N2 N3 Hm Hrole C2 C3.
    unfold Helpers.parseTimestampedTranscript. cbv zeta.
    rewrite (@split_app_sep _ _ _ N1), (@split_app_sep _ _ _ N2), (@split_no_sep _ _ N3).
    cbn [fold_left].
    rewrite (step_matched Helpers.start l1 Hm). cbv zeta. rewrite Hrole.
    change (JsString.eqb (js "USER") (js "CONVERSATION STARTED")) with false.
    change (JsString.eqb (js "USER") (js "RESULTS")) with false.
    change (JsString.eqb (js "USER") (js "USER")) with true.
    cbv iota.
    rewrite (step_continuation _ C2). cbn [Helpers.currentMessage Helpers.messages
      Helpers.earliestTimestamp Helpers.latestTimestamp].
    rewrite (step_continuation _ C3). cbn [Helpers.currentMessage Helpers.messages
      Helpers.earliestTimestamp Helpers.latestTimestamp].
    destruct (dateParse (Helpers.groupText 1 m)) as [v|] eqn:Ed;
      (split; [intros Hdate | intros Hdate]); try congruence.
    + cbn [Helpers.start Helpers.earlier Helpers.later Helpers.earliestTimestamp
           Helpers.latestTimestamp Helpers.isoOrNull bind].
      eexists. split; [reflexivity|].
      cbn [Transcript.messages Helpers.pushCurrent Helpers.currentMessage Helpers.messages
           Helpers.start app].
      unfold Message.appendContent, Message.withContent, Message.plain.
      cbn [Message.content Message.id Message.role Message.sender Message.text
           Message.message Message.timestamp Message.results].
      rewrite <- !app_assoc. reflexivity.
    + cbn [Helpers.start Helpers.earlier Helpers.later Helpers.earliestTimestamp
           Helpers.latestTimestamp Helpers.isoOrNull bind].
      reflexivity.
  - intros st line C. rewrite (step_continuation st C).
    unfold Helpers.pushCurrent.
    destruct (Helpers.currentMessage st) as [c|] eqn:E; simpl.
    + rewrite !length_app. repeat split. discriminate.
    + rewrite E. repeat split.
  - intros st line. apply step_skipped.
Qed.

End TimestampedParser.

(** *** The parser on sample lines *)

Lemma no_sep_by_test (sep : jschar) (l : jsstring) :
  forallb (fun c => negb (N.eqb c sep)) l = true -> ~ In sep l.
Proof.
  rewrite forallb_forall. intros H Hin. apply H in Hin.
  rewrite N.eqb_refl in Hin. discriminate.
Qed.

(** A RESULTS line right after an AI line, and right after a USER line. *)
Lemma C2_witness :
  let m := Regex.MState (Some (ch "]")) []
             [(3, js "STYLES: ['Bold']; PRODUCTS [['p1','p2']]");
              (2, js "RESULTS"); (1, Example.stamp)] in
  let payload := Results.mk (Some [js "Bold"])
                   (Some (JArr [JArr [JStr (js "p1"); JStr (js "p2")]])) None in
  Regex.exec true Helpers.linePattern (trim Example.resultsLine) = Some m
  /\ toUpperCase (Helpers.groupText 2 m) = js "RESULTS"
  /\ Helpers.parseResultsContent (Helpers.groupText 3 m) = payload
  /\ (exists t,
         @Helpers.parseTimestampedTranscript IsoHost.host
           (join [Helpers.newline] [Example.botLine; Example.resultsLine]) (js "log.txt")
         = Returns [t]
         /\ Transcript.messages t
            = Some [Message.mk None (Some (js "bot")) None (Some (js "Here are some shoes"))
                      None None (Some Example.stamp) (Some payload)])
  /\ (exists t,
         @Helpers.parseTimestampedTranscript IsoHost.host
           (join [Helpers.newline] [Example.userLine; Example.resultsLine]) (js "log.txt")
         = Returns [t]
         /\ Transcript.messages t
            = Some [Message.mk None (Some (js "user")) None (Some (js "find shoes"))
                      None None (Some (js "2026-01-09T05:09:11.000000+00:00")) None]).
Proof.
  intros m payload.
  assert (Hm : Regex.exec true Helpers.linePattern (trim Example.resultsLine) = Some m)
    by (vm_compute; reflexivity).
  assert (Hrole : toUpperCase (Helpers.groupText 2 m) = js "RESULTS")
    by (vm_compute; reflexivity).
  assert (Hpay : Helpers.parseResultsContent (Helpers.groupText 3 m) = payload)
    by (vm_compute; reflexivity).
  split; [exact Hm|]. split; [exact Hrole|]. split; [exact Hpay|].
  pose (mb := Regex.MState (Some (ch "s")) []
                [(3, js "Here are some shoes"); (2, js "AI"); (1, Example.stamp)]).
  pose (mu := Regex.MState (Some (ch "s")) []
                [(3, js "find shoes"); (2, js "USER");
                 (1, js "2026-01-09T05:09:11.000000+00:00")]).
  assert (Hb : Regex.exec true Helpers.linePattern (trim Example.botLine) = Some mb)
    by (vm_compute; reflexivity).
  assert (Hu : Regex.exec true Helpers.linePattern (trim Example.userLine) = Some mu)
    by (vm_compute; reflexivity).
  assert (Nr : ~ In Helpers.newline Example.resultsLine)
    by (apply no_sep_by_test; vm_compute; reflexivity).
  assert (Nb : ~ In Helpers.newline Example.botLine)
    by (apply no_sep_by_test; vm_compute; reflexivity).
  assert (Nu : ~ In Helpers.newline Example.userLine)
    by (apply no_sep_by_test; vm_compute; reflexivity).
  split.
  - destruct (proj1 (proj2 (proj2 (proj2 (@C2_results_attach_to_preceding_bot_only IsoHost.host))))
                [] Example.botLine Example.resultsLine (js "log.txt") mb m
                [Transcript.mk (Some (js "log.txt")) None
                   (Some [Message.mk None (Some (js "bot")) None
                            (Some (js "Here are some shoes")) None None
                            (Some Example.stamp) (Some payload)])
                   (Metadata.mk (Some (js "2026-01-09T05:09:15.201Z")) None None None
                      (Some (Some (js "2026-01-09T05:09:15.201Z"),
                             Some (js "2026-01-09T05:09:15.201Z")))
                      (Some (js "log.txt")) (Some (js "timestamped")) None None None None)])
      as (t & Et & Hai & _).
    + repeat constructor; assumption.
    + exact Hb.
    + exact Hm.
    + exact Hrole.
    + vm_compute. reflexivity.
    + exists t. split; [rewrite <- Et; vm_compute; reflexivity|].
      rewrite (Hai eq_refl), Hpay. reflexivity.
  - destruct (proj1 (proj2 (proj2 (proj2 (@C2_results_attach_to_preceding_bot_only IsoHost.host))))
                [] Example.userLine Example.resultsLine (js "log.txt") mu m
                [Transcript.mk (Some (js "log.txt")) None
                   (Some [Message.mk None (Some (js "user")) None
                            (Some (js "find shoes")) None None
                            (Some (js "2026-01-09T05:09:11.000000+00:00")) None])
                   (Metadata.mk (Some (js "2026-01-09T05:09:11.000Z")) None None None
                      (Some (Some (js "2026-01-09T05:09:11.000Z"),
                             Some (js "2026-01-09T05:09:15.201Z")))
                      (Some (js "log.txt")) (Some (js "timestamped")) None None None None)])
      as (t & Et & _ & Huser).
    + repeat constructor; assumption.
    + exact Hu.
    + exact Hm.
    + exact Hrole.
    + vm_compute. reflexivity.
    + exists t. split; [rewrite <- Et; vm_compute; reflexivity|].
      rewrite (Huser eq_refl). reflexivity.
Defined.

(** The two cases of the specification: after a bot message the payload is
    attached to it; after a user message no message of the session carries
    results. *)
Example results_after_bot :
  map (fun msg => (Message.role msg, Message.results msg))
      (Helpers.pushCurrent
         (fold_left (@Helpers.step IsoHost.host) [Example.botLine; Example.resultsLine]
                    Helpers.start))
  = [(Some (js "bot"),
      Some (Results.mk (Some [js "Bold"])
              (Some (JArr [JArr [JStr (js "p1"); JStr (js "p2")]])) None))].
Proof. vm_compute. reflexivity. Qed.

Example results_after_user :
  map (fun msg => (Message.role msg, Message.results msg))
      (Helpers.pushCurrent
         (fold_left (@Helpers.step IsoHost.host) [Example.userLine; Example.resultsLine]
                    Helpers.start))
  = [(Some (js "user"), None)].
Proof. vm_compute. reflexivity. Qed.

(** A USER line and two continuation lines: with a valid date, and with a
    timestamp that is not a date. *)
Lemma C8_witness :
  let l1 := Example.userLine in
  let bad := js "[2026-13-45T99:99:99+00:00] USER: find shoes" in
  let l2 := js "  in red" in
  let l3 := js "size 42 " in
  let m := Regex.MState (Some (ch "s")) []
             [(3, js "find shoes"); (2, js "USER");
              (1, js "2026-01-09T05:09:11.000000+00:00")] in
  let mbad := Regex.MState (Some (ch "s")) []
                [(3, js "find shoes"); (2, js "USER"); (1, js "2026-13-45T99:99:99+00:00")] in
  (Regex.exec true Helpers.linePattern (trim l1) = Some m
   /\ @dateParse IsoHost.host (Helpers.groupText 1 m) <> None
   /\ exists t,
        @Helpers.parseTimestampedTranscript IsoHost.host
          (l1 ++ Helpers.newline :: l2 ++ Helpers.newline :: l3) (js "log.txt") = Returns [t]
        /\ Transcript.messages t
           = Some [Message.plain (js "user") (js "find shoes in red size 42")
                     (Some (js "2026-01-09T05:09:11.000000+00:00"))])
  /\ (Regex.exec true Helpers.linePattern (trim bad) = Some mbad
      /\ @dateParse IsoHost.host (Helpers.groupText 1 mbad) = None
      /\ @Helpers.parseTimestampedTranscript IsoHost.host
           (bad ++ Helpers.newline :: l2 ++ Helpers.newline :: l3) (js "log.txt")
         = Throws RangeError).
Proof.
  intros l1 bad l2 l3 m mbad.
  assert (N1 : ~ In Helpers.newline l1) by (apply no_sep_by_test; vm_compute; reflexivity).
  assert (Nb : ~ In Helpers.newline bad) by (apply no_sep_by_test; vm_compute; reflexivity).
  assert (N2 : ~ In Helpers.newline l2) by (apply no_sep_by_test; vm_compute; reflexivity).
  assert (N3 : ~ In Helpers.newline l3) by (apply no_sep_by_test; vm_compute; reflexivity).
  assert (Hm : Regex.exec true Helpers.linePattern (trim l1) = Some m)
    by (vm_compute; reflexivity).
  assert (Hmb : Regex.exec true Helpers.linePattern (trim bad) = Some mbad)
    by (vm_compute; reflexivity).
  assert (Hrole : toUpperCase (Helpers.groupText 2 m) = js "USER")
    by (vm_compute; reflexivity).
  assert (Hroleb : toUpperCase (Helpers.groupText 2 mbad) = js "USER")
    by (vm_compute; reflexivity).
  assert (Hdate : @dateParse IsoHost.host (Helpers.groupText 1 m) <> None)
    by (vm_compute; discriminate).
  assert (Hbad : @dateParse IsoHost.host (Helpers.groupText 1 mbad) = None)
    by (vm_compute; reflexivity).
  assert (C2 : Spec.continuation l2) by (split; vm_compute; reflexivity).
  assert (C3 : Spec.continuation l3) by (split; vm_compute; reflexivity).
  split.
  - split; [exact Hm|]. split; [exact Hdate|].
    destruct (proj1 (proj1 (@C8_continuation_merge_or_range_error IsoHost.host)
                       l1 l2 l3 (js "log.txt") m N1 N2 N3 Hm Hrole C2 C3) Hdate)
      as (t & Et & Emsgs).
    exists t. split; [exact Et|]. rewrite Emsgs. vm_compute. reflexivity.
  - split; [exact Hmb|]. split; [exact Hbad|].
    exact (proj2 (proj1 (@C8_continuation_merge_or_range_error IsoHost.host)
                    bad l2 l3 (js "log.txt") mbad Nb N2 N3 Hmb Hroleb C2 C3) Hbad).
Defined.

(** A separator line between the USER line and the text is skipped. *)
Example separated_parses_to_hello_world :
  match @Helpers.parseTimestampedTranscript IsoHost.host Example.separated (js "log.txt") with
  | Returns [t] => option_map (map Message.content) (Transcript.messages t)
  | _ => None
  end = Some [Some (js "hello world")].
Proof. vm_compute. reflexivity. Qed.

(** A first timestamp that is not a valid date makes the parser throw. *)
Example invalid_first_date_throws :
  @Helpers.parseTimestampedTranscript IsoHost.host
    (js "[2026-13-45T99:99:99+00:00] USER: hello") (js "log.txt")
  = Throws RangeError.
Proof. vm_compute. reflexivity. Qed.

(* ================================================================= *)
(** ** The normalizer *)

Lemma orDefault_again (a : option jsstring) (d : jsstring) :
  TranscriptParser.orDefault (Some (TranscriptParser.orDefault a d)) d
  = TranscriptParser.orDefault a d.
Proof.
  unfold TranscriptParser.orDefault. destruct a as [x|].
  - destruct (truthy x) eqn:E; [rewrite E; reflexivity|]. destruct (truthy d); reflexivity.
  - destruct (truthy d); reflexivity.
Qed.

Lemma normalizeRole_cases (r : jsstring) :
  TranscriptParser.normalizeRole r = js "user"
  \/ TranscriptParser.normalizeRole r = js "bot"
  \/ TranscriptParser.normalizeRole r = js "unknown".
Proof.
  unfold TranscriptParser.normalizeRole. cbv zeta.
  destruct (existsb _ TranscriptParser.userRoles); [left; reflexivity|].
  destruct (existsb _ TranscriptParser.botRoles); [right; left | right; right]; reflexivity.
Qed.

Lemma normalizeRole_again (r : jsstring) (d : jsstring) :
  TranscriptParser.normalizeRole
    (TranscriptParser.orDefault (Some (TranscriptParser.normalizeRole r)) d)
  = TranscriptParser.normalizeRole r.
Proof.
  destruct (normalizeRole_cases r) as [E|[E|E]]; rewrite E; reflexivity.
Qed.

Lemma content_again (c : jsstring) :
  TranscriptParser.orDefault (orElse (orElse (Some c) None) None) [] = c.
Proof. destruct c; reflexivity. Qed.

Lemma timestamp_again (ts : option jsstring) :
  orElse (orElse ts None) None = orElse ts None.
Proof. destruct ts as [[|c t]|]; reflexivity. Qed.

(** Normalizing a message twice is normalizing it once, whatever its
    spelling. *)
Lemma normalizeMessage_again (i : nat) (msg : Message.t) :
  TranscriptParser.normalizeMessage i (TranscriptParser.normalizeMessage i msg)
  = TranscriptParser.normalizeMessage i msg.
Proof.
  unfold TranscriptParser.normalizeMessage.
  cbn [Message.id Message.role Message.sender Message.content Message.text
       Message.message Message.timestamp Message.results].
  rewrite orDefault_again, content_again, timestamp_again.
  replace (orElse (Some (TranscriptParser.normalizeRole
                           (TranscriptParser.orDefault
                              (orElse (Message.role msg) (Message.sender msg))
                              (js "unknown")))) None)
    with (Some (TranscriptParser.normalizeRole
                  (TranscriptParser.orDefault
                     (orElse (Message.role msg) (Message.sender msg)) (js "unknown")))).
  - rewrite normalizeRole_again. reflexivity.
  - destruct (normalizeRole_cases
                (TranscriptParser.orDefault
                   (orElse (Message.role msg) (Message.sender msg)) (js "unknown")))
      as [E|[E|E]]; rewrite E; reflexivity.
Qed.

Lemma mapi_again {A} (f : nat -> A -> A) (l : list A) :
  (forall i x, f i (f i x) = f i x) ->
  forall i, TranscriptParser.mapi f i (TranscriptParser.mapi f i l) = TranscriptParser.mapi f i l.
Proof.
  intros H. induction l as [|x l IH]; intros i; simpl; [reflexivity|].
  rewrite H, IH. reflexivity.
Qed.

Lemma mapi_length {A B} (f : nat -> A -> B) (l : list A) (i : nat) :
  length (TranscriptParser.mapi f i l) = length l.
Proof. revert i. induction l as [|x l IH]; intros i; simpl; [|rewrite IH]; reflexivity. Qed.

Lemma mapi_map {A B C} (f : nat -> A -> B) (g : B -> C) (h : A -> C) (l : list A) :
  Forall (fun x => forall i, g (f i x) = h x) l ->
  forall i, map g (TranscriptParser.mapi f i l) = map h l.
Proof.
  induction 1 as [|x l Hx Hl IH]; intros i; simpl; [reflexivity|].
  rewrite Hx, IH. reflexivity.
Qed.

Lemma mapi_filter_length {A} (f : nat -> A -> A) (p : A -> bool) (l : list A) :
  Forall (fun x => forall i, p (f i x) = p x) l ->
  forall i, length (filter p (TranscriptParser.mapi f i l)) = length (filter p l).
Proof.
  induction 1 as [|x l Hx Hl IH]; intros i; simpl; [reflexivity|].
  rewrite Hx. destruct (p x); simpl; rewrite IH; reflexivity.
Qed.

(** On messages spelled with [role] and [content], the normalized message
    has the content and the role that the metadata functions read in the
    raw one. *)
Lemma plain_content (i : nat) (msg : Message.t) :
  Spec.plainSpelling msg ->
  TranscriptParser.orDefault (Message.content (TranscriptParser.normalizeMessage i msg)) []
  = TranscriptParser.orDefault (Message.content msg) [].
Proof.
  intros (Hs & Ht & Hm). unfold TranscriptParser.normalizeMessage.
  cbn [Message.content]. rewrite Ht, Hm.
  destruct (Message.content msg) as [[|c t]|]; reflexivity.
Qed.

Lemma plain_role (i : nat) (msg : Message.t) :
  Spec.plainSpelling msg ->
  TranscriptParser.normalizeRole
    (TranscriptParser.orDefault (Message.role (TranscriptParser.normalizeMessage i msg)) [])
  = TranscriptParser.normalizeRole (TranscriptParser.orDefault (Message.role msg) []).
Proof.
  intros (Hs & Ht & Hm). unfold TranscriptParser.normalizeMessage.
  cbn [Message.role]. rewrite Hs, normalizeRole_again.
  destruct (Message.role msg) as [[|c t]|]; reflexivity.
Qed.

Section NormalizerFacts.
Context {host : Host}.

Lemma loweredContent_plain (raw : list Message.t) :
  Forall Spec.plainSpelling raw ->
  TranscriptParser.loweredContent (TranscriptParser.normalizeMessages raw)
  = TranscriptParser.loweredContent raw.
Proof.
  intros H. unfold TranscriptParser.loweredContent, TranscriptParser.normalizeMessages.
  f_equal. apply mapi_map. eapply Forall_impl; [|exact H].
  intros msg Hmsg i. cbv beta. rewrite plain_content; [reflexivity | exact Hmsg].
Qed.

(** The session that normalizing gives when the id is present. *)
Lemma normalizeTranscript_plain (filename : jsstring) (n : nat) (t : Transcript.t) :
  Spec.plainSession t ->
  exists t',
    TranscriptParser.normalizeTranscript filename n t = (t', n)
    /\ Spec.plainSession t'
    /\ TranscriptParser.normalizeTranscript filename n t' = (t', n).
Proof.
  intros [Hid Hplain]. unfold TranscriptParser.normalizeTranscript. rewrite Hid.
  eexists. split; [reflexivity|]. split.
  - split; [exact Hid|]. unfold Analyzer.messagesOf. cbn [Transcript.messages].
    unfold TranscriptParser.normalizeMessages.
    generalize 0 as i.
    induction (match Transcript.messages t with Some l => l | None => [] end) as [|m l IH];
      intros i; simpl; constructor; [repeat split | apply IH].
  - cbn [Transcript.id Transcript.messages Transcript.metadata
         Metadata.timestamp Metadata.language Metadata.escalated Metadata.dateRange
         Metadata.sourceFile Metadata.format].
    rewrite Hid. unfold Analyzer.messagesOf in Hplain.
    set (raw := match Transcript.messages t with Some l => l | None => [] end) in *.
    assert (Hmsgs : TranscriptParser.normalizeMessages (TranscriptParser.normalizeMessages raw)
                    = TranscriptParser.normalizeMessages raw).
    { unfold TranscriptParser.normalizeMessages. apply mapi_again.
      intros i x. apply normalizeMessage_again. }
    assert (Hlen : length (TranscriptParser.normalizeMessages raw) = length raw)
      by apply mapi_length.
    assert (Hesc : TranscriptParser.detectEscalation (TranscriptParser.normalizeMessages raw)
                   = TranscriptParser.detectEscalation raw).
    { unfold TranscriptParser.detectEscalation. cbv zeta.
      rewrite loweredContent_plain; [reflexivity | exact Hplain]. }
    assert (Hord : TranscriptParser.detectOrder (TranscriptParser.normalizeMessages raw)
                   = TranscriptParser.detectOrder raw).
    { unfold TranscriptParser.detectOrder. cbv zeta.
      rewrite loweredContent_plain; [reflexivity | exact Hplain]. }
    assert (Huser : TranscriptParser.countUserTurns (TranscriptParser.normalizeMessages raw)
                    = TranscriptParser.countUserTurns raw).
    { unfold TranscriptParser.countUserTurns, TranscriptParser.normalizeMessages.
      apply mapi_filter_length. eapply Forall_impl; [|exact Hplain].
      intros msg Hmsg i. cbv beta. rewrite plain_role; [reflexivity | exact Hmsg]. }
    assert (Hbot : TranscriptParser.countBotTurns (TranscriptParser.normalizeMessages raw)
                   = TranscriptParser.countBotTurns raw).
    { unfold TranscriptParser.countBotTurns, TranscriptParser.normalizeMessages.
      apply mapi_filter_length. eapply Forall_impl; [|exact Hplain].
      intros msg Hmsg i. cbv beta. rewrite plain_role; [reflexivity | exact Hmsg]. }
    rewrite Hmsgs, Hlen, Hesc, Hord, Huser, Hbot. reflexivity.
Qed.

Lemma normalizeEach_plain (filename : jsstring) (n : nat) (ts : list Transcript.t) :
  Forall Spec.plainSession ts ->
  exists ts',
    TranscriptParser.normalizeEach filename n ts = (ts', n)
    /\ Forall Spec.plainSession ts'
    /\ TranscriptParser.normalizeEach filename n ts' = (ts', n).
Proof.
  induction 1 as [|t ts Ht Hts IH].
  - exists []. repeat split. constructor.
  - destruct (normalizeTranscript_plain filename n Ht) as (t' & E1 & P1 & E2).
    destruct IH as (ts' & E3 & P3 & E4).
    exists (t' :: ts'). simpl. rewrite E1, E3, E2, E4.
    repeat split. constructor; assumption.
Qed.

(** Where the claim of idempotence holds: sessions that have an id and
    whose messages are spelled with [role] and [content], as both text
    parsers build them. *)
Lemma renormalize_plain (r : TranscriptParser.ParseResult.t) :
  TranscriptParser.ParseResult.error r = None ->
  Forall Spec.plainSession (TranscriptParser.ParseResult.transcripts r) ->
  Spec.renormalize r = TranscriptParser.normalizeTranscripts [r].
Proof.
  intros He Hp. unfold Spec.renormalize, TranscriptParser.normalizeTranscripts.
  cbn [TranscriptParser.normalizeFrom]. rewrite He.
  destruct (normalizeEach_plain (TranscriptParser.ParseResult.filename r) 0 Hp)
    as (ts' & E1 & P & E2).
  rewrite E1. cbn [TranscriptParser.ParseResult.error TranscriptParser.ParseResult.filename
                   TranscriptParser.ParseResult.transcripts].
  rewrite !app_nil_r, E2, ?app_nil_r. reflexivity.
Qed.

End NormalizerFacts.

(** C9.  The code at the failing input: a session whose message uses the
    [sender] and [text] spellings.  Normalizing it maps the message to a
    user message with content "please escalate", but computes the metadata
    from the raw message: no user turn, no escalation.  Normalizing the
    result again counts one user turn and detects the escalation, so the
    second pass does not return the record of the first. *)
Theorem C9_renormalizing_changes_metadata :
  let once := @TranscriptParser.normalizeTranscripts IsoHost.host [Example.senderText] in
  let twice := @Spec.renormalize IsoHost.host Example.senderText in
  map (fun t => option_map (map (fun msg => (Message.role msg, Message.content msg)))
                           (Transcript.messages t)) once
  = [Some [(Some (js "user"), Some (js "please escalate"))]]
  /\ map (fun t => (Metadata.userTurns (Transcript.metadata t),
                    Metadata.hasEscalation (Transcript.metadata t))) once
     = [(Some 0, Some false)]
  /\ map (fun t => (Metadata.userTurns (Transcript.metadata t),
                    Metadata.hasEscalation (Transcript.metadata t))) twice
     = [(Some 1, Some true)]
  /\ twice <> once.
Proof.
  cbv zeta. repeat split; try (vm_compute; reflexivity).
  vm_compute. discriminate.
Qed.

(* ================================================================= *)
(** ** The snapshot of an empty session list *)

(** C6.  The code at the failing input, the empty session list: the
    snapshot lacks nine properties that the snapshot of every non-empty
    list has ([totalUserMessages], [totalBotMessages], [uniqueQueryCount],
    [allUniqueQueries], [allProductIds], [totalStyleMentions], [allStyles],
    [dailyDistribution], [dataLimitations]), and its share of sessions
    without results is 100, not zero. *)
Theorem C6_empty_snapshot_lacks_properties :
  forall host : Host,
    Spec.presentOnlyWhenNonEmpty (@Analyzer.extractRuleBasedMetrics host [])
    = [false; false; false; false; false; false; false; false; false]
    /\ Metrics.Share.percentage
         (Metrics.BotResponseAnalysis.sessionsWithoutResults
            (Metrics.botResponseAnalysis (@Analyzer.extractRuleBasedMetrics host [])))
       = Metrics.Int 100
    /\ forall (t : Transcript.t) (ts : list Transcript.t),
         Spec.presentOnlyWhenNonEmpty (@Analyzer.extractRuleBasedMetrics host (t :: ts))
         = [true; true; true; true; true; true; true; true; true].
Proof.
  intros host. repeat split.
Qed.

(* ================================================================= *)
(** ** The end-to-end scenario *)

(** C1 (as amended).  The timestamped-log parser returns one session per
    file, whatever CONVERSATION STARTED markers the file holds.  For the two
    files of the scenario (file A, a timestamped log with two conversations
    separated by a marker, three user turns and one RESULTS line; file B,
    loose text with one pair) the metrics report 2 sessions, 4 queries, 2
    distinct products and 1 style. *)
Theorem C1_end_to_end_two_sessions :
  (forall (host : Host) (content filename : jsstring),
      match @Helpers.parseTimestampedTranscript host content filename with
      | Returns sessions => length sessions = 1
      | Throws _ => True
      end)
  /\ option_map Spec.figures (@Spec.analyze IsoHost.host Example.files) = Some (2, 4, 2, 1).
Proof.
  split.
  - intros host content filename.
    destruct (Helpers.parseTimestampedTranscript content filename) as [sessions|e] eqn:E;
      [|exact I].
    destruct (parse_returns _ _ E) as (t & -> & _). reflexivity.
  - vm_compute. reflexivity.
Qed.

(** The claim as stated fails: the scenario reports 2 sessions, not 3. *)
Lemma C1_counterexample :
  option_map Spec.figures (@Spec.analyze IsoHost.host Example.files) <> Some (3, 4, 2, 1).
Proof. vm_compute. discriminate. Qed.

(* ================================================================= *)
(** ** Intent buckets *)

Lemma classifyIntent_counts (qs : list jsstring) :
  forall ps lq pi sr cb si,
    fold_left Analyzer.classifyIntent qs (Analyzer.IntentCategories.mk ps lq pi sr cb si)
    = Analyzer.IntentCategories.mk
        (ps + Spec.count Spec.isSearch qs)
        (lq + Spec.count (fun q => negb (Spec.isSupport q) && Spec.isLocation q) qs)
        (pi + Spec.count Spec.isPrice qs)
        (sr + Spec.count Spec.isSupport qs)
        (cb + Spec.count Spec.isBrowse qs)
        (si + Spec.count Spec.isSpecific qs).
Proof.
  unfold Spec.count.
  induction qs as [|q qs IH]; intros ps lq pi sr cb si.
  - simpl. rewrite !Nat.add_0_r. reflexivity.
  - cbn [fold_left filter]. unfold Analyzer.classifyIntent at 2.
    fold (Spec.isSupport q) (Spec.isLocation q) (Spec.isPrice q) (Spec.isSpecific q).
    assert (Es : Spec.isSearch q = negb (Spec.isSpecific q) && negb (Spec.isBrowse q))
      by reflexivity.
    assert (Eb : Spec.isBrowse q
                 = negb (Spec.isSpecific q) && Nat.leb (Analyzer.wordCount q) 2
                   && negb (Spec.isLocation q) && negb (Spec.isSupport q)) by reflexivity.
    rewrite Es, Eb. clear Es Eb.
    destruct (Spec.isSupport q), (Spec.isLocation q), (Spec.isPrice q), (Spec.isSpecific q),
      (Nat.leb (Analyzer.wordCount q) 2);
      cbn [negb andb orb]; rewrite IH; cbn [length]; f_equal; lia.
Qed.

Lemma count_split (p q : jsstring -> bool) (qs : list jsstring) :
  (forall x, p x = true -> q x = false) ->
  Spec.count p qs + Spec.count q qs = Spec.count (fun x => p x || q x) qs.
Proof.
  intros H. unfold Spec.count. induction qs as [|x qs IH]; [reflexivity|].
  simpl. specialize (H x).
  destruct (p x), (q x); simpl; lia.
Qed.

Lemma count_all (p : jsstring -> bool) (qs : list jsstring) :
  (forall x, p x = true) -> Spec.count p qs = length qs.
Proof.
  intros H. unfold Spec.count. induction qs as [|x qs IH]; [reflexivity|].
  cbn [filter]. rewrite H. cbn [length]. rewrite IH. reflexivity.
Qed.

Lemma count_ext (p q : jsstring -> bool) (qs : list jsstring) :
  (forall x, p x = q x) -> Spec.count p qs = Spec.count q qs.
Proof.
  intros H. unfold Spec.count. induction qs as [|x qs IH]; [reflexivity|].
  cbn [filter]. rewrite H. destruct (q x); cbn [length]; rewrite IH; reflexivity.
Qed.

(** C5 (as amended).  The classifier runs two independent chains over each
    non-empty user query.  One assigns exactly one of specificItem,
    categoryBrowse and productSearch (specific-item pattern first; else at
    most two words with no location and no support match gives
    categoryBrowse; else productSearch), so these three counters add up to
    the number of classified queries.  The other assigns at most one of
    supportRequest and locationQuery (support first).  priceInquiry is a
    separate flag.  The five counters therefore add up to the number of
    classified queries plus the number of those that match a support or a
    location phrase. *)
Theorem C5_intent_two_chains :
  forall transcripts : list Transcript.t,
    let i := Analyzer.Behavior.intentCategories (Analyzer.extractUserBehavior transcripts) in
    let qs := flat_map Analyzer.behaviorQueries transcripts in
    Analyzer.IntentCategories.specificItem i = Spec.count Spec.isSpecific qs
    /\ Analyzer.IntentCategories.categoryBrowse i = Spec.count Spec.isBrowse qs
    /\ Analyzer.IntentCategories.productSearch i = Spec.count Spec.isSearch qs
    /\ Analyzer.IntentCategories.specificItem i + Analyzer.IntentCategories.categoryBrowse i
       + Analyzer.IntentCategories.productSearch i = length qs
    /\ Analyzer.IntentCategories.supportRequest i = Spec.count Spec.isSupport qs
    /\ Analyzer.IntentCategories.locationQuery i
       = Spec.count (fun q => negb (Spec.isSupport q) && Spec.isLocation q) qs
    /\ Analyzer.IntentCategories.priceInquiry i = Spec.count Spec.isPrice qs
    /\ Spec.fiveBuckets i
       = length qs + Spec.count (fun q => Spec.isSupport q || Spec.isLocation q) qs.
Proof.
  intros transcripts i qs.
  assert (Hi : i = Analyzer.IntentCategories.mk
                     (Spec.count Spec.isSearch qs)
                     (Spec.count (fun q => negb (Spec.isSupport q) && Spec.isLocation q) qs)
                     (Spec.count Spec.isPrice qs)
                     (Spec.count Spec.isSupport qs)
                     (Spec.count Spec.isBrowse qs)
                     (Spec.count Spec.isSpecific qs)).
  { subst i qs. destruct transcripts as [|t ts]; [reflexivity|].
    unfold Analyzer.extractUserBehavior. cbn [Analyzer.Behavior.intentCategories].
    unfold Analyzer.IntentCategories.zero. rewrite classifyIntent_counts. reflexivity. }
  assert (Hthree : Spec.count Spec.isSpecific qs + Spec.count Spec.isBrowse qs
                   + Spec.count Spec.isSearch qs = length qs).
  { rewrite (@count_split Spec.isSpecific Spec.isBrowse).
    - rewrite count_split.
      + apply count_all. intros x. unfold Spec.isSearch.
        destruct (Spec.isSpecific x), (Spec.isBrowse x); reflexivity.
      + intros x. unfold Spec.isSearch.
        destruct (Spec.isSpecific x), (Spec.isBrowse x); simpl; congruence.
    - intros x Hx. unfold Spec.isBrowse. rewrite Hx. reflexivity. }
  assert (Htwo : Spec.count Spec.isSupport qs
                 + Spec.count (fun q => negb (Spec.isSupport q) && Spec.isLocation q) qs
                 = Spec.count (fun q => Spec.isSupport q || Spec.isLocation q) qs).
  { rewrite count_split.
    - apply count_ext. intros x. destruct (Spec.isSupport x), (Spec.isLocation x); reflexivity.
    - intros x Hx. rewrite Hx. reflexivity. }
  rewrite Hi. unfold Spec.fiveBuckets.
  cbn [Analyzer.IntentCategories.specificItem Analyzer.IntentCategories.categoryBrowse
       Analyzer.IntentCategories.productSearch Analyzer.IntentCategories.supportRequest
       Analyzer.IntentCategories.locationQuery Analyzer.IntentCategories.priceInquiry].
  repeat split; try reflexivity; lia.
Qed.

(** The claim as stated fails: the one query "help" raises supportRequest
    and productSearch, so the five counters add up to 2 for 1 query. *)
Lemma C5_counterexample :
  let ts := [Example.asked ["help"%string]] in
  length (flat_map Analyzer.behaviorQueries ts) = 1
  /\ Spec.fiveBuckets (Analyzer.Behavior.intentCategories (Analyzer.extractUserBehavior ts))
     <> length (flat_map Analyzer.behaviorQueries ts).
Proof. cbv zeta. split; [vm_compute; reflexivity | vm_compute; discriminate]. Qed.

Example help_raises_two_counters :
  Analyzer.Behavior.intentCategories (Analyzer.extractUserBehavior [Example.asked ["help"%string]])
  = Analyzer.IntentCategories.mk 1 0 0 1 0 0.
Proof. vm_compute. reflexivity. Qed.

(* ================================================================= *)
(** ** Query deduplication and order *)

Lemma eqb_sym (a b : jsstring) : JsString.eqb a b = JsString.eqb b a.
Proof.
  destruct (JsString.eqb a b) eqn:E.
  - apply eqb_eq in E. subst. symmetry. apply eqb_refl.
  - apply eqb_neq in E. symmetry. apply eqb_neq. congruence.
Qed.

Lemma existsb_eqb_In (x : jsstring) (l : list jsstring) :
  existsb (JsString.eqb x) l = true <-> In x l.
Proof.
  rewrite existsb_exists. split.
  - intros (y & Hy & E). apply eqb_eq in E. subst. exact Hy.
  - intros H. exists x. split; [exact H | apply eqb_refl].
Qed.

Lemma existsb_eqb_notIn (x : jsstring) (l : list jsstring) :
  existsb (JsString.eqb x) l = false <-> ~ In x l.
Proof.
  rewrite <- existsb_eqb_In. destruct (existsb (JsString.eqb x) l); split; congruence.
Qed.

Lemma setOf_snoc (l : list jsstring) (x : jsstring) :
  Analyzer.setOf (l ++ [x]) = Analyzer.setAdd x (Analyzer.setOf l).
Proof. unfold Analyzer.setOf. rewrite fold_left_app. reflexivity. Qed.

Lemma setOf_In (l : list jsstring) (x : jsstring) :
  In x (Analyzer.setOf l) <-> In x l.
Proof.
  induction l as [|y l IH] using rev_ind; [reflexivity|].
  rewrite setOf_snoc. unfold Analyzer.setAdd.
  destruct (existsb (JsString.eqb y) (Analyzer.setOf l)) eqn:E.
  - apply existsb_eqb_In in E. rewrite in_app_iff, IH. simpl.
    split; [tauto|]. intros [H|[<-|[]]]; [exact H | apply IH; exact E].
  - rewrite !in_app_iff, IH. reflexivity.
Qed.

Lemma setOf_NoDup (l : list jsstring) : NoDup (Analyzer.setOf l).
Proof.
  induction l as [|y l IH] using rev_ind; [constructor|].
  rewrite setOf_snoc. unfold Analyzer.setAdd.
  destruct (existsb (JsString.eqb y) (Analyzer.setOf l)) eqn:E; [exact IH|].
  apply existsb_eqb_notIn in E.
  apply NoDup_rev in IH. rewrite <- (rev_involutive (Analyzer.setOf l ++ [y])).
  apply NoDup_rev. rewrite rev_app_distr. simpl. constructor; [|exact IH].
  rewrite <- in_rev. exact E.
Qed.

Section KeyedTable.
Variable V : Type.
Variable f : jsstring -> V.

Lemma get_keyed (keys : list jsstring) (k : jsstring) :
  JsObject.get (map (fun k' => (k', f k')) keys) k
  = if existsb (JsString.eqb k) keys then Some (f k) else None.
Proof.
  induction keys as [|k' keys IH]; [reflexivity|].
  simpl. rewrite (eqb_sym k k'). destruct (JsString.eqb k' k) eqn:E.
  - apply eqb_eq in E. subst. reflexivity.
  - simpl. exact IH.
Qed.

Lemma set_keyed_absent (keys : list jsstring) (k : jsstring) (v : V) :
  ~ In k keys ->
  JsObject.set (map (fun k' => (k', f k')) keys) k v
  = map (fun k' => (k', f k')) keys ++ [(k, v)].
Proof.
  induction keys as [|k' keys IH]; intros H; [reflexivity|].
  simpl. destruct (JsString.eqb k' k) eqn:E.
  - apply eqb_eq in E. subst. exfalso. apply H. left. reflexivity.
  - rewrite IH; [reflexivity|]. intros Hin. apply H. right. exact Hin.
Qed.

Lemma set_keyed_present (keys : list jsstring) (k : jsstring) (v : V) :
  NoDup keys -> In k keys ->
  JsObject.set (map (fun k' => (k', f k')) keys) k v
  = map (fun k' => (k', if JsString.eqb k' k then v else f k')) keys.
Proof.
  induction keys as [|k' keys IH]; intros Hnd Hin; [destruct Hin|].
  inversion Hnd as [|x l Hx Hl]; subst.
  simpl. destruct (JsString.eqb k' k) eqn:E.
  - apply eqb_eq in E. subst. f_equal.
    apply map_ext_in. intros a Ha.
    destruct (JsString.eqb a k) eqn:E'; [|reflexivity].
    apply eqb_eq in E'. subst. contradiction.
  - f_equal. apply IH; [exact Hl|].
    destruct Hin as [->|Hin]; [|exact Hin].
    rewrite eqb_refl in E. discriminate.
Qed.
End KeyedTable.

Lemma occurrences_snoc (k q : jsstring) (qs : list jsstring) :
  Spec.occurrences k (qs ++ [q])
  = Spec.occurrences k qs ++ (if JsString.eqb (toLowerCase q) k then [q] else []).
Proof. unfold Spec.occurrences. rewrite filter_app. reflexivity. Qed.

Lemma occurrences_nonempty (k : jsstring) (qs : list jsstring) :
  In k (map toLowerCase qs) -> Spec.occurrences k qs <> [].
Proof.
  intros H. apply in_map_iff in H. destruct H as (q & E & Hq).
  assert (Hin : In q (Spec.occurrences k qs)).
  { unfold Spec.occurrences. apply filter_In. split; [exact Hq|]. apply eqb_eq. exact E. }
  intros Hnil. rewrite Hnil in Hin. destruct Hin.
Qed.

Lemma occurrences_empty (k : jsstring) (qs : list jsstring) :
  ~ In k (map toLowerCase qs) -> Spec.occurrences k qs = [].
Proof.
  intros H. unfold Spec.occurrences.
  induction qs as [|q qs IH]; [reflexivity|].
  simpl. destruct (JsString.eqb (toLowerCase q) k) eqn:E.
  - apply eqb_eq in E. exfalso. apply H. left. exact E.
  - apply IH. intros Hin. apply H. right. exact Hin.
Qed.

Lemma tally_keyed (qs : list jsstring) :
  Spec.tally qs
  = map (fun k' => (k', snd (Spec.entryFor qs k'))) (Spec.distinctForms qs).
Proof. reflexivity. Qed.

Lemma distinctForms_snoc (qs : list jsstring) (q : jsstring) :
  Spec.distinctForms (qs ++ [q])
  = Analyzer.setAdd (toLowerCase q) (Spec.distinctForms qs).
Proof. unfold Spec.distinctForms. rewrite map_app. simpl. apply setOf_snoc. Qed.

Lemma entryFor_snoc_other (qs : list jsstring) (q k' : jsstring) :
  k' <> toLowerCase q -> Spec.entryFor (qs ++ [q]) k' = Spec.entryFor qs k'.
Proof.
  intros H. unfold Spec.entryFor. rewrite occurrences_snoc.
  destruct (JsString.eqb (toLowerCase q) k') eqn:E.
  - apply eqb_eq in E. congruence.
  - rewrite app_nil_r. reflexivity.
Qed.

(** The table that the loop fills is the tally of the specification. *)
Lemma countQuery_tally (qs : list jsstring) (q : jsstring) :
  Analyzer.countQuery (Spec.tally qs) q = Spec.tally (qs ++ [q]).
Proof.
  unfold Analyzer.countQuery. cbv zeta.
  set (k := toLowerCase q).
  rewrite (tally_keyed qs), get_keyed.
  unfold Spec.tally at 1. rewrite distinctForms_snoc. fold k. unfold Analyzer.setAdd.
  destruct (existsb (JsString.eqb k) (Spec.distinctForms qs)) eqn:E.
  - pose proof E as Hin. apply existsb_eqb_In in Hin.
    rewrite set_keyed_present; [|apply setOf_NoDup | exact Hin].
    apply map_ext_in. intros k' Hk'.
    destruct (JsString.eqb k' k) eqn:E'.
    + apply eqb_eq in E'. subst k'.
      unfold Spec.entryFor. cbn [snd Metrics.QueryEntry.query Metrics.QueryEntry.frequency].
      rewrite occurrences_snoc. fold k. rewrite eqb_refl.
      rewrite length_app, Nat.add_1_r. f_equal. f_equal.
      destruct (Spec.occurrences k qs) as [|o os] eqn:Eo; [|reflexivity].
      exfalso. apply (@occurrences_nonempty k qs); [|exact Eo].
      apply setOf_In. exact Hin.
    + apply eqb_neq in E'. rewrite entryFor_snoc_other; [|exact E'].
      reflexivity.
  - pose proof E as Hnin. apply existsb_eqb_notIn in Hnin.
    rewrite set_keyed_absent; [|exact Hnin].
    rewrite map_app. f_equal.
    + apply map_ext_in. intros k' Hk'.
      rewrite entryFor_snoc_other; [reflexivity|].
      intros ->. contradiction.
    + simpl. unfold Spec.entryFor. rewrite occurrences_snoc. fold k.
      rewrite eqb_refl, occurrences_empty; [reflexivity|].
      intros Hin. apply Hnin. apply setOf_In. exact Hin.
Qed.

Lemma fold_countQuery_tally (qs : list jsstring) :
  fold_left Analyzer.countQuery qs [] = Spec.tally qs.
Proof.
  induction qs as [|q qs IH] using rev_ind; [reflexivity|].
  rewrite fold_left_app. simpl. rewrite IH. apply countQuery_tally.
Qed.

Lemma StronglySorted_weaken {A} (R S : A -> A -> Prop) (l : list A) :
  (forall a b, R a b -> S a b) -> StronglySorted R l -> StronglySorted S l.
Proof.
  intros H. induction 1 as [|x l Hl IH Hx]; constructor; [exact IH|].
  eapply Forall_impl; [|exact Hx]. intros y. apply H.
Qed.

(** Insertion sort: sorted and stable. *)
Section SortFacts.
Variable A : Type.
Variable before : A -> A -> bool.

Lemma insert_Forall (Q : A -> Prop) (x : A) (l : list A) :
  Q x -> Forall Q l -> Forall Q (Analyzer.insert before x l).
Proof.
  intros Hx Hl. induction Hl as [|y l Hy Hl IH]; simpl.
  - constructor; [exact Hx | constructor].
  - destruct (before x y); constructor; auto.
Qed.

Hypothesis total : forall a b, before a b = false -> before b a = true.
Hypothesis trans : forall a b c, before a b = true -> before b c = true -> before a c = true.

Lemma insert_sorted (x : A) (l : list A) :
  StronglySorted (fun a b => before a b = true) l ->
  StronglySorted (fun a b => before a b = true) (Analyzer.insert before x l).
Proof.
  induction 1 as [|y l Hl IH Hy]; simpl.
  - constructor; constructor.
  - destruct (before x y) eqn:E.
    + constructor; [constructor; assumption|].
      constructor; [exact E|].
      eapply Forall_impl; [|exact Hy]. intros z Hz. eapply trans; eassumption.
    + constructor; [exact IH|].
      apply insert_Forall; [apply total; exact E | exact Hy].
Qed.

Lemma sort_sorted (l : list A) :
  StronglySorted (fun a b => before a b = true) (Analyzer.sort before l).
Proof.
  induction l as [|x l IH]; simpl; [constructor | apply insert_sorted; exact IH].
Qed.

(** Elements of one class that the comparator does not separate keep their
    order. *)
Variable P : A -> bool.
Hypothesis same : forall a b, P a = true -> P b = true -> before a b = true.

Lemma insert_filter (x : A) (l : list A) :
  filter P (Analyzer.insert before x l) = if P x then x :: filter P l else filter P l.
Proof.
  induction l as [|y l IH]; simpl; [reflexivity|].
  destruct (before x y) eqn:E; simpl.
  - reflexivity.
  - rewrite IH. destruct (P x) eqn:Px, (P y) eqn:Py; try reflexivity.
    rewrite (same Px Py) in E. discriminate.
Qed.

Lemma sort_filter (l : list A) : filter P (Analyzer.sort before l) = filter P l.
Proof.
  induction l as [|x l IH]; simpl; [reflexivity|].
  rewrite insert_filter, IH. reflexivity.
Qed.
End SortFacts.

(** Enumeration lists the array-index keys in ascending order. *)
Lemma insertIndexed_Forall {V} (Q : N * (jsstring * V) -> Prop) n kv l :
  Q (n, kv) -> Forall Q l -> Forall Q (JsObject.insertIndexed n kv l).
Proof.
  intros Hx Hl. induction Hl as [|[n' kv'] l Hy Hl IH]; simpl.
  - constructor; [exact Hx | constructor].
  - destruct (N.leb n' n); constructor; auto.
Qed.

Lemma insertIndexed_sorted {V} n (kv : jsstring * V) l :
  StronglySorted (fun a b => (fst a <= fst b)%N) l ->
  StronglySorted (fun a b => (fst a <= fst b)%N) (JsObject.insertIndexed n kv l).
Proof.
  induction 1 as [|[n' kv'] l Hl IH Hy]; simpl.
  - constructor; constructor.
  - destruct (N.leb n' n) eqn:E.
    + apply N.leb_le in E. constructor; [exact IH|].
      apply insertIndexed_Forall; [exact E | exact Hy].
    + apply N.leb_gt in E. constructor; [constructor; assumption|].
      constructor; [simpl; lia|].
      eapply Forall_impl; [|exact Hy]. intros z Hz. simpl in *. lia.
Qed.

Lemma indexed_sorted {V} (o : JsObject.obj V) :
  StronglySorted (fun a b => (fst a <= fst b)%N) (JsObject.indexed o).
Proof.
  induction o as [|[k v] o IH]; simpl; [constructor|].
  destruct (JsObject.arrayIndex k); [apply insertIndexed_sorted|]; exact IH.
Qed.



Example three_casings_one_entry :
  Metrics.QueryAnalysis.allUniqueQueries
    (Analyzer.extractQueryAnalysis
       [Example.asked ["Find shoes"; "find shoes"; "FIND SHOES"]%string])
  = Metrics.Present [Metrics.QueryEntry.mk (js "Find shoes") 3].
Proof. vm_compute. reflexivity. Qed.

Example ties_keep_first_seen_order_of_words :
  Metrics.QueryAnalysis.allUniqueQueries
    (Analyzer.extractQueryAnalysis [Example.asked ["b"; "a"; "c"; "a"]%string])
  = Metrics.Present [Metrics.QueryEntry.mk (js "a") 2; Metrics.QueryEntry.mk (js "b") 1;
                     Metrics.QueryEntry.mk (js "c") 1].
Proof. vm_compute. reflexivity. Qed.


Example number_query_comes_first :
  Metrics.QueryAnalysis.allUniqueQueries
    (Analyzer.extractQueryAnalysis [Example.asked ["shoes"; "42"]%string])
  = Metrics.Present [Metrics.QueryEntry.mk (js "42") 1; Metrics.QueryEntry.mk (js "shoes") 1].
Proof. vm_compute. reflexivity. Qed.

(* ================================================================= *)
(** ** Lists, sorting and tables *)

Lemma filter_complement_length {A} (p : A -> bool) (l : list A) :
  length (filter p l) + length (filter (fun x => negb (p x)) l) = length l.
Proof.
  induction l as [|x l IH]; [reflexivity|].
  simpl. destruct (p x); simpl; lia.
Qed.

Lemma sum_list_sum (l : list nat) : Analyzer.sum l = list_sum l.
Proof. apply sum_fold_right. Qed.

Lemma fold_max_from (l : list nat) (a : nat) :
  a <= fold_left Nat.max l a
  /\ Forall (fun x => x <= fold_left Nat.max l a) l
  /\ (fold_left Nat.max l a = a \/ In (fold_left Nat.max l a) l).
Proof.
  revert a. induction l as [|x l IH]; intros a; simpl.
  - split; [lia|]. split; [constructor | left; reflexivity].
  - destruct (IH (Nat.max a x)) as (H1 & H2 & H3).
    split; [lia|]. split; [constructor; [lia | exact H2]|].
    destruct H3 as [H3|H3]; [|right; right; exact H3].
    destruct (Nat.max_spec a x) as [[Hlt E]|[Hle E]].
    + right. left. rewrite H3, E. reflexivity.
    + left. rewrite H3, E. reflexivity.
Qed.

Section SortPermutation.
Variable A : Type.
Variable before : A -> A -> bool.

Lemma insert_perm (x : A) (l : list A) :
  Permutation (Analyzer.insert before x l) (x :: l).
Proof.
  induction l as [|y l IH]; simpl; [reflexivity|].
  destruct (before x y); [reflexivity|].
  rewrite IH. apply perm_swap.
Qed.

Lemma sort_perm (l : list A) : Permutation (Analyzer.sort before l) l.
Proof.
  induction l as [|x l IH]; simpl; [reflexivity|].
  rewrite insert_perm, IH. reflexivity.
Qed.
End SortPermutation.

Lemma insertIndexed_perm {V} n (kv : jsstring * V) l :
  Permutation (JsObject.insertIndexed n kv l) ((n, kv) :: l).
Proof.
  induction l as [|[n' kv'] l IH]; simpl; [reflexivity|].
  destruct (N.leb n' n); [|reflexivity].
  rewrite IH. apply perm_swap.
Qed.

(** Enumeration lists every property once. *)
Lemma entries_perm {V} (o : JsObject.obj V) : Permutation (JsObject.entries o) o.
Proof.
  unfold JsObject.entries, JsObject.named.
  induction o as [|[k v] o IH]; [reflexivity|].
  cbn [JsObject.indexed filter fst].
  destruct (JsObject.arrayIndex k) as [n|].
  - rewrite (Permutation_map snd (insertIndexed_perm n (k, v) (JsObject.indexed o))).
    simpl. constructor. exact IH.
  - rewrite <- Permutation_middle. constructor. exact IH.
Qed.

Lemma list_sum_perm (l l' : list nat) : Permutation l l' -> list_sum l = list_sum l'.
Proof.
  induction 1 as [|x l l' H IH|x y l|l l' l'' H1 IH1 H2 IH2]; simpl; lia.
Qed.

Lemma length_firstn_le {A} (n : nat) (l : list A) : length (firstn n l) <= n.
Proof. rewrite length_firstn. lia. Qed.

Lemma firstn_In {A} (n : nat) (l : list A) (x : A) : In x (firstn n l) -> In x l.
Proof.
  revert l. induction n as [|n IH]; intros l H; [destruct H|].
  destruct l as [|y l]; [destruct H|].
  destruct H as [H|H]; [left; exact H | right; apply IH; exact H].
Qed.

Lemma setOf_length (l : list jsstring) : length (Analyzer.setOf l) <= length l.
Proof.
  apply NoDup_incl_length; [apply setOf_NoDup|].
  intros x H. apply setOf_In. exact H.
Qed.

Lemma tallied_snoc (l : list jsstring) (x k : jsstring) :
  tallied (l ++ [x]) k = tallied l k + (if JsString.eqb k x then 1 else 0).
Proof.
  unfold tallied. rewrite filter_app, length_app. simpl.
  destruct (JsString.eqb k x); reflexivity.
Qed.

Lemma tallied_absent (l : list jsstring) (k : jsstring) : ~ In k l -> tallied l k = 0.
Proof.
  intros H. unfold tallied. induction l as [|x l IH]; [reflexivity|].
  simpl. destruct (JsString.eqb k x) eqn:E.
  - apply eqb_eq in E. exfalso. apply H. left. symmetry. exact E.
  - apply IH. intros Hin. apply H. right. exact Hin.
Qed.

Lemma tallied_present (l : list jsstring) (k : jsstring) : In k l -> 1 <= tallied l k.
Proof.
  intros H. unfold tallied. induction l as [|x l IH]; [destruct H|].
  simpl. destruct (JsString.eqb k x) eqn:E; [simpl; lia|].
  apply IH. destruct H as [H|H]; [|exact H].
  subst. rewrite eqb_refl in E. discriminate.
Qed.

Lemma bump_keyed (l : list jsstring) (x : jsstring) :
  Analyzer.bump (map (fun k => (k, tallied l k)) (Analyzer.setOf l)) x
  = map (fun k => (k, tallied (l ++ [x]) k)) (Analyzer.setOf (l ++ [x])).
Proof.
  unfold Analyzer.bump. rewrite get_keyed, setOf_snoc. unfold Analyzer.setAdd.
  destruct (existsb (JsString.eqb x) (Analyzer.setOf l)) eqn:E.
  - pose proof E as Hin. apply existsb_eqb_In in Hin.
    rewrite set_keyed_present; [|apply setOf_NoDup | exact Hin].
    apply map_ext. intros k. rewrite tallied_snoc.
    destruct (JsString.eqb k x) eqn:E'.
    + apply eqb_eq in E'. subst. f_equal. lia.
    + f_equal. lia.
  - pose proof E as Hnin. apply existsb_eqb_notIn in Hnin.
    rewrite set_keyed_absent; [|exact Hnin].
    rewrite map_app. f_equal.
    + apply map_ext_in. intros k Hk. rewrite tallied_snoc.
      destruct (JsString.eqb k x) eqn:E'; [|f_equal; lia].
      apply eqb_eq in E'. subst. contradiction.
    + simpl. rewrite tallied_snoc, eqb_refl, tallied_absent; [reflexivity|].
      intros Hin. apply Hnin. apply setOf_In. exact Hin.
Qed.

Lemma fold_bump_keyed (l : list jsstring) :
  fold_left Analyzer.bump l [] = map (fun k => (k, tallied l k)) (Analyzer.setOf l).
Proof.
  induction l as [|x l IH] using rev_ind; [reflexivity|].
  rewrite fold_left_app. simpl. rewrite IH. apply bump_keyed.
Qed.

(** Over distinct keys that cover a list, the occurrences add up to the
    length of the list. *)
Lemma indicator_sum (K : list jsstring) (x : jsstring) :
  NoDup K -> In x K ->
  list_sum (map (fun k => if JsString.eqb k x then 1 else 0) K) = 1.
Proof.
  induction K as [|k K IH]; intros Hnd Hin; [destruct Hin|].
  inversion Hnd as [|k' K' Hk HK]; subst. simpl.
  destruct (JsString.eqb k x) eqn:E.
  - apply eqb_eq in E. subst.
    assert (Hz : list_sum (map (fun k => if JsString.eqb k x then 1 else 0) K) = 0).
    { clear IH Hnd Hin HK. induction K as [|k K IHK]; [reflexivity|].
      simpl. destruct (JsString.eqb k x) eqn:E.
      - apply eqb_eq in E. subst. exfalso. apply Hk. left. reflexivity.
      - apply IHK. intros H. apply Hk. right. exact H. }
    rewrite Hz. reflexivity.
  - apply IH; [exact HK|]. destruct Hin as [->|Hin]; [|exact Hin].
    rewrite eqb_refl in E. discriminate.
Qed.

Lemma list_sum_map_add {A} (f g : A -> nat) (l : list A) :
  list_sum (map (fun x => f x + g x) l) = list_sum (map f l) + list_sum (map g l).
Proof. induction l as [|x l IH]; simpl; [reflexivity | rewrite IH; lia]. Qed.

Lemma tallied_total (K l : list jsstring) :
  NoDup K -> incl l K -> list_sum (map (tallied l) K) = length l.
Proof.
  intros Hnd. induction l as [|x l IH] using rev_ind; intros Hin.
  - clear. induction K as [|k K IHK]; [reflexivity | exact IHK].
  - rewrite (map_ext _ (fun k => tallied l k + (if JsString.eqb k x then 1 else 0)))
      by (intros k; apply tallied_snoc).
    rewrite list_sum_map_add, IH, indicator_sum, length_app; [reflexivity | exact Hnd | |].
    + apply Hin. apply in_or_app. right. left. reflexivity.
    + intros y Hy. apply Hin. apply in_or_app. left. exact Hy.
Qed.

(* ================================================================= *)
(** ** The products behind the metrics *)

(** C10.  The engine's flattening of a products value returns exactly its
    leaves that are non-empty strings, depth first; leaves of any other kind
    (numbers, null, booleans, objects, empty strings) are dropped.  Hence,
    where the product insights are computed (no product id and no style
    name is a property name that objects inherit), the total and the
    distinct count of recommended products are those of the string leaves,
    and the top products are the distinct string leaves, each with its
    number of occurrences among the string leaves: the first 20 of their
    enumeration sorted by descending count.  The average of products
    returned is the number of string leaves divided by the number of bot
    messages that carry products. *)
Theorem C10_flatten_keeps_string_leaves :
  (forall products : json,
      Analyzer.flattenProducts products = Spec.stringLeaves products)
  /\ (forall transcripts : list Transcript.t,
        let p := Analyzer.extractProductInsights transcripts in
        let ids := Spec.recommended transcripts in
        let styles := map fst (flat_map Analyzer.styleVisits transcripts) in
        forallb ordinaryKey ids = true ->
        forallb ordinaryKey styles = true ->
        Metrics.ProductInsights.totalProductsRecommended p = length ids
        /\ Metrics.ProductInsights.uniqueProductsRecommended p = length (Analyzer.setOf ids)
        /\ map (fun e => (Metrics.ProductEntry.productId e, Metrics.ProductEntry.frequency e))
               (Metrics.ProductInsights.topRecommendedProducts p)
           = firstn 20 (Analyzer.sort Analyzer.byCount
                          (JsObject.entries
                             (map (fun id => (id, tallied ids id)) (Analyzer.setOf ids))))
        /\ Forall (fun e => In (Metrics.ProductEntry.productId e) ids
                            /\ Metrics.ProductEntry.frequency e
                               = tallied ids (Metrics.ProductEntry.productId e))
                  (Metrics.ProductInsights.topRecommendedProducts p))
  /\ (forall transcripts : list Transcript.t,
        Metrics.BotResponseAnalysis.avgProductsReturned
          (Analyzer.extractBotResponseAnalysis transcripts)
        = match Spec.resultEvents transcripts with
          | O => Metrics.Int 0
          | S _ => Metrics.Quotient 1 (length (Spec.recommended transcripts))
                                    (Spec.resultEvents transcripts)
          end).
Proof.
  split; [exact flatten_stringLeaves|]. split.
  - intros ts p ids styles _ _. subst p.
    unfold Analyzer.extractProductInsights. cbv zeta.
    cbn [Metrics.ProductInsights.totalProductsRecommended
         Metrics.ProductInsights.uniqueProductsRecommended
         Metrics.ProductInsights.topRecommendedProducts].
    rewrite !allProductIds_recommended. fold ids. rewrite fold_bump_keyed.
    split; [reflexivity|]. split; [reflexivity|]. split.
    + rewrite map_map.
      cbn [Metrics.ProductEntry.productId Metrics.ProductEntry.frequency].
      erewrite map_ext; [apply map_id | intros []; reflexivity].
    + apply Forall_forall. intros e He. apply in_map_iff in He.
      destruct He as (kv & <- & Hkv). apply firstn_In in Hkv.
      apply (Permutation_in _ (sort_perm Analyzer.byCount _)) in Hkv.
      apply (Permutation_in _ (entries_perm _)) in Hkv.
      apply in_map_iff in Hkv. destruct Hkv as (k & <- & Hk).
      cbn [Metrics.ProductEntry.productId Metrics.ProductEntry.frequency fst snd].
      split; [|reflexivity]. exact (proj1 (setOf_In _ _) Hk).
  - intros ts. unfold Analyzer.extractBotResponseAnalysis. cbv zeta.
    cbn [Metrics.BotResponseAnalysis.avgProductsReturned].
    rewrite productCounts_total, productCounts_events. reflexivity.
Qed.

(** A bot message whose products mix strings with a number, null, an
    object, a boolean and an empty string. *)
Lemma C10_witness :
  let transcripts := [Example.recommending] in
  let p := Analyzer.extractProductInsights transcripts in
  let ids := Spec.recommended transcripts in
  let styles := map fst (flat_map Analyzer.styleVisits transcripts) in
  forallb ordinaryKey ids = true
  /\ forallb ordinaryKey styles = true
  /\ ids = [js "a"; js "a"; js "b"]
  /\ Metrics.ProductInsights.totalProductsRecommended p = length ids
  /\ Metrics.ProductInsights.uniqueProductsRecommended p = length (Analyzer.setOf ids)
  /\ map (fun e => (Metrics.ProductEntry.productId e, Metrics.ProductEntry.frequency e))
         (Metrics.ProductInsights.topRecommendedProducts p)
     = firstn 20 (Analyzer.sort Analyzer.byCount
                    (JsObject.entries
                       (map (fun id => (id, tallied ids id)) (Analyzer.setOf ids))))
  /\ Forall (fun e => In (Metrics.ProductEntry.productId e) ids
                      /\ Metrics.ProductEntry.frequency e
                         = tallied ids (Metrics.ProductEntry.productId e))
            (Metrics.ProductInsights.topRecommendedProducts p).
Proof.
  intros transcripts p ids styles.
  assert (H : forallb ordinaryKey ids = true) by (vm_compute; reflexivity).
  assert (Hs : forallb ordinaryKey styles = true) by (vm_compute; reflexivity).
  split; [exact H|]. split; [exact Hs|]. split; [vm_compute; reflexivity|].
  exact (proj1 (proj2 C10_flatten_keeps_string_leaves) transcripts H Hs).
Defined.

Example mixed_products_counts :
  let p := Analyzer.extractProductInsights [Example.recommending] in
  (Metrics.ProductInsights.totalProductsRecommended p,
   Metrics.ProductInsights.uniqueProductsRecommended p,
   map (fun e => (Metrics.ProductEntry.productId e, Metrics.ProductEntry.frequency e))
       (Metrics.ProductInsights.topRecommendedProducts p),
   Metrics.BotResponseAnalysis.avgProductsReturned
     (Analyzer.extractBotResponseAnalysis [Example.recommending]))
  = (3, 2, [(js "a", 2); (js "b", 1)], Metrics.Quotient 1 3 1).
Proof. vm_compute. reflexivity. Qed.

(* ################################################################# *)
(** * Part III: further properties of the code *)

(** Properties of the parsers, the normalizer, the metrics engine and the
    utilities that the code shows and the specification does not state. *)

(* ================================================================= *)
(** ** Further properties: the counters of the metrics engine *)

Lemma turn_buckets (counts : list nat) :
  length (filter (fun c => Nat.eqb c 1) counts)
  + length (filter (fun c => Nat.ltb 1 c) counts)
  + length (filter (fun c => Nat.eqb c 0) counts) = length counts
  /\ length (filter (fun c => Nat.eqb c 1) counts)
     + 2 * length (filter (fun c => Nat.ltb 1 c) counts) <= list_sum counts.
Proof.
  induction counts as [|c l [IH1 IH2]]; [simpl; lia|].
  simpl filter. simpl list_sum. simpl (length (c :: l)).
  destruct c as [|[|c]]; simpl; lia.
Qed.

(** X1.  Turn analysis sorts every session into exactly one of three
    classes by its number of user messages: single-turn (exactly one),
    multi-turn (two or more) and neither (none).  The two reported counts
    and the sessions without a user message add up to the number of
    sessions; the total of user messages is the sum over the sessions and is
    at least the single-turn count plus twice the multi-turn count; and the
    reported maximum bounds every session and is attained by one when there
    is a session. *)
Theorem turn_analysis_classifies_each_session_once :
  forall transcripts : list Transcript.t,
    let a := Analyzer.extractTurnAnalysis transcripts in
    let silent := length (filter (fun t => Nat.eqb (Analyzer.userTurnCount t) 0) transcripts) in
    let total := list_sum (map Analyzer.userTurnCount transcripts) in
    Metrics.TurnAnalysis.singleTurnSessions a + Metrics.TurnAnalysis.multiTurnSessions a + silent
    = length transcripts
    /\ Metrics.TurnAnalysis.totalUserMessages a = Metrics.Present total
    /\ Metrics.TurnAnalysis.singleTurnSessions a
       + 2 * Metrics.TurnAnalysis.multiTurnSessions a <= total
    /\ Forall (fun t => Analyzer.userTurnCount t <= Metrics.TurnAnalysis.maxTurnsInSession a)
              transcripts
    /\ (transcripts <> [] ->
        exists t, In t transcripts
                  /\ Analyzer.userTurnCount t = Metrics.TurnAnalysis.maxTurnsInSession a).
Proof.
  intros ts a silent total. subst a silent total.
  unfold Analyzer.extractTurnAnalysis. cbv zeta.
  cbn [Metrics.TurnAnalysis.singleTurnSessions Metrics.TurnAnalysis.multiTurnSessions
       Metrics.TurnAnalysis.totalUserMessages Metrics.TurnAnalysis.maxTurnsInSession].
  destruct (turn_buckets (map Analyzer.userTurnCount ts)) as [H1 H2].
  destruct (fold_max_from (map Analyzer.userTurnCount ts) 0) as (_ & M1 & M2).
  rewrite length_map in H1.
  split.
  { rewrite <- H1. f_equal. clear. induction ts as [|t l IH]; [reflexivity|].
    simpl. destruct (Nat.eqb (Analyzer.userTurnCount t) 0); simpl; rewrite IH; reflexivity. }
  split; [rewrite sum_list_sum; reflexivity|].
  split; [exact H2|].
  split.
  { rewrite Forall_map in M1. exact M1. }
  intros Hne. destruct M2 as [M2|M2].
  - destruct ts as [|t l]; [contradiction|].
    rewrite M2. rewrite M2 in M1. inversion M1 as [|x l' Hx Hl]; subst.
    exists t. split; [left; reflexivity | lia].
  - apply in_map_iff in M2. destruct M2 as (t & E & Hin).
    exists t. split; assumption.
Qed.

Lemma no_results_no_products (t : Transcript.t) :
  Analyzer.hasResults t = false -> Analyzer.productCounts t = [].
Proof.
  unfold Analyzer.hasResults, Analyzer.productCounts.
  induction (Analyzer.messagesOf t) as [|msg l IH]; [reflexivity|].
  simpl. intros H. apply orb_false_iff in H. destruct H as [Hm Hl].
  rewrite (IH Hl), app_nil_r. unfold Analyzer.productsOf.
  destruct (Analyzer.isBot msg); [|reflexivity].
  destruct (Message.results msg); [discriminate | reflexivity].
Qed.

(** X2.  Bot response analysis counts every session once: the sessions with
    results and the sessions without add up to the number of sessions.  When
    no session has results the average of products returned is 0.  The
    clarifying-question examples are at most ten, no more than the reported
    count, and each is cut to 200 characters at most. *)
Theorem bot_response_counts_each_session_once :
  forall transcripts : list Transcript.t,
    let b := Analyzer.extractBotResponseAnalysis transcripts in
    let questions := Metrics.BotResponseAnalysis.clarifyingQuestions b in
    Metrics.Share.count (Metrics.BotResponseAnalysis.sessionsWithResults b)
    + Metrics.Share.count (Metrics.BotResponseAnalysis.sessionsWithoutResults b)
    = length transcripts
    /\ (Metrics.Share.count (Metrics.BotResponseAnalysis.sessionsWithResults b) = 0 ->
        Metrics.BotResponseAnalysis.avgProductsReturned b = Metrics.Int 0)
    /\ length (Metrics.ClarifyingQuestions.examples questions) <= 10
    /\ length (Metrics.ClarifyingQuestions.examples questions)
       <= Metrics.ClarifyingQuestions.count questions
    /\ Forall (fun q => length (Metrics.Clarifying.content q) <= 200)
              (Metrics.ClarifyingQuestions.examples questions).
Proof.
  intros ts b questions. subst questions b.
  unfold Analyzer.extractBotResponseAnalysis. cbv zeta.
  cbn [Metrics.BotResponseAnalysis.sessionsWithResults
       Metrics.BotResponseAnalysis.sessionsWithoutResults
       Metrics.BotResponseAnalysis.avgProductsReturned
       Metrics.BotResponseAnalysis.clarifyingQuestions
       Metrics.ClarifyingQuestions.examples Metrics.ClarifyingQuestions.count
       Metrics.Share.count].
  split; [apply filter_complement_length|].
  split.
  { intros H.
    assert (E : flat_map Analyzer.productCounts ts = []).
    { induction ts as [|t l IH]; [reflexivity|].
      simpl in H. simpl. destruct (Analyzer.hasResults t) eqn:R; [discriminate|].
      rewrite (no_results_no_products t R). apply IH. exact H. }
    rewrite E. reflexivity. }
  split; [apply length_firstn_le|].
  split; [rewrite length_firstn; lia|].
  apply Forall_forall. intros q Hq. apply firstn_In in Hq.
  apply in_flat_map in Hq. destruct Hq as (t & _ & Hq).
  unfold Analyzer.clarifyingOf in Hq. apply in_flat_map in Hq.
  destruct Hq as (msg & _ & Hq).
  destruct (Analyzer.isBot msg); [|destruct Hq].
  destruct (Message.content msg) as [c|]; [|destruct Hq].
  destruct (truthy c && _); [|destruct Hq].
  destruct Hq as [<-|[]]. cbn [Metrics.Clarifying.content].
  unfold slice0. apply length_firstn_le.
Qed.

Lemma occurrences_tallied (k : jsstring) (qs : list jsstring) :
  length (Spec.occurrences k qs) = tallied (map toLowerCase qs) k.
Proof.
  unfold Spec.occurrences, tallied.
  induction qs as [|q qs IH]; [reflexivity|].
  simpl. rewrite (eqb_sym k (toLowerCase q)).
  destruct (JsString.eqb (toLowerCase q) k); simpl; rewrite IH; reflexivity.
Qed.

Lemma word_buckets (counts : list nat) :
  length (filter (fun c => Nat.eqb c 1) counts)
  + length (filter (fun c => negb (Nat.eqb c 1)) counts) = length counts.
Proof. apply filter_complement_length. Qed.

(** The unique queries: a permutation of the entries of the tally. *)
Lemma unique_queries_perm (qs : list jsstring) :
  Permutation (Analyzer.sort Analyzer.byFrequency
                 (JsObject.values (fold_left Analyzer.countQuery qs [])))
              (map snd (Spec.tally qs)).
Proof.
  rewrite fold_countQuery_tally, sort_perm. unfold JsObject.values.
  apply Permutation_map. apply entries_perm.
Qed.

(** The entries of a table that [bump] filled, enumerated and sorted: each
    key is a member of the list, with its number of occurrences. *)
Lemma sorted_tally_entries (l : list jsstring) (e : jsstring * nat) :
  In e (Analyzer.sort Analyzer.byCount (JsObject.entries (fold_left Analyzer.bump l []))) ->
  In (fst e) l /\ snd e = tallied l (fst e).
Proof.
  intros H. apply (Permutation_in _ (sort_perm Analyzer.byCount _)) in H.
  apply (Permutation_in _ (entries_perm _)) in H.
  rewrite fold_bump_keyed in H. apply in_map_iff in H.
  destruct H as (k & <- & Hk). simpl. split; [|reflexivity].
  apply setOf_In. exact Hk.
Qed.

(** X3.  Query analysis accounts for every query (the queries being made
    of Basic Latin and Latin-1 characters, and their lower-cased forms and
    the search words being ordinary table keys): the frequencies of the
    unique queries add up to the total number of queries, every unique query
    has a frequency of at least one, and the single-word and multi-word
    counts add up to the total.  The published list of unique queries holds
    at most 50 entries and the list of top search terms at most 20; a top
    search term is never a stop word nor shorter than three characters, and
    its count is the number of times the word occurs in the queries. *)
Theorem query_analysis_accounts_for_every_query :
  forall transcripts : list Transcript.t,
    let a := Analyzer.extractQueryAnalysis transcripts in
    let words := flat_map Analyzer.searchWords (Analyzer.allQueriesOf transcripts) in
    forallb latin1 (Analyzer.allQueriesOf transcripts) = true ->
    forallb (fun q => ordinaryKey (toLowerCase q)) (Analyzer.allQueriesOf transcripts) = true ->
    forallb ordinaryKey words = true ->
    exists unique : list Metrics.QueryEntry.t,
      Metrics.QueryAnalysis.allUniqueQueries a = Metrics.Present unique
      /\ list_sum (map Metrics.QueryEntry.frequency unique) = Metrics.QueryAnalysis.totalQueries a
      /\ Forall (fun e => 1 <= Metrics.QueryEntry.frequency e) unique
      /\ length unique <= Metrics.QueryAnalysis.totalQueries a
      /\ Metrics.QueryLength.singleWordQueries (Metrics.QueryAnalysis.queryLengthAnalysis a)
         + Metrics.QueryLength.multiWordQueries (Metrics.QueryAnalysis.queryLengthAnalysis a)
         = Metrics.QueryAnalysis.totalQueries a
      /\ length (Metrics.QueryAnalysis.uniqueQueries a) <= 50
      /\ length (Metrics.QueryAnalysis.topSearchTerms a) <= 20
      /\ Forall (fun t => 3 <= length (Metrics.Term.term t)
                          /\ ~ In (Metrics.Term.term t) Analyzer.stopWords
                          /\ Metrics.Term.count t = tallied words (Metrics.Term.term t)
                          /\ 1 <= Metrics.Term.count t)
                (Metrics.QueryAnalysis.topSearchTerms a).
Proof.
  intros ts a words _ _ _. subst a words.
  set (qs := Analyzer.allQueriesOf ts).
  exists (Analyzer.sort Analyzer.byFrequency
            (JsObject.values (fold_left Analyzer.countQuery qs []))).
  unfold Analyzer.extractQueryAnalysis. cbv zeta. fold qs.
  cbn [Metrics.QueryAnalysis.allUniqueQueries Metrics.QueryAnalysis.totalQueries
       Metrics.QueryAnalysis.queryLengthAnalysis Metrics.QueryAnalysis.uniqueQueries
       Metrics.QueryAnalysis.topSearchTerms Metrics.QueryLength.singleWordQueries
       Metrics.QueryLength.multiWordQueries].
  pose proof (unique_queries_perm qs) as P.
  assert (Hk : NoDup (Spec.distinctForms qs)) by apply setOf_NoDup.
  assert (Hcover : incl (map toLowerCase qs) (Spec.distinctForms qs)).
  { intros k H. apply setOf_In. exact H. }
  split; [reflexivity|].
  split.
  { rewrite (list_sum_perm (Permutation_map Metrics.QueryEntry.frequency P)).
    unfold Spec.tally. rewrite !map_map.
    cbn [snd Spec.entryFor Metrics.QueryEntry.frequency].
    rewrite (map_ext _ (tallied (map toLowerCase qs))) by (intros k; apply occurrences_tallied).
    rewrite (tallied_total Hk Hcover). apply length_map. }
  split.
  { apply Forall_forall. intros e He. apply (Permutation_in _ P) in He.
    unfold Spec.tally in He. rewrite map_map in He. apply in_map_iff in He.
    destruct He as (k & <- & Hin). cbn [snd Spec.entryFor Metrics.QueryEntry.frequency].
    rewrite occurrences_tallied. apply tallied_present.
    exact (proj1 (setOf_In _ _) Hin). }
  split.
  { rewrite (Permutation_length P). unfold Spec.tally. rewrite !length_map.
    unfold Spec.distinctForms.
    rewrite <- (length_map toLowerCase qs). apply setOf_length. }
  split.
  { rewrite word_buckets. apply length_map. }
  split; [apply length_firstn_le|].
  split; [rewrite length_map; apply length_firstn_le|].
  apply Forall_forall. intros t Ht. apply in_map_iff in Ht.
  destruct Ht as (e & <- & He). apply firstn_In in He.
  apply sorted_tally_entries in He. destruct He as [Hin Hc].
  cbn [Metrics.Term.term Metrics.Term.count].
  pose proof (tallied_present _ _ Hin) as Hpos.
  apply in_flat_map in Hin. destruct Hin as (q & _ & Hw).
  unfold Analyzer.searchWords in Hw. apply filter_In in Hw. destruct Hw as [_ Hw].
  apply andb_true_iff in Hw. destruct Hw as [Hlen Hstop].
  apply Nat.ltb_lt in Hlen. apply negb_true_iff in Hstop.
  apply existsb_eqb_notIn in Hstop.
  repeat split; [lia | exact Hstop | exact Hc | lia].
Qed.

Lemma StronglySorted_firstn {A} (R : A -> A -> Prop) (n : nat) (l : list A) :
  StronglySorted R l -> StronglySorted R (firstn n l).
Proof.
  revert l. induction n as [|n IH]; intros l H; [constructor|].
  destruct l as [|x l]; [constructor|].
  inversion H as [|y l' Hl Hx]; subst. simpl. constructor; [apply IH; exact Hl|].
  apply Forall_forall. intros y Hy. apply firstn_In in Hy.
  rewrite Forall_forall in Hx. apply Hx. exact Hy.
Qed.

Lemma NoDup_firstn {A} (n : nat) (l : list A) : NoDup l -> NoDup (firstn n l).
Proof.
  revert l. induction n as [|n IH]; intros l H; [constructor|].
  destruct l as [|x l]; [constructor|].
  inversion H as [|y l' Hx Hl]; subst. simpl. constructor; [|apply IH; exact Hl].
  intros Hin. apply Hx. apply firstn_In in Hin. exact Hin.
Qed.

Lemma byCount_sorted (l : list (jsstring * nat)) :
  StronglySorted (fun x y => snd y <= snd x) (Analyzer.sort Analyzer.byCount l).
Proof.
  apply (@StronglySorted_weaken _ (fun x y => Analyzer.byCount x y = true)).
  - intros x y H. unfold Analyzer.byCount in H. apply Nat.leb_le in H. exact H.
  - apply (@sort_sorted _ Analyzer.byCount).
    + intros x y H. unfold Analyzer.byCount in *.
      apply Nat.leb_gt in H. apply Nat.leb_le. lia.
    + intros x y z H1 H2. unfold Analyzer.byCount in *.
      apply Nat.leb_le in H1, H2. apply Nat.leb_le. lia.
Qed.

Lemma sorted_tally_keys (l : list jsstring) :
  Permutation
    (map fst (Analyzer.sort Analyzer.byCount (JsObject.entries (fold_left Analyzer.bump l []))))
    (Analyzer.setOf l).
Proof.
  rewrite sort_perm, entries_perm, fold_bump_keyed, map_map. simpl. rewrite map_id.
  reflexivity.
Qed.

Lemma StronglySorted_map {A B} (R : B -> B -> Prop) (f : A -> B) (l : list A) :
  StronglySorted (fun x y => R (f x) (f y)) l -> StronglySorted R (map f l).
Proof.
  induction 1 as [|x l Hl IH Hx]; simpl; constructor; [exact IH|].
  apply Forall_map. exact Hx.
Qed.

Lemma stylesOf_nonempty (msg : Message.t) :
  Forall (fun style => style <> []) (Analyzer.stylesOf msg).
Proof.
  unfold Analyzer.stylesOf.
  destruct (Analyzer.isBot msg); [|constructor].
  destruct (Message.results msg) as [r|]; [|constructor].
  destruct (Results.styles r) as [styles|]; [|constructor].
  apply Forall_map. apply Forall_forall. intros x Hx.
  apply filter_In in Hx. destruct Hx as [_ Hx]. apply andb_true_iff in Hx.
  destruct Hx as [_ Hx]. destruct (trim x); [discriminate | discriminate].
Qed.

(** X4.  Product and style insights are tallies of what was recommended
    (the product ids and the style names being ordinary table keys).
    The list of all product ids has no duplicate and the same members as
    the recommended ids.  The top products are at most 20, their ids are
    distinct, each frequency is the number of times the id was recommended
    (at least once), and they come in descending order of frequency.  For
    styles: the number of styles never exceeds the number of style
    mentions, every top style is a name that is not empty, with its number
    of mentions and at most five example queries. *)
Theorem product_and_style_insights_are_tallies :
  forall transcripts : list Transcript.t,
    let p := Analyzer.extractProductInsights transcripts in
    let s := Metrics.ProductInsights.styleAnalysis p in
    let ids := Spec.recommended transcripts in
    let styles := map fst (flat_map Analyzer.styleVisits transcripts) in
    forallb ordinaryKey ids = true ->
    forallb ordinaryKey styles = true ->
    exists (unique : list jsstring) (mentions : nat),
      Metrics.ProductInsights.allProductIds p = Metrics.Present unique
      /\ NoDup unique
      /\ (forall x, In x unique <-> In x ids)
      /\ length (Metrics.ProductInsights.topRecommendedProducts p) <= 20
      /\ NoDup (map Metrics.ProductEntry.productId
                    (Metrics.ProductInsights.topRecommendedProducts p))
      /\ Forall (fun e => In (Metrics.ProductEntry.productId e) ids
                          /\ Metrics.ProductEntry.frequency e
                             = tallied ids (Metrics.ProductEntry.productId e)
                          /\ 1 <= Metrics.ProductEntry.frequency e)
                (Metrics.ProductInsights.topRecommendedProducts p)
      /\ StronglySorted (fun x y => Metrics.ProductEntry.frequency y
                                    <= Metrics.ProductEntry.frequency x)
                        (Metrics.ProductInsights.topRecommendedProducts p)
      /\ Metrics.StyleAnalysis.totalStyleMentions s = Metrics.Present mentions
      /\ Metrics.StyleAnalysis.totalStyles s <= mentions
      /\ Forall (fun e => Metrics.StyleEntry.style e <> []
                          /\ Metrics.StyleEntry.frequency e
                             = tallied styles (Metrics.StyleEntry.style e)
                          /\ length (Metrics.StyleEntry.exampleQueries e) <= 5)
                (Metrics.StyleAnalysis.topStyles s).
Proof.
  intros ts p s ids styles _ _. subst s p.
  unfold Analyzer.extractProductInsights. cbv zeta.
  cbn [Metrics.ProductInsights.allProductIds Metrics.ProductInsights.topRecommendedProducts
       Metrics.ProductInsights.styleAnalysis Metrics.StyleAnalysis.totalStyleMentions
       Metrics.StyleAnalysis.totalStyles Metrics.StyleAnalysis.topStyles].
  rewrite !allProductIds_recommended. fold ids. fold styles.
  exists (Analyzer.setOf ids), (length styles).
  split; [reflexivity|].
  split; [apply setOf_NoDup|].
  split; [intros x; apply setOf_In|].
  split; [rewrite length_map; apply length_firstn_le|].
  split.
  { rewrite map_map. cbn [Metrics.ProductEntry.productId].
    rewrite <- firstn_map. apply NoDup_firstn.
    apply (Permutation_NoDup (Permutation_sym (sorted_tally_keys ids))).
    apply setOf_NoDup. }
  split.
  { apply Forall_forall. intros e He. apply in_map_iff in He.
    destruct He as (kv & <- & Hkv). apply firstn_In in Hkv.
    apply sorted_tally_entries in Hkv. destruct Hkv as [Hin Hc].
    cbn [Metrics.ProductEntry.productId Metrics.ProductEntry.frequency].
    pose proof (tallied_present _ _ Hin) as Hpos.
    repeat split; [exact Hin | exact Hc | lia]. }
  split.
  { apply StronglySorted_map. cbn [Metrics.ProductEntry.frequency].
    apply StronglySorted_firstn. apply byCount_sorted. }
  split; [reflexivity|].
  split.
  { unfold JsObject.keys. rewrite length_map, (Permutation_length (entries_perm _)).
    rewrite fold_bump_keyed, length_map. apply setOf_length. }
  apply Forall_forall. intros e He. apply in_map_iff in He.
  destruct He as (kv & <- & Hkv).
  apply sorted_tally_entries in Hkv. destruct Hkv as [Hin Hc].
  cbn [Metrics.StyleEntry.style Metrics.StyleEntry.frequency Metrics.StyleEntry.exampleQueries].
  repeat split; [|exact Hc | apply length_firstn_le].
  subst styles. rewrite map_fst_flat_map in Hin. apply in_flat_map in Hin.
  destruct Hin as (t & _ & Hin). unfold Analyzer.styleVisits in Hin.
  rewrite map_fst_flat_map in Hin. apply in_flat_map in Hin.
  destruct Hin as (msg & _ & Hin). rewrite map_map in Hin. simpl in Hin. rewrite map_id in Hin.
  pose proof (stylesOf_nonempty msg) as Hne. rewrite Forall_forall in Hne.
  apply Hne. exact Hin.
Qed.

(* ================================================================= *)
(** ** Further properties: the busiest hour and day *)

(** The loop of [busiest] stops at the first entry with the largest count. *)
Lemma busiest_fold (l : list (jsstring * nat)) :
  let r := fold_left (fun (acc : option jsstring * nat) e =>
                        if Nat.ltb (snd acc) (snd e) then (Some (fst e), snd e) else acc)
                     l (None, 0) in
  match fst r with
  | None => snd r = 0 /\ Forall (fun e => snd e = 0) l
  | Some k =>
      exists before after,
        l = before ++ (k, snd r) :: after
        /\ 1 <= snd r
        /\ Forall (fun e => snd e < snd r) before
        /\ Forall (fun e => snd e <= snd r) after
  end.
Proof.
  induction l as [|e l IH] using rev_ind; [simpl; split; [reflexivity | constructor]|].
  cbv zeta in *. rewrite fold_left_app. cbn [fold_left].
  destruct (fold_left _ l (None, 0)) as [[k|] n]; cbn [fst snd] in *.
  - destruct IH as (before & after & E & Hn & Hb & Ha).
    destruct (Nat.ltb n (snd e)) eqn:Hlt; cbn [fst snd].
    + apply Nat.ltb_lt in Hlt. exists l, []. destruct e as [k' n']. cbn [fst snd] in *.
      split; [reflexivity|]. split; [lia|]. split; [|constructor].
      rewrite E. apply Forall_app. split.
      * eapply Forall_impl; [|exact Hb]. intros x Hx. simpl in *. lia.
      * constructor; [simpl; lia|].
        eapply Forall_impl; [|exact Ha]. intros x Hx. simpl in *. lia.
    + apply Nat.ltb_ge in Hlt. exists before, (after ++ [e]).
      split; [rewrite E, <- app_assoc; reflexivity|]. split; [exact Hn|].
      split; [exact Hb|]. apply Forall_app. split; [exact Ha|].
      constructor; [exact Hlt | constructor].
  - destruct IH as [-> Hz].
    destruct (Nat.ltb 0 (snd e)) eqn:Hlt; cbn [fst snd].
    + apply Nat.ltb_lt in Hlt. exists l, []. destruct e as [k' n']. cbn [fst snd] in *.
      split; [reflexivity|]. split; [lia|]. split; [|constructor].
      eapply Forall_impl; [|exact Hz]. intros x Hx. simpl in *. lia.
    + apply Nat.ltb_ge in Hlt. split; [reflexivity|].
      apply Forall_app. split; [exact Hz|]. constructor; [lia | constructor].
Qed.

Lemma busiest_first_maximum (table : JsObject.obj nat) :
  match Analyzer.busiest table with
  | None => Forall (fun e => snd e = 0) (JsObject.entries table)
  | Some k =>
      exists before n after,
        JsObject.entries table = before ++ (k, n) :: after
        /\ 1 <= n
        /\ Forall (fun e => snd e < n) before
        /\ Forall (fun e => snd e <= n) after
  end.
Proof.
  unfold Analyzer.busiest. pose proof (busiest_fold (JsObject.entries table)) as H.
  cbv zeta in H. destruct (fst _) as [k|].
  - destruct H as (before & after & H). eexists before, _, after. exact H.
  - apply H.
Qed.

(** A table whose keys are no array indices is enumerated in creation order. *)
Lemma entries_named {V} (o : JsObject.obj V) :
  Forall (fun kv => JsObject.arrayIndex (fst kv) = None) o -> JsObject.entries o = o.
Proof.
  unfold JsObject.entries, JsObject.named.
  induction 1 as [|[k v] o Hk Ho IH]; [reflexivity|].
  cbn [JsObject.indexed filter fst] in *. rewrite Hk.
  destruct (JsObject.indexed o) as [|x xs] eqn:E.
  - simpl in *. rewrite IH. reflexivity.
  - exfalso. clear IH. revert x xs E. induction Ho as [|[k' v'] o' Hk' Ho' IH']; intros x xs E.
    + discriminate.
    + cbn [JsObject.indexed fst] in *. rewrite Hk' in E. eapply IH'. exact E.
Qed.

Lemma dayName_named (n : nat) :
  JsObject.arrayIndex (nth n Analyzer.dayNames (js "undefined")) = None.
Proof. do 7 (destruct n as [|n]; [reflexivity|]). destruct n; reflexivity. Qed.

Lemma hour_key (h : nat) :
  h < 24 ->
  JsObject.arrayIndex (ofNat h) = Some (N.of_nat h)
  /\ JsObject.decimalValue (ofNat h) 0 = Some (N.of_nat h).
Proof.
  intros H. do 24 (destruct h as [|h]; [split; vm_compute; reflexivity|]). lia.
Qed.

Lemma indexed_perm {V} (o : JsObject.obj V) :
  Permutation (JsObject.indexed o)
    (flat_map (fun kv => match JsObject.arrayIndex (fst kv) with
                         | Some n => [(n, kv)]
                         | None => []
                         end) o).
Proof.
  induction o as [|[k v] o IH]; [reflexivity|].
  cbn [JsObject.indexed flat_map fst].
  destruct (JsObject.arrayIndex k) as [n|]; [|exact IH].
  rewrite insertIndexed_perm. simpl. constructor. exact IH.
Qed.

Lemma named_none {V} (o : JsObject.obj V) :
  Forall (fun kv => JsObject.arrayIndex (fst kv) <> None) o -> JsObject.named o = [].
Proof.
  unfold JsObject.named. induction 1 as [|kv o Hk Ho IH]; [reflexivity|].
  simpl. destruct (JsObject.arrayIndex (fst kv)); [exact IH | contradiction].
Qed.

Lemma StronglySorted_after {A} (R : A -> A -> Prop) (l1 l2 : list A) (x : A) :
  StronglySorted R (l1 ++ x :: l2) -> Forall (R x) l2.
Proof.
  induction l1 as [|y l1 IH]; simpl; intros H; inversion H; subst; auto.
Qed.

Lemma nothing_tallied (l : list jsstring) :
  Forall (fun e : jsstring * nat => snd e = 0)
         (map (fun k => (k, tallied l k)) (Analyzer.setOf l)) ->
  l = [].
Proof.
  intros H. destruct l as [|x l]; [reflexivity|]. exfalso.
  rewrite Forall_forall in H.
  assert (Hin : In x (x :: l)) by (left; reflexivity).
  pose proof (tallied_present _ _ Hin) as Hpos.
  specialize (H (x, tallied (x :: l) x)). cbn [snd] in H.
  rewrite H in Hpos; [lia|].
  apply in_map_iff. exists x. split; [reflexivity|]. apply setOf_In. exact Hin.
Qed.

Section TimePatternFacts.
Context {host : Host}.

(** X5.  The busiest day and the busiest hour are the first entry with the
    largest count in the enumeration of their table, which decides ties.
    Days are enumerated in the order in which they were first seen, so among
    the days with the largest number of sessions the one seen first in the
    input wins.  Hours are array-index keys, enumerated in ascending
    numeric order, so (for hours below 24) the busiest hour is the earliest
    hour of the day among those with the largest number of sessions.  Both
    are null only when no session starts with a dated message. *)
Theorem busiest_day_and_hour_resolve_ties_by_enumeration :
  forall transcripts : list Transcript.t,
    let times := flat_map Analyzer.firstTime transcripts in
    let days :=
      map (fun t => nth (N.to_nat (getDay t)) Analyzer.dayNames (js "undefined")) times in
    let hours := map (fun t => N.to_nat (getHours t)) times in
    let sessionsAt := fun h => tallied (map ofNat hours) (ofNat h) in
    let p := Analyzer.extractTimePatterns transcripts in
    match Metrics.TimePatterns.busiestDay p with
    | None => times = []
    | Some d =>
        exists before after,
          Analyzer.setOf days = before ++ d :: after
          /\ Forall (fun d' => tallied days d' < tallied days d) before
          /\ Forall (fun d' => tallied days d' <= tallied days d) after
    end
    /\ (Forall (fun h => h < 24) hours ->
        match Metrics.TimePatterns.busiestHour p with
        | None => times = []
        | Some text =>
            exists h, text = Analyzer.formatHour h
                      /\ In h hours
                      /\ forall h', In h' hours ->
                                    sessionsAt h' <= sessionsAt h
                                    /\ (sessionsAt h' = sessionsAt h -> h <= h')
        end).
Proof.
  intros ts times days hours sessionsAt p. subst p.
  unfold Analyzer.extractTimePatterns. cbv zeta.
  cbn [Metrics.TimePatterns.busiestDay Metrics.TimePatterns.busiestHour].
  fold times. fold days.
  rewrite <- (map_map (fun t => N.to_nat (getHours t)) ofNat times). fold hours.
  rewrite !fold_bump_keyed.
  split.
  - pose proof (busiest_first_maximum
                  (map (fun k => (k, tallied days k)) (Analyzer.setOf days))) as H.
    rewrite entries_named in H.
    2:{ apply Forall_map. apply Forall_forall. intros k Hk. cbn [fst].
        apply (proj1 (setOf_In _ _)) in Hk. subst days. apply in_map_iff in Hk.
        destruct Hk as (t & <- & _). apply dayName_named. }
    destruct (Analyzer.busiest _) as [d|].
    + destruct H as (before & n & after & E & Hn & Hb & Ha).
      apply map_eq_app in E. destruct E as (K1 & K2 & EK & E1 & E2).
      destruct K2 as [|k K2]; [discriminate|]. simpl in E2.
      injection E2 as Ek En E2. subst k n before after.
      exists K1, K2. split; [exact EK|].
      rewrite !Forall_map in *. cbn [snd] in *. split; assumption.
    + apply nothing_tallied in H. subst days. destruct times; [reflexivity | discriminate].
  - intros Hh.
    set (keys := map ofNat hours) in *.
    set (o := map (fun k => (k, tallied keys k)) (Analyzer.setOf keys)).
    assert (Hkey : forall k, In k (Analyzer.setOf keys) ->
                             exists h, k = ofNat h /\ In h hours /\ h < 24).
    { intros k Hk. apply (proj1 (setOf_In _ _)) in Hk. subst keys. apply in_map_iff in Hk.
      destruct Hk as (h & <- & Hin). exists h. split; [reflexivity|]. split; [exact Hin|].
      rewrite Forall_forall in Hh. apply Hh. exact Hin. }
    pose proof (busiest_first_maximum o) as H.
    unfold JsObject.entries in H. rewrite (@named_none _ o), app_nil_r in H.
    2:{ subst o. apply Forall_map. apply Forall_forall. intros k Hk. cbn [fst].
        destruct (Hkey k Hk) as (h & -> & _ & Hlt).
        destruct (hour_key Hlt) as [-> _]. discriminate. }
    destruct (Analyzer.busiest o) as [k|].
    + destruct H as (before & n & after & E & Hn & Hb & Ha).
      apply map_eq_app in E. destruct E as (ib & ia' & Ei & E1 & E2).
      destruct ia' as [|[i kv] ia]; [discriminate|]. simpl in E2.
      injection E2 as Ekv E2. subst kv before after.
      pose proof (indexed_sorted o) as Hs. rewrite Ei in Hs.
      apply StronglySorted_after in Hs. cbn [fst] in Hs.
      assert (Hmem : forall j kv, In (j, kv) (JsObject.indexed o) ->
                                  In kv o /\ JsObject.arrayIndex (fst kv) = Some j).
      { intros j kv Hj. apply (Permutation_in _ (indexed_perm o)) in Hj.
        apply in_flat_map in Hj. destruct Hj as (kv' & Hin & Hj).
        destruct (JsObject.arrayIndex (fst kv')) as [j'|] eqn:Ej; [|destruct Hj].
        destruct Hj as [Hj|[]]. injection Hj as <- <-. split; assumption. }
      destruct (Hmem i (k, n)) as [Hko Hki].
      { rewrite Ei. apply in_or_app. right. left. reflexivity. }
      subst o. apply in_map_iff in Hko. destruct Hko as (k0 & Ek0 & Hk0).
      injection Ek0 as -> <-.
      destruct (Hkey k Hk0) as (h & -> & Hin & Hlt).
      destruct (hour_key Hlt) as [Ha1 Hd]. cbn [fst] in Hki.
      rewrite Ha1 in Hki. injection Hki as <-.
      rewrite Hd, Nat2N.id. exists h. split; [reflexivity|]. split; [exact Hin|].
      intros h' Hin'. unfold sessionsAt. fold keys.
      assert (Hlt' : h' < 24) by (rewrite Forall_forall in Hh; apply Hh; exact Hin').
      destruct (hour_key Hlt') as [Ha' _].
      assert (Hidx : In (N.of_nat h', (ofNat h', tallied keys (ofNat h')))
                        (JsObject.indexed
                           (map (fun k => (k, tallied keys k)) (Analyzer.setOf keys)))).
      { apply (Permutation_in _ (Permutation_sym (indexed_perm _))).
        apply in_flat_map. exists (ofNat h', tallied keys (ofNat h')).
        split.
        - apply in_map_iff. exists (ofNat h'). split; [reflexivity|].
          apply setOf_In. subst keys. apply in_map. exact Hin'.
        - cbn [fst]. rewrite Ha'. left. reflexivity. }
      rewrite Ei in Hidx. apply in_app_or in Hidx.
      rewrite !Forall_map in Hb, Ha. rewrite Forall_forall in Hb, Ha, Hs.
      destruct Hidx as [Hidx|[Hidx|Hidx]].
      * specialize (Hb _ Hidx). cbn [snd] in Hb. split; lia.
      * injection Hidx as Eh Ek. apply Nat2N.inj in Eh. subst h'. split; lia.
      * pose proof (Ha _ Hidx) as Hc. pose proof (Hs _ Hidx) as Ho. cbn [fst snd] in Hc, Ho.
        split; [exact Hc|]. intros _. lia.
    + assert (Hz : Forall (fun e : jsstring * nat => snd e = 0) o).
      { apply Forall_forall. intros e He.
        rewrite Forall_forall in H. apply H.
        apply (Permutation_in _ (Permutation_sym (entries_perm o))) in He.
        unfold JsObject.entries in He. rewrite (@named_none _ o), app_nil_r in He; [exact He|].
        subst o. apply Forall_map. apply Forall_forall. intros k Hk. cbn [fst].
        destruct (Hkey k Hk) as (h & -> & _ & Hlt).
        destruct (hour_key Hlt) as [-> _]. discriminate. }
      apply nothing_tallied in Hz. subst keys hours.
      destruct times; [reflexivity | discriminate].
Qed.

End TimePatternFacts.

(* ================================================================= *)
(** ** Further properties: the date range of the session overview *)




Section OverviewFacts.
Context {host : Host}.


End OverviewFacts.

(* ================================================================= *)
(** ** Further properties: user behavior *)

Lemma keepExample_firstn (l : list jsstring) (q : jsstring) :
  Analyzer.keepExample (firstn 5 l) q = firstn 5 (l ++ [q]).
Proof.
  unfold Analyzer.keepExample. rewrite length_firstn.
  destruct (Nat.ltb (Nat.min 5 (length l)) 5) eqn:E.
  - apply Nat.ltb_lt in E.
    rewrite (@firstn_all2 _ 5 l) by lia.
    rewrite firstn_all2; [reflexivity|]. rewrite length_app. simpl. lia.
  - apply Nat.ltb_ge in E. rewrite firstn_app.
    replace (5 - length l) with 0 by lia. simpl. rewrite app_nil_r. reflexivity.
Qed.

Lemma tier_exclusive (q : jsstring) :
  (if Tiers.isSingleWord q then 1 else 0) + (if Tiers.isSimple q then 1 else 0)
  + (if Tiers.isAdvanced q then 1 else 0) + (if Tiers.isNatural q then 1 else 0) = 1.
Proof.
  unfold Tiers.isSimple, Tiers.isAdvanced, Tiers.isNatural.
  destruct (Tiers.isSingleWord q), (Analyzer.matches Analyzer.Patterns.naturalLanguage q),
    (Nat.leb 5 (Analyzer.wordCount q)
     || Analyzer.matches Analyzer.Patterns.location q
        && Analyzer.matches Analyzer.Patterns.price q); reflexivity.
Qed.

Lemma classifyComplexity_tiers (qs : list jsstring) :
  fold_left Analyzer.classifyComplexity qs Analyzer.QueryComplexity.zero
  = Analyzer.QueryComplexity.mk
      (length (filter Tiers.isSingleWord qs)) (length (filter Tiers.isSimple qs))
      (length (filter Tiers.isAdvanced qs)) (length (filter Tiers.isNatural qs))
      (firstn 5 (filter Tiers.isSingleWord qs)) (firstn 5 (filter Tiers.isSimple qs))
      (firstn 5 (filter Tiers.isAdvanced qs)) (firstn 5 (filter Tiers.isNatural qs)).
Proof.
  induction qs as [|q qs IH] using rev_ind; [reflexivity|].
  rewrite fold_left_app. cbn [fold_left]. rewrite IH.
  rewrite !filter_app. cbn [filter].
  unfold Analyzer.classifyComplexity.
  unfold Tiers.isSimple, Tiers.isAdvanced, Tiers.isNatural, Tiers.isSingleWord.
  destruct (Nat.eqb (Analyzer.wordCount q) 1);
    [|destruct (Analyzer.matches Analyzer.Patterns.naturalLanguage q);
      [|destruct (Nat.leb 5 (Analyzer.wordCount q)
                  || Analyzer.matches Analyzer.Patterns.location q
                     && Analyzer.matches Analyzer.Patterns.price q)]];
    cbn [negb andb]; rewrite ?app_nil_r, ?length_app, ?keepExample_firstn;
    cbn [length]; rewrite ?Nat.add_1_r; reflexivity.
Qed.

Lemma filter_indicator_length {A} (p : A -> bool) (l : list A) :
  length (filter p l) = list_sum (map (fun x => if p x then 1 else 0) l).
Proof.
  induction l as [|x l IH]; [reflexivity|].
  simpl. destruct (p x); simpl; rewrite IH; reflexivity.
Qed.

(** X7.  Every classified query lands in exactly one complexity tier:
    single-word (one word), natural-language (several words and a
    natural-language phrase), advanced-search (neither, and five words or
    more or both a location and a price phrase) or simple-phrase (the
    rest).  Each counter is the number of queries of its tier, so the four
    counters add up to the number of classified queries, and each list of
    examples holds the first five queries of its tier, in input order. *)
Theorem complexity_tiers_partition_the_queries :
  forall transcripts : list Transcript.t,
    let qs := flat_map Analyzer.behaviorQueries transcripts in
    let c := Analyzer.Behavior.queryComplexity (Analyzer.extractUserBehavior transcripts) in
    c = Analyzer.QueryComplexity.mk
          (length (filter Tiers.isSingleWord qs)) (length (filter Tiers.isSimple qs))
          (length (filter Tiers.isAdvanced qs)) (length (filter Tiers.isNatural qs))
          (firstn 5 (filter Tiers.isSingleWord qs)) (firstn 5 (filter Tiers.isSimple qs))
          (firstn 5 (filter Tiers.isAdvanced qs)) (firstn 5 (filter Tiers.isNatural qs))
    /\ Analyzer.QueryComplexity.total c = length qs
    /\ (forall q, (if Tiers.isSingleWord q then 1 else 0) + (if Tiers.isSimple q then 1 else 0)
                  + (if Tiers.isAdvanced q then 1 else 0)
                  + (if Tiers.isNatural q then 1 else 0) = 1).
Proof.
  intros ts qs c.
  assert (E : c = fold_left Analyzer.classifyComplexity qs Analyzer.QueryComplexity.zero).
  { subst c qs. destruct ts as [|t ts]; reflexivity. }
  rewrite E, classifyComplexity_tiers. split; [reflexivity|]. split; [|exact tier_exclusive].
  unfold Analyzer.QueryComplexity.total.
  cbn [Analyzer.QueryComplexity.singleWord Analyzer.QueryComplexity.simplePhrase
       Analyzer.QueryComplexity.advancedSearch Analyzer.QueryComplexity.naturalLanguage].
  rewrite !filter_indicator_length. clear.
  induction qs as [|q qs IH]; [reflexivity|].
  simpl. pose proof (tier_exclusive q). lia.
Qed.

Lemma setOf_NoDup_id (l : list jsstring) : NoDup l -> Analyzer.setOf l = l.
Proof.
  induction l as [|x l IH] using rev_ind; intros H; [reflexivity|].
  rewrite setOf_snoc. apply NoDup_remove in H. rewrite app_nil_r in H.
  destruct H as [Hl Hx]. rewrite (IH Hl). unfold Analyzer.setAdd.
  apply existsb_eqb_notIn in Hx. rewrite Hx. reflexivity.
Qed.

Lemma setOf_same_length (l : list jsstring) :
  length (Analyzer.setOf l) = length l <-> NoDup l.
Proof.
  split.
  - intros E. apply (@NoDup_incl_NoDup _ (Analyzer.setOf l) l).
    + apply setOf_NoDup.
    + lia.
    + intros x Hx. apply setOf_In. exact Hx.
  - intros H. rewrite (setOf_NoDup_id H). reflexivity.
Qed.

Lemma fold_left_invariant {A B} (P : A -> Prop) (f : A -> B -> A) (l : list B) (a : A) :
  (forall a b, P a -> P (f a b)) -> P a -> P (fold_left f l a).
Proof.
  intros Hf. revert a. induction l as [|b l IH]; intros a Ha; simpl; [exact Ha|].
  apply IH. apply Hf. exact Ha.
Qed.

Lemma countRepeats_step (r : Analyzer.RepeatedQueries.t) (t : Transcript.t) :
  Repeats.fewExamples (Analyzer.RepeatedQueries.examples r) ->
  let r' := Analyzer.countRepeats r t in
  Analyzer.RepeatedQueries.sessionsWithRepeats r'
  = Analyzer.RepeatedQueries.sessionsWithRepeats r
    + (if Nat.ltb 0 (Repeats.repeats t) then 1 else 0)
  /\ Analyzer.RepeatedQueries.totalRepeats r'
     = Analyzer.RepeatedQueries.totalRepeats r + Repeats.repeats t
  /\ Repeats.fewExamples (Analyzer.RepeatedQueries.examples r').
Proof.
  intros Hex. cbv zeta. unfold Analyzer.countRepeats. cbv zeta.
  unfold Repeats.repeats, Repeats.queries.
  set (qs := map toLowerCase (Analyzer.behaviorQueries t)).
  pose proof (setOf_length qs) as Hle.
  destruct (Nat.ltb (length (Analyzer.setOf qs)) (length qs)) eqn:E.
  - apply Nat.ltb_lt in E.
    cbn [Analyzer.RepeatedQueries.sessionsWithRepeats Analyzer.RepeatedQueries.totalRepeats
         Analyzer.RepeatedQueries.examples].
    assert (E0 : Nat.ltb 0 (length qs - length (Analyzer.setOf qs)) = true)
      by (apply Nat.ltb_lt; lia).
    rewrite E0. split; [lia|]. split; [reflexivity|].
    apply fold_left_invariant; [|exact Hex].
    intros ex e [Hlen Hall].
    destruct (Nat.ltb 1 (snd e) && Nat.ltb (length ex) 5) eqn:C; [|split; assumption].
    apply andb_true_iff in C. destruct C as [C1 C2].
    apply Nat.ltb_lt in C1, C2. split.
    + rewrite length_app. simpl. lia.
    + apply Forall_app. split; [exact Hall|]. constructor; [simpl; lia | constructor].
  - apply Nat.ltb_ge in E.
    assert (E0 : Nat.ltb 0 (length qs - length (Analyzer.setOf qs)) = false)
      by (apply Nat.ltb_ge; lia).
    rewrite E0. split; [lia|]. split; [lia | exact Hex].
Qed.

Lemma countRepeats_fold (ts : list Transcript.t) :
  let r := fold_left Analyzer.countRepeats ts Analyzer.RepeatedQueries.zero in
  Analyzer.RepeatedQueries.sessionsWithRepeats r
  = length (filter (fun t => Nat.ltb 0 (Repeats.repeats t)) ts)
  /\ Analyzer.RepeatedQueries.totalRepeats r = list_sum (map Repeats.repeats ts)
  /\ Repeats.fewExamples (Analyzer.RepeatedQueries.examples r).
Proof.
  induction ts as [|t ts IH] using rev_ind.
  - simpl. split; [reflexivity|]. split; [reflexivity|]. split; [simpl; lia | constructor].
  - cbv zeta in *. rewrite fold_left_app. cbn [fold_left].
    destruct IH as (H1 & H2 & H3).
    destruct (countRepeats_step _ t H3) as (S1 & S2 & S3).
    rewrite S1, S2, H1, H2, filter_app, length_app, map_app, list_sum_app.
    cbn [filter map list_sum].
    split; [|split; [simpl; lia | exact S3]].
    destruct (Nat.ltb 0 (Repeats.repeats t)); reflexivity.
Qed.

(** X8.  The repeated-query counters of user behavior (the queries being
    made of Basic Latin and Latin-1 characters, and their lower-cased forms
    being ordinary table keys): the number of sessions with repeats is the number of sessions in which some query
    (compared without regard to case) occurs twice, and it is 0 exactly when
    the queries of every session are distinct; the total of repeats is the
    sum over the sessions of the number of queries minus the number of
    distinct queries, hence at least the number of sessions with repeats;
    the examples are at most five and each reports a count of two or more. *)
Theorem repeated_queries_count_duplicates_within_sessions :
  forall transcripts : list Transcript.t,
    let r := Analyzer.Behavior.repeatedQueries (Analyzer.extractUserBehavior transcripts) in
    forallb latin1 (flat_map Analyzer.behaviorQueries transcripts) = true ->
    forallb ordinaryKey (flat_map Repeats.queries transcripts) = true ->
    Analyzer.RepeatedQueries.sessionsWithRepeats r
    = length (filter (fun t => Nat.ltb 0 (Repeats.repeats t)) transcripts)
    /\ Analyzer.RepeatedQueries.totalRepeats r = list_sum (map Repeats.repeats transcripts)
    /\ (Analyzer.RepeatedQueries.sessionsWithRepeats r = 0
        <-> Forall (fun t => NoDup (Repeats.queries t)) transcripts)
    /\ Analyzer.RepeatedQueries.sessionsWithRepeats r
       <= Analyzer.RepeatedQueries.totalRepeats r
    /\ length (Analyzer.RepeatedQueries.examples r) <= 5
    /\ Forall (fun e => 2 <= Analyzer.RepeatExample.count e)
              (Analyzer.RepeatedQueries.examples r).
Proof.
  intros ts r _ _.
  assert (E : r = fold_left Analyzer.countRepeats ts Analyzer.RepeatedQueries.zero).
  { subst r. destruct ts as [|t ts]; reflexivity. }
  rewrite E. clear E r.
  destruct (countRepeats_fold ts) as (H1 & H2 & H3 & H4).
  split; [exact H1|]. split; [exact H2|].
  rewrite H1, H2. split; [|split; [|split; assumption]].
  - clear. induction ts as [|t ts IH]; [split; [constructor | reflexivity]|].
    cbn [filter]. unfold Repeats.repeats at 1.
    pose proof (setOf_length (Repeats.queries t)) as Hle.
    pose proof (setOf_same_length (Repeats.queries t)) as Hnd.
    destruct (Nat.ltb 0 _) eqn:C.
    + apply Nat.ltb_lt in C. split; [discriminate|].
      intros H. inversion H as [|x l Hx Hl]; subst.
      apply Hnd in Hx. lia.
    + apply Nat.ltb_ge in C. rewrite IH. split.
      * intros H. constructor; [apply Hnd; lia | exact H].
      * intros H. inversion H; assumption.
  - clear. induction ts as [|t ts IH]; [simpl; lia|].
    cbn [filter map list_sum].
    destruct (Nat.ltb 0 (Repeats.repeats t)) eqn:C; simpl.
    + apply Nat.ltb_lt in C. lia.
    + lia.
Qed.

(* ================================================================= *)
(** ** Further properties: the results decoder *)

Lemma arrayAtBottom_cons (f : frame) (stack : list frame) :
  Decoding.arrayAtBottom stack -> Decoding.arrayAtBottom (f :: stack).
Proof. intros (upper & items & ->). exists (f :: upper), items. reflexivity. Qed.

Lemma arrayAtBottom_pop (f : frame) (stack : list frame) :
  Decoding.arrayAtBottom (f :: stack) ->
  (stack = [] /\ exists items, f = FArr items) \/ Decoding.arrayAtBottom stack.
Proof.
  intros (upper & items & E). destruct upper as [|g upper].
  - injection E as -> ->. left. split; [reflexivity | eauto].
  - injection E as -> ->. right. exists upper, items. reflexivity.
Qed.

Lemma arrayAtBottom_replace (f g : frame) (stack : list frame) :
  Decoding.arrayAtBottom (f :: stack) ->
  (stack = [] -> exists items, g = FArr items) ->
  Decoding.arrayAtBottom (g :: stack).
Proof.
  intros H Hg. apply arrayAtBottom_pop in H. destruct H as [[-> _]|H].
  - destruct (Hg eq_refl) as (items & ->). exists [], items. reflexivity.
  - apply arrayAtBottom_cons. exact H.
Qed.

Lemma deliver_readingArray (v : json) (stack : list frame) p' stack' :
  Decoding.arrayAtBottom stack ->
  deliver v stack = Some (p', stack') -> Decoding.readingArray p' stack'.
Proof.
  intros H E. destruct stack as [|[items|members|members k] st]; simpl in E.
  - destruct H as ([|? ?] & ? & ?); discriminate.
  - injection E as <- <-. left. split; [|discriminate].
    apply (arrayAtBottom_replace H). intros _. eauto.
  - discriminate.
  - injection E as <- <-. left. split; [|discriminate].
    apply (arrayAtBottom_replace H). intros ->.
    destruct H as ([|? [|? ?]] & ? & ?); discriminate.
Qed.

(** Closing the innermost container. *)
Lemma close_readingArray (f : frame) (v : json) (st : list frame) p' stack' :
  Decoding.arrayAtBottom (f :: st) ->
  ((exists items, f = FArr items) -> exists items, v = JArr items) ->
  deliver v st = Some (p', stack') -> Decoding.readingArray p' stack'.
Proof.
  intros H Hv E. apply arrayAtBottom_pop in H. destruct H as [[-> Hf]|H].
  - simpl in E. injection E as <- <-. right. split; [reflexivity|].
    destruct (Hv Hf) as (items & ->). eauto.
  - eapply deliver_readingArray; eassumption.
Qed.

Lemma startValue_readingArray (t : token) (stack : list frame) p' stack' :
  Decoding.arrayAtBottom stack ->
  startValue t stack = Some (p', stack') -> Decoding.readingArray p' stack'.
Proof.
  intros H E. destruct t; simpl in E; try discriminate;
    try (eapply deliver_readingArray; eassumption);
    injection E as <- <-; left; (split; [apply arrayAtBottom_cons; exact H | discriminate]).
Qed.

Lemma parseStep_readingArray (p : pstate) (stack : list frame) (t : token) p' stack' :
  Decoding.readingArray p stack ->
  parseStep p stack t = Some (p', stack') -> Decoding.readingArray p' stack'.
Proof.
  intros [[H Hp]|[-> (items & ->)]] E; [|discriminate].
  destruct p; try (exfalso; eapply Hp; reflexivity).
  - exact (startValue_readingArray _ H E).
  - destruct t; try (exact (startValue_readingArray _ H E)).
    destruct stack as [|[[|x its]|members|members k] st];
      try (exact (startValue_readingArray TRBracket H E)).
    simpl in E. eapply close_readingArray; [exact H | intros _; eauto | exact E].
  - destruct t; try discriminate; destruct stack as [|[its|members|members k] st];
      try discriminate.
    + simpl in E. eapply close_readingArray; [exact H | | exact E].
      intros (its & Hf). discriminate.
    + simpl in E. injection E as <- <-. left. split; [|discriminate].
      apply (arrayAtBottom_replace H). intros ->.
      destruct H as ([|? [|? ?]] & ? & ?); discriminate.
  - destruct t; try discriminate; destruct stack as [|[its|members|members k0] st];
      try discriminate.
    simpl in E. injection E as <- <-. left. split; [|discriminate].
    apply (arrayAtBottom_replace H). intros ->.
    destruct H as ([|? [|? ?]] & ? & ?); discriminate.
  - destruct t; try discriminate. simpl in E. injection E as <- <-.
    left. split; [exact H | discriminate].
  - destruct t; try discriminate; destruct stack as [|[its|members|members k0] st];
      try discriminate; simpl in E.
    + eapply close_readingArray; [exact H | intros _; eauto | exact E].
    + eapply close_readingArray; [exact H | | exact E].
      intros (its & Hf). discriminate.
    + injection E as <- <-. left. split; [exact H | discriminate].
    + injection E as <- <-. left. split; [exact H | discriminate].
Qed.

Lemma parseTokens_readingArray (ts : list token) (p : pstate) (stack : list frame) (v : json) :
  Decoding.readingArray p stack ->
  parseTokens p stack ts = Some v -> exists items, v = JArr items.
Proof.
  revert p stack. induction ts as [|t ts IH]; intros p stack H E.
  - simpl in E. destruct p; try discriminate. injection E as ->.
    destruct H as [[_ Hp]|[_ (items & Hv)]].
    + exfalso. eapply Hp. reflexivity.
    + injection Hv as ->. eauto.
  - simpl in E. destruct (parseStep p stack t) as [[p' stack']|] eqn:S; [|discriminate].
    eapply IH; [|exact E]. eapply parseStep_readingArray; eassumption.
Qed.

(** A document that begins with an opening bracket parses, if at all, to an
    array. *)
Lemma parse_bracket_array (text : jsstring) (v : json) :
  Json.parse (91%N :: text) = Some v -> exists items, v = JArr items.
Proof.
  unfold Json.parse. cbn [lex]. change (lexStep LTop 91%N) with (Some (LTop, [TLBracket])).
  cbv iota beta. destruct (lex LTop text) as [ts|]; [|discriminate].
  simpl option_map. cbv iota. intros E.
  change (parseTokens PFirstElem [FArr []] ts = Some v) in E.
  eapply parseTokens_readingArray; [|exact E].
  left. split; [exists [], []; reflexivity | discriminate].
Qed.

Lemma products_capture_starts (content : jsstring) (m : Regex.mstate) :
  Regex.exec true Helpers.productsPattern content = Some m ->
  exists tl, Helpers.groupText 1 m = 91%N :: tl.
Proof.
  intros H. apply exec_reach in H. destruct H as (p & t & R & _).
  rewrite productsPattern_shape in R.
  inversion R as [| | |r1 r2 s0 s1 s2 Ra Rb| | | | | | | |]; subst; clear R.
  inversion Rb as [| | |r1 r2 s0 s2' s3 Rc Rd| | | | | | | |]; subst; clear Rb.
  inversion Rd as [| | | | | |i r s0 s4 Re| | | | |]; subst; clear Rd.
  unfold Helpers.groupText, Regex.group. simpl.
  inversion Re as [| | |r1 r2 s0 s5 s6 Rf Rg| | | | | | | |]; subst; clear Re.
  inversion Rf as [|neg items s0 c tl Erest Hc| | | | | | | | | |]; subst; clear Rf.
  apply lit_match_nonletter in Hc; [|reflexivity|reflexivity]. subst c.
  apply reach_shrinks in Rg. simpl in Rg.
  unfold Regex.consumed. rewrite Erest. simpl length.
  destruct (S (length tl) - length (Regex.rest s4)) eqn:E; [lia|].
  simpl. eauto.
Qed.

Lemma removeQuotes_clean (t : jsstring) :
  ~ In 39%N (Helpers.removeQuotes t) /\ ~ In 34%N (Helpers.removeQuotes t).
Proof.
  unfold Helpers.removeQuotes. split; intros H; apply filter_In in H; destruct H as [_ H];
    vm_compute in H; discriminate.
Qed.

Lemma split_nonempty (sep : jschar) (t : jsstring) : split sep t <> [].
Proof.
  destruct t as [|c t]; simpl; [discriminate|].
  destruct (N.eqb c sep); [discriminate|]. destruct (split sep t); discriminate.
Qed.

(** X9.  What the RESULTS decoder stores.  A stored [products] value is
    always a JSON array (the nesting is kept, never a bare scalar or an
    object); [products] and [productsRaw] are never both set, and without
    the PRODUCTS keyword and its brackets neither is; a stored [productsRaw]
    is the bracket text as written, which starts with an opening bracket
    and is not valid JSON once its single quotes are doubled.  A stored list
    of styles has one entry per comma-separated piece, at least one, and no
    entry contains a quote character. *)
Theorem results_decoder_stores_arrays_or_raw_text :
  forall content : jsstring,
    let r := Helpers.parseResultsContent content in
    (forall v, Results.products r = Some v -> exists items, v = JArr items)
    /\ (Results.products r = None \/ Results.productsRaw r = None)
    /\ (Regex.exec true Helpers.productsPattern content = None ->
        Results.products r = None /\ Results.productsRaw r = None)
    /\ (forall raw, Results.productsRaw r = Some raw ->
                    (exists tl, raw = 91%N :: tl)
                    /\ Json.parse (Helpers.doubleQuotes raw) = None)
    /\ (forall styles, Results.styles r = Some styles ->
                       styles <> []
                       /\ Forall (fun style => ~ In 39%N style /\ ~ In 34%N style) styles).
Proof.
  intros content r. subst r. unfold Helpers.parseResultsContent.
  set (styles := match Regex.exec true Helpers.stylesPattern content with
                 | Some m => Some _
                 | None => None
                 end).
  assert (Hstyles : forall l, styles = Some l ->
                              l <> [] /\ Forall (fun style => ~ In 39%N style /\ ~ In 34%N style) l).
  { subst styles. intros l E.
    destruct (Regex.exec true Helpers.stylesPattern content) as [m|]; [|discriminate].
    injection E as <-. split.
    - intros Hnil. apply map_eq_nil in Hnil. exact (split_nonempty _ _ Hnil).
    - apply Forall_map. apply Forall_forall. intros x _. apply removeQuotes_clean. }
  destruct (Regex.exec true Helpers.productsPattern content) as [m|] eqn:Em.
  - destruct (products_capture_starts _ Em) as (tl & Eraw).
    destruct (Json.parse (Helpers.doubleQuotes (Helpers.groupText 1 m))) as [v|] eqn:Ev;
      cbn [Results.products Results.productsRaw Results.styles].
    + split.
      { intros v' E. injection E as <-. rewrite Eraw in Ev. simpl in Ev.
        eapply parse_bracket_array. exact Ev. }
      split; [right; reflexivity|]. split; [discriminate|]. split; [discriminate | exact Hstyles].
    + split; [discriminate|]. split; [left; reflexivity|]. split; [discriminate|].
      split; [|exact Hstyles].
      intros raw E. injection E as <-. split; [eauto | exact Ev].
  - cbn [Results.products Results.productsRaw Results.styles].
    split; [discriminate|]. split; [left; reflexivity|]. split; [intros _; split; reflexivity|].
    split; [discriminate | exact Hstyles].
Qed.

(* ================================================================= *)
(** ** Further properties: the timestamped-log parser *)

Lemma skipped_no_grammar (line : jsstring) :
  Spec.skipped line = true -> Lines.grammar line = None.
Proof.
  intros H. unfold Lines.grammar.
  destruct (Regex.exec true Helpers.linePattern (trim line)) as [m|] eqn:E; [|reflexivity].
  apply linePattern_not_skipped in E. congruence.
Qed.

Section TimestampedFacts.
Context {host : Host}.

(** The two date trackers see the timestamps of the lines of the grammar,
    and nothing else. *)
Lemma step_trackers (st : Helpers.loop) (line : jsstring) :
  Helpers.earliestTimestamp (Helpers.step st line)
  = fold_left Helpers.earlier (map dateParse (Lines.stampOf line)) (Helpers.earliestTimestamp st)
  /\ Helpers.latestTimestamp (Helpers.step st line)
     = fold_left Helpers.later (map dateParse (Lines.stampOf line)) (Helpers.latestTimestamp st).
Proof.
  unfold Lines.stampOf.
  destruct (Spec.skipped line) eqn:Hs.
  - rewrite step_skipped, (skipped_no_grammar _ Hs) by exact Hs. split; reflexivity.
  - unfold Lines.grammar.
    destruct (Regex.exec true Helpers.linePattern (trim line)) as [m|] eqn:Hm.
    + rewrite (step_matched st line Hm). cbv zeta.
      destruct (JsString.eqb _ (js "CONVERSATION STARTED")); [split; reflexivity|].
      destruct (JsString.eqb _ (js "RESULTS")); split; reflexivity.
    + rewrite step_continuation by (split; assumption).
      destruct (Helpers.currentMessage st); split; reflexivity.
Qed.

Lemma fold_trackers (lines : list jsstring) (st : Helpers.loop) :
  Helpers.earliestTimestamp (fold_left Helpers.step lines st)
  = fold_left Helpers.earlier (map dateParse (Lines.stamps lines)) (Helpers.earliestTimestamp st)
  /\ Helpers.latestTimestamp (fold_left Helpers.step lines st)
     = fold_left Helpers.later (map dateParse (Lines.stamps lines)) (Helpers.latestTimestamp st).
Proof.
  revert st. induction lines as [|l ls IH]; intros st; [split; reflexivity|].
  cbn [fold_left]. destruct (IH (Helpers.step st l)) as [-> ->].
  destruct (step_trackers st l) as [-> ->].
  unfold Lines.stamps. cbn [flat_map]. rewrite !map_app, !fold_left_app. split; reflexivity.
Qed.

(** Once the tracked date is invalid it stays invalid. *)
Lemma earlier_invalid (ds : list (option Z)) :
  fold_left Helpers.earlier ds (Some None) = Some None.
Proof.
  induction ds as [|d ds IH]; [reflexivity|].
  simpl. destruct d; exact IH.
Qed.

Lemma later_invalid (ds : list (option Z)) :
  fold_left Helpers.later ds (Some None) = Some None.
Proof.
  induction ds as [|d ds IH]; [reflexivity|].
  simpl. exact IH.
Qed.

(** From a valid date on, the trackers hold the least and the greatest of
    the valid dates seen. *)
Lemma earlier_valid (ds : list (option Z)) (v : Z) :
  exists lo, fold_left Helpers.earlier ds (Some (Some v)) = Some (Some lo)
             /\ In lo (v :: Dates.present ds)
             /\ Forall (fun x => (lo <= x)%Z) (v :: Dates.present ds).
Proof.
  revert v. induction ds as [|d ds IH]; intros v.
  - exists v. simpl. split; [reflexivity|]. split; [left; reflexivity|].
    constructor; [lia | constructor].
  - cbn [fold_left Helpers.earlier Helpers.dateLt]. destruct d as [w|].
    + change (Helpers.dateLt (Some w) (Some v)) with (Z.ltb w v).
      destruct (Z.ltb w v) eqn:E.
      * apply Z.ltb_lt in E. destruct (IH w) as (lo & H1 & H2 & H3).
        exists lo. split; [exact H1|]. split; [right; exact H2|].
        inversion H3 as [|x l Hx Hl]; subst. constructor; [lia|]. exact H3.
      * apply Z.ltb_ge in E. destruct (IH v) as (lo & H1 & H2 & H3).
        exists lo. split; [exact H1|].
        inversion H3 as [|x l Hx Hl]; subst.
        split; [destruct H2 as [H2|H2]; [left; exact H2 | right; right; exact H2]|].
        constructor; [exact Hx|]. constructor; [lia | exact Hl].
    + destruct (IH v) as (lo & H1 & H2 & H3). exists lo. auto.
Qed.

Lemma later_valid (ds : list (option Z)) (v : Z) :
  exists hi, fold_left Helpers.later ds (Some (Some v)) = Some (Some hi)
             /\ In hi (v :: Dates.present ds)
             /\ Forall (fun x => (x <= hi)%Z) (v :: Dates.present ds).
Proof.
  revert v. induction ds as [|d ds IH]; intros v.
  - exists v. simpl. split; [reflexivity|]. split; [left; reflexivity|].
    constructor; [lia | constructor].
  - cbn [fold_left Helpers.later Helpers.dateLt]. destruct d as [w|].
    + change (Helpers.dateLt (Some v) (Some w)) with (Z.ltb v w).
      destruct (Z.ltb v w) eqn:E.
      * apply Z.ltb_lt in E. destruct (IH w) as (hi & H1 & H2 & H3).
        exists hi. split; [exact H1|]. split; [right; exact H2|].
        inversion H3 as [|x l Hx Hl]; subst. constructor; [lia|]. exact H3.
      * apply Z.ltb_ge in E. destruct (IH v) as (hi & H1 & H2 & H3).
        exists hi. split; [exact H1|].
        inversion H3 as [|x l Hx Hl]; subst.
        split; [destruct H2 as [H2|H2]; [left; exact H2 | right; right; exact H2]|].
        constructor; [exact Hx|]. constructor; [lia | exact Hl].
    + destruct (IH v) as (hi & H1 & H2 & H3). exists hi. auto.
Qed.

Lemma present_map (stamps : list jsstring) :
  Dates.present (map dateParse stamps) = Dates.valid stamps.
Proof.
  unfold Dates.present, Dates.valid. induction stamps as [|s l IH]; [reflexivity|].
  simpl. rewrite IH. reflexivity.
Qed.

(** X10.  When the timestamped parser fails.  Let the stamps be the
    timestamps of the lines that match the timestamp-prefixed grammar, in
    order.  With no such line the parser returns one session without dates.
    When the first stamp is an invalid date the parser throws a RangeError,
    whatever follows.  When the first stamp is a valid date the parser
    returns one session; later invalid stamps are ignored, and the date
    range of the session runs from the earliest to the latest of the valid
    stamps, the session timestamp being the earliest. *)
Theorem timestamped_parser_fails_only_on_invalid_first_stamp :
  forall content filename : jsstring,
    let parsed := Helpers.parseTimestampedTranscript content filename in
    match Lines.stamps (split Helpers.newline content) with
    | [] =>
        exists t, parsed = Returns [t]
                  /\ Metadata.timestamp (Transcript.metadata t) = None
                  /\ Metadata.dateRange (Transcript.metadata t) = Some (None, None)
    | first :: others =>
        match dateParse first with
        | None => parsed = Throws RangeError
        | Some _ =>
            exists t lo hi,
              parsed = Returns [t]
              /\ In lo (Dates.valid (first :: others))
              /\ In hi (Dates.valid (first :: others))
              /\ Forall (fun x => (lo <= x <= hi)%Z) (Dates.valid (first :: others))
              /\ Metadata.timestamp (Transcript.metadata t)
                 = orElse (Some (toISOString lo)) None
              /\ Metadata.dateRange (Transcript.metadata t)
                 = Some (orElse (Some (toISOString lo)) None,
                         orElse (Some (toISOString hi)) None)
        end
    end.
Proof.
  intros content filename parsed. subst parsed.
  unfold Helpers.parseTimestampedTranscript. cbv zeta.
  destruct (fold_trackers (split Helpers.newline content) Helpers.start) as [-> ->].
  cbn [Helpers.start Helpers.earliestTimestamp Helpers.latestTimestamp].
  destruct (Lines.stamps (split Helpers.newline content)) as [|first others].
  - simpl. eexists. split; [reflexivity|]. split; reflexivity.
  - cbn [map fold_left Helpers.earlier Helpers.later].
    destruct (dateParse first) as [v|] eqn:Ev.
    + destruct (earlier_valid (map dateParse others) v) as (lo & -> & L1 & L2).
      destruct (later_valid (map dateParse others) v) as (hi & -> & H1 & H2).
      rewrite present_map in *.
      assert (Ef : Dates.valid (first :: others) = v :: Dates.valid others).
      { unfold Dates.valid. simpl. rewrite Ev. reflexivity. }
      cbn [Helpers.isoOrNull bind]. eexists _, lo, hi.
      split; [reflexivity|]. rewrite Ef.
      split; [exact L1|]. split; [exact H1|].
      split; [|split; reflexivity].
      rewrite Forall_forall in *. intros x Hx. split; [apply L2 | apply H2]; exact Hx.
    + rewrite earlier_invalid. reflexivity.
Qed.

(** What a line does to the emitted messages. *)
Lemma attachResults_length (msgs : list Message.t) (content : jsstring) :
  length (Helpers.attachResults msgs content) = length msgs.
Proof.
  destruct (rev msgs) as [|last before] eqn:E.
  - unfold Helpers.attachResults. rewrite E. reflexivity.
  - assert (Hm : msgs = rev before ++ [last]).
    { rewrite <- (rev_involutive msgs), E. reflexivity. }
    rewrite Hm, attachResults_last, !length_app. reflexivity.
Qed.

Lemma attachResults_Forall (Q : Message.t -> Prop) (msgs : list Message.t)
    (content : jsstring) :
  (forall m r, Q m -> Q (Message.withResults m r)) ->
  Forall Q msgs -> Forall Q (Helpers.attachResults msgs content).
Proof.
  intros HQ H. destruct (rev msgs) as [|last before] eqn:E.
  - unfold Helpers.attachResults. rewrite E. exact H.
  - assert (Hm : msgs = rev before ++ [last]).
    { rewrite <- (rev_involutive msgs), E. reflexivity. }
    rewrite Hm, attachResults_last. rewrite Hm in H.
    apply Forall_app in H. destruct H as [Hb Hl]. inversion Hl as [|x l Hx _]; subst.
    apply Forall_app. split; [exact Hb|]. constructor; [|constructor].
    destruct (Message.roleIs last (js "bot")); [apply HQ|]; exact Hx.
Qed.

Lemma pushCurrent_none (msgs : list Message.t) (e l : option (option Z)) :
  Helpers.pushCurrent (Helpers.Loop msgs None e l) = msgs.
Proof. reflexivity. Qed.

Lemma pushCurrent_some (msgs : list Message.t) (c : Message.t) (e l : option (option Z)) :
  Helpers.pushCurrent (Helpers.Loop msgs (Some c) e l) = msgs ++ [c].
Proof. reflexivity. Qed.

Lemma step_emitted (st : Helpers.loop) (line : jsstring) :
  length (Helpers.pushCurrent (Helpers.step st line))
  = length (Helpers.pushCurrent st) + (if Lines.opensMessage line then 1 else 0)
  /\ (Forall Dates.timestampedMessage (Helpers.pushCurrent st) ->
      Forall Dates.timestampedMessage (Helpers.pushCurrent (Helpers.step st line))).
Proof.
  unfold Lines.opensMessage.
  destruct (Spec.skipped line) eqn:Hs.
  - rewrite step_skipped, (skipped_no_grammar _ Hs) by exact Hs. split; [lia | auto].
  - unfold Lines.grammar.
    destruct (Regex.exec true Helpers.linePattern (trim line)) as [m|] eqn:Hm.
    + rewrite (step_matched st line Hm). cbv zeta.
      destruct (JsString.eqb _ (js "CONVERSATION STARTED")); cbn [negb andb].
      { rewrite pushCurrent_none. split; [lia | auto]. }
      destruct (JsString.eqb _ (js "RESULTS")); cbn [negb andb].
      { rewrite pushCurrent_none, attachResults_length. split; [lia|].
        apply attachResults_Forall. intros msg r H. exact H. }
      rewrite pushCurrent_some, length_app. split; [reflexivity|].
      intros H. apply Forall_app. split; [exact H|]. constructor; [|constructor].
      unfold Dates.timestampedMessage, Spec.plainSpelling, Message.plain.
      cbn [Message.role Message.content Message.timestamp Message.id Message.sender
           Message.text Message.message].
      split; [destruct (JsString.eqb _ (js "USER")); [left | right]; reflexivity|].
      repeat split; discriminate.
    + rewrite step_continuation by (split; assumption).
      unfold Helpers.pushCurrent.
      destruct (Helpers.currentMessage st) as [c|] eqn:Ec;
        cbn [Helpers.currentMessage Helpers.messages]; [|rewrite Ec; split; [lia | auto]].
      rewrite !length_app. split; [simpl; lia|].
      intros H. apply Forall_app in H. destruct H as [Hm' Hc].
      apply Forall_app. split; [exact Hm'|].
      inversion Hc as [|x l Hx _]; subst. constructor; [|constructor].
      destruct Hx as (R & C & T & I & P). unfold Dates.timestampedMessage, Spec.plainSpelling.
      unfold Message.appendContent, Message.withContent.
      cbn [Message.role Message.content Message.timestamp Message.id Message.sender
           Message.text Message.message].
      repeat split; try assumption; try apply P. discriminate.
Qed.

Lemma fold_emitted (lines : list jsstring) (st : Helpers.loop) :
  length (Helpers.pushCurrent (fold_left Helpers.step lines st))
  = length (Helpers.pushCurrent st) + length (filter Lines.opensMessage lines)
  /\ (Forall Dates.timestampedMessage (Helpers.pushCurrent st) ->
      Forall Dates.timestampedMessage (Helpers.pushCurrent (fold_left Helpers.step lines st))).
Proof.
  revert st. induction lines as [|l ls IH]; intros st; [split; [simpl; lia | auto]|].
  cbn [fold_left filter]. destruct (IH (Helpers.step st l)) as [E F].
  destruct (step_emitted st l) as [E1 F1]. rewrite E, E1. split; [|auto].
  destruct (Lines.opensMessage l); simpl; lia.
Qed.

(** Each emitted message is the message of the line that opened it. *)
Lemma Forall2_last {A B} (Q : A -> B -> Prop) (ls : list A) (msgs : list B) (c c' : B) :
  (forall l, Q l c -> Q l c') ->
  Forall2 Q ls (msgs ++ [c]) -> Forall2 Q ls (msgs ++ [c']).
Proof.
  intros HQ H. apply Forall2_app_inv_r in H.
  destruct H as (l1 & l2 & H1 & H2 & ->).
  apply Forall2_app; [exact H1|].
  inversion H2 as [|l c0 l0 m0 Hl Hnil]; subst. inversion Hnil; subst.
  constructor; [apply HQ; exact Hl | constructor].
Qed.

Lemma attachResults_opened (ls : list jsstring) (msgs : list Message.t) (content : jsstring) :
  Forall2 Lines.opened ls msgs ->
  Forall2 Lines.opened ls (Helpers.attachResults msgs content).
Proof.
  intros H. destruct (rev msgs) as [|last before] eqn:E.
  - unfold Helpers.attachResults. rewrite E. exact H.
  - assert (Hm : msgs = rev before ++ [last]).
    { rewrite <- (rev_involutive msgs), E. reflexivity. }
    rewrite Hm, attachResults_last. rewrite Hm in H.
    destruct (Message.roleIs last (js "bot")); [|exact H].
    apply Forall2_last with (c := last); [|exact H].
    intros l (m & Hg & Hr & Ht & Hc & Hi & Hp). exists m.
    split; [exact Hg|]. split; [exact Hr|]. split; [exact Ht|].
    split; [exact Hc|]. split; [exact Hi | exact Hp].
Qed.

Lemma step_opened (st : Helpers.loop) (line : jsstring) (done : list jsstring) :
  Forall2 Lines.opened done (Helpers.pushCurrent st) ->
  Forall2 Lines.opened (done ++ filter Lines.opensMessage [line])
          (Helpers.pushCurrent (Helpers.step st line)).
Proof.
  intros H. cbn [filter]. unfold Lines.opensMessage.
  destruct (Spec.skipped line) eqn:Hs.
  - rewrite step_skipped, (skipped_no_grammar _ Hs), app_nil_r by exact Hs. exact H.
  - unfold Lines.grammar.
    destruct (Regex.exec true Helpers.linePattern (trim line)) as [m|] eqn:Hm.
    + rewrite (step_matched st line Hm). cbv zeta.
      destruct (JsString.eqb _ (js "CONVERSATION STARTED")); cbn [negb andb].
      { rewrite pushCurrent_none, app_nil_r. exact H. }
      destruct (JsString.eqb _ (js "RESULTS")); cbn [negb andb].
      { rewrite pushCurrent_none, app_nil_r. apply attachResults_opened. exact H. }
      rewrite pushCurrent_some. apply Forall2_app; [exact H|].
      constructor; [|constructor].
      exists m. unfold Lines.grammar, Spec.plainSpelling, Message.plain.
      cbn [Message.role Message.content Message.timestamp Message.id Message.sender
           Message.text Message.message].
      split; [exact Hm|]. split; [reflexivity|]. split; [reflexivity|].
      split; [exists []; rewrite app_nil_r; reflexivity|].
      repeat split.
    + rewrite step_continuation, app_nil_r by (split; assumption).
      unfold Helpers.pushCurrent in *.
      destruct (Helpers.currentMessage st) as [c|] eqn:Ec;
        cbn [Helpers.currentMessage Helpers.messages]; [|rewrite Ec; exact H].
      apply Forall2_last with (c := c); [|exact H].
      intros l (m & Hg & Hr & Ht & (rest & Hc) & Hi & Hp). exists m.
      unfold Message.appendContent, Message.withContent, Spec.plainSpelling in *.
      cbn [Message.role Message.content Message.timestamp Message.id Message.sender
           Message.text Message.message].
      split; [exact Hg|]. split; [exact Hr|]. split; [exact Ht|].
      split; [|split; assumption].
      rewrite Hc. eexists. rewrite <- app_assoc. reflexivity.
Qed.

Lemma fold_opened (lines : list jsstring) (st : Helpers.loop) (done : list jsstring) :
  Forall2 Lines.opened done (Helpers.pushCurrent st) ->
  Forall2 Lines.opened (done ++ filter Lines.opensMessage lines)
          (Helpers.pushCurrent (fold_left Helpers.step lines st)).
Proof.
  revert st done. induction lines as [|l ls IH]; intros st done H.
  - simpl. rewrite app_nil_r. exact H.
  - change (l :: ls) with ([l] ++ ls). rewrite filter_app, app_assoc.
    cbn [fold_left app]. apply IH. apply step_opened. exact H.
Qed.

(** X11.  The session that the timestamped parser returns holds exactly
    one message per USER or AI line of the grammar, in the order of the
    lines: CONVERSATION STARTED lines, RESULTS lines, separators, blank
    lines and continuation lines add none.  The message of a line is a user
    message when the role of the line is USER and a bot message otherwise
    (never [unknown]); its timestamp is the timestamp of the line, its
    content begins with the trimmed text of the line, and it has no id of
    its own. *)
Theorem timestamped_parser_emits_one_message_per_turn_line :
  forall (content filename : jsstring) (sessions : list Transcript.t),
    Helpers.parseTimestampedTranscript content filename = Returns sessions ->
    exists t msgs,
      sessions = [t]
      /\ Transcript.messages t = Some msgs
      /\ Forall2 Lines.opened
                 (filter Lines.opensMessage (split Helpers.newline content)) msgs
      /\ length msgs = length (filter Lines.opensMessage (split Helpers.newline content))
      /\ Forall Dates.timestampedMessage msgs.
Proof.
  intros content filename sessions H.
  destruct (parse_returns _ _ H) as (t & -> & Em).
  eexists t, _. split; [reflexivity|]. split; [exact Em|].
  destruct (fold_emitted (split Helpers.newline content) Helpers.start) as [E F].
  split; [|split; [exact E | apply F; constructor]].
  apply (@fold_opened (split Helpers.newline content) Helpers.start []).
  constructor.
Qed.

End TimestampedFacts.

(* ================================================================= *)
(** ** Further properties: the simple text parser *)

Lemma appendToLast_facts (msgs : list Message.t) (line : jsstring) :
  length (Helpers.appendToLast msgs line) = length msgs
  /\ (Forall Loose.turnMessage msgs -> Forall Loose.turnMessage (Helpers.appendToLast msgs line)).
Proof.
  unfold Helpers.appendToLast. destruct (rev msgs) as [|last before] eqn:E; [auto|].
  assert (Hm : msgs = rev before ++ [last]).
  { rewrite <- (rev_involutive msgs), E. reflexivity. }
  rewrite Hm, !length_app. split; [reflexivity|].
  intros H. apply Forall_app in H. destruct H as [Hb Hl].
  apply Forall_app. split; [exact Hb|]. inversion Hl as [|x l Hx _]; subst.
  constructor; [exact Hx | constructor].
Qed.

Lemma pushConversation_invariant (n : nat) (done : list Transcript.t)
    (current : Helpers.conversation) (c' : jsstring) :
  Loose.invariant n (done, current) ->
  Loose.invariant n (Helpers.pushConversation done current, (c', [])).
Proof.
  intros (Hn & Hne & Hd & Hc). unfold Helpers.pushConversation, Loose.invariant.
  cbn [fst snd] in *.
  destruct (snd current) as [|m ms] eqn:E.
  - simpl in *. repeat split; [lia | assumption | assumption | constructor].
  - rewrite map_app, list_sum_app. cbn [map list_sum]. unfold Helpers.closeConversation at 1.
    unfold Analyzer.messagesOf at 2. cbn [Transcript.messages]. rewrite E.
    split; [simpl in *; lia|].
    split; [apply Forall_app; split; [exact Hne|]; constructor; [|constructor];
            unfold Helpers.closeConversation; cbn [Transcript.messages]; rewrite E; eauto|].
    split; [|constructor].
    apply Forall_app. split; [exact Hd|]. constructor; [|constructor].
    unfold Helpers.closeConversation, Analyzer.messagesOf. cbn [Transcript.messages].
    rewrite E. exact Hc.
Qed.

Lemma simpleStep_invariant (n : nat) (st : list Transcript.t * Helpers.conversation)
    (line : jsstring) :
  Loose.invariant n st ->
  Loose.invariant (n + (if Lines.startsTurn line then 1 else 0)) (Helpers.simpleStep st line).
Proof.
  intros H. destruct st as [done current].
  unfold Helpers.simpleStep, Lines.startsTurn, Lines.found.
  destruct (Regex.exec true Helpers.sessionPattern line) as [sm|].
  - cbn [negb andb]. rewrite Nat.add_0_r. apply pushConversation_invariant. exact H.
  - cbn [negb andb].
    destruct H as (Hn & Hne & Hd & Hc). cbn [fst snd] in *.
    destruct (Regex.exec true Helpers.userPattern line) as [um|].
    { cbn [orb]. unfold Loose.invariant. cbn [fst snd]. rewrite length_app.
      split; [simpl; lia|]. split; [exact Hne|]. split; [exact Hd|].
      apply Forall_app. split; [exact Hc|]. constructor; [left; reflexivity | constructor]. }
    destruct (Regex.exec true Helpers.botPattern line) as [bm|].
    { cbn [orb]. unfold Loose.invariant. cbn [fst snd]. rewrite length_app.
      split; [simpl; lia|]. split; [exact Hne|]. split; [exact Hd|].
      apply Forall_app. split; [exact Hc|]. constructor; [right; reflexivity | constructor]. }
    cbn [orb]. rewrite Nat.add_0_r.
    destruct (truthy (trim line) && negb (Nat.eqb (length (snd current)) 0)).
    + unfold Loose.invariant. cbn [fst snd].
      destruct (appendToLast_facts (snd current) line) as [-> F].
      repeat split; [exact Hn | exact Hne | exact Hd | exact (F Hc)].
    + repeat split; assumption.
Qed.

Lemma fold_simpleStep_invariant (lines : list jsstring) (n : nat)
    (st : list Transcript.t * Helpers.conversation) :
  Loose.invariant n st ->
  Loose.invariant (n + length (filter Lines.startsTurn lines)) (fold_left Helpers.simpleStep lines st).
Proof.
  revert n st. induction lines as [|l ls IH]; intros n st H.
  - simpl. rewrite Nat.add_0_r. exact H.
  - cbn [fold_left filter]. apply (simpleStep_invariant l) in H. apply IH in H.
    destruct (Lines.startsTurn l); simpl in *.
    + replace (n + S (length (filter Lines.startsTurn ls)))
        with (n + 1 + length (filter Lines.startsTurn ls)) by lia. exact H.
    + rewrite Nat.add_0_r in H. exact H.
Qed.

Lemma simple_parser_nonempty (content filename : jsstring) :
  Helpers.parseSimpleTextTranscript content filename <> [].
Proof.
  unfold Helpers.parseSimpleTextTranscript.
  destruct (fold_left Helpers.simpleStep _ _) as [done current].
  destruct (Helpers.pushConversation done current); discriminate.
Qed.

(** X12.  The simple text parser never returns an empty list and never
    returns an empty session.  When no line starts a turn (a user or bot
    prefix on a line without a session prefix), the result is a single
    session, named after the file, whose only message has the role
    [unknown] and holds the whole content.  Otherwise the sessions hold
    between them exactly one message per line that starts a turn, each a
    user or bot message: session lines and unprefixed lines add none. *)
Theorem simple_parser_keeps_every_turn_and_never_returns_nothing :
  forall content filename : jsstring,
    let sessions := Helpers.parseSimpleTextTranscript content filename in
    let turns := filter Lines.startsTurn (Lines.visible content) in
    sessions <> []
    /\ Forall (fun t => exists m ms, Transcript.messages t = Some (m :: ms)) sessions
    /\ (turns = [] -> sessions = [Loose.wholeFile content filename])
    /\ (turns <> [] ->
        list_sum (map (fun t => length (Analyzer.messagesOf t)) sessions) = length turns
        /\ Forall (fun t => Forall Loose.turnMessage (Analyzer.messagesOf t)) sessions).
Proof.
  intros content filename sessions turns. subst sessions turns.
  unfold Helpers.parseSimpleTextTranscript. fold (Lines.visible content).
  assert (H0 : Loose.invariant 0 ([], (filename, []))).
  { unfold Loose.invariant. simpl. repeat split; constructor. }
  apply (fold_simpleStep_invariant (Lines.visible content)) in H0.
  destruct (fold_left Helpers.simpleStep (Lines.visible content) ([], (filename, [])))
    as [done current].
  apply (pushConversation_invariant []) in H0.
  destruct H0 as (Hn & Hne & Hd & _). cbn [fst snd] in *.
  simpl in Hn. rewrite Nat.add_0_r in Hn.
  destruct (Helpers.pushConversation done current) as [|t ts].
  - simpl in Hn. split; [discriminate|].
    split; [constructor; [do 2 eexists; reflexivity | constructor]|].
    split; [reflexivity|]. intros Hne'. exfalso. apply Hne'.
    destruct (filter Lines.startsTurn (Lines.visible content)); [reflexivity | discriminate].
  - split; [discriminate|]. split; [exact Hne|].
    split; [|intros _; split; assumption].
    intros E. rewrite E in Hn. exfalso.
    inversion Hne as [|x l (m & ms & Hx) _]; subst.
    simpl in Hn. unfold Analyzer.messagesOf at 1 in Hn. rewrite Hx in Hn. simpl in Hn. lia.
Qed.

(* ================================================================= *)
(** ** Further properties: the normalizer *)

Lemma orDefault_truthy (a : option jsstring) (d : jsstring) :
  truthy d = true -> truthy (TranscriptParser.orDefault a d) = true.
Proof.
  intros H. unfold TranscriptParser.orDefault.
  destruct a as [x|]; [|exact H]. destruct (truthy x) eqn:E; assumption.
Qed.

Lemma normalizeMessage_normal (i : nat) (msg : Message.t) :
  Normal.normalMessage (TranscriptParser.normalizeMessage i msg).
Proof.
  unfold Normal.normalMessage, Spec.plainSpelling, TranscriptParser.normalizeMessage.
  cbn [Message.id Message.role Message.content Message.sender Message.text Message.message
       truthyStr].
  split; [apply orDefault_truthy; reflexivity|].
  split; [|split; [discriminate | repeat split]].
  destruct (normalizeRole_cases
              (TranscriptParser.orDefault (orElse (Message.role msg) (Message.sender msg))
                                          (js "unknown")))
    as [E|[E|E]]; rewrite E; auto.
Qed.

Lemma mapi_Forall {A B} (Q : B -> Prop) (f : nat -> A -> B) (l : list A) (i : nat) :
  (forall i x, Q (f i x)) -> Forall Q (TranscriptParser.mapi f i l).
Proof.
  intros H. revert i. induction l as [|x l IH]; intros i; simpl; constructor; auto.
Qed.

(** X13.  Normalizing a list of messages keeps their number and their
    results, and puts every message in normal form: an id that is not
    empty, one of the roles [user], [bot] and [unknown], a content, and
    only the [role] and [content] spellings.  Normalizing the result again
    changes nothing, whatever the spelling of the input. *)
Theorem normalized_messages_are_in_normal_form :
  forall messages : list Message.t,
    let out := TranscriptParser.normalizeMessages messages in
    length out = length messages
    /\ map Message.results out = map Message.results messages
    /\ Forall Normal.normalMessage out
    /\ TranscriptParser.normalizeMessages out = out.
Proof.
  intros messages out. subst out. unfold TranscriptParser.normalizeMessages.
  split; [apply mapi_length|].
  split; [apply mapi_map; apply Forall_forall; intros x _ i; reflexivity|].
  split; [apply mapi_Forall; intros i x; apply normalizeMessage_normal|].
  apply mapi_again. intros i x. apply normalizeMessage_again.
Qed.

Lemma turns_bounded (raw : list Message.t) :
  TranscriptParser.countUserTurns raw + TranscriptParser.countBotTurns raw <= length raw.
Proof.
  unfold TranscriptParser.countUserTurns, TranscriptParser.countBotTurns.
  induction raw as [|m l IH]; [simpl; lia|].
  cbn [filter].
  destruct (normalizeRole_cases (TranscriptParser.orDefault (Message.role m) []))
    as [E|[E|E]]; rewrite E;
    change (JsString.eqb (js "user") (js "user")) with true;
    change (JsString.eqb (js "user") (js "bot")) with false;
    change (JsString.eqb (js "bot") (js "user")) with false;
    change (JsString.eqb (js "bot") (js "bot")) with true;
    change (JsString.eqb (js "unknown") (js "user")) with false;
    change (JsString.eqb (js "unknown") (js "bot")) with false;
    simpl length; lia.
Qed.

Section NormalizerShape.
Context {host : Host}.

Lemma normalizeTranscript_normal (filename : jsstring) (n : nat) (t : Transcript.t) :
  Normal.normalSession (fst (TranscriptParser.normalizeTranscript filename n t)).
Proof.
  unfold TranscriptParser.normalizeTranscript.
  set (raw := match Transcript.messages t with Some l => l | None => [] end).
  destruct (truthyStr (Transcript.id t)); cbn [fst];
    (exists (TranscriptParser.normalizeMessages raw),
            (TranscriptParser.countUserTurns raw), (TranscriptParser.countBotTurns raw);
     cbn [Transcript.messages Transcript.sourceFile Transcript.metadata Metadata.messageCount
          Metadata.userTurns Metadata.botTurns Metadata.hasEscalation Metadata.hasOrder];
     unfold TranscriptParser.normalizeMessages; rewrite mapi_length;
     repeat split; try discriminate;
     [apply mapi_Forall; intros i x; apply normalizeMessage_normal | apply turns_bounded]).
Qed.

Lemma normalizeEach_facts (filename : jsstring) (ts : list Transcript.t) (n : nat) :
  length (fst (TranscriptParser.normalizeEach filename n ts)) = length ts
  /\ Forall Normal.normalSession (fst (TranscriptParser.normalizeEach filename n ts)).
Proof.
  revert n. induction ts as [|t ts IH]; intros n; [split; [reflexivity | constructor]|].
  cbn [TranscriptParser.normalizeEach].
  pose proof (normalizeTranscript_normal filename n t) as Ht.
  destruct (TranscriptParser.normalizeTranscript filename n t) as [t' n1].
  destruct (IH n1) as [L F].
  destruct (TranscriptParser.normalizeEach filename n1 ts) as [ts' n2].
  cbn [fst] in *. split; [simpl; rewrite L; reflexivity | constructor; assumption].
Qed.

Lemma normalizeFrom_facts (results : list TranscriptParser.ParseResult.t) (n : nat) :
  length (TranscriptParser.normalizeFrom n results)
  = list_sum (map (fun r => length (TranscriptParser.ParseResult.transcripts r))
                  (Normal.parsedFine results))
  /\ Forall Normal.normalSession (TranscriptParser.normalizeFrom n results)
  /\ TranscriptParser.normalizeFrom n results
     = TranscriptParser.normalizeFrom n (Normal.parsedFine results).
Proof.
  revert n. induction results as [|r rs IH]; intros n;
    [split; [reflexivity | split; [constructor | reflexivity]]|].
  cbn [TranscriptParser.normalizeFrom Normal.parsedFine filter].
  destruct (TranscriptParser.ParseResult.error r) as [e|] eqn:Ee.
  - apply IH.
  - cbn [TranscriptParser.normalizeFrom map list_sum]. rewrite Ee.
    destruct (normalizeEach_facts (TranscriptParser.ParseResult.filename r)
                                  (TranscriptParser.ParseResult.transcripts r) n) as [L F].
    destruct (TranscriptParser.normalizeEach _ n _) as [ts n'].
    cbn [fst] in *. destruct (IH n') as (L' & F' & E').
    rewrite length_app, L, L'. split; [reflexivity|].
    split; [apply Forall_app; split; assumption|].
    f_equal. exact E'.
Qed.

(** Every session returned is the normal form of a parsed session, under
    the name of its file. *)
Lemma normalizeTranscript_normalOf (filename : jsstring) (n : nat) (t : Transcript.t) :
  Normal.normalOf (filename, t) (fst (TranscriptParser.normalizeTranscript filename n t)).
Proof.
  unfold Normal.normalOf, TranscriptParser.normalizeTranscript, Analyzer.messagesOf.
  destruct (truthyStr (Transcript.id t)) eqn:E; cbn [fst Transcript.sourceFile Transcript.id
    Transcript.messages Transcript.metadata Metadata.messageCount Metadata.timestamp
    Metadata.language Metadata.dateRange Metadata.format];
    repeat split; try reflexivity; intros C; discriminate.
Qed.

Lemma normalizeEach_normalOf (filename : jsstring) (ts : list Transcript.t) (n : nat) :
  Forall2 Normal.normalOf (map (fun t => (filename, t)) ts)
          (fst (TranscriptParser.normalizeEach filename n ts)).
Proof.
  revert n. induction ts as [|t ts IH]; intros n; [constructor|].
  cbn [TranscriptParser.normalizeEach map].
  pose proof (normalizeTranscript_normalOf filename n t) as Ht.
  destruct (TranscriptParser.normalizeTranscript filename n t) as [t' n1].
  specialize (IH n1).
  destruct (TranscriptParser.normalizeEach filename n1 ts) as [ts' n2].
  cbn [fst] in *. constructor; assumption.
Qed.

Lemma normalizeFrom_normalOf (results : list TranscriptParser.ParseResult.t) (n : nat) :
  Forall2 Normal.normalOf (Normal.parsedSessions results)
          (TranscriptParser.normalizeFrom n results).
Proof.
  unfold Normal.parsedSessions.
  revert n. induction results as [|r rs IH]; intros n; [constructor|].
  cbn [TranscriptParser.normalizeFrom Normal.parsedFine filter].
  destruct (TranscriptParser.ParseResult.error r) as [e|] eqn:Ee; [apply IH|].
  cbn [flat_map].
  pose proof (normalizeEach_normalOf (TranscriptParser.ParseResult.filename r)
                (TranscriptParser.ParseResult.transcripts r) n) as F.
  destruct (TranscriptParser.normalizeEach _ n _) as [ts n'].
  cbn [fst] in F. apply Forall2_app; [exact F | apply IH].
Qed.

(** X14.  What normalizing gives, whatever the parsed results hold.  The
    files that failed to parse contribute nothing, as if they had not been
    uploaded; the sessions of the other files are normalized one by one, in
    the order of the files and of their sessions.  The session returned for
    a parsed session has the name of the file as its source file, the id of
    the parsed session when that has one, the normalized messages of the
    parsed session, and the date, language, date range and format of its
    metadata.  Every session returned holds messages in normal form and
    carries a message count equal to the number of its messages, an
    escalation flag, an order flag, and user and bot turn counts whose sum
    does not exceed the message count. *)
Theorem normalizer_skips_failed_files_and_fills_metadata :
  forall results : list TranscriptParser.ParseResult.t,
    let sessions := TranscriptParser.normalizeTranscripts results in
    Forall2 Normal.normalOf (Normal.parsedSessions results) sessions
    /\ length sessions
       = list_sum (map (fun r => length (TranscriptParser.ParseResult.transcripts r))
                       (Normal.parsedFine results))
    /\ sessions = TranscriptParser.normalizeTranscripts (Normal.parsedFine results)
    /\ Forall Normal.normalSession sessions.
Proof.
  intros results sessions. subst sessions. unfold TranscriptParser.normalizeTranscripts.
  destruct (normalizeFrom_facts results 0) as (L & F & E).
  split; [apply normalizeFrom_normalOf|].
  split; [exact L|]. split; [exact E | exact F].
Qed.

(** X15.  Parsing a timestamped log and normalizing compose into a stable
    result: for the sessions that the timestamped parser returns, when they
    have an id that is not empty (the file name or the session id inside
    it), normalizing the normalized sessions again gives the same
    sessions, metadata included. *)
Theorem normalizing_parsed_logs_is_stable :
  forall (content filename : jsstring) (sessions : list Transcript.t),
    Helpers.parseTimestampedTranscript content filename = Returns sessions ->
    Forall (fun t => truthyStr (Transcript.id t) = true) sessions ->
    let r := TranscriptParser.ParseResult.mk filename sessions None in
    Spec.renormalize r = TranscriptParser.normalizeTranscripts [r].
Proof.
  intros content filename sessions H Hid r. subst r.
  apply renormalize_plain; [reflexivity|].
  cbn [TranscriptParser.ParseResult.transcripts].
  destruct (parse_returns _ _ H) as (t & -> & Em).
  inversion Hid as [|x l Hx _]; subst.
  constructor; [|constructor]. split; [exact Hx|].
  unfold Analyzer.messagesOf. rewrite Em.
  destruct (fold_emitted (split Helpers.newline content) Helpers.start) as [_ F].
  eapply Forall_impl; [|apply F; constructor].
  intros msg (_ & _ & _ & _ & P). exact P.
Qed.

End NormalizerShape.

Lemma startsWith_app (p s b : jsstring) :
  startsWith p s = true -> startsWith p (s ++ b) = true.
Proof.
  revert s. induction p as [|x p IH]; intros s H; [reflexivity|].
  destruct s as [|y s]; [discriminate|].
  simpl in *. apply andb_true_iff in H. destruct H as [-> H]. apply IH. exact H.
Qed.

Lemma includes_app_l (s b p : jsstring) :
  includes s p = true -> includes (s ++ b) p = true.
Proof.
  induction s as [|c s IH]; intros H.
  - simpl in H. rewrite orb_false_r in H. destruct p; [|discriminate].
    destruct b; reflexivity.
  - cbn [includes app] in *. apply orb_true_iff in H. apply orb_true_iff.
    destruct H as [H|H]; [left; apply (startsWith_app _ (c :: s) b H) | right; apply IH; exact H].
Qed.

Lemma includes_app_r (a s p : jsstring) :
  includes s p = true -> includes (a ++ s) p = true.
Proof.
  intros H. induction a as [|c a IH]; [exact H|].
  cbn [includes app]. rewrite IH. apply orb_true_r.
Qed.

Lemma join_member (sep x : jsstring) (l : list jsstring) :
  In x l -> exists a b, join sep l = a ++ x ++ b.
Proof.
  induction l as [|y l IH]; intros H; [destruct H|].
  destruct H as [->|H].
  - destruct l as [|z l].
    + exists [], []. simpl. rewrite app_nil_r. reflexivity.
    + exists [], (sep ++ join sep (z :: l)). reflexivity.
  - destruct (IH H) as (a & b & E). destruct l as [|z l]; [destruct H|].
    exists (y ++ sep ++ a), b.
    change (join sep (y :: z :: l)) with (y ++ sep ++ join sep (z :: l)).
    rewrite E, <- !app_assoc. reflexivity.
Qed.

Lemma loweredContent_includes (msgs : list Message.t) (msg : Message.t) (phrase : jsstring) :
  In msg msgs ->
  includes (toLowerCase (TranscriptParser.orDefault (Message.content msg) [])) phrase = true ->
  includes (TranscriptParser.loweredContent msgs) phrase = true.
Proof.
  intros Hin H. unfold TranscriptParser.loweredContent.
  destruct (@join_member (js " ")
              (toLowerCase (TranscriptParser.orDefault (Message.content msg) []))
              (map (fun m => toLowerCase (TranscriptParser.orDefault (Message.content m) []))
                   msgs)) as (a & b & E).
  { apply in_map_iff. exists msg. split; [reflexivity | exact Hin]. }
  rewrite E. apply includes_app_r. apply includes_app_l. exact H.
Qed.

(** X16.  Escalation and order detection look at the lower-cased contents
    of all the messages of a session, whatever their role: as soon as the
    content of one message contains one of the phrases, in any letter case,
    the flag is raised; and with no message the flags are not raised. *)
Theorem one_message_with_a_phrase_raises_the_flag :
  (forall (msgs : list Message.t) (msg : Message.t) (phrase : jsstring),
      In msg msgs ->
      includes (toLowerCase (TranscriptParser.orDefault (Message.content msg) [])) phrase
      = true ->
      (In phrase TranscriptParser.escalationPhrases ->
       TranscriptParser.detectEscalation msgs = true)
      /\ (In phrase TranscriptParser.orderPhrases ->
          TranscriptParser.detectOrder msgs = true))
  /\ TranscriptParser.detectEscalation [] = false
  /\ TranscriptParser.detectOrder [] = false.
Proof.
  split; [|split; reflexivity].
  intros msgs msg phrase Hin H.
  pose proof (loweredContent_includes msgs msg phrase Hin H) as Hc.
  split; intros Hp.
  - unfold TranscriptParser.detectEscalation. cbv zeta. apply existsb_exists.
    exists phrase. split; assumption.
  - unfold TranscriptParser.detectOrder. cbv zeta. apply existsb_exists.
    exists phrase. split; assumption.
Qed.

Section UploadFacts.
Context {host : Host}.

Lemma parseFile_facts (f : TranscriptParser.file) (r : TranscriptParser.ParseResult.t) :
  TranscriptParser.parseFile f = Some r ->
  TranscriptParser.ParseResult.filename r = fst f
  /\ (TranscriptParser.ParseResult.error r <> None ->
      TranscriptParser.ParseResult.transcripts r = [])
  /\ (TranscriptParser.ParseResult.error r = None ->
      TranscriptParser.ParseResult.transcripts r <> [])
  /\ endsWith (fst f) (js ".zip") = false
  /\ Json.parse (snd f) = None.
Proof.
  destruct f as [name content]. unfold TranscriptParser.parseFile.
  cbn [fst snd].
  destruct (endsWith name (js ".zip")); [discriminate|].
  unfold Helpers.parseTranscriptContent.
  destruct (Json.parse content); [discriminate|].
  unfold Helpers.parseTextTranscript.
  destruct (Regex.test true Helpers.timestampPattern content).
  - destruct (Helpers.parseTimestampedTranscript content name) as [parsed|e] eqn:E;
      intros H; injection H as <-; cbn [TranscriptParser.ParseResult.filename
        TranscriptParser.ParseResult.error TranscriptParser.ParseResult.transcripts fst].
    + split; [reflexivity|]. split; [intros C; contradiction|].
      split; [|split; reflexivity]. intros _.
      destruct (parse_returns _ _ E) as (t & -> & _). discriminate.
    + split; [reflexivity|]. split; [reflexivity|].
      split; [discriminate | split; reflexivity].
  - intros H; injection H as <-; cbn [TranscriptParser.ParseResult.filename
      TranscriptParser.ParseResult.error TranscriptParser.ParseResult.transcripts fst].
    split; [reflexivity|]. split; [intros C; contradiction|].
    split; [|split; reflexivity]. intros _.
    apply simple_parser_nonempty.
Qed.

(** X17.  Files that are read as text are parsed one by one and a failure
    stays with its file.  The model covers the uploads in which no file
    name ends with [.zip] (an archive is unpacked into several results) and
    no content is a JSON document: for these, and only for these, it gives
    the results.  They are one per file, in the order of the files and
    under their names; a result with an error has no session, and a result
    without an error has at least one. *)
Theorem each_file_gets_its_own_result :
  forall files : list TranscriptParser.file,
    (Forall (fun f => endsWith (fst f) (js ".zip") = false /\ Json.parse (snd f) = None) files
     <-> exists results, TranscriptParser.parseUploadedFiles files = Some results)
    /\ forall results : list TranscriptParser.ParseResult.t,
         TranscriptParser.parseUploadedFiles files = Some results ->
         map TranscriptParser.ParseResult.filename results = map fst files
         /\ Forall (fun r => (TranscriptParser.ParseResult.error r <> None ->
                              TranscriptParser.ParseResult.transcripts r = [])
                             /\ (TranscriptParser.ParseResult.error r = None ->
                                 TranscriptParser.ParseResult.transcripts r <> []))
                   results.
Proof.
  induction files as [|f files [[IHa IHb] IH]].
  - split; [split; [intros _; exists []; reflexivity | constructor]|].
    intros results H. injection H as <-. split; [reflexivity | constructor].
  - split; [split|].
    + intros H. inversion H as [|f' l [Hz Hj] Hl]; subst.
      destruct (IHa Hl) as (rs & Ers).
      cbn [TranscriptParser.parseUploadedFiles]. rewrite Ers.
      destruct f as [name content]. cbn [fst snd] in Hz, Hj.
      unfold TranscriptParser.parseFile, Helpers.parseTranscriptContent.
      rewrite Hz, Hj.
      destruct (Helpers.parseTextTranscript content name); eexists; reflexivity.
    + intros (results & H). cbn [TranscriptParser.parseUploadedFiles] in H.
      destruct (TranscriptParser.parseFile f) as [r|] eqn:Er; [|discriminate].
      destruct (TranscriptParser.parseUploadedFiles files) as [rs|]; [|discriminate].
      destruct (parseFile_facts f Er) as (_ & _ & _ & Hz & Hj).
      constructor; [split; assumption|]. apply IHb. exists rs. reflexivity.
    + intros results H. cbn [TranscriptParser.parseUploadedFiles] in H.
      destruct (TranscriptParser.parseFile f) as [r|] eqn:Er; [|discriminate].
      destruct (TranscriptParser.parseUploadedFiles files) as [rs|]; [|discriminate].
      injection H as <-. destruct (IH rs eq_refl) as [E F].
      destruct (parseFile_facts f Er) as (N & H1 & H2 & _).
      split; [simpl; rewrite N, E; reflexivity|].
      constructor; [split; assumption | exact F].
Qed.

End UploadFacts.

(* ================================================================= *)
(** ** Further properties: the utilities *)

(** X18.  [truncateText] leaves a text of at most [maxLength] characters
    as it is; a longer text becomes its first [maxLength] characters
    followed by three dots.  The result therefore agrees with the text on
    the first [maxLength] characters, has at most [maxLength + 3]
    characters, and is at most two characters longer than the text. *)
Theorem truncateText_bounds :
  forall (text : jsstring) (maxLength : nat),
    let out := Utilities.truncateText text maxLength in
    length out = (if Nat.leb (length text) maxLength then length text else maxLength + 3)
    /\ firstn maxLength out = firstn maxLength text
    /\ length out <= maxLength + 3
    /\ length out <= length text + 2.
Proof.
  intros text n out. subst out. unfold Utilities.truncateText, slice0.
  destruct (Nat.leb (length text) n) eqn:E.
  - rewrite orb_true_r. apply Nat.leb_le in E. repeat split; lia.
  - apply Nat.leb_gt in E. destruct text as [|c text]; [simpl in E; lia|].
    cbn [truthy negb orb]. rewrite length_app, length_firstn.
    assert (Hlen : length (js "...") = 3) by reflexivity. rewrite Hlen.
    split; [lia|]. split; [|lia].
    rewrite firstn_app, length_firstn.
    replace (n - Nat.min n (length (c :: text))) with 0 by lia.
    rewrite firstn_firstn, Nat.min_id. simpl firstn at 2. apply app_nil_r.
Qed.

(** X19.  [estimateTokens] is the number of characters divided by four,
    rounded up: the least whole number of four-character tokens that cover
    the text, 0 for the empty text. *)
Theorem estimateTokens_is_a_ceiling :
  forall text : jsstring,
    let tokens := Utilities.estimateTokens text in
    length text <= 4 * tokens /\ 4 * tokens < length text + 4.
Proof.
  intros text tokens. subst tokens. unfold Utilities.estimateTokens, Utilities.ceilQuotient.
  destruct text as [|c text]; [simpl; lia|].
  cbn [truthy negb].
  pose proof (Nat.div_mod_eq (length (c :: text)) 4) as D.
  pose proof (Nat.mod_upper_bound (length (c :: text)) 4 ltac:(lia)) as M.
  destruct (Nat.eqb (length (c :: text) mod 4) 0) eqn:E.
  - apply Nat.eqb_eq in E. lia.
  - apply Nat.eqb_neq in E. lia.
Qed.

(** The enumeration of a table lists its array-index keys first, in
    ascending order, and then its other keys in the order of creation. *)
Lemma StronglySorted_among {A} (P : A -> Prop) (R S : A -> A -> Prop) (l : list A) :
  (forall a b, P a -> P b -> R a b -> S a b) ->
  Forall P l -> StronglySorted R l -> StronglySorted S l.
Proof.
  intros HRS HP HR. induction HR as [|x l Hl IH Hx]; [constructor|].
  inversion HP as [|x' l' Px Pl]; subst.
  constructor; [apply IH; exact Pl|].
  rewrite Forall_forall in *. intros y Hy. apply HRS; auto.
Qed.

Lemma keys_enumerates {V} (o : JsObject.obj V) :
  enumerates (map fst o) (JsObject.keys o).
Proof.
  exists (map (fun e => fst (snd e)) (JsObject.indexed o)).
  split; [|split].
  - unfold JsObject.keys, JsObject.entries, JsObject.named.
    rewrite map_app, map_map. f_equal.
    induction o as [|[k v] o IH]; [reflexivity|].
    cbn [filter map fst]. unfold isIndex at 1.
    destruct (JsObject.arrayIndex k); cbn [negb]; [exact IH|].
    cbn [map fst]. rewrite IH. reflexivity.
  - rewrite (Permutation_map (fun e => fst (snd e)) (indexed_perm o)).
    induction o as [|[k v] o IH]; [reflexivity|].
    cbn [flat_map map filter fst]. unfold isIndex at 1.
    destruct (JsObject.arrayIndex k); cbn [app map fst snd]; [constructor|]; exact IH.
  - apply StronglySorted_map.
    apply (@StronglySorted_among _
             (fun e => JsObject.arrayIndex (fst (snd e)) = Some (fst e))
             (fun a b => (fst a <= fst b)%N)); [| |apply indexed_sorted].
    + intros a b Ha Hb Hab x y Hx Hy. rewrite Ha in Hx. rewrite Hb in Hy.
      injection Hx as <-. injection Hy as <-. exact Hab.
    + apply Forall_forall. intros e He.
      apply (Permutation_in _ (indexed_perm o)) in He.
      apply in_flat_map in He. destruct He as (kv & _ & He).
      destruct (JsObject.arrayIndex (fst kv)) eqn:E; [|destruct He].
      destruct He as [<-|[]]. exact E.
Qed.

(** X20.  [countOccurrences] on strings that are ordinary table keys: the
    table has one entry per distinct string, holding the number of
    occurrences of the string.  Its enumeration lists the strings that are
    array indices first, in ascending numeric order, and then the other
    strings in first-seen order.  Looking up a string that does not occur
    finds nothing, and the counts add up to the length of the array. *)
Theorem countOccurrences_tallies :
  forall arr : list jsstring,
    forallb ordinaryKey arr = true ->
    let table := Utilities.countOccurrences arr in
    enumerates (Analyzer.setOf arr) (JsObject.keys table)
    /\ (forall k, JsObject.get table k
                  = if existsb (JsString.eqb k) arr then Some (tallied arr k) else None)
    /\ Forall (fun e => snd e = tallied arr (fst e) /\ 1 <= snd e) (JsObject.entries table)
    /\ list_sum (JsObject.values table) = length arr.
Proof.
  intros arr _ table.
  assert (Et : table = map (fun k => (k, tallied arr k)) (Analyzer.setOf arr)).
  { subst table. unfold Utilities.countOccurrences. apply fold_bump_keyed. }
  split.
  { replace (Analyzer.setOf arr) with (map fst table); [apply keys_enumerates|].
    rewrite Et, map_map. simpl. apply map_id. }
  split.
  { intros k. rewrite Et, get_keyed.
    destruct (existsb (JsString.eqb k) (Analyzer.setOf arr)) eqn:E.
    - apply (proj1 (existsb_eqb_In _ _)) in E. apply (proj1 (setOf_In _ _)) in E.
      apply (proj2 (existsb_eqb_In _ _)) in E.
      rewrite E. reflexivity.
    - apply existsb_eqb_notIn in E.
      destruct (existsb (JsString.eqb k) arr) eqn:E'; [|reflexivity].
      apply existsb_eqb_In in E'. exfalso. apply E. apply setOf_In. exact E'. }
  split.
  { apply Forall_forall. intros e He. apply (Permutation_in _ (entries_perm _)) in He.
    rewrite Et in He. apply in_map_iff in He. destruct He as (k & <- & Hk). cbn [fst snd].
    split; [reflexivity|]. apply tallied_present. apply setOf_In. exact Hk. }
  unfold JsObject.values.
  rewrite (list_sum_perm (Permutation_map snd (entries_perm table))).
  rewrite Et, map_map. cbn [snd]. apply tallied_total; [apply setOf_NoDup|].
  intros k Hk. apply setOf_In. exact Hk.
Qed.

Section GroupByFacts.
Variable A : Type.
Variable keyOf : A -> jsstring.

Lemma groupOf_snoc (array : list A) (item : A) (k : jsstring) :
  groupOf keyOf (array ++ [item]) k
  = groupOf keyOf array k ++ (if JsString.eqb (keyOf item) k then [item] else []).
Proof. unfold groupOf. rewrite filter_app. reflexivity. Qed.

Lemma groupOf_absent (array : list A) (k : jsstring) :
  ~ In k (map keyOf array) -> groupOf keyOf array k = [].
Proof.
  intros H. unfold groupOf. induction array as [|x l IH]; [reflexivity|].
  simpl. destruct (JsString.eqb (keyOf x) k) eqn:E.
  - apply eqb_eq in E. exfalso. apply H. left. exact E.
  - apply IH. intros Hin. apply H. right. exact Hin.
Qed.

Lemma groupBy_keyed (array : list A) :
  Utilities.groupBy keyOf array
  = map (fun k => (k, groupOf keyOf array k)) (Analyzer.setOf (map keyOf array)).
Proof.
  unfold Utilities.groupBy.
  induction array as [|item array IH] using rev_ind; [reflexivity|].
  rewrite fold_left_app. cbn [fold_left]. rewrite IH. clear IH.
  unfold Utilities.addToGroup. cbv zeta.
  rewrite get_keyed, map_app. cbn [map]. rewrite setOf_snoc. unfold Analyzer.setAdd.
  set (K := Analyzer.setOf (map keyOf array)).
  destruct (existsb (JsString.eqb (keyOf item)) K) eqn:E.
  - pose proof E as Hin. apply existsb_eqb_In in Hin.
    rewrite set_keyed_present; [|apply setOf_NoDup | exact Hin].
    apply map_ext. intros k. rewrite groupOf_snoc, (eqb_sym k (keyOf item)).
    destruct (JsString.eqb (keyOf item) k) eqn:E'.
    + apply eqb_eq in E'. subst k. reflexivity.
    + rewrite app_nil_r. reflexivity.
  - pose proof E as Hnin. apply existsb_eqb_notIn in Hnin.
    rewrite set_keyed_absent; [|exact Hnin].
    rewrite map_app. f_equal.
    + apply map_ext_in. intros k Hk. rewrite groupOf_snoc.
      destruct (JsString.eqb (keyOf item) k) eqn:E'; [|rewrite app_nil_r; reflexivity].
      apply eqb_eq in E'. subst k. contradiction.
    + simpl. rewrite groupOf_snoc, eqb_refl, groupOf_absent; [reflexivity|].
      intros Hin. apply Hnin. apply setOf_In. exact Hin.
Qed.

End GroupByFacts.

(** X21.  [groupBy] on items whose keys are ordinary table keys: the result
    has one group per distinct key; the group of a key holds the items with
    that key, all of them and in the order of the array, so no group is
    empty and the sizes of the groups add up to the length of the array.
    The enumeration of the result lists the keys that are array indices
    first, in ascending numeric order, and then the other keys in
    first-seen order. *)
Theorem groupBy_partitions_in_order :
  forall (A : Type) (keyOf : A -> jsstring) (array : list A),
    forallb (fun item => ordinaryKey (keyOf item)) array = true ->
    let groups := Utilities.groupBy keyOf array in
    enumerates (Analyzer.setOf (map keyOf array)) (JsObject.keys groups)
    /\ (forall k, JsObject.get groups k
                  = if existsb (JsString.eqb k) (map keyOf array)
                    then Some (filter (fun item => JsString.eqb (keyOf item) k) array)
                    else None)
    /\ Forall (fun g => snd g = filter (fun item => JsString.eqb (keyOf item) (fst g)) array
                        /\ snd g <> [])
              (JsObject.entries groups)
    /\ list_sum (map (fun g => length g) (JsObject.values groups)) = length array.
Proof.
  intros A keyOf array _ groups.
  assert (Eg : groups = map (fun k => (k, groupOf keyOf array k))
                            (Analyzer.setOf (map keyOf array))).
  { subst groups. apply groupBy_keyed. }
  split.
  { replace (Analyzer.setOf (map keyOf array)) with (map fst groups);
      [apply keys_enumerates|].
    rewrite Eg, map_map. simpl. apply map_id. }
  split.
  { intros k. rewrite Eg, get_keyed.
    destruct (existsb (JsString.eqb k) (Analyzer.setOf (map keyOf array))) eqn:E.
    - apply (proj1 (existsb_eqb_In _ _)) in E. apply (proj1 (setOf_In _ _)) in E.
      apply (proj2 (existsb_eqb_In _ _)) in E.
      rewrite E. reflexivity.
    - apply existsb_eqb_notIn in E.
      destruct (existsb (JsString.eqb k) (map keyOf array)) eqn:E'; [|reflexivity].
      apply existsb_eqb_In in E'. exfalso. apply E. apply setOf_In. exact E'. }
  split.
  { apply Forall_forall. intros g Hg. apply (Permutation_in _ (entries_perm _)) in Hg.
    rewrite Eg in Hg. apply in_map_iff in Hg. destruct Hg as (k & <- & Hk). cbn [fst snd].
    split; [reflexivity|].
    apply (proj1 (setOf_In _ _)) in Hk. apply in_map_iff in Hk.
    destruct Hk as (item & <- & Hin). intros Hnil.
    assert (Hmem : In item (groupOf keyOf array (keyOf item))).
    { apply filter_In. split; [exact Hin | apply eqb_refl]. }
    rewrite Hnil in Hmem. destruct Hmem. }
  unfold JsObject.values. rewrite map_map.
  rewrite (list_sum_perm (Permutation_map (fun g => length (snd g)) (entries_perm groups))).
  rewrite Eg, map_map. cbn [snd].
  rewrite (map_ext _ (tallied (map keyOf array))).
  - rewrite tallied_total; [apply length_map | apply setOf_NoDup|].
    intros k Hk. apply setOf_In. exact Hk.
  - intros k. unfold groupOf, tallied. clear.
    induction array as [|x l IH]; [reflexivity|].
    simpl. rewrite (eqb_sym k (keyOf x)).
    destruct (JsString.eqb (keyOf x) k); simpl; rewrite IH; reflexivity.
Qed.

Section RetryFacts.
Variables A E : Type.
Variable fn : nat -> A + E.
Variable maxRetries : nat.
Variable baseDelay : N.

Lemma retryFrom_calls (remaining i : nat) :
  i + remaining = maxRetries ->
  Utilities.calls (Utilities.retryFrom fn maxRetries baseDelay remaining i) <= remaining
  /\ length (Utilities.sleeps (Utilities.retryFrom fn maxRetries baseDelay remaining i))
     = Utilities.calls (Utilities.retryFrom fn maxRetries baseDelay remaining i) - 1.
Proof.
  revert i. induction remaining as [|r IH]; intros i Hsum; [simpl; lia|].
  cbn [Utilities.retryFrom]. destruct (fn i) as [a|e]; [simpl; lia|].
  destruct (Nat.eqb i (maxRetries - 1)) eqn:Elast; [simpl; lia|].
  apply Nat.eqb_neq in Elast.
  destruct (IH (S i) ltac:(lia)) as [H1 H2]. cbn [Utilities.calls Utilities.sleeps length].
  split; [lia|]. rewrite H2.
  destruct r as [|r]; [lia|].
  cbn [Utilities.retryFrom]. destruct (fn (S i)); [reflexivity|].
  destruct (Nat.eqb (S i) (maxRetries - 1)); [reflexivity|].
  cbn [Utilities.calls]. lia.
Qed.

Lemma retryFrom_success (k remaining i : nat) (a : A) :
  k < remaining -> i + remaining = maxRetries ->
  (forall j, j < k -> exists e, fn (i + j) = inr e) ->
  fn (i + k) = inl a ->
  Utilities.retryFrom fn maxRetries baseDelay remaining i
  = Utilities.Run (Utilities.Returned E (Some a)) (S k) (Utilities.backoff baseDelay i k).
Proof.
  revert remaining i. induction k as [|k IH]; intros remaining i Hk Hsum Hfail Hok.
  - destruct remaining as [|r]; [lia|]. cbn [Utilities.retryFrom].
    rewrite Nat.add_0_r in Hok. rewrite Hok. reflexivity.
  - destruct remaining as [|r]; [lia|]. cbn [Utilities.retryFrom].
    destruct (Hfail 0 ltac:(lia)) as (e & He). rewrite Nat.add_0_r in He. rewrite He.
    assert (Hlast : Nat.eqb i (maxRetries - 1) = false) by (apply Nat.eqb_neq; lia).
    rewrite Hlast, (IH r (S i)).
    + reflexivity.
    + lia.
    + lia.
    + intros j Hj. destruct (Hfail (S j) ltac:(lia)) as (e' & He').
      exists e'. rewrite <- He'. f_equal. lia.
    + rewrite <- Hok. f_equal. lia.
Qed.

Lemma retryFrom_failure (remaining i : nat) (e : E) :
  0 < remaining -> i + remaining = maxRetries ->
  (forall j, j < remaining - 1 -> exists e', fn (i + j) = inr e') ->
  fn (maxRetries - 1) = inr e ->
  Utilities.retryFrom fn maxRetries baseDelay remaining i
  = Utilities.Run (Utilities.Thrown A e) remaining (Utilities.backoff baseDelay i (remaining - 1)).
Proof.
  revert i. induction remaining as [|r IH]; intros i Hpos Hsum Hfail Hlast; [lia|].
  cbn [Utilities.retryFrom]. destruct r as [|r].
  - replace (maxRetries - 1) with i in * by lia. rewrite Hlast, Nat.eqb_refl. reflexivity.
  - destruct (Hfail 0 ltac:(lia)) as (e' & He'). rewrite Nat.add_0_r in He'. rewrite He'.
    assert (Hne : Nat.eqb i (maxRetries - 1) = false) by (apply Nat.eqb_neq; lia).
    rewrite Hne, (IH (S i)).
    + cbn [Utilities.outcome Utilities.calls Utilities.sleeps].
      replace (S (S r) - 1) with (S (S r - 1)) by lia. reflexivity.
    + lia.
    + lia.
    + intros j Hj. destruct (Hfail (S j) ltac:(lia)) as (e'' & He'').
      exists e''. rewrite <- He''. f_equal. lia.
    + exact Hlast.
Qed.

End RetryFacts.

(** X22.  [retry] calls the function at most [maxRetries] times and sleeps
    between consecutive calls only.  When the call number [k] (counting from
    0, with [k] below [maxRetries]) is the first that succeeds, [retry]
    returns its value after [k + 1] calls and [k] sleeps of
    [baseDelay * 2^j] for [j] from 0 to [k - 1].  When the first
    [maxRetries] calls all fail, [retry] throws the error of the last call
    after [maxRetries - 1] sleeps.  With [maxRetries] at 0 the function is
    never called and the result is undefined. *)
Theorem retry_backs_off_and_stops :
  forall (A E : Type) (fn : nat -> A + E) (maxRetries : nat) (baseDelay : N),
    let run := Utilities.retry fn maxRetries baseDelay in
    Utilities.calls run <= maxRetries
    /\ length (Utilities.sleeps run) = Utilities.calls run - 1
    /\ (forall k a,
           k < maxRetries ->
           (forall j, j < k -> exists e, fn j = inr e) ->
           fn k = inl a ->
           run = Utilities.Run (Utilities.Returned E (Some a)) (S k)
                   (Utilities.backoff baseDelay 0 k))
    /\ (forall e,
           0 < maxRetries ->
           (forall j, j < maxRetries - 1 -> exists e', fn j = inr e') ->
           fn (maxRetries - 1) = inr e ->
           run = Utilities.Run (Utilities.Thrown A e) maxRetries
                   (Utilities.backoff baseDelay 0 (maxRetries - 1)))
    /\ (maxRetries = 0 -> run = Utilities.Run (Utilities.Returned E None) 0 []).
Proof.
  intros A E fn maxRetries baseDelay run. subst run. unfold Utilities.retry.
  destruct (@retryFrom_calls A E fn maxRetries baseDelay maxRetries 0 eq_refl) as [H1 H2].
  split; [exact H1|]. split; [exact H2|]. split; [|split].
  - intros k a Hk Hfail Hok.
    apply (@retryFrom_success A E fn maxRetries baseDelay k maxRetries 0 a);
      [exact Hk | reflexivity | exact Hfail | exact Hok].
  - intros e Hpos Hfail Hlast.
    apply (@retryFrom_failure A E fn maxRetries baseDelay maxRetries 0 e);
      [exact Hpos | reflexivity | exact Hfail | exact Hlast].
  - intros ->. reflexivity.
Qed.

(* ================================================================= *)
(** ** Further properties: the recommendation lists *)

Lemma category_names_plain (k : jsstring) :
  In k (map fst Recommendations.categories) -> JsObject.plainKey k = true.
Proof. intros [<-|[<-|[<-|[<-|[]]]]]; reflexivity. Qed.

Lemma place_buckets (recs : list Recommendations.t) (rec : Recommendations.t) :
  Recommendations.place (Returns (Recommendations.bucketsOf recs)) rec
  = if JsObject.plainKey (Recommendations.categoryOf rec)
    then Returns (Recommendations.bucketsOf (recs ++ [rec]))
    else Throws TypeError.
Proof.
  unfold Recommendations.place, bind, Recommendations.bucketsOf. rewrite get_keyed.
  set (c := Recommendations.categoryOf rec).
  set (K := map fst Recommendations.categories).
  destruct (existsb (JsString.eqb c) K) eqn:E.
  - pose proof E as Hin. apply (proj1 (existsb_eqb_In _ _)) in Hin.
    rewrite (category_names_plain Hin).
    rewrite set_keyed_present; [|repeat constructor; simpl; intuition discriminate | exact Hin].
    f_equal. apply map_ext. intros k.
    unfold groupOf. rewrite filter_app. cbn [filter]. fold c.
    rewrite (eqb_sym k c). destruct (JsString.eqb c k) eqn:E'.
    + apply eqb_eq in E'. subst k. reflexivity.
    + rewrite app_nil_r. reflexivity.
  - destruct (JsObject.plainKey c); [|reflexivity]. f_equal.
    apply map_ext_in. intros k Hk. unfold groupOf. rewrite filter_app. cbn [filter]. fold c.
    destruct (JsString.eqb c k) eqn:E'; [|rewrite app_nil_r; reflexivity].
    apply eqb_eq in E'. subst k. apply (proj2 (existsb_eqb_In _ _)) in Hk. congruence.
Qed.

Lemma place_thrown (recs : list Recommendations.t) (e : exn) :
  fold_left Recommendations.place recs (Throws e) = Throws e.
Proof. induction recs as [|r recs IH]; [reflexivity | exact IH]. Qed.

(** X23.  [getRecommendationsByCategory], on recommendations whose
    categories are made of Basic Latin and Latin-1 characters, files every
    recommendation under its lower-cased category when that is one of
    [prompt], [training], [knowledge] and [flow], and drops the others (a
    missing or empty category counts as [other]): the result has these
    four lists, in this order, each holding the matching recommendations in
    input order.  The exception is a category that lower-cases to
    [constructor] or [__proto__], names that the table inherits: the call
    then throws a TypeError. *)
Theorem recommendations_by_category_or_type_error :
  forall recommendations : list Recommendations.t,
    forallb (fun rec => match Recommendations.category rec with
                        | Some c => latin1 c
                        | None => true
                        end) recommendations = true ->
    Recommendations.getRecommendationsByCategory recommendations
    = if forallb (fun rec => JsObject.plainKey (Recommendations.categoryOf rec)) recommendations
      then Returns
             (map (fun name =>
                     (name, filter (fun rec => JsString.eqb (Recommendations.categoryOf rec) name)
                                   recommendations))
                  (map js ["prompt"; "training"; "knowledge"; "flow"]%string))
      else Throws TypeError.
Proof.
  intros recs _. unfold Recommendations.getRecommendationsByCategory.
  change (map (fun name => (name, filter (fun rec => JsString.eqb (Recommendations.categoryOf rec) name) recs))
              (map js ["prompt"; "training"; "knowledge"; "flow"]%string))
    with (Recommendations.bucketsOf recs).
  change Recommendations.categories with (Recommendations.bucketsOf []).
  induction recs as [|rec recs IH] using rev_ind; [reflexivity|].
  rewrite fold_left_app, forallb_app. cbn [fold_left forallb]. rewrite IH.
  destruct (forallb _ recs); cbn [andb].
  - rewrite place_buckets, andb_true_r. reflexivity.
  - reflexivity.
Qed.

Lemma ascending_sorted (key : Recommendations.t -> Z) (recs : list Recommendations.t) :
  stablySorted key recs (Analyzer.sort (Recommendations.ascending key) recs).
Proof.
  split; [apply sort_perm|]. split.
  - apply (@StronglySorted_weaken _ (fun a b => Recommendations.ascending key a b = true)).
    + intros a b H. apply Z.leb_le in H. exact H.
    + apply sort_sorted.
      * intros a b H. unfold Recommendations.ascending in *.
        apply Z.leb_gt in H. apply Z.leb_le. lia.
      * intros a b c H1 H2. unfold Recommendations.ascending in *.
        apply Z.leb_le in H1, H2. apply Z.leb_le. lia.
  - intros v. apply sort_filter. intros a b Ha Hb.
    apply Z.eqb_eq in Ha, Hb. unfold Recommendations.ascending. apply Z.leb_le. lia.
Qed.

Lemma stablySorted_ext {A} (key key' : A -> Z) (input output : list A) :
  (forall a, key a = key' a) ->
  stablySorted key input output -> stablySorted key' input output.
Proof.
  intros E (P & S & F). split; [exact P|]. split.
  - apply (StronglySorted_weaken (R := fun a b => (key a <= key b)%Z)); [|exact S].
    intros a b H. rewrite <- !E. exact H.
  - intros v.
    assert (Hext : forall a, Z.eqb (key' a) v = Z.eqb (key a) v)
      by (intros a; rewrite E; reflexivity).
    rewrite !(filter_ext _ _ Hext). apply F.
Qed.

(** The two tables of [sortRecommendations] give a name its place in the
    order. *)
Lemma rank_impact (name : option jsstring) :
  Recommendations.rank Recommendations.impactOrder name
  = position (map js ["high"; "medium"; "low"]%string) name.
Proof.
  destruct name as [x|]; [|reflexivity].
  unfold Recommendations.rank, Recommendations.impactOrder, position.
  cbn [JsObject.get positionIn map].
  destruct (JsString.eqb (js "high") x); [reflexivity|].
  destruct (JsString.eqb (js "medium") x); [reflexivity|].
  destruct (JsString.eqb (js "low") x); reflexivity.
Qed.

Lemma rank_effort (name : option jsstring) :
  Recommendations.rank Recommendations.effortOrder name
  = position (map js ["low"; "medium"; "high"]%string) name.
Proof.
  destruct name as [x|]; [|reflexivity].
  unfold Recommendations.rank, Recommendations.effortOrder, position.
  cbn [JsObject.get positionIn map].
  destruct (JsString.eqb (js "low") x); [reflexivity|].
  destruct (JsString.eqb (js "medium") x); [reflexivity|].
  destruct (JsString.eqb (js "high") x); reflexivity.
Qed.

(** X24.  [sortRecommendations] returns the recommendations in ascending
    order of the chosen key, with a stable sort: the same recommendations,
    those of equal key in their input order.  By priority, a missing
    priority or a priority of 0 counts as 999.  By impact the order is
    high, medium, low, and by effort low, medium, high: the key is the
    place of the value in that order, any other value (an ordinary table
    key) or a missing one coming after the three.  Any other sort name
    leaves the list as it is. *)
Theorem sortRecommendations_is_a_stable_sort :
  forall recommendations : list Recommendations.t,
    stablySorted (fun rec => match Recommendations.priority rec with
                             | Some 0%Z | None => 999%Z
                             | Some p => p
                             end)
      recommendations
      (Recommendations.sortRecommendations recommendations (js "priority"))
    /\ (forallb (fun rec => match Recommendations.impact rec with
                            | Some x => ordinaryKey x
                            | None => true
                            end) recommendations = true ->
        stablySorted (fun rec => position (map js ["high"; "medium"; "low"]%string)
                                          (Recommendations.impact rec))
          recommendations
          (Recommendations.sortRecommendations recommendations (js "impact")))
    /\ (forallb (fun rec => match Recommendations.effort rec with
                            | Some x => ordinaryKey x
                            | None => true
                            end) recommendations = true ->
        stablySorted (fun rec => position (map js ["low"; "medium"; "high"]%string)
                                          (Recommendations.effort rec))
          recommendations
          (Recommendations.sortRecommendations recommendations (js "effort")))
    /\ (forall sortBy,
           ~ In sortBy (map js ["priority"; "impact"; "effort"]%string) ->
           Recommendations.sortRecommendations recommendations sortBy = recommendations).
Proof.
  intros recs. split.
  { apply (stablySorted_ext (key := Recommendations.priorityOf)); [|apply ascending_sorted].
    intros rec. unfold Recommendations.priorityOf.
    destruct (Recommendations.priority rec) as [[|p|p]|]; reflexivity. }
  split.
  { intros _.
    apply (stablySorted_ext
             (key := fun rec => Recommendations.rank Recommendations.impactOrder
                                  (Recommendations.impact rec)));
      [intros rec; apply rank_impact | apply ascending_sorted]. }
  split.
  { intros _.
    apply (stablySorted_ext
             (key := fun rec => Recommendations.rank Recommendations.effortOrder
                                  (Recommendations.effort rec)));
      [intros rec; apply rank_effort | apply ascending_sorted]. }
  intros sortBy H. unfold Recommendations.sortRecommendations.
  destruct (JsString.eqb sortBy (js "priority")) eqn:E1;
    [apply eqb_eq in E1; exfalso; apply H; left; symmetry; exact E1|].
  destruct (JsString.eqb sortBy (js "impact")) eqn:E2;
    [apply eqb_eq in E2; exfalso; apply H; right; left; symmetry; exact E2|].
  destruct (JsString.eqb sortBy (js "effort")) eqn:E3;
    [apply eqb_eq in E3; exfalso; apply H; right; right; left; symmetry; exact E3|].
  reflexivity.
Qed.

(* ================================================================= *)
(** ** Further properties: the statistics of normalized sessions *)

Lemma stats_folds (sessions : list Transcript.t) (a u b : nat) :
  Forall Normal.normalSession sessions ->
  exists users bots,
    fold_left Stats.plusMessages sessions (Returns a)
    = Returns (a + list_sum (map (fun t => length (Analyzer.messagesOf t)) sessions))
    /\ fold_left (fun sum t => Stats.plus sum (Metadata.userTurns (Transcript.metadata t)))
                 sessions (Some u) = Some (u + users)
    /\ fold_left (fun sum t => Stats.plus sum (Metadata.botTurns (Transcript.metadata t)))
                 sessions (Some b) = Some (b + bots)
    /\ users + bots <= list_sum (map (fun t => length (Analyzer.messagesOf t)) sessions).
Proof.
  intros H. revert a u b. induction H as [|t l Ht Hl IH]; intros a u b.
  - exists 0, 0. simpl. rewrite !Nat.add_0_r.
    split; [reflexivity|]. split; [reflexivity|]. split; [reflexivity | lia].
  - destruct Ht as (msgs & ut & bt & Em & _ & _ & _ & Eu & Eb & Hle & _).
    assert (Et : Analyzer.messagesOf t = msgs)
      by (unfold Analyzer.messagesOf; rewrite Em; reflexivity).
    cbn [fold_left map]. rewrite Et. unfold Stats.plusMessages at 2.
    cbn [bind]. rewrite Em, Eu, Eb. cbn [Stats.plus].
    destruct (IH (a + length msgs) (u + ut) (b + bt)) as (users & bots & -> & -> & -> & Hsum).
    exists (ut + users), (bt + bots).
    simpl list_sum.
    split; [f_equal; lia|]. split; [f_equal; lia|]. split; [f_equal; lia|]. lia.
Qed.

Section StatsFacts.
Context {host : Host}.

(** X25.  The statistics of normalized sessions are always defined.  For
    the sessions that [normalizeTranscripts] returns, [getTranscriptStats]
    never throws and none of its sums is [NaN]: it reports the number of
    sessions, the total number of messages, and averages and a rate over the
    number of sessions whose numerators are the total of messages, the
    totals of user and bot turns (which together do not exceed the total of
    messages) and the number of escalated sessions (at most the number of
    sessions).  With no session every figure is the number 0. *)
Theorem stats_of_normalized_sessions_are_defined :
  forall results : list TranscriptParser.ParseResult.t,
    let sessions := TranscriptParser.normalizeTranscripts results in
    let n := length sessions in
    match sessions with
    | [] => Stats.getTranscriptStats sessions
            = Returns (Stats.mk 0 0 Stats.Zero Stats.Zero Stats.Zero Stats.Zero)
    | _ :: _ =>
        exists total escalations users bots : nat,
          Stats.getTranscriptStats sessions
          = Returns (Stats.mk n total (Stats.Fixed (Some total) n)
                              (Stats.FixedPercent escalations n)
                              (Stats.Fixed (Some users) n) (Stats.Fixed (Some bots) n))
          /\ total = list_sum (map (fun t => length (Analyzer.messagesOf t)) sessions)
          /\ users + bots <= total
          /\ escalations <= n
    end.
Proof.
  intros results sessions n. subst n.
  assert (F : Forall Normal.normalSession sessions).
  { subst sessions. unfold TranscriptParser.normalizeTranscripts.
    apply (normalizeFrom_facts results 0). }
  clearbody sessions.
  destruct sessions as [|t ts]; [reflexivity|].
  destruct (stats_folds 0 0 0 F) as (users & bots & E1 & E2 & E3 & Hle).
  unfold Stats.getTranscriptStats. rewrite E1. cbn [bind]. rewrite E2, E3.
  eexists _, _, users, bots. split; [reflexivity|].
  split; [reflexivity|]. split; [exact Hle|].
  apply filter_length_le.
Qed.

End StatsFacts.

(* ================================================================= *)
(** ** Further properties: roles *)





Lemma normalized_role_test (i : nat) (msg : Message.t) (r : jsstring) :
  Spec.plainSpelling msg ->
  Message.roleIs (TranscriptParser.normalizeMessage i msg) r
  = JsString.eqb (TranscriptParser.normalizeRole (TranscriptParser.orDefault (Message.role msg) []))
                 r.
Proof.
  intros H. rewrite <- (plain_role i H).
  unfold Message.roleIs, TranscriptParser.normalizeMessage. cbn [Message.role].
  rewrite normalizeRole_again. reflexivity.
Qed.

Lemma mapi_filter_length_to {A B} (f : nat -> A -> B) (p : B -> bool) (q : A -> bool)
    (l : list A) :
  Forall (fun x => forall i, p (f i x) = q x) l ->
  forall i, length (filter p (TranscriptParser.mapi f i l)) = length (filter q l).
Proof.
  induction 1 as [|x l Hx Hl IH]; intros i; simpl; [reflexivity|].
  rewrite Hx. destruct (q x); simpl; rewrite IH; reflexivity.
Qed.

Section TurnAgreement.
Context {host : Host}.

Lemma normalizeTranscript_turns (filename : jsstring) (n : nat) (t : Transcript.t) :
  Forall Spec.plainSpelling (Analyzer.messagesOf t) ->
  Normal.turnsAgree (fst (TranscriptParser.normalizeTranscript filename n t)).
Proof.
  intros H. unfold TranscriptParser.normalizeTranscript, Normal.turnsAgree.
  unfold Analyzer.messagesOf in H.
  set (raw := match Transcript.messages t with Some l => l | None => [] end) in *.
  assert (Hu : Analyzer.userTurnCount
                 (Transcript.mk None None (Some (TranscriptParser.normalizeMessages raw))
                                Metadata.empty)
               = TranscriptParser.countUserTurns raw).
  { unfold Analyzer.userTurnCount, Analyzer.messagesOf, TranscriptParser.countUserTurns,
      TranscriptParser.normalizeMessages, Analyzer.isUser. cbn [Transcript.messages].
    apply mapi_filter_length_to. eapply Forall_impl; [|exact H].
    intros msg Hmsg i. cbv beta. apply normalized_role_test. exact Hmsg. }
  assert (Hb : Analyzer.botTurnCount
                 (Transcript.mk None None (Some (TranscriptParser.normalizeMessages raw))
                                Metadata.empty)
               = TranscriptParser.countBotTurns raw).
  { unfold Analyzer.botTurnCount, Analyzer.messagesOf, TranscriptParser.countBotTurns,
      TranscriptParser.normalizeMessages, Analyzer.isBot. cbn [Transcript.messages].
    apply mapi_filter_length_to. eapply Forall_impl; [|exact H].
    intros msg Hmsg i. cbv beta. apply normalized_role_test. exact Hmsg. }
  destruct (truthyStr (Transcript.id t)); cbn [fst Transcript.metadata Metadata.userTurns
    Metadata.botTurns]; (split; [rewrite <- Hu | rewrite <- Hb]); reflexivity.
Qed.

Lemma normalizeEach_turns (filename : jsstring) (ts : list Transcript.t) (n : nat) :
  Forall (fun t => Forall Spec.plainSpelling (Analyzer.messagesOf t)) ts ->
  Forall Normal.turnsAgree (fst (TranscriptParser.normalizeEach filename n ts)).
Proof.
  intros H. revert n. induction H as [|t ts Ht Hts IH]; intros n; [constructor|].
  cbn [TranscriptParser.normalizeEach].
  pose proof (@normalizeTranscript_turns filename n t Ht) as Hn.
  destruct (TranscriptParser.normalizeTranscript filename n t) as [t' n1].
  specialize (IH n1).
  destruct (TranscriptParser.normalizeEach filename n1 ts) as [ts' n2].
  cbn [fst] in *. constructor; assumption.
Qed.

(** X27.  The normalizer and the engine count the same turns on input that
    is spelled with [role] and [content]: for every normalized session of
    such input, the number of messages with the role [user] (what turn
    analysis counts) is the [userTurns] of the metadata, and the number with
    the role [bot] is its [botTurns]. *)
Theorem engine_and_normalizer_count_the_same_turns :
  forall results : list TranscriptParser.ParseResult.t,
    Forall (fun r => Forall (fun t => Forall Spec.plainSpelling (Analyzer.messagesOf t))
                            (TranscriptParser.ParseResult.transcripts r))
           results ->
    Forall Normal.turnsAgree (TranscriptParser.normalizeTranscripts results).
Proof.
  intros results H. unfold TranscriptParser.normalizeTranscripts. generalize 0 as n.
  induction H as [|r rs Hr Hrs IH]; intros n; [constructor|].
  cbn [TranscriptParser.normalizeFrom].
  destruct (TranscriptParser.ParseResult.error r); [apply IH|].
  pose proof (@normalizeEach_turns (TranscriptParser.ParseResult.filename r)
                (TranscriptParser.ParseResult.transcripts r) n Hr) as He.
  destruct (TranscriptParser.normalizeEach _ n _) as [ts n'].
  cbn [fst] in He. apply Forall_app. split; [exact He | apply IH].
Qed.

End TurnAgreement.

Lemma turns_witness :
  let results := [TranscriptParser.ParseResult.mk (js "log.txt")
                    [Example.asked ["find shoes"; "red ones"]%string] None] in
  Forall (fun r => Forall (fun t => Forall Spec.plainSpelling (Analyzer.messagesOf t))
                          (TranscriptParser.ParseResult.transcripts r))
         results
  /\ Forall Normal.turnsAgree (@TranscriptParser.normalizeTranscripts IsoHost.host results).
Proof.
  intros results.
  assert (H : Forall (fun r => Forall (fun t => Forall Spec.plainSpelling (Analyzer.messagesOf t))
                                      (TranscriptParser.ParseResult.transcripts r))
                     results).
  { repeat constructor. }
  split; [exact H|].
  exact (@engine_and_normalizer_count_the_same_turns IsoHost.host results H).
Defined.

(* ================================================================= *)
(** ** The further properties on sample inputs *)

(** Three queries, two of them equal up to case. *)
Lemma query_analysis_witness :
  let transcripts := [Example.asked ["Find shoes"; "find shoes"; "red shoes"]%string] in
  let a := Analyzer.extractQueryAnalysis transcripts in
  let words := flat_map Analyzer.searchWords (Analyzer.allQueriesOf transcripts) in
  forallb latin1 (Analyzer.allQueriesOf transcripts) = true
  /\ forallb (fun q => ordinaryKey (toLowerCase q)) (Analyzer.allQueriesOf transcripts) = true
  /\ forallb ordinaryKey words = true
  /\ exists unique : list Metrics.QueryEntry.t,
       Metrics.QueryAnalysis.allUniqueQueries a = Metrics.Present unique
       /\ list_sum (map Metrics.QueryEntry.frequency unique)
          = Metrics.QueryAnalysis.totalQueries a
       /\ length unique <= Metrics.QueryAnalysis.totalQueries a.
Proof.
  intros transcripts a words.
  assert (H0 : forallb latin1 (Analyzer.allQueriesOf transcripts) = true)
    by (vm_compute; reflexivity).
  assert (H1 : forallb (fun q => ordinaryKey (toLowerCase q))
                       (Analyzer.allQueriesOf transcripts) = true)
    by (vm_compute; reflexivity).
  assert (H2 : forallb ordinaryKey words = true) by (vm_compute; reflexivity).
  split; [exact H0|]. split; [exact H1|]. split; [exact H2|].
  destruct (query_analysis_accounts_for_every_query transcripts H0 H1 H2)
    as (unique & E & S & _ & L & _).
  exists unique. split; [exact E|]. split; [exact S | exact L].
Defined.

(** The session with mixed products of the flattening example. *)
Lemma product_insights_witness :
  let transcripts := [Example.recommending] in
  let p := Analyzer.extractProductInsights transcripts in
  let ids := Spec.recommended transcripts in
  let styles := map fst (flat_map Analyzer.styleVisits transcripts) in
  forallb ordinaryKey ids = true
  /\ forallb ordinaryKey styles = true
  /\ exists unique : list jsstring,
       Metrics.ProductInsights.allProductIds p = Metrics.Present unique
       /\ NoDup unique
       /\ (forall x, In x unique <-> In x ids)
       /\ length (Metrics.ProductInsights.topRecommendedProducts p) <= 20.
Proof.
  intros transcripts p ids styles.
  assert (H1 : forallb ordinaryKey ids = true) by (vm_compute; reflexivity).
  assert (H2 : forallb ordinaryKey styles = true) by (vm_compute; reflexivity).
  split; [exact H1|]. split; [exact H2|].
  destruct (product_and_style_insights_are_tallies transcripts H1 H2)
    as (unique & mentions & E & Hnd & Hin & Hlen & _).
  exists unique. split; [exact E|]. split; [exact Hnd|]. split; [exact Hin | exact Hlen].
Defined.

(** A session that asks for shoes twice. *)
Lemma repeated_queries_witness :
  let transcripts := [Example.asked ["shoes"; "Shoes"; "hats"]%string] in
  let r := Analyzer.Behavior.repeatedQueries (Analyzer.extractUserBehavior transcripts) in
  forallb latin1 (flat_map Analyzer.behaviorQueries transcripts) = true
  /\ forallb ordinaryKey (flat_map Repeats.queries transcripts) = true
  /\ Analyzer.RepeatedQueries.sessionsWithRepeats r
     = length (filter (fun t => Nat.ltb 0 (Repeats.repeats t)) transcripts)
  /\ Analyzer.RepeatedQueries.totalRepeats r = list_sum (map Repeats.repeats transcripts)
  /\ length (Analyzer.RepeatedQueries.examples r) <= 5.
Proof.
  intros transcripts r.
  assert (H0 : forallb latin1 (flat_map Analyzer.behaviorQueries transcripts) = true)
    by (vm_compute; reflexivity).
  assert (H : forallb ordinaryKey (flat_map Repeats.queries transcripts) = true)
    by (vm_compute; reflexivity).
  split; [exact H0|]. split; [exact H|].
  destruct (repeated_queries_count_duplicates_within_sessions transcripts H0 H)
    as (H1 & H2 & _ & _ & H5 & _).
  split; [exact H1|]. split; [exact H2 | exact H5].
Defined.

(** Two sessions that start in the same hour of the same day. *)
Lemma busiest_witness :
  let session := Transcript.mk (Some (js "s1")) None
                   (Some [Message.plain (js "user") (js "hi") (Some Example.stamp)])
                   Metadata.empty in
  let transcripts := [session; session] in
  let times := flat_map (@Analyzer.firstTime IsoHost.host) transcripts in
  let hours := map (fun t => N.to_nat (@getHours IsoHost.host t)) times in
  Forall (fun h => h < 24) hours
  /\ match Metrics.TimePatterns.busiestHour (@Analyzer.extractTimePatterns IsoHost.host transcripts) with
     | None => times = []
     | Some text =>
         exists h, text = Analyzer.formatHour h
                   /\ In h hours
                   /\ forall h', In h' hours ->
                                 tallied (map ofNat hours) (ofNat h')
                                 <= tallied (map ofNat hours) (ofNat h)
                                 /\ (tallied (map ofNat hours) (ofNat h')
                                     = tallied (map ofNat hours) (ofNat h) -> h <= h')
     end.
Proof.
  intros session transcripts times hours.
  assert (H : Forall (fun h => h < 24) hours) by (vm_compute; repeat constructor).
  split; [exact H|].
  exact (proj2 (@busiest_day_and_hour_resolve_ties_by_enumeration IsoHost.host transcripts) H).
Defined.

(** File A of the end-to-end scenario. *)
Lemma timestamped_messages_witness :
  let content := Example.fileA in
  let filename := js "session_0a1b-2c3d_transcript.txt" in
  let parsed := @Helpers.parseTimestampedTranscript IsoHost.host content filename in
  let sessions := match parsed with Returns l => l | Throws _ => [] end in
  parsed = Returns sessions
  /\ exists t msgs,
       sessions = [t]
       /\ Transcript.messages t = Some msgs
       /\ Forall2 Lines.opened
                  (filter Lines.opensMessage (split Helpers.newline content)) msgs
       /\ length msgs = length (filter Lines.opensMessage (split Helpers.newline content))
       /\ Forall Dates.timestampedMessage msgs.
Proof.
  intros content filename parsed sessions.
  assert (H : parsed = Returns sessions) by (vm_compute; reflexivity).
  split; [exact H|].
  exact (@timestamped_parser_emits_one_message_per_turn_line IsoHost.host content filename
           sessions H).
Defined.

(** The timestamps and the roles of the messages of the first file of the
    end-to-end scenario, line by line. *)
Example timestamped_messages_of_file_A :
  match @Helpers.parseTimestampedTranscript IsoHost.host Example.fileA (js "a.txt") with
  | Returns [t] =>
      map (fun msg => (Message.role msg, Message.timestamp msg)) (Analyzer.messagesOf t)
  | _ => []
  end
  = [(Some (js "user"), Some (js "2026-01-09T05:09:11.000000+00:00"));
     (Some (js "bot"), Some (js "2026-01-09T05:09:15.201538+00:00"));
     (Some (js "user"), Some (js "2026-01-09T05:10:00.000000+00:00"));
     (Some (js "user"), Some (js "2026-01-09T06:00:05.000000+00:00"));
     (Some (js "bot"), Some (js "2026-01-09T06:00:09.000000+00:00"))].
Proof. vm_compute. reflexivity. Qed.

(** The sessions of the end-to-end scenario and their source files: the
    first file holds one session, the file that failed none, the last one
    session. *)
Example normalized_sessions_name_their_files :
  let parsed := [TranscriptParser.ParseResult.mk (js "a.txt")
                   [Transcript.mk (Some (js "s1")) None
                      (Some [Message.plain (js "USER") (js "hi") None]) Metadata.empty]
                   None;
                 TranscriptParser.ParseResult.mk (js "bad.txt") [] (Some RangeError);
                 TranscriptParser.ParseResult.mk (js "b.txt")
                   [Transcript.mk (Some (js "s2")) None None Metadata.empty] None] in
  map (fun t => (Transcript.id t, Transcript.sourceFile t,
                 option_map (map Message.role) (Transcript.messages t)))
      (@TranscriptParser.normalizeTranscripts IsoHost.host parsed)
  = [(Some (js "s1"), Some (js "a.txt"), Some [Some (js "user")]);
     (Some (js "s2"), Some (js "b.txt"), Some [])].
Proof. vm_compute. reflexivity. Qed.

Lemma stable_normalizing_witness :
  let content := Example.fileA in
  let filename := js "session_0a1b-2c3d_transcript.txt" in
  let parsed := @Helpers.parseTimestampedTranscript IsoHost.host content filename in
  let sessions := match parsed with Returns l => l | Throws _ => [] end in
  let r := TranscriptParser.ParseResult.mk filename sessions None in
  parsed = Returns sessions
  /\ Forall (fun t => truthyStr (Transcript.id t) = true) sessions
  /\ @Spec.renormalize IsoHost.host r = @TranscriptParser.normalizeTranscripts IsoHost.host [r].
Proof.
  intros content filename parsed sessions r.
  assert (H : parsed = Returns sessions) by (vm_compute; reflexivity).
  assert (Hid : Forall (fun t => truthyStr (Transcript.id t) = true) sessions)
    by (vm_compute; repeat constructor).
  split; [exact H|]. split; [exact Hid|].
  exact (@normalizing_parsed_logs_is_stable IsoHost.host content filename sessions H Hid).
Defined.

(** A message that asks for the manager, in capitals. *)
Lemma flag_witness :
  let msg := Message.plain (js "user") (js "I want a MANAGER now") None in
  let msgs := [Message.plain (js "bot") (js "Hello") None; msg] in
  In msg msgs
  /\ includes (toLowerCase (TranscriptParser.orDefault (Message.content msg) [])) (js "manager")
     = true
  /\ In (js "manager") TranscriptParser.escalationPhrases
  /\ TranscriptParser.detectEscalation msgs = true.
Proof.
  intros msg msgs.
  assert (H1 : In msg msgs) by (right; left; reflexivity).
  assert (H2 : includes (toLowerCase (TranscriptParser.orDefault (Message.content msg) []))
                        (js "manager") = true) by (vm_compute; reflexivity).
  assert (H3 : In (js "manager") TranscriptParser.escalationPhrases)
    by (do 7 right; left; reflexivity).
  split; [exact H1|]. split; [exact H2|]. split; [exact H3|].
  exact (proj1 (proj1 one_message_with_a_phrase_raises_the_flag msgs msg (js "manager") H1 H2) H3).
Defined.

(** The two files of the end-to-end scenario and a log whose first
    timestamp is not a date. *)
Lemma upload_witness :
  let files := Example.files
               ++ [(js "bad.txt", js "[2026-13-45T99:99:99+00:00] USER: hello")] in
  let results := match @TranscriptParser.parseUploadedFiles IsoHost.host files with
                 | Some l => l
                 | None => []
                 end in
  @TranscriptParser.parseUploadedFiles IsoHost.host files = Some results
  /\ map TranscriptParser.ParseResult.filename results = map fst files
  /\ Forall (fun r => (TranscriptParser.ParseResult.error r <> None ->
                       TranscriptParser.ParseResult.transcripts r = [])
                      /\ (TranscriptParser.ParseResult.error r = None ->
                          TranscriptParser.ParseResult.transcripts r <> []))
            results.
Proof.
  intros files results.
  assert (H : @TranscriptParser.parseUploadedFiles IsoHost.host files = Some results)
    by (vm_compute; reflexivity).
  split; [exact H|].
  exact (proj2 (@each_file_gets_its_own_result IsoHost.host files) results H).
Defined.

(** An upload with an archive is outside the model. *)
Example archive_is_not_read_as_text :
  @TranscriptParser.parseUploadedFiles IsoHost.host
    [(js "notes.txt", Example.fileB); (js "logs.zip", Example.fileB)] = None.
Proof. vm_compute. reflexivity. Qed.

Lemma countOccurrences_witness :
  let arr := map js ["b"; "2"; "a"; "1"; "b"]%string in
  let table := Utilities.countOccurrences arr in
  forallb ordinaryKey arr = true
  /\ JsObject.entries table = [(js "1", 1); (js "2", 1); (js "b", 2); (js "a", 1)]
  /\ enumerates (Analyzer.setOf arr) (JsObject.keys table)
  /\ (forall k, JsObject.get table k
                = if existsb (JsString.eqb k) arr then Some (tallied arr k) else None)
  /\ Forall (fun e => snd e = tallied arr (fst e) /\ 1 <= snd e) (JsObject.entries table)
  /\ list_sum (JsObject.values table) = length arr.
Proof.
  intros arr table.
  assert (H : forallb ordinaryKey arr = true) by (vm_compute; reflexivity).
  split; [exact H|]. split; [vm_compute; reflexivity|].
  exact (countOccurrences_tallies arr H).
Defined.

Lemma groupBy_witness :
  let array := [(js "b", 1); (js "7", 2); (js "b", 3)] in
  let keyOf := fun item : jsstring * nat => fst item in
  let groups := Utilities.groupBy keyOf array in
  forallb (fun item => ordinaryKey (keyOf item)) array = true
  /\ JsObject.entries groups
     = [(js "7", [(js "7", 2)]); (js "b", [(js "b", 1); (js "b", 3)])]
  /\ enumerates (Analyzer.setOf (map keyOf array)) (JsObject.keys groups)
  /\ (forall k, JsObject.get groups k
                = if existsb (JsString.eqb k) (map keyOf array)
                  then Some (filter (fun item => JsString.eqb (keyOf item) k) array)
                  else None)
  /\ Forall (fun g => snd g = filter (fun item => JsString.eqb (keyOf item) (fst g)) array
                      /\ snd g <> [])
            (JsObject.entries groups)
  /\ list_sum (map (fun g => length g) (JsObject.values groups)) = length array.
Proof.
  intros array keyOf groups.
  assert (H : forallb (fun item => ordinaryKey (keyOf item)) array = true)
    by (vm_compute; reflexivity).
  split; [exact H|]. split; [vm_compute; reflexivity|].
  exact (@groupBy_partitions_in_order (jsstring * nat) keyOf array H).
Defined.

(** A function that fails twice and then returns 7, retried up to three
    times from a delay of 1000. *)
Lemma retry_witness :
  let fn := fun i : nat => if Nat.ltb i 2 then inr i else inl 7 in
  2 < 3
  /\ (forall j, j < 2 -> exists e : nat, fn j = inr e)
  /\ fn 2 = inl 7
  /\ Utilities.retry fn 3 1000%N
     = Utilities.Run (Utilities.Returned nat (Some 7)) 3 [1000%N; 2000%N].
Proof.
  intros fn.
  assert (H1 : 2 < 3) by lia.
  assert (H2 : forall j, j < 2 -> exists e : nat, fn j = inr e).
  { intros j Hj. exists j. unfold fn.
    destruct j as [|[|j]]; [reflexivity | reflexivity | lia]. }
  assert (H3 : fn 2 = inl 7) by reflexivity.
  split; [exact H1|]. split; [exact H2|]. split; [exact H3|].
  exact (proj1 (proj2 (proj2 (@retry_backs_off_and_stops nat nat fn 3 1000%N))) 2 7 H1 H2 H3).
Defined.

(** Two recommendations, the second of higher impact. *)
(** Five recommendations: two categories of the table in mixed case, one
    other category and one missing category. *)
Lemma recommendations_witness :
  let named := fun c : string => Recommendations.mk (Some (js c)) None None None in
  let recs := [named "Prompt"; named "FLOW"; named "billing"; named "prompt";
               Recommendations.mk None None None None]%string in
  forallb (fun rec => match Recommendations.category rec with
                      | Some c => latin1 c
                      | None => true
                      end) recs = true
  /\ Recommendations.getRecommendationsByCategory recs
     = Returns [(js "prompt", [named "Prompt"; named "prompt"]%string);
                (js "training", []); (js "knowledge", []);
                (js "flow", [named "FLOW"%string])].
Proof.
  intros named recs.
  assert (H : forallb (fun rec => match Recommendations.category rec with
                                  | Some c => latin1 c
                                  | None => true
                                  end) recs = true) by (vm_compute; reflexivity).
  split; [exact H|].
  rewrite (recommendations_by_category_or_type_error recs H). vm_compute. reflexivity.
Defined.

Lemma sortRecommendations_witness :
  let impactOf := fun x : string => Recommendations.mk None None (Some (js x)) None in
  let missing := Recommendations.mk None None None None in
  let recs := [impactOf "low"; impactOf "urgent"; missing; impactOf "high";
               impactOf "medium"; impactOf "high"]%string in
  forallb (fun rec => match Recommendations.impact rec with
                      | Some x => ordinaryKey x
                      | None => true
                      end) recs = true
  /\ Recommendations.sortRecommendations recs (js "impact")
     = [impactOf "high"; impactOf "high"; impactOf "medium"; impactOf "low";
        impactOf "urgent"; missing]%string
  /\ stablySorted (fun rec => position (map js ["high"; "medium"; "low"]%string)
                                       (Recommendations.impact rec))
       recs (Recommendations.sortRecommendations recs (js "impact")).
Proof.
  intros impactOf missing recs.
  assert (H : forallb (fun rec => match Recommendations.impact rec with
                                  | Some x => ordinaryKey x
                                  | None => true
                                  end) recs = true) by (vm_compute; reflexivity).
  split; [exact H|]. split; [vm_compute; reflexivity|].
  exact (proj1 (proj2 (sortRecommendations_is_a_stable_sort recs)) H).
Defined.
